(* ===== verification/_CoqProject ===== *)
-Q . S2P
Prelude.v
Level.v
Catalog.v
Selector.v
Regex.v
Database.v
Store.v
Complete.v
Initialize.v
Progression.v
Concurrency.v
Config.v
Assign.v
Username.v
Register.v
Uniqueness.v
Auth.v
Client.v
Components.v
Profile.v
QuestPanel.v
Race.v
Dashboard.v
Setup.v
SignIn.v
System.v
Interleaving.v
