(* ===== verification/Prelude.v ===== *)
(** * Health Leveling: a verification development

    The repository holds two versions of a gamified habit tracker
    written with Next.js and MongoDB: [src/solo-leveling] (the quest
    routes, the level curve, the dashboard and quest pages) and
    [src/health-leveling] (the user model and helpers, registration,
    the username route and page, the profile page and the quest card,
    stat container, navigation and sign-in button components).  Users sign in (NextAuth: Google or
    e-mail and password), get two random quests of each of four
    rotating categories per day, complete a fixed daily set of four
    strength quests and individual quests, and gain experience, a
    level, five stats and a streak of days.  Every route reads the
    session user id, loads one document of the [users] collection,
    decides, and writes it back with one [updateOne].

    ** Files, in dependency order
    - [Prelude] (this file): JavaScript helpers ([x || d] as
      [js_or_nat] with its notation in [hl_scope], [includes],
      [every], [toUpperCase]/[toLowerCase] on ASCII), the JSON answers
      [Response] of the routes, calendar
      days of [Date] ([JsDate]: [toDateString] is the day number of a
      millisecond time, [yesterday] one day earlier), the hint databases
      [hl] and [hl_rw] and the tactic [hl_case_bool].
    - [Level]: [calculateLevel] of [lib/levelUtils.ts], the [while]
      loop by well-founded recursion (Equations, measure
      [totalXP + 1 - xpThreshold]), its closed form and monotonicity,
      and the same loop run with fuel ([calculateLevel_while]) for its
      termination bound.
    - [Catalog]: the quest catalog of [models/QuestTemplate.ts], which
      is not in the sources: a class [QuestCatalog] of the five lists,
      the laws the routes rely on ([CatalogLaws]: four daily quests
      with distinct names, each rotating quest in its category, unique
      identifiers), a sample instance, and [getQuestTemplateById].
    - [Selector]: [getRandomQuests], the Fisher-Yates shuffle with
      [Math.random] as an explicit stream of 53-bit draws.
    - [Regex]: the backtracking [RegExp.test] for anchored expressions
      of classes and [+], proved to decide their language; the e-mail
      and username checks are such expressions.
    - [Database]: [lib/database.ts], module loading as a step on the
      process state: development reuses one cached client across
      reloads, production connects on every load.
    - [Store]: the user document ([User.t], every field an [option]),
      the collection as a [gmap] from [_id], the driver calls
      [findOne], [updateOne] (with [modifiedCount]) and [insertOne], and
      [userHelpers.ts] with [DEFAULT_USER_STATS], and the
      [UserGamingStats] interface ([GamingStats.of_user]).
    - [Complete]: [POST /api/quests/complete], the progression engine
      (daily set, streak, individual quests, rewards, level).
    - [Initialize]: [POST /api/user/initialize], the defaults and the
      daily reset.
    - [Progression]: the specification's progression-engine contract
      as executable definitions ([ProgressionSpec]: [Progression],
      [normalize], [completeDaily], [completeIndividual], the error
      classes) and the refinement of it by the completion and
      initialization routes ([Refinement]: the abstraction [abs] of a
      stored document, [error_of] of an error answer).
    - [Concurrency]: the completion route split at its two awaits on
      the collection ([prepare] up to [updateOne], [commit] the
      write), proved equal to the route, and two requests run
      overlapped or one after the other: overlapped, the collection
      ends as the second request alone leaves it.
    - [Config]: [next.config.js] of health-leveling: strict mode as the
      number of runs of a page effect, and the build switches.
    - [Assign]: [POST /api/quests/assign], today's assignment, reused
      by date or drawn and stored as identifiers.
    - [Username]: [POST /api/user/username] and the setup page's check.
    - [Register]: [POST /api/auth/register], with bcrypt as a class
      [Bcrypt] and its laws.
    - [Auth]: [authorize], [redirect], [jwt] and [session] of
      [lib/auth.ts], and both [authOptions] objects as records
      ([health_authOptions], [solo_authOptions]).
    - [Client]: the decisions of the dashboard, the quest panel's
      guard and the sign-in form on the routes' answers, and the
      requests they send.
    - [Profile]: the profile page of health-leveling: its effects and
      what it renders (level panel with the XP bar as a rational, user
      information, stats, or the [TypeError] of a document without
      stats).
    - [QuestPanel]: [QuestCard], [QuestStatContainer] and the quest
      page as an event-driven state machine ([Page], [Event], [step]):
      fetch answers, clicks routed through the rendered cards,
      completion answers and 300 ms timers arrive in any order, with
      the in-flight requests and pending timers explicit and React's
      unmounting of containers applied after each event; [render]
      gives the tabs, containers and cards shown.
    - [Race]: the quest panel's completion requests sent to the
      route of [Concurrency]: the modal stays enabled while a request
      is in flight, so two completions can be in flight and overlap.
    - [Components]: [Navigation] and [AuthButton], with class names as
      the browser's class list.
    - [Dashboard]: [app/dashboard/page.tsx] as a state machine: the
      initialization answer, checkbox clicks, the answers of the
      daily-set requests in flight and the success screen's close
      button, with [render] (session check, stats loading, rows).
    - [Setup]: [app/username-setup/page.tsx] as a state machine
      (typing under the input's [maxLength], submitting, the answer),
      and the page together with the username route over the
      collection ([Sys], [sys_step]).
    - [SignIn]: [app/page.tsx] of solo-leveling as a state machine
      around [Client]'s form decisions: typing, submitting under the
      [required] inputs and the disabled button, the registration and
      sign-in answers, the mode toggle, and [render].
    - [System]: the routes as one transition system on the collection:
      a [Request] names a route and its inputs, [handle] runs it,
      [reachable] and [steps] are the collections sequences of requests
      produce; a first Google sign-in inserts the adapter's document.
    - [Uniqueness]: the username and registration routes split at
      their awaits (the uniqueness query, then the write), and two
      requests of each run with both queries before both writes.
    - [Interleaving]: the same system with the completion route split
      at its awaits: any number of completions in flight, their writes
      landing in any order between requests of any route.
    Each route is a function of the session user id, the parsed body,
    the request time, injected sources (random draws, the generated
    [_id], bcrypt) and the collection, returning the answer and the
    new collection; every early return of the code is a branch that
    returns the collection unchanged.

    ** What is proved
    - System: in every reachable collection the stored level is the
      level of the stored experience, documents without a level have
      no experience or stats, usernames and e-mails are unique; no
      sequence of requests, in any order, removes a document or lowers
      its experience or stats.  With completions interleaved
      ([Interleaving]) the invariant still holds, but experience can
      decrease (the last write wins).
    - Completion: a second daily set on the same day is refused (and a
      valid daily set is refused exactly on the day of the last
      completion of any kind); the streak grows by one on the next day
      and restarts after a gap;
      every error leaves the collection unchanged; experience and
      stats never decrease; the stored level is the level of the stored
      experience.
    - Refinement of the contract: on documents where a completion
      dated today is the daily set's, the daily-set completion is the
      contract's [completeDaily] (same error class, or the specified
      experience, stats, streak and date, written and answered); on
      documents whose per-day tracking is current, an individual
      completion of a rotating quest is [completeIndividual]; the
      initialization answer is [normalize] of the stored document.
      The hypotheses are where the code departs from the contract
      (the findings below).
    - Level: the loop's result is the closed form (level at least 1,
      the next threshold [100 + 200 (level - 1)] above the experience),
      monotone in the experience.
    - Initialization: defaults for a new document, the reset on a new
      day, nothing on the same day, idempotence; the answer is a
      [UserGamingStats] for every account that had no stats or was one.
    - Assignment and selection: same-day stability whatever the random
      source, the stored draw, eight distinct quests two per category;
      [getRandomQuests] returns [min(count, n)] distinct elements; the
      choice for index [i] is [j] exactly on an interval of
      [floor(2^53 / (i + 1))] or one more of the [2^53] draws, for
      every [j <= i], and the Fisher-Yates loop is a bijection from
      in-range choice vectors to the orders of a duplicate-free array,
      so independent uniform draws give an almost uniform order.
    - Username, registration, sign-in: accepted names are valid and unique; the e-mail check's
      language; unique e-mails; register-then-sign-in round trip; the
      session id is the checked document's [_id]; [redirect] stays on
      [baseUrl].
    - System, further: every stored assignment is a list of catalog
      identifiers (not the objects the declared type names); from any
      reachable collection a user can always complete the daily set
      again: at once, or at the start of the next calendar day when the
      last completion is on the same day.
    - Client and pages: in every reachable dashboard state every
      request it sends is a daily set that passes the route's
      validation; in every reachable state of the username setup page
      a name it sends passes the route's validation and only one
      request is pending at a time, and when the page reaches the
      dashboard after the route served it, the document holds the
      typed name; completing a quest from the quest panel
      moves it from the to-do cards to the completed tab; in every
      reachable page state a sliding-out quest awaits its answer or
      timer, so animations always settle; the profile's XP bar stays
      in [[0, 100)] and "XP to next level" in [[1, 200]].
    - Findings, each proved: unknown individual quests are accepted;
      an individual completion blocks the day's daily set; a user's own
      username is refused as taken; registered accounts never get the
      gaming defaults; [redirect] accepts another host that extends
      [baseUrl]; the quest page's redirect on a daily-set error is
      unreachable; the completion route checks [questsCompletedToday]
      without the daily reset the spec requires first; the quest
      panel's 300 ms timer closes a modal opened meanwhile for another
      quest; the profile page of a registered account throws on its
      missing stats; the XP bar shows cumulative, not per-level,
      progress; a failed dashboard initialization leaves "Loading your
      stats..." forever (the [loading] flag is never read); two
      overlapping completions by one user both succeed but the second
      write discards the first's experience and day entry, and the
      quest panel can send two such completions, after which it shows
      the first quest as not done again; two overlapping username
      requests can store usernames equal up to case, and two
      overlapping registrations two accounts with one e-mail (no
      unique index backs either check); the setup
      page's "10 characters or less" error can never be shown; the
      sign-in page applies an answer to whatever form the user toggled
      to meanwhile.

    ** Bounds and fuel
    The level loop is well founded (its threshold grows by 200 towards
    [totalXP + 1]); its fuelled twin [calculateLevel_while] needs
    [iterations x 100 + 1] rounds, at most [x / 200 + 2], which the
    termination theorem proves enough and necessary.  The shuffle
    recurs on the index, the matcher on the expression and the input,
    and the quest panel's drain of pending work ([settle]) on the
    lists of pending answers and timers.
    Numbers are [nat] (the routes only add non-negative rewards; no
    value approaches 2^53, where JavaScript numbers stop being exact);
    times are [Z] milliseconds in local time, so a calendar day is a
    division by 86400000; random draws are integers below 2^53, which
    is what [Math.random] returns scaled.

    ** Not modelled
    The MongoDB driver beyond the calls above and the network, NextAuth itself (the Google
    OAuth exchange, the adapter, token encryption, and what the handler
    [NextAuth(authOptions)] does with a request: the route files are
    modelled only as exporting that one handler as [GET] and [POST]),
    bcrypt beyond its laws, styling and
    markup beyond the values the pages show, and
    a transition system with every route split at its awaits: the
    completion route is split in [Concurrency] and [Interleaving], the
    username and registration routes in [Uniqueness] (two requests at a
    time), and the initialization and assignment routes only run
    atomically.  Their windows are of the same kind (a check on a read
    followed by a [$set] of the same user's document), and splitting
    them would reuse the same construction. *)

From stdpp Require Export base list strings gmap.
From Stdlib Require Export ZArith Lia.

(** ** JavaScript value helpers

    The routes read MongoDB documents whose numeric fields may be
    absent (JavaScript [undefined]) and combine them with defaults
    through the [||] operator, which also replaces a present [0]
    (a falsy number).  [js_or_nat x d] is [x || d] on such a field. *)

Declare Scope hl_scope.
Delimit Scope hl_scope with hl.

Definition js_or_nat (x : option nat) (d : nat) : nat :=
  match x with
  | Some (S n) => S n
  | _ => d
  end.

Notation "x '||' d" := (js_or_nat x d) (at level 50, left associativity) : hl_scope.

(** [l || []] on an optional string array. *)
Definition js_or_list (x : option (list string)) : list string :=
  match x with Some l => l | None => [] end.

(** [Array.prototype.includes] on a string array: SameValueZero on
    strings is string equality. *)
Definition js_includes (l : list string) (s : string) : bool :=
  existsb (String.eqb s) l.

(** [Array.prototype.every]. *)
Definition js_every {A} (p : A -> bool) (l : list A) : bool := forallb p l.

(** [String.prototype.toUpperCase] and [toLowerCase] on the ASCII
    letters, the only ones the pages convert (stat names). *)
Definition ascii_shift (lo hi : nat) (d : Z) (c : Ascii.ascii) : Ascii.ascii :=
  let n := Ascii.nat_of_ascii c in
  if (lo <=? n) && (n <=? hi) then Ascii.ascii_of_nat (Z.to_nat (Z.of_nat n + d)) else c.

Definition js_toUpperCase (s : string) : string :=
  String.string_of_list_ascii (map (ascii_shift 97 122 (-32)) (String.list_ascii_of_string s)).

Definition js_toLowerCase (s : string) : string :=
  String.string_of_list_ascii (map (ascii_shift 65 90 32) (String.list_ascii_of_string s)).

(** ** HTTP responses ([NextResponse.json(body, {status})])

    A route answers with a status code and a JSON body that is either
    a success payload or [{error: msg}].  The body of an error does not
    determine the status: one route answers an error with status 200. *)

Inductive JsonBody (A : Type) :=
| JSuccess (a : A)
| JError (msg : string).
Arguments JSuccess {A} a.
Arguments JError {A} msg.

Record Response (A : Type) := mkResponse { status : nat; json : JsonBody A }.
Arguments mkResponse {A} status json.
Arguments status {A} r.
Arguments json {A} r.

Definition respond_ok {A} (a : A) : Response A := mkResponse 200 (JSuccess a).
Definition respond_err {A} (st : nat) (msg : string) : Response A :=
  mkResponse st (JError msg).

Definition is_error {A} (r : Response A) : bool :=
  match json r with JError _ => true | JSuccess _ => false end.

(** ** Automation *)

Create HintDb hl discriminated.

Lemma js_includes_spec (l : list string) (s : string) :
  js_includes l s = true <-> s ∈ l.
Proof.
  unfold js_includes. rewrite existsb_exists. split.
  - intros (x & Hx & Heq). apply String.eqb_eq in Heq. subst.
    by apply list_elem_of_In.
  - intros Hin. exists s. split; [by apply list_elem_of_In | apply String.eqb_refl].
Qed.

Lemma js_includes_false (l : list string) (s : string) :
  js_includes l s = false <-> s ∉ l.
Proof.
  rewrite <- js_includes_spec. destruct (js_includes l s); intuition congruence.
Qed.

Lemma js_includes_app (l1 l2 : list string) (s : string) :
  js_includes (l1 ++ l2) s = js_includes l1 s || js_includes l2 s.
Proof. unfold js_includes. apply existsb_app. Qed.

Lemma js_includes_self (l : list string) (s : string) :
  js_includes (l ++ [s]) s = true.
Proof. apply js_includes_spec. set_solver. Qed.

Lemma js_or_nat_Some_ge (n d : nat) : n <= js_or_nat (Some n) d.
Proof. destruct n; simpl; lia. Qed.

Lemma js_or_nat_Some_0 (n : nat) : js_or_nat (Some n) 0 = n.
Proof. by destruct n. Qed.

#[export] Hint Resolve js_includes_self : hl.
Create Rewrite HintDb hl_rw.
#[export] Hint Rewrite js_includes_app js_or_nat_Some_0 : hl_rw.

(** Case analysis on the boolean tests of the code, turning each into
    the proposition it decides. *)
Ltac hl_case_bool :=
  repeat match goal with
  | |- context [Nat.leb ?a ?b] => destruct (Nat.leb_spec a b)
  | |- context [Nat.ltb ?a ?b] => destruct (Nat.ltb_spec a b)
  | |- context [Nat.eqb ?a ?b] => destruct (Nat.eqb_spec a b)
  | |- context [Z.eqb ?a ?b] => destruct (Z.eqb_spec a b)
  | |- context [Z.leb ?a ?b] => destruct (Z.leb_spec a b)
  | |- context [Z.ltb ?a ?b] => destruct (Z.ltb_spec a b)
  end.

(** ** Calendar dates ([new Date()], [toDateString()])

    A JavaScript [Date] is a count of milliseconds; the routes compare
    dates only through [toDateString()], which names the calendar day
    in local time.  We represent a [Date] by its local-time millisecond
    count (a [Z], so that dates before the epoch and "yesterday" of day
    0 exist) and [toDateString] by the index of its day: two date
    strings are equal exactly when the day indices are. *)

Module JsDate.
Local Open Scope Z_scope.
Definition t := Z.
Definition MS_PER_DAY : Z := 86400000.

(** [d.toDateString()], up to the injective day-to-string naming. *)
Definition toDateString (d : t) : Z := d / MS_PER_DAY.

(** [const y = new Date(d); y.setDate(y.getDate() - 1)]: the same
    local time on the previous calendar day. *)
Definition yesterday (d : t) : t := d - MS_PER_DAY.

Lemma toDateString_yesterday (d : t) :
  toDateString (yesterday d) = toDateString d - 1.
Proof.
  unfold toDateString, yesterday, MS_PER_DAY.
  replace (d - 86400000)%Z with (d + (-1) * 86400000)%Z by lia.
  rewrite Z.div_add by lia. lia.
Qed.

(** A time a full day later falls on a later calendar day. *)
(** The first instant of the calendar day after [d]'s is later than
    [d] and on the next calendar day. *)
Lemma next_day_start (d : t) :
  toDateString ((toDateString d + 1) * MS_PER_DAY) = toDateString d + 1 /\
  d <= (toDateString d + 1) * MS_PER_DAY.
Proof.
  unfold toDateString, MS_PER_DAY. split; [by rewrite Z.div_mul|].
  pose proof (Z.div_mod d 86400000 ltac:(lia)). pose proof (Z.mod_pos_bound d 86400000 ltac:(lia)). lia.
Qed.

Lemma toDateString_later (d d' : t) : d + MS_PER_DAY <= d' -> toDateString d < toDateString d'.
Proof.
  unfold toDateString, MS_PER_DAY. intros H.
  pose proof (Z.div_le_mono (d + 1 * 86400000) d' 86400000 ltac:(lia) ltac:(lia)) as Hm.
  rewrite Z.div_add in Hm by lia. lia.
Qed.

End JsDate.

#[export] Hint Rewrite JsDate.toDateString_yesterday : hl_rw.
