(* ===== verification/Level.v ===== *)
(** * Level: the leveling curve

    Models [calculateLevel] of [src/solo-leveling/src/lib/levelUtils.ts]
    (the same loop is repeated as a local function in
    [src/solo-leveling/src/app/api/quests/complete/route.ts]): level 1
    starts at threshold 100 and every threshold crossed adds a level
    and 200 to the threshold.  The [while] loop is an Equations
    definition by well-founded recursion on the distance from the
    threshold to [totalXP], so it is total by construction;
    [calculateLevel_while] runs the same loop one test per unit of
    fuel, and the termination theorem bounds the fuel it needs. *)

From Equations Require Import Equations.
From Stdlib Require Import Compare_dec.
From S2P Require Import Prelude.

Module Level.

(** The object [{level, currentXP, xpRequired}] returned by the code. *)
Record LevelInfo := mkLevelInfo {
  level : nat;
  currentXP : nat;
  xpRequired : nat
}.

(** [while (totalXP >= xpThreshold) { level++; xpThreshold += 200; }]
    with its loop variables [(level, xpThreshold)]. *)
Equations? calculateLevel_loop (totalXP level xpThreshold : nat) : nat * nat
  by wf (S totalXP - xpThreshold) lt :=
  calculateLevel_loop totalXP level xpThreshold
    with le_lt_dec xpThreshold totalXP => {
    | left _ := calculateLevel_loop totalXP (S level) (xpThreshold + 200);
    | right _ := (level, xpThreshold) }.
Proof. lia. Qed.

Definition calculateLevel (totalXP : nat) : LevelInfo :=
  let '(lvl, thr) := calculateLevel_loop totalXP 1 100 in
  {| level := lvl; currentXP := totalXP; xpRequired := thr |}.

(** The [while] loop as the code runs it, one test of the condition
    per unit of [fuel]; [None] when the fuel runs out first. *)
Fixpoint calculateLevel_while (fuel totalXP level xpThreshold : nat) : option (nat * nat) :=
  match fuel with
  | 0 => None
  | S fuel' =>
      if xpThreshold <=? totalXP
      then calculateLevel_while fuel' totalXP (S level) (xpThreshold + 200)
      else Some (level, xpThreshold)
  end.

(** The number of iterations the loop makes from threshold [thr]. *)
Definition iterations (totalXP thr : nat) : nat :=
  if totalXP <? thr then 0 else (totalXP - thr) / 200 + 1.

(** The closed form of the curve, the reference the loop implements. *)
Definition level_of (totalXP : nat) : nat := 1 + iterations totalXP 100.
Definition threshold_of (level : nat) : nat := 100 + 200 * (level - 1).


(** ** Examples of the spec, evaluated *)

Example calculateLevel_0 : calculateLevel 0 = mkLevelInfo 1 0 100.
Proof. reflexivity. Qed.
Example calculateLevel_100 : calculateLevel 100 = mkLevelInfo 2 100 300.
Proof. reflexivity. Qed.
Example calculateLevel_299 : level (calculateLevel 299) = 2.
Proof. reflexivity. Qed.
Example calculateLevel_300 : calculateLevel 300 = mkLevelInfo 3 300 500.
Proof. reflexivity. Qed.

(** ** The loop against the closed form *)

Lemma iterations_step (x thr : nat) :
  thr <= x -> iterations x thr = S (iterations x (thr + 200)).
Proof.
  intros H. unfold iterations.
  destruct (Nat.ltb_spec x thr); [lia |].
  destruct (Nat.ltb_spec x (thr + 200)).
  - assert ((x - thr) / 200 = 0) as -> by (apply Nat.div_small; lia). lia.
  - replace (x - thr) with (1 * 200 + (x - (thr + 200))) by lia.
    rewrite Nat.div_add_l by lia. lia.
Qed.

Lemma iterations_stop (x thr : nat) : x < thr -> iterations x thr = 0.
Proof. intros H. unfold iterations. hl_case_bool; lia. Qed.

(** The loop makes [iterations] rounds, each adding one level and 200
    to the threshold. *)
Lemma calculateLevel_loop_iterations (x lvl thr : nat) :
  calculateLevel_loop x lvl thr =
    (lvl + iterations x thr, thr + 200 * iterations x thr).
Proof.
  funelim (calculateLevel_loop x lvl thr).
  - match goal with IH : calculateLevel_loop _ _ _ = (_, _) |- _ => rewrite IH end.
    rewrite (iterations_step _ _ l). f_equal; lia.
  - rewrite iterations_stop by lia. f_equal; lia.
Qed.

(** With fuel, the loop returns iff the fuel exceeds the iterations. *)
Lemma calculateLevel_while_iterations (fuel x lvl thr : nat) :
  calculateLevel_while fuel x lvl thr =
    if iterations x thr <? fuel then Some (calculateLevel_loop x lvl thr) else None.
Proof.
  revert lvl thr. induction fuel as [|f IH]; intros lvl thr; [by rewrite (proj2 (Nat.ltb_ge _ 0)) by lia|].
  cbn [calculateLevel_while]. rewrite IH, !calculateLevel_loop_iterations.
  destruct (Nat.leb_spec thr x) as [Hle|Hgt].
  - rewrite (iterations_step _ _ Hle). change (S ?a <? S ?b) with (a <? b).
    destruct (_ <? f); [f_equal; f_equal; lia | done].
  - rewrite iterations_stop by lia. f_equal. f_equal; lia.
Qed.

Lemma calculateLevel_closed (x : nat) :
  calculateLevel x =
    {| level := level_of x; currentXP := x; xpRequired := threshold_of (level_of x) |}.
Proof.
  unfold calculateLevel, level_of, threshold_of.
  rewrite calculateLevel_loop_iterations. f_equal; lia.
Qed.

Lemma level_of_pos (x : nat) : 1 <= level_of x.
Proof. unfold level_of. lia. Qed.

(** [level_of] is the unique level whose bracket holds [x]. *)
Lemma level_of_bracket (x : nat) :
  x < threshold_of (level_of x) /\
  (2 <= level_of x -> threshold_of (level_of x - 1) <= x).
Proof.
  unfold level_of, threshold_of, iterations. hl_case_bool; [lia |].
  pose proof (Nat.div_mod (x - 100) 200 ltac:(lia)).
  pose proof (Nat.mod_upper_bound (x - 100) 200 ltac:(lia)). lia.
Qed.

Lemma level_of_mono (x y : nat) : x <= y -> level_of x <= level_of y.
Proof.
  intros H. unfold level_of, iterations. hl_case_bool; try lia.
  pose proof (Nat.Div0.div_le_mono (x - 100) (y - 100) 200 ltac:(lia)). lia.
Qed.


(** ** Properties of [calculateLevel] *)

(** C11: the loop computes the curve: the level is at least 1, the
    returned [currentXP] echoes the input, [xpRequired] is the
    threshold [100 + 200 * (level - 1)] of the next level, the input
    is below it and (from level 2 on) at or above the previous one. *)
Theorem calculateLevel_spec (x : nat) :
  let r := calculateLevel x in
  1 <= level r /\ currentXP r = x /\
  xpRequired r = 100 + 200 * (level r - 1) /\
  x < xpRequired r /\
  (2 <= level r -> xpRequired r - 200 <= x).
Proof.
  cbv zeta. rewrite calculateLevel_closed. cbn [level currentXP xpRequired].
  pose proof (level_of_bracket x) as [Hlt Hge]. pose proof (level_of_pos x).
  unfold threshold_of in *. repeat split; try lia.
Qed.

(** More experience never gives a lower level. *)
Lemma calculateLevel_monotone (x y : nat) :
  x <= y -> level (calculateLevel x) <= level (calculateLevel y).
Proof. intros H. rewrite !calculateLevel_closed. simpl. by apply level_of_mono. Qed.

(** C12: the [while] loop terminates: from [(1, 100)] it tests its
    condition exactly [iterations x 100 + 1] times, so it returns when
    given more than [iterations x 100] rounds of fuel and runs out with
    fewer; [x / 200 + 2] rounds always suffice, and the result is the
    level and threshold of [calculateLevel x]. *)
Theorem calculateLevel_terminates (fuel x : nat) :
  (x / 200 + 2 <= fuel ->
   calculateLevel_while fuel x 1 100 = Some (level (calculateLevel x), xpRequired (calculateLevel x))) /\
  (is_Some (calculateLevel_while fuel x 1 100) <-> iterations x 100 < fuel).
Proof.
  rewrite calculateLevel_while_iterations. unfold calculateLevel.
  rewrite calculateLevel_loop_iterations.
  assert (iterations x 100 <= x / 200 + 1).
  { unfold iterations. hl_case_bool; [lia|].
    pose proof (Nat.Div0.div_le_mono (x - 100) x 200 ltac:(lia)). lia. }
  split.
  - intros Hf. by rewrite (proj2 (Nat.ltb_lt _ _)) by lia.
  - hl_case_bool; split; intros Hs; first [lia | by eexists | by destruct Hs].
Qed.

Lemma calculateLevel_terminates_witness :
  1000 / 200 + 2 <= 7 /\ calculateLevel_while 7 1000 1 100 = Some (6, 1100).
Proof.
  split; [vm_compute; lia|].
  rewrite (proj1 (calculateLevel_terminates 7 1000)); [reflexivity | vm_compute; lia].
Defined.

End Level.
