(* ===== verification/Catalog.v ===== *)
(** * Catalog: quest templates and the quest catalog

    The module [@/lib/models/QuestTemplate] that every route imports
    is not part of the sources we have; its shape is read off its uses
    ([q._id], [q.name], [q.description], [q.target], [q.unit],
    [q.xpReward], [q.statReward], [q.stat], [q.hasTextInput]) and the
    spec (five lists: a fixed daily strength set of four quests and four
    rotating categories).  The catalog is therefore an interface, the
    class [QuestCatalog], with the laws the spec promises in
    [CatalogLaws]; the routes are modelled against the interface, and
    [SampleCatalog] is a concrete instance used only to evaluate the
    witnesses.  [getQuestTemplateById] of
    [src/solo-leveling/src/lib/getQuestTemplate.ts] is modelled here. *)

From S2P Require Import Prelude.

Module Catalog.

(** The stat a quest rewards ([quest.stat], a key of the stats object). *)
Inductive Stat := strength | agility | vitality | intelligence | sense.

#[export] Instance Stat_eq_dec : EqDecision Stat.
Proof. solve_decision. Defined.

Record QuestTemplate := mkQuest {
  _id : option string;
  name : string;
  description : option string;
  target : nat;
  unit : option string;
  xpReward : nat;
  statReward : nat;
  stat : Stat;
  hasTextInput : bool
}.

#[export] Instance QuestTemplate_eq_dec : EqDecision QuestTemplate.
Proof. solve_decision. Defined.

(** The five exported arrays of the catalog module. *)
Class QuestCatalog := {
  DAILY_STRENGTH_QUESTS : list QuestTemplate;
  AGILITY_QUESTS : list QuestTemplate;
  VITALITY_QUESTS : list QuestTemplate;
  INTELLIGENCE_QUESTS : list QuestTemplate;
  SENSE_QUESTS : list QuestTemplate
}.

Section WithCatalog.
Context `{QuestCatalog}.

(** [[...AGILITY_QUESTS, ...VITALITY_QUESTS, ...INTELLIGENCE_QUESTS,
    ...SENSE_QUESTS]], built in [getQuestTemplateById] and again as
    [allOtherQuests] in the completion route. *)
Definition allOtherQuests : list QuestTemplate :=
  AGILITY_QUESTS ++ VITALITY_QUESTS ++ INTELLIGENCE_QUESTS ++ SENSE_QUESTS.

(** [q._id === id]: an absent [_id] equals no string. *)
Definition id_is (id : string) (q : QuestTemplate) : bool :=
  match _id q with Some i => String.eqb i id | None => false end.

(** [getQuestTemplateById]: [allQuests.find(q => q._id === id)],
    throwing when nothing is found ([None] here). *)
Definition getQuestTemplateById (id : string) : option QuestTemplate :=
  List.find (id_is id) allOtherQuests.

(** [allOtherQuests.find(q => q.name === questName)]. *)
Definition findByName (questName : string) : option QuestTemplate :=
  List.find (fun q => String.eqb (name q) questName) allOtherQuests.
End WithCatalog.

(** What the spec promises of the catalog: the daily set has four
    quests of distinct names, each rotating category rewards its own
    stat, and identifiers are present and unique. *)
Class CatalogLaws `{QuestCatalog} := {
  daily_length : length DAILY_STRENGTH_QUESTS = 4;
  daily_names_nodup : NoDup (map name DAILY_STRENGTH_QUESTS);
  agility_stat : Forall (fun q => stat q = agility) AGILITY_QUESTS;
  vitality_stat : Forall (fun q => stat q = vitality) VITALITY_QUESTS;
  intelligence_stat : Forall (fun q => stat q = intelligence) INTELLIGENCE_QUESTS;
  sense_stat : Forall (fun q => stat q = sense) SENSE_QUESTS;
  ids_present : Forall (fun q => is_Some (_id q)) allOtherQuests;
  ids_nodup : NoDup (map _id allOtherQuests)
}.

(** ** A sample catalog, to run the routes on concrete inputs *)

Definition sq (i n : string) (xp sr : nat) (s : Stat) : QuestTemplate :=
  mkQuest (Some i) n None 1 None xp sr s false.

#[export] Instance SampleCatalog : QuestCatalog := {
  DAILY_STRENGTH_QUESTS :=
    [sq "s1" "Push-ups" 25 1 strength; sq "s2" "Sit-ups" 25 1 strength;
     sq "s3" "Squats" 25 1 strength; sq "s4" "Running" 25 1 strength];
  AGILITY_QUESTS :=
    [sq "a1" "Stretching" 20 1 agility; sq "a2" "Jump rope" 20 1 agility;
     sq "a3" "Sprints" 20 1 agility];
  VITALITY_QUESTS :=
    [sq "v1" "Drink water" 10 1 vitality; sq "v2" "Sleep 8h" 10 1 vitality];
  INTELLIGENCE_QUESTS :=
    [sq "i1" "Read" 15 1 intelligence; sq "i2" "Study" 15 1 intelligence;
     sq "i3" "Puzzle" 15 1 intelligence];
  SENSE_QUESTS := [sq "e1" "Meditate" 10 1 sense; sq "e2" "Listen" 10 1 sense]
}.

#[export] Instance SampleCatalog_laws : CatalogLaws.
Proof.
  constructor; cbn; try reflexivity;
    repeat (apply Forall_cons; split; [first [reflexivity | eexists; reflexivity] |]);
    try apply Forall_nil; apply (bool_decide_unpack _); vm_compute; reflexivity.
Qed.

End Catalog.
