(* ===== verification/Selector.v ===== *)
(** * Selector: random quest selection

    Models [getRandomQuests] of
    [src/solo-leveling/src/app/api/quests/assign/route.ts]: copy the
    array, shuffle it with the Fisher-Yates loop
    [for (i = n - 1; i > 0; i--) { j = Math.floor(Math.random() * (i + 1));
    swap(i, j) }], and keep the first [count] elements.

    [Math.random()] is an injected source: a stream of draws, each the
    53-bit integer [k] of the double [k / 2^53] that V8 returns, and
    [Math.floor(Math.random() * n)] is modelled as the exact
    [floor(k * n / 2^53)].  JavaScript rounds the product to a double
    first: for the rare [k] whose product lies within half a unit of
    the last place below a multiple of [2^53] (possible for [n >= 3])
    it gives the next index instead.  Both stay below [n]; the model's
    intervals of draws per index ([lo]) are exact for the floor and
    off by at most one draw per boundary for V8.  Each call consumes one draw
    per swap, and the unread rest of the stream is returned, so that the
    four calls of the route read consecutive draws.

    [shuffle_js] is the same loop driven by its list of index choices;
    it is shown to be a bijection from the in-range choice vectors to
    the orders of a list without duplicates. *)

From S2P Require Import Prelude Catalog.
Import Catalog.

Module Selector.

(** A source of [Math.random()] draws. *)
Definition Rng := nat -> Z.
Definition RANDOM_BITS : Z := 53.

(** The source after one draw. *)
Definition next (rng : Rng) : Rng := fun n => rng (S n).

(** [Math.floor(Math.random() * n)] for the draw [k]. *)
Definition random_index (k : Z) (n : nat) : nat :=
  Z.to_nat ((k * Z.of_nat n) / 2 ^ RANDOM_BITS).

(** [[shuffled[i], shuffled[j]] = [shuffled[j], shuffled[i]]]: the right
    side is read first, then [shuffled[i]] and [shuffled[j]] are
    assigned in that order.  Indices out of range do not occur (see
    [random_index_lt]); the model leaves the array as it is there. *)
Definition swap {A} (l : list A) (i j : nat) : list A :=
  match l !! i, l !! j with
  | Some x, Some y => <[j := x]> (<[i := y]> l)
  | _, _ => l
  end.

(** The loop from index [i] down to 1. *)
Fixpoint shuffle_from {A} (i : nat) (l : list A) (rng : Rng) : list A * Rng :=
  match i with
  | 0 => (l, rng)
  | S i' => shuffle_from i' (swap l i (random_index (rng 0) (S i))) (next rng)
  end.

(** [getRandomQuests(questArray, count)]. *)
Definition getRandomQuests (questArray : list QuestTemplate) (count : nat) (rng : Rng)
    : list QuestTemplate * Rng :=
  match questArray with
  | [] => ([], rng)
  | _ =>
      let '(shuffled, rng') := shuffle_from (length questArray - 1) questArray rng in
      (take count shuffled, rng')
  end.

(** The loop driven by the list of its index choices [j] for
    [i], [i - 1], ..., [1]. *)
Fixpoint shuffle_js {A} (i : nat) (l : list A) (js : list nat) : list A :=
  match i, js with
  | S i', j :: js' => shuffle_js i' (swap l i j) js'
  | _, _ => l
  end.

(** The index choices the loop reads from the source. *)
Fixpoint draws (i : nat) (rng : Rng) : list nat :=
  match i with
  | 0 => []
  | S i' => random_index (rng 0) (S i) :: draws i' (next rng)
  end.

(** Choices in range: the one for index [k] is at most [k]. *)
Fixpoint valid_js (i : nat) (js : list nat) : Prop :=
  match i, js with
  | 0, [] => True
  | S i', j :: js' => j <= i /\ valid_js i' js'
  | _, _ => False
  end.

(** The first draw [k] for which [Math.floor(Math.random() * n)] is at
    least [j]: [ceil(j * 2^53 / n)]. *)
Definition lo (n j : nat) : Z :=
  (Z.of_nat j * 2 ^ RANDOM_BITS + Z.of_nat n - 1) / Z.of_nat n.

(** ** Lemmas *)

Lemma swap_perm {A} (l : list A) (i j : nat) : swap l i j ≡ₚ l.
Proof.
  unfold swap. destruct (l !! i) as [x|] eqn:Hi, (l !! j) as [y|] eqn:Hj; try done.
  by apply Permutation_insert_swap.
Qed.

Lemma shuffle_from_perm {A} (i : nat) (l : list A) (rng : Rng) :
  (shuffle_from i l rng).1 ≡ₚ l.
Proof.
  revert l rng. induction i as [|i IH]; intros l rng; [done|].
  simpl. by rewrite IH, swap_perm.
Qed.

(** The loop reads one draw per index from [i] down to 1. *)
Lemma shuffle_from_rng {A} (i : nat) (l : list A) (rng : Rng) (m : nat) :
  (shuffle_from i l rng).2 m = rng (i + m).
Proof.
  revert l rng. induction i as [|i IH]; intros l rng; simpl; [done|].
  rewrite IH. unfold next. f_equal; lia.
Qed.

Lemma getRandomQuests_rng (arr : list QuestTemplate) (count : nat) (rng : Rng) (m : nat) :
  (getRandomQuests arr count rng).2 m = rng (length arr - 1 + m).
Proof.
  unfold getRandomQuests. destruct arr as [|q arr]; [done|].
  pose proof (shuffle_from_rng (length (q :: arr) - 1) (q :: arr) rng m) as Hr.
  destruct (shuffle_from _ _ _) as [sh rng'] eqn:E. exact Hr.
Qed.

Lemma getRandomQuests_perm (arr : list QuestTemplate) (count : nat) (rng : Rng) :
  exists sh, sh ≡ₚ arr /\ (getRandomQuests arr count rng).1 = take count sh.
Proof.
  unfold getRandomQuests. destruct arr as [|q arr]; [exists []; split; [done | by destruct count]|].
  pose proof (shuffle_from_perm (length (q :: arr) - 1) (q :: arr) rng) as Hp.
  destruct (shuffle_from _ _ _) as [sh rng'] eqn:E. by exists sh.
Qed.

Lemma getRandomQuests_length (arr : list QuestTemplate) (count : nat) (rng : Rng) :
  length (getRandomQuests arr count rng).1 = Nat.min count (length arr).
Proof. destruct (getRandomQuests_perm arr count rng) as (sh & Hp & ->). rewrite length_take, Hp. lia. Qed.

Lemma getRandomQuests_incl (arr : list QuestTemplate) (count : nat) (rng : Rng) (q : QuestTemplate) :
  q ∈ (getRandomQuests arr count rng).1 -> q ∈ arr.
Proof.
  destruct (getRandomQuests_perm arr count rng) as (sh & Hp & ->). intros Hq.
  rewrite <- Hp. apply elem_of_take in Hq as (i & Hi & _). by eapply list_elem_of_lookup_2.
Qed.

Lemma getRandomQuests_NoDup (arr : list QuestTemplate) (count : nat) (rng : Rng) :
  NoDup arr -> NoDup (getRandomQuests arr count rng).1.
Proof.
  destruct (getRandomQuests_perm arr count rng) as (sh & Hp & ->). intros Hnd.
  apply (sublist_NoDup _ sh); [by rewrite Hp | apply sublist_take].
Qed.

(** ** The shuffle as a function of its choices *)

Lemma shuffle_from_js {A} (i : nat) (l : list A) (rng : Rng) :
  (shuffle_from i l rng).1 = shuffle_js i l (draws i rng).
Proof. revert l rng. induction i as [|i IH]; intros l rng; [done|]. simpl. apply IH. Qed.

Lemma length_swap {A} (l : list A) (i j : nat) : length (swap l i j) = length l.
Proof. unfold swap. destruct (l !! i), (l !! j); by rewrite ?length_insert. Qed.

Lemma swap_app {A} (l1 l2 : list A) (i j : nat) :
  i < length l1 -> j < length l1 -> swap (l1 ++ l2) i j = swap l1 i j ++ l2.
Proof.
  intros Hi Hj. unfold swap. rewrite !lookup_app_l by done.
  destruct (l1 !! i) eqn:Ei, (l1 !! j) eqn:Ej; [|by apply lookup_lt_is_Some_2 in Hj as [? ?]; congruence..].
  rewrite insert_app_l by done. rewrite insert_app_l by (by rewrite length_insert). done.
Qed.

(** The loop below [i] leaves the elements after [i] in place. *)
Lemma shuffle_js_app {A} (i : nat) (l1 l2 : list A) (js : list nat) :
  valid_js i js -> S i <= length l1 -> shuffle_js i (l1 ++ l2) js = shuffle_js i l1 js ++ l2.
Proof.
  revert l1 js. induction i as [|i IH]; intros l1 js Hv Hl; destruct js as [|j js]; try done.
  destruct Hv as [Hj Hv]. simpl. rewrite swap_app by lia.
  apply IH; [done | rewrite length_swap; lia].
Qed.

Lemma length_shuffle_js {A} (i : nat) (l : list A) (js : list nat) :
  length (shuffle_js i l js) = length l.
Proof.
  revert l js. induction i as [|i IH]; intros l [|j js]; simpl; rewrite ?IH, ?length_swap; done.
Qed.

Lemma shuffle_js_perm {A} (i : nat) (l : list A) (js : list nat) : shuffle_js i l js ≡ₚ l.
Proof.
  revert l js. induction i as [|i IH]; intros l [|j js]; simpl; try done.
  by rewrite IH, swap_perm.
Qed.

(** One round: the element drawn ends at index [i], the rest is the
    loop on the prefix. *)
Lemma shuffle_js_step {A} (i : nat) (l : list A) (j : nat) (js : list nat) (x : A) :
  valid_js i js -> length l = S (S i) -> l !! j = Some x -> j <= S i ->
  shuffle_js (S i) l (j :: js) = shuffle_js i (take (S i) (swap l (S i) j)) js ++ [x].
Proof.
  intros Hv Hl Hx Hj. simpl.
  assert (Hs : swap l (S i) j = take (S i) (swap l (S i) j) ++ [x]).
  { destruct (lookup_lt_is_Some_2 l (S i)) as [y Hy]; [lia|].
    unfold swap. rewrite Hy, Hx.
    assert (E : <[j:=y]> (<[S i:=x]> l) !! S i = Some x).
    { destruct (decide (j = S i)) as [->|Hne].
      - rewrite list_lookup_insert_eq; [congruence | rewrite length_insert; lia].
      - rewrite list_lookup_insert_ne by done. apply list_lookup_insert_eq. lia. }
    rewrite <- (take_drop (S i) (<[j:=y]> (<[S i:=x]> l))) at 1. f_equal.
    apply list_eq. intros m. rewrite lookup_drop.
    destruct m as [|m]; [by rewrite Nat.add_0_r|].
    simpl. apply lookup_ge_None_2. rewrite !length_insert. lia. }
  rewrite Hs at 1. apply shuffle_js_app; [done|]. rewrite length_take, length_swap. lia.
Qed.

Lemma take_last {A} (l : list A) (n : nat) (x : A) :
  length l = S n -> l !! n = Some x -> l = take n l ++ [x].
Proof. intros Hl Hx. rewrite <- take_S_r by done. rewrite take_ge; [done | lia]. Qed.

(** Distinct choice vectors give distinct orders of a list without
    duplicates. *)
Lemma shuffle_js_inj {A} (i : nat) (l : list A) (js1 js2 : list nat) :
  NoDup l -> length l = S i -> valid_js i js1 -> valid_js i js2 ->
  shuffle_js i l js1 = shuffle_js i l js2 -> js1 = js2.
Proof.
  revert l js1 js2. induction i as [|i IH]; intros l js1 js2 Hnd Hl Hv1 Hv2 E.
  { destruct js1, js2; done. }
  destruct js1 as [|j1 js1], js2 as [|j2 js2]; try done.
  destruct Hv1 as [Hj1 Hv1], Hv2 as [Hj2 Hv2].
  destruct (lookup_lt_is_Some_2 l j1) as [x1 Hx1]; [lia|].
  destruct (lookup_lt_is_Some_2 l j2) as [x2 Hx2]; [lia|].
  rewrite (shuffle_js_step i l j1 js1 x1), (shuffle_js_step i l j2 js2 x2) in E by done.
  apply app_inj_tail in E as [E [= <-]].
  assert (j1 = j2) as <- by (eapply NoDup_lookup; eauto). f_equal.
  apply (IH (take (S i) (swap l (S i) j1))); [| |done..].
  - apply (sublist_NoDup _ (swap l (S i) j1)); [by rewrite swap_perm | apply sublist_take].
  - rewrite length_take, length_swap. lia.
Qed.

(** Every order of the list is reached by some choice vector. *)
Lemma shuffle_js_onto {A} (i : nat) (l p : list A) :
  length l = S i -> p ≡ₚ l -> exists js, valid_js i js /\ shuffle_js i l js = p.
Proof.
  revert l p. induction i as [|i IH]; intros l p Hl Hp.
  { exists []. split; [done|]. destruct l as [|y [|]]; try done. simpl.
    symmetry. by apply Permutation_singleton_r. }
  assert (Hlp : length p = S (S i)) by (by rewrite Hp).
  destruct (lookup_lt_is_Some_2 p (S i)) as [x Hx]; [lia|].
  assert (Hxl : x ∈ l) by (rewrite <- Hp; by eapply list_elem_of_lookup_2).
  apply list_elem_of_lookup in Hxl as [j Hj].
  assert (Hjl : j < S (S i)) by (rewrite <- Hl; by eapply lookup_lt_Some).
  set (l' := swap l (S i) j).
  assert (Hl' : l' !! S i = Some x).
  { unfold l', swap. destruct (lookup_lt_is_Some_2 l (S i)) as [y Hy]; [lia|]. rewrite Hy, Hj.
    destruct (decide (j = S i)) as [->|Hne].
    - rewrite list_lookup_insert_eq; [congruence | rewrite length_insert; lia].
    - rewrite list_lookup_insert_ne by done. apply list_lookup_insert_eq. lia. }
  assert (Hpre : take (S i) l' ≡ₚ take (S i) p).
  { apply (Permutation_app_inv_r [x]).
    rewrite <- (take_last l' (S i) x), <- (take_last p (S i) x) by (done || (unfold l'; rewrite length_swap; done)).
    unfold l'. by rewrite swap_perm, Hp. }
  destruct (IH (take (S i) l') (take (S i) p)) as (js & Hv & Hs).
  { rewrite length_take. unfold l'. rewrite length_swap. lia. }
  { by symmetry. }
  exists (j :: js). split; [split; [lia | done]|].
  rewrite (shuffle_js_step i l j js x) by (done || lia). fold l'. rewrite Hs.
  symmetry. by apply take_last.
Qed.

(** [Math.floor(Math.random() * n)] is an index below [n] for every
    draw [Math.random()] can return. *)
Lemma random_index_lt (k : Z) (n : nat) :
  (0 <= k < 2 ^ RANDOM_BITS)%Z -> 0 < n -> random_index k n < n.
Proof.
  intros Hk Hn. unfold random_index.
  assert (0 <= k * Z.of_nat n / 2 ^ RANDOM_BITS < Z.of_nat n)%Z; [|lia].
  unfold RANDOM_BITS in *. split.
  - apply Z.div_pos; nia.
  - apply Z.div_lt_upper_bound; nia.
Qed.

(** The choices read from a source of 53-bit draws are in range, so
    every swap of the loop stays inside the array. *)
(** [lo n j <= k] exactly when [k / 2^53 * n >= j]. *)
Lemma lo_le_iff (n j : nat) (k : Z) :
  0 < n -> (lo n j <= k <-> Z.of_nat j * 2 ^ RANDOM_BITS <= k * Z.of_nat n)%Z.
Proof.
  intros Hn. unfold lo. assert (0 < Z.of_nat n)%Z by lia.
  split; intros Hk; Z.div_mod_to_equations; nia.
Qed.

(** The draws giving the index [j] are the interval
    [[lo n j, lo n (j + 1))]. *)
Lemma random_index_iff (k : Z) (n j : nat) :
  0 < n -> (0 <= k)%Z -> random_index k n = j <-> (lo n j <= k < lo n (S j))%Z.
Proof.
  intros Hn Hk. rewrite (lo_le_iff n j k Hn).
  assert (Hs : (k < lo n (S j) <-> k * Z.of_nat n < Z.of_nat (S j) * 2 ^ RANDOM_BITS)%Z).
  { pose proof (lo_le_iff n (S j) k Hn). lia. }
  rewrite Hs. unfold random_index, RANDOM_BITS in *.
  pose proof (Z.div_mod (k * Z.of_nat n) (2 ^ 53) ltac:(lia)) as Hd.
  pose proof (Z.mod_pos_bound (k * Z.of_nat n) (2 ^ 53) ltac:(lia)) as Hb.
  set (q := (k * Z.of_nat n / 2 ^ 53)%Z) in *. set (r := (k * Z.of_nat n mod 2 ^ 53)%Z) in *.
  assert (Hq : (0 <= q)%Z) by (apply Z.div_pos; nia).
  split.
  - intros <-. rewrite Z2Nat.id by done. split; nia.
  - intros [H1 H2]. assert (q = Z.of_nat j) by nia. lia.
Qed.

(** Each index is the result of [floor(2^53 / n)] or one more of the
    [2^53] draws. *)
Lemma lo_width (n j : nat) :
  0 < n ->
  (2 ^ RANDOM_BITS / Z.of_nat n <= lo n (S j) - lo n j <= 2 ^ RANDOM_BITS / Z.of_nat n + 1)%Z.
Proof.
  intros Hn. unfold lo. rewrite Nat2Z.inj_succ. unfold RANDOM_BITS.
  assert (0 < Z.of_nat n)%Z by lia. Z.div_mod_to_equations. split; nia.
Qed.

(** The [m]-th choice the loop reads is the index for [i - m] drawn
    from the [m]-th draw. *)
Lemma draws_lookup (i m : nat) (rng : Rng) :
  m < i -> draws i rng !! m = Some (random_index (rng m) (S (i - m))).
Proof.
  revert m rng. induction i as [|i IH]; intros m rng Hm; [lia|].
  destruct m as [|m]; [by rewrite Nat.sub_0_r|]. simpl. rewrite IH by lia. done.
Qed.

Lemma draws_valid (i : nat) (rng : Rng) :
  (forall m, (0 <= rng m < 2 ^ RANDOM_BITS)%Z) -> valid_js i (draws i rng).
Proof.
  revert rng. induction i as [|i IH]; intros rng Hr; [done|]. simpl. split.
  - pose proof (random_index_lt (rng 0) (S (S i)) (Hr 0) ltac:(lia)). lia.
  - apply IH. intros m. apply Hr.
Qed.

Lemma getRandomQuests_js (arr : list QuestTemplate) (count : nat) (rng : Rng) :
  (getRandomQuests arr count rng).1 =
    take count (shuffle_js (length arr - 1) arr (draws (length arr - 1) rng)).
Proof.
  unfold getRandomQuests. destruct arr as [|q arr]; [by destruct count|].
  pose proof (shuffle_from_js (length (q :: arr) - 1) (q :: arr) rng) as Hs.
  destruct (shuffle_from _ _ _) as [sh rng'] eqn:E. simpl in *. by rewrite Hs.
Qed.

(** ** Properties *)



(** C16: for every random source, [getRandomQuests arr count] returns
    [min(count, arr.length)] quests, all of [arr], and distinct when
    the quests of [arr] are (selection without replacement). *)
Theorem getRandomQuests_spec (arr : list QuestTemplate) (count : nat) (rng : Rng) :
  let sel := (getRandomQuests arr count rng).1 in
  length sel = Nat.min count (length arr) /\
  (forall q, q ∈ sel -> q ∈ arr) /\
  (NoDup arr -> NoDup sel).
Proof.
  split; [apply getRandomQuests_length | split; [apply getRandomQuests_incl | apply getRandomQuests_NoDup]].
Qed.

(** C17: [getRandomQuests] keeps the first [count] elements of the
    Fisher-Yates shuffle driven by the index choices it reads from
    [Math.random()]; the [m]-th choice, for the index [i - m], is [j]
    exactly when the [m]-th draw falls in the interval of [j] among the
    [i - m + 1] intervals that cut the [2^53] draws into parts of
    [floor(2^53 / (i - m + 1))] or one more draws each, so every index
    from [0] to [i - m] is drawn with almost equal probability; and
    for an array without duplicates each of its orders comes from
    exactly one vector of in-range choices, so independent uniform
    draws make every order almost equally likely. *)
Theorem getRandomQuests_uniform (arr : list QuestTemplate) (count : nat) (rng : Rng) :
  (forall m, (0 <= rng m < 2 ^ RANDOM_BITS)%Z) -> arr <> [] ->
  let i := length arr - 1 in
  valid_js i (draws i rng) /\
  (getRandomQuests arr count rng).1 = take count (shuffle_js i arr (draws i rng)) /\
  (forall m j, m < i -> j <= i - m ->
     draws i rng !! m = Some j <-> (lo (S (i - m)) j <= rng m < lo (S (i - m)) (S j))%Z) /\
  (forall n j, 0 < n ->
     (2 ^ RANDOM_BITS / Z.of_nat n <= lo n (S j) - lo n j <= 2 ^ RANDOM_BITS / Z.of_nat n + 1)%Z) /\
  (NoDup arr -> forall p, p ≡ₚ arr -> exists! js, valid_js i js /\ shuffle_js i arr js = p).
Proof.
  intros Hr Hne i. assert (Hl : length arr = S i) by (destruct arr; [done | simpl in *; lia]).
  split; [by apply draws_valid|]. split; [apply getRandomQuests_js|]. split.
  { intros m j Hm Hj. rewrite draws_lookup by done.
    rewrite <- (random_index_iff (rng m) (S (i - m)) j) by (lia || apply Hr).
    split; [by intros [= ->] | by intros ->]. }
  split; [apply lo_width|].
  intros Hnd p Hp. destruct (shuffle_js_onto i arr p Hl Hp) as (js & Hv & Hs).
  exists js. split; [done|]. intros js' [Hv' Hs'].
  apply (shuffle_js_inj i arr); [done | done | done | done | congruence].
Qed.

Definition sample_rng : Rng := fun n => ((Z.of_nat n * 3 + 1) * 2 ^ 50 mod 2 ^ 53)%Z.

Lemma getRandomQuests_uniform_witness :
  let arr := [sq "a1" "Stretching" 20 1 agility; sq "a2" "Jump rope" 20 1 agility;
              sq "a3" "Sprints" 20 1 agility] in
  let i := length arr - 1 in
  valid_js i (draws i sample_rng) /\
  (getRandomQuests arr 2 sample_rng).1 = take 2 (shuffle_js i arr (draws i sample_rng)) /\
  (forall m j, m < i -> j <= i - m ->
     draws i sample_rng !! m = Some j <->
       (lo (S (i - m)) j <= sample_rng m < lo (S (i - m)) (S j))%Z) /\
  (forall n j, 0 < n ->
     (2 ^ RANDOM_BITS / Z.of_nat n <= lo n (S j) - lo n j <= 2 ^ RANDOM_BITS / Z.of_nat n + 1)%Z) /\
  (NoDup arr -> forall p, p ≡ₚ arr -> exists! js, valid_js i js /\ shuffle_js i arr js = p).
Proof.
  apply getRandomQuests_uniform; [|discriminate].
  intros m. unfold sample_rng, RANDOM_BITS. apply Z.mod_pos_bound. lia.
Defined.

End Selector.
