(* ===== verification/Regex.v ===== *)
(** * Regex: anchored regular expressions over character classes

    The validations of the code use anchored regular expressions built
    from character classes, single characters and [+]: the e-mail
    check [/^[^\s@]+@[^\s@]+\.[^\s@]+$/] of the registration route and
    the username check [/^[a-zA-Z0-9_]+$/].  This file gives their
    meaning as a language ([lang]) and the backtracking matcher
    [RegExp.prototype.test] runs, written with success continuations
    ([mt]), and proves that the matcher decides the language. *)

From Stdlib Require Import Ascii.
From S2P Require Import Prelude.

Module Regex.

(** Expressions: a class [[...]] (a single character is the class of
    that character), a class under [+], and concatenation. *)
Inductive Re :=
| RClass (p : ascii -> bool)
| RPlus (p : ascii -> bool)
| RSeq (r1 r2 : Re).

(** The strings an expression matches as a whole. *)
Inductive lang : Re -> list ascii -> Prop :=
| LClass p c : p c = true -> lang (RClass p) [c]
| LPlus1 p c : p c = true -> lang (RPlus p) [c]
| LPlusS p c l : p c = true -> lang (RPlus p) l -> lang (RPlus p) (c :: l)
| LSeq r1 r2 l1 l2 : lang r1 l1 -> lang r2 l2 -> lang (RSeq r1 r2) (l1 ++ l2).

(** [p+] followed by the continuation [k]: the greedy order of the
    engine, the longer repetition first. *)
Fixpoint plus (p : ascii -> bool) (l : list ascii) (k : list ascii -> bool) : bool :=
  match l with
  | [] => false
  | c :: t => p c && (plus p t k || k t)
  end.

(** The backtracking matcher: [mt r l k] holds when a prefix of [l]
    matches [r] and [k] accepts the rest. *)
Fixpoint mt (r : Re) (l : list ascii) (k : list ascii -> bool) : bool :=
  match r with
  | RClass p => match l with c :: t => p c && k t | [] => false end
  | RPlus p => plus p l k
  | RSeq r1 r2 => mt r1 l (fun l' => mt r2 l' k)
  end.

(** [/^r$/.test(s)]. *)
Definition test (r : Re) (s : string) : bool :=
  mt r (String.list_ascii_of_string s) (fun rest => match rest with [] => true | _ => false end).

(** The class of one character. *)
Definition chr (a : ascii) : ascii -> bool := fun c => Ascii.eqb c a.

(** ** Correctness of the matcher *)

(** The matcher splits its input into a match and a rest the
    continuation accepts. *)
Definition splits (P : list ascii -> Prop) (l : list ascii) (k : list ascii -> bool) : Prop :=
  exists l1 l2, l = l1 ++ l2 /\ P l1 /\ k l2 = true.

Lemma plus_spec (p : ascii -> bool) (l : list ascii) (k : list ascii -> bool) :
  plus p l k = true <-> splits (lang (RPlus p)) l k.
Proof.
  revert k. induction l as [|c t IH]; intros k; simpl.
  - split; [done|]. intros ([|c l1] & l2 & ? & Hl & _); [inversion Hl | done].
  - rewrite andb_true_iff, orb_true_iff, IH. split.
    + intros [Hc [(l1 & l2 & -> & H1 & H2) | Hk]].
      * exists (c :: l1), l2. split; [done|]. split; [by constructor|done].
      * exists [c], t. split; [done|]. split; [by constructor|done].
    + intros (l1 & l2 & E & Hl & Hk). inversion Hl; subst; simplify_eq/=.
      * split; [done|]. by right.
      * split; [done|]. left. by exists l, l2.
Qed.

Lemma mt_spec (r : Re) (l : list ascii) (k : list ascii -> bool) :
  mt r l k = true <-> splits (lang r) l k.
Proof.
  revert l k. induction r as [p|p|r1 IH1 r2 IH2]; intros l k; simpl.
  - destruct l as [|c t].
    + split; [done|]. intros (l1 & l2 & E & Hl & _). inversion Hl; subst. done.
    + rewrite andb_true_iff. split.
      * intros [Hc Hk]. exists [c], t. split; [done|]. split; [by constructor|done].
      * intros (l1 & l2 & E & Hl & Hk). inversion Hl; subst. by simplify_eq/=.
  - apply plus_spec.
  - rewrite IH1. split.
    + intros (l1 & l' & -> & H1 & Hk). apply IH2 in Hk as (l2 & l3 & -> & H2 & Hk).
      exists (l1 ++ l2), l3. split; [by rewrite app_assoc|]. split; [by constructor|done].
    + intros (l12 & l3 & -> & H12 & Hk). inversion H12; subst.
      exists l1, (l2 ++ l3). split; [by rewrite app_assoc|]. split; [done|].
      apply IH2. by exists l2, l3.
Qed.

Lemma test_spec (r : Re) (s : string) :
  test r s = true <-> lang r (String.list_ascii_of_string s).
Proof.
  unfold test. rewrite mt_spec. split.
  - intros (l1 & [|? ?] & -> & Hl & Hk); [by rewrite app_nil_r | done].
  - intros Hl. exists (String.list_ascii_of_string s), []. by rewrite app_nil_r.
Qed.

(** The language of [p+] is the non-empty strings of [p]-characters. *)
Lemma lang_plus (p : ascii -> bool) (l : list ascii) :
  lang (RPlus p) l <-> l <> [] /\ Forall (fun c => p c = true) l.
Proof.
  split.
  - remember (RPlus p) as r eqn:Er. induction 1 as [|q c Hc|q c l' Hc _ IH|]; simplify_eq.
    + split; [done|]. by constructor.
    + destruct IH as [_ IH]; [done|]. split; [done|]. by constructor.
  - intros [Hne Hf]. induction Hf as [|c l Hc Hf IH]; [done|].
    destruct l as [|c' l]; [by constructor|]. constructor; [done|]. by apply IH.
Qed.

Lemma lang_class (p : ascii -> bool) (l : list ascii) :
  lang (RClass p) l <-> exists c, l = [c] /\ p c = true.
Proof.
  split; [intros H; inversion H; subst; by eexists|].
  intros (c & -> & Hc). by constructor.
Qed.

Lemma lang_seq (r1 r2 : Re) (l : list ascii) :
  lang (RSeq r1 r2) l <-> exists l1 l2, l = l1 ++ l2 /\ lang r1 l1 /\ lang r2 l2.
Proof.
  split; [intros H; inversion H; subst; by eexists _, _|].
  intros (l1 & l2 & -> & H1 & H2). by constructor.
Qed.

Lemma chr_spec (a c : ascii) : chr a c = true <-> c = a.
Proof. unfold chr. apply Ascii.eqb_eq. Qed.

End Regex.
