(* ===== verification/Database.v ===== *)
(** * Database: the shared MongoDB client

    Models [src/solo-leveling/src/lib/database.ts], evaluated each time
    the module is loaded (in development, every hot reload re-evaluates
    it in the same process).  The module throws when [MONGODB_URI] is
    missing; in development it keeps the connecting promise in
    [global._mongoClientPromise] and creates a client only when that
    global is unset; in production it creates and connects a client on
    every evaluation.  The process state is the global and the list of
    clients connected so far, each named by a number. *)

From S2P Require Import Prelude.

Module Database.

Inductive NodeEnv := Development | Production.

(** The process: [global._mongoClientPromise] and the clients that
    [client.connect()] was called on, most recent first. *)
Record Process := mkProcess {
  mongoClientPromise : option nat;
  connected : list nat
}.

(** [new MongoClient(uri)] followed by [client.connect()]: the next
    client's promise. *)
Definition connect (p : Process) : nat * Process :=
  let c := length (connected p) in (c, mkProcess (mongoClientPromise p) (c :: connected p)).

(** One evaluation of the module: the exported [clientPromise], or the
    error thrown for a missing [MONGODB_URI]. *)
Definition load (uri : option string) (env : NodeEnv) (p : Process) : (string + nat) * Process :=
  match uri with
  | None => (inl "Please add your MONGODB_URI to .env.local!", p)
  | Some _ =>
      match env with
      | Development =>
          match mongoClientPromise p with
          | Some c => (inr c, p)
          | None =>
              let '(c, p') := connect p in
              (inr c, mkProcess (Some c) (connected p'))
          end
      | Production => let '(c, p') := connect p in (inr c, p')
      end
  end.

(** [n] evaluations of the module in one process. *)
Fixpoint loads (n : nat) (uri : option string) (env : NodeEnv) (p : Process)
    : list (string + nat) * Process :=
  match n with
  | 0 => ([], p)
  | S n' =>
      let '(r, p') := load uri env p in
      let '(rs, p'') := loads n' uri env p' in
      (r :: rs, p'')
  end.

(** ** Lemmas *)

(** Once the global is set, a development load returns it and connects
    nothing. *)
Lemma load_dev_cached (uri : string) (p : Process) (c : nat) :
  mongoClientPromise p = Some c -> load (Some uri) Development p = (inr c, p).
Proof. intros Hc. simpl. by rewrite Hc. Qed.

Lemma loads_dev_cached (n : nat) (uri : string) (p : Process) (c : nat) :
  mongoClientPromise p = Some c -> loads n (Some uri) Development p = (replicate n (inr c), p).
Proof.
  intros Hc. induction n as [|n IH]; [done|]. simpl. rewrite Hc. simpl in IH. by rewrite IH.
Qed.

(** In development, any number of evaluations from a fresh process
    connect one client, and every evaluation exports its promise. *)
Lemma loads_dev_one_client (n : nat) (uri : string) :
  let '(rs, p) := loads (S n) (Some uri) Development (mkProcess None []) in
  rs = replicate (S n) (inr 0) /\ connected p = [0] /\ mongoClientPromise p = Some 0.
Proof. simpl. rewrite (loads_dev_cached n uri (mkProcess (Some 0) [0]) 0) by done. done. Qed.

(** In production every evaluation connects a new client. *)
Lemma loads_prod_clients (n : nat) (uri : string) (p : Process) :
  length (connected (loads n (Some uri) Production p).2) = n + length (connected p).
Proof.
  revert p. induction n as [|n IH]; intros p; [done|]. simpl.
  destruct (loads n _ _ _) as [rs p''] eqn:E. simpl.
  specialize (IH (mkProcess (mongoClientPromise p) (length (connected p) :: connected p))).
  rewrite E in IH. simpl in IH. lia.
Qed.

End Database.
