(* ===== verification/Store.v ===== *)
(** * Store: user documents and the [users] collection

    The application keeps all per-user state in one MongoDB document
    of the [users] collection ([src/health-leveling/src/lib/models/User.ts]
    gives its TypeScript shape).  Fields written by some routes and not
    by others may be absent, so each is an [option]; a [null] written by
    [$set] is identified with an absent field, which every reader treats
    the same way ([x || d], [x?.f], [if (x)]).  The collection is a
    [gmap] from the document [_id] (the hex string of its ObjectId) to
    the document, and the driver calls the routes make are modelled as
    functions on it:
    - [findOne({_id})] is a lookup,
    - [updateOne({_id}, {$set})] applies the update to the matched
      document and reports [modifiedCount], which is 0 when no document
      matched or when the update leaves the document unchanged,
    - [insertOne] adds a document under a fresh identifier and fails on
      a duplicate key,
    - [findOne(filter)] finds a document satisfying a predicate.
    The helpers of [src/health-leveling/src/lib/userHelpers.ts] and the
    defaults [DEFAULT_USER_STATS] are modelled on top of them, and the
    [UserGamingStats] interface as a record a document may be read as
    ([GamingStats.of_user]). *)

From S2P Require Import Prelude Catalog.
Import Catalog.

Module Stats.
(** The [stats] sub-document [{strength, agility, vitality,
    intelligence, sense}].  Its only writers set all five fields
    ([DEFAULT_USER_STATS] and the five dotted [$set] paths of the
    completion route), so it is either absent or complete. *)
Record t := mk {
  strength : nat;
  agility : nat;
  vitality : nat;
  intelligence : nat;
  sense : nat
}.

#[global] Instance t_eq_dec : EqDecision t.
Proof. solve_decision. Defined.

(** [newStats[quest.stat]]. *)
Definition get (s : t) (k : Stat) : nat :=
  match k with
  | Catalog.strength => strength s
  | Catalog.agility => agility s
  | Catalog.vitality => vitality s
  | Catalog.intelligence => intelligence s
  | Catalog.sense => sense s
  end.

(** [newStats[quest.stat] += n]. *)
Definition add (s : t) (k : Stat) (n : nat) : t :=
  match k with
  | Catalog.strength => mk (strength s + n) (agility s) (vitality s) (intelligence s) (sense s)
  | Catalog.agility => mk (strength s) (agility s + n) (vitality s) (intelligence s) (sense s)
  | Catalog.vitality => mk (strength s) (agility s) (vitality s + n) (intelligence s) (sense s)
  | Catalog.intelligence => mk (strength s) (agility s) (vitality s) (intelligence s + n) (sense s)
  | Catalog.sense => mk (strength s) (agility s) (vitality s) (intelligence s) (sense s + n)
  end.

Lemma get_add_eq (s : t) (k : Stat) (n : nat) : get (add s k n) k = get s k + n.
Proof. by destruct k. Qed.

Lemma get_add_ne (s : t) (k k' : Stat) (n : nat) :
  k <> k' -> get (add s k n) k' = get s k'.
Proof. destruct k, k'; simpl; congruence. Qed.

(** Every stat is at least its old value. *)
Definition le (s1 s2 : t) : Prop := forall k, get s1 k <= get s2 k.

Lemma le_add (s : t) (k : Stat) (n : nat) : le s (add s k n).
Proof. intros k'. destruct (decide (k = k')) as [<-|]; [rewrite get_add_eq | rewrite get_add_ne by done]; lia. Qed.

Lemma le_trans (a b c : t) : le a b -> le b c -> le a c.
Proof. intros H1 H2 k. specialize (H1 k). specialize (H2 k). lia. Qed.

Lemma le_refl (a : t) : le a a.
Proof. intros k. lia. Qed.
End Stats.

#[export] Hint Resolve Stats.le_add Stats.le_refl : hl.

(** A stored quest of [assignedQuests.quests]: the current format is an
    identifier; documents written by an older version hold whole quest
    objects; [q._id!] of a quest without an identifier is stored as
    [null]. *)
Inductive StoredQuest :=
| SQId (id : string)
| SQObject (q : QuestTemplate)
| SQNull.

#[export] Instance StoredQuest_eq_dec : EqDecision StoredQuest.
Proof. solve_decision. Defined.

(** [assignedQuests: {date: today.toDateString(), quests}]. *)
Record AssignedQuests := mkAssigned {
  aq_date : Z;
  aq_quests : list StoredQuest
}.

#[export] Instance AssignedQuests_eq_dec : EqDecision AssignedQuests.
Proof. solve_decision. Defined.

Module User.
(** A document of the [users] collection ([UserDocument] plus the
    fields [register] writes: [password], [createdAt], [xp]). *)
Record t := mk {
  email : option string;
  password : option string;
  name : option string;
  username : option string;
  hasSetUsername : option bool;
  createdAt : option JsDate.t;
  level : option nat;
  totalXP : option nat;
  xp : option nat;
  stats : option Stats.t;
  streakDays : option nat;
  lastQuestDate : option JsDate.t;
  questsCompletedToday : option (list string);
  hasCompletedDailyStrength : option bool;
  assignedQuests : option AssignedQuests
}.

#[global] Instance t_eq_dec : EqDecision t.
Proof. solve_decision. Defined.

(** A document with only an e-mail, as the authentication adapter
    creates it for a first Google sign-in. *)
Definition fresh (e : string) : t :=
  mk (Some e) None None None None None None None None None None None None None None.
End User.

(** The [users] collection, keyed by the document [_id]. *)
Abbreviation Db := (gmap string User.t).

Module Mongo.
(** [updateOne({_id: id}, update)]: the [modifiedCount] and the new
    collection. *)
Definition updateOne (id : string) (f : User.t -> User.t) (db : Db) : nat * Db :=
  match db !! id with
  | None => (0, db)
  | Some d => if decide (f d = d) then (0, db) else (1, <[id := f d]> db)
  end.

(** [insertOne(doc)] under the identifier the driver generates; a
    duplicate key is a write error ([None]). *)
Definition insertOne (id : string) (d : User.t) (db : Db) : option Db :=
  match db !! id with
  | Some _ => None
  | None => Some (<[id := d]> db)
  end.

(** [findOne(filter)]: some document satisfying the filter, with its
    [_id]. *)
Definition findOneEntry (p : User.t -> bool) (db : Db) : option (string * User.t) :=
  List.find (fun kd => p kd.2) (map_to_list db).

Definition findOne (p : User.t -> bool) (db : Db) : option User.t :=
  snd <$> findOneEntry p db.

Lemma updateOne_lookup (id : string) (f : User.t -> User.t) (db : Db) (d : User.t) :
  db !! id = Some d -> (updateOne id f db).2 = <[id := f d]> db.
Proof.
  intros H. unfold updateOne. rewrite H. case_decide as E; simpl; [|done].
  rewrite E. symmetry. by apply insert_id.
Qed.

Lemma updateOne_other (id k : string) (f : User.t -> User.t) (db : Db) :
  id <> k -> (updateOne id f db).2 !! k = db !! k.
Proof.
  intros H. unfold updateOne. destruct (db !! id); [|done].
  case_decide; simpl; [done | by rewrite lookup_insert_ne].
Qed.

Lemma updateOne_missing (id : string) (f : User.t -> User.t) (db : Db) :
  db !! id = None -> updateOne id f db = (0, db).
Proof. intros H. unfold updateOne. by rewrite H. Qed.

(** A write that reports no modification left the collection as it was. *)
Lemma updateOne_unmodified (id : string) (f : User.t -> User.t) (db db' : Db) :
  updateOne id f db = (0, db') -> db' = db.
Proof.
  unfold updateOne. destruct (db !! id); [case_decide|]; by intros [= <-].
Qed.

Lemma updateOne_modified (id : string) (f : User.t -> User.t) (db : Db) (d : User.t) :
  db !! id = Some d -> f d <> d -> updateOne id f db = (1, <[id := f d]> db).
Proof. intros H Hne. unfold updateOne. rewrite H. by case_decide. Qed.

Lemma findOneEntry_Some (p : User.t -> bool) (db : Db) (k : string) (d : User.t) :
  findOneEntry p db = Some (k, d) -> p d = true /\ db !! k = Some d.
Proof.
  unfold findOneEntry. intros E. apply find_some in E as [Hin Hp]. split; [done|].
  apply elem_of_map_to_list. by apply list_elem_of_In.
Qed.

Lemma findOne_Some (p : User.t -> bool) (db : Db) (d : User.t) :
  findOne p db = Some d -> p d = true /\ exists k, db !! k = Some d.
Proof.
  unfold findOne. destruct (findOneEntry _ _) as [[k d']|] eqn:E; simpl; [|done].
  intros [= <-]. apply findOneEntry_Some in E as [Hp Hk]. split; [done|]. by exists k.
Qed.

Lemma findOneEntry_None (p : User.t -> bool) (db : Db) (k : string) (d : User.t) :
  findOneEntry p db = None -> db !! k = Some d -> p d = false.
Proof.
  unfold findOneEntry. intros E Hk.
  eapply (find_none _ _ E (k, d)). apply list_elem_of_In. by apply elem_of_map_to_list.
Qed.

Lemma findOneEntry_exists (p : User.t -> bool) (db : Db) (k : string) (d : User.t) :
  db !! k = Some d -> p d = true -> exists kd, findOneEntry p db = Some kd.
Proof.
  intros Hk Hp. destruct (findOneEntry p db) as [kd|] eqn:E; [by exists kd|].
  by rewrite (findOneEntry_None _ _ _ _ E Hk) in Hp.
Qed.

Lemma findOne_None (p : User.t -> bool) (db : Db) (k : string) (d : User.t) :
  findOne p db = None -> db !! k = Some d -> p d = false.
Proof.
  unfold findOne. destruct (findOneEntry _ _) eqn:E; simpl; [done|]. intros _ Hk.
  by eapply findOneEntry_None.
Qed.
End Mongo.

Module UserHelpers.
(** [DEFAULT_USER_STATS], applied with [$set]. *)
Definition DEFAULT_USER_STATS (d : User.t) : User.t :=
  User.mk (User.email d) (User.password d) (User.name d) (User.username d)
    (User.hasSetUsername d) (User.createdAt d)
    (Some 1) (Some 0) (User.xp d) (Some (Stats.mk 10 10 10 10 10))
    (Some 0) None (Some []) (Some false) None.

(** [checkIfUserHasGamingStats]: [user?.level !== undefined]. *)
Definition checkIfUserHasGamingStats (userId : string) (db : Db) : bool :=
  match db !! userId with
  | Some u => bool_decide (is_Some (User.level u))
  | None => false
  end.

(** [initializeUserGamingStats]: [updateOne({_id}, {$set: DEFAULT_USER_STATS})],
    its result ignored. *)
Definition initializeUserGamingStats (userId : string) (db : Db) : Db :=
  (Mongo.updateOne userId DEFAULT_USER_STATS db).2.

(** [getUserWithGamingStats]: [findOne({_id})]. *)
Definition getUserWithGamingStats (userId : string) (db : Db) : option User.t :=
  db !! userId.
End UserHelpers.

(** The [UserGamingStats] interface of [models/User.ts]: the fields a
    document has once its gaming statistics are set ([lastQuestDate] is
    [Date | null], [assignedQuests] optional). *)
Module GamingStats.
Record t := mk {
  level : nat;
  totalXP : nat;
  stats : Stats.t;
  streakDays : nat;
  lastQuestDate : option JsDate.t;
  questsCompletedToday : list string;
  hasCompletedDailyStrength : bool;
  assignedQuests : option AssignedQuests
}.

(** A document read at this interface: [None] when a field the
    interface requires is absent. *)
Definition of_user (d : User.t) : option t :=
  l ← User.level d; x ← User.totalXP d; s ← User.stats d; k ← User.streakDays d;
  q ← User.questsCompletedToday d; h ← User.hasCompletedDailyStrength d;
  Some (mk l x s k (User.lastQuestDate d) q h (User.assignedQuests d)).
End GamingStats.

(** Sample documents and collections, to run the routes on concrete
    inputs: a user created by a Google sign-in and given
    [DEFAULT_USER_STATS], and dates as day number and time of day. *)
Module Sample.
Definition day (n ms : Z) : JsDate.t := (n * JsDate.MS_PER_DAY + ms)%Z.
Definition u_default : User.t := UserHelpers.DEFAULT_USER_STATS (User.fresh "ada@example.com").
Definition db0 : Db := <["u1" := u_default]> ∅.
(** [u_default] after [n] days of streak, the last completion on day [d]. *)
Definition u_after (d : Z) (n : nat) (done : list string) : User.t :=
  User.mk (Some "ada@example.com") None None None None None (Some 1) (Some 0) None
    (Some (Stats.mk 10 10 10 10 10)) (Some n) (Some (day d 3600000)) (Some done) (Some true) None.
End Sample.
