(* ===== verification/Complete.v ===== *)
(** * Complete: the quest-completion route

    Models [POST] of [src/solo-leveling/src/app/api/quests/complete/route.ts],
    the progression engine of the application.  The handler reads the
    session user and the request body, loads the user document,
    computes new experience, stats and streak in local variables
    ([newTotalXP], [newStats], [newStreakDays], the record [Acc] here)
    along one of three branches selected by [questType]:
    - ["daily_strength"] ([QDaily]): validate the four names, add the
      rewards of [DAILY_STRENGTH_QUESTS], and update the streak from
      the calendar day of [lastQuestDate];
    - ["individual"] ([QIndividual]): validate one name, refuse a name
      already in [questsCompletedToday], add the rewards of the
      rotating quest of that name (if any);
    - anything else ([QOther]): no reward;
    then writes all fields with one [updateOne] ($set) and answers with
    the level of the new total.  Early returns are responses paired
    with the unchanged collection. *)

From S2P Require Import Prelude Level Catalog Store.
Import Catalog Level.

Module Complete.

(** [questType] of the body. *)
Inductive QuestType := QDaily | QIndividual | QOther.

(** The parsed body [{completedQuests, questType}]; [completedQuests]
    is [None] when it is not an array. *)
Record Body := mkBody {
  completedQuests : option (list string);
  questType : QuestType
}.

(** The success payload [{success, levelInfo, newStats, streakDays,
    questsCompletedToday}]. *)
Record Result := mkResult {
  res_levelInfo : LevelInfo;
  res_newStats : Stats.t;
  res_streakDays : nat;
  res_questsCompletedToday : option (list string)
}.

(** The handler's mutable locals. *)
Record Acc := mkAcc {
  newTotalXP : nat;
  newStats : Stats.t;
  newStreakDays : nat
}.

Definition set_streak (a : Acc) (n : nat) : Acc := mkAcc (newTotalXP a) (newStats a) n.

Definition MSG_DAILY : string := "Must complete all 4 daily strength quests".
Definition MSG_DAILY_DONE : string := "Daily Quest already completed today".
Definition MSG_INDIVIDUAL : string := "Individual quest requires exactly 1 ".
Definition MSG_QUEST_DONE : string := "Quest already completed today".

(** [let newTotalXP = currentUser.totalXP || 0], the [newStats]
    object with each stat [|| 10], and
    [let newStreakDays = currentUser.streakDays || 1]. *)
Definition initial_stats (u : User.t) : Stats.t :=
  let g f := js_or_nat (f <$> User.stats u) 10 in
  Stats.mk (g Stats.strength) (g Stats.agility) (g Stats.vitality)
    (g Stats.intelligence) (g Stats.sense).

Definition initial_acc (u : User.t) : Acc :=
  mkAcc (js_or_nat (User.totalXP u) 0) (initial_stats u) (js_or_nat (User.streakDays u) 1).

Section WithCatalog.
Context `{QuestCatalog}.

(** [DAILY_STRENGTH_QUESTS.forEach(q => { totalXP += q.xpReward;
    totalStrengthReward += q.statReward })]. *)
Definition daily_rewards : nat * nat :=
  fold_left (fun '(x, s) q => (x + xpReward q, s + statReward q))
    DAILY_STRENGTH_QUESTS (0, 0).

(** The streak system: [lastQuestDate] yesterday continues the
    streak, today refuses the request, any other day restarts it;
    no [lastQuestDate] keeps [newStreakDays]. *)
Definition streak_step (u : User.t) (today : JsDate.t) (a : Acc) : Response Result + Acc :=
  match User.lastQuestDate u with
  | Some lq =>
      let lastQuestDateString := JsDate.toDateString lq in
      if Z.eqb lastQuestDateString (JsDate.toDateString (JsDate.yesterday today)) then
        inr (set_streak a (js_or_nat (User.streakDays u) 0 + 1))
      else if Z.eqb lastQuestDateString (JsDate.toDateString today) then
        inl (respond_err 400 MSG_DAILY_DONE)
      else inr (set_streak a 1)
  | None => inr a
  end.

(** The [daily_strength] branch (lines 50-92). *)
Definition daily_branch (u : User.t) (cq : option (list string)) (today : JsDate.t)
    (a : Acc) : Response Result + Acc :=
  match cq with
  | Some l =>
      if negb (length l =? 4) then inl (respond_err 400 MSG_DAILY) else
      let requiredQuests := map name DAILY_STRENGTH_QUESTS in
      let hasAllQuests := js_every (js_includes l) requiredQuests in
      if negb hasAllQuests || negb (length l =? 4) then
        inl (mkResponse 200 (JError MSG_DAILY))
      else
        let '(totalXP, totalStrengthReward) := daily_rewards in
        streak_step u today
          (mkAcc (newTotalXP a + totalXP)
             (Stats.add (newStats a) strength totalStrengthReward) (newStreakDays a))
  | None => inl (respond_err 400 MSG_DAILY)
  end.

(** One round of [completedQuests.forEach]: the rewards of the
    first rotating quest of that name, nothing for an unknown name. *)
Definition award (a : Acc) (questName : string) : Acc :=
  match findByName questName with
  | Some q => mkAcc (newTotalXP a + xpReward q)
                (Stats.add (newStats a) (stat q) (statReward q)) (newStreakDays a)
  | None => a
  end.

(** The [individual] branch (lines 94-114). *)
Definition individual_branch (u : User.t) (cq : option (list string)) (a : Acc)
    : Response Result + Acc :=
  match cq with
  | Some l =>
      if negb (length l =? 1) then inl (respond_err 400 MSG_INDIVIDUAL) else
      let questName := nth 0 l "" in
      let currentCompletedQuests := js_or_list (User.questsCompletedToday u) in
      if js_includes currentCompletedQuests questName then
        inl (respond_err 400 MSG_QUEST_DONE)
      else inr (fold_left award l a)
  | None => inl (respond_err 400 MSG_INDIVIDUAL)
  end.

Definition branch (u : User.t) (b : Body) (today : JsDate.t) : Response Result + Acc :=
  match questType b with
  | QDaily => daily_branch u (completedQuests b) today (initial_acc u)
  | QIndividual => individual_branch u (completedQuests b) (initial_acc u)
  | QOther => inr (initial_acc u)
  end.

(** The [questsCompletedToday] value written and returned. *)
Definition new_completed (u : User.t) (b : Body) : option (list string) :=
  match questType b with
  | QIndividual =>
      Some (js_or_list (User.questsCompletedToday u) ++ [nth 0 (default [] (completedQuests b)) ""])
  | _ => completedQuests b
  end.

(** [updateFields], applied with [$set] to the stored document [d];
    the values come from the document [u] read at the start. *)
Definition updateFields (u : User.t) (b : Body) (today : JsDate.t) (a : Acc)
    (d : User.t) : User.t :=
  let isDaily := match questType b with QDaily => true | _ => false end in
  User.mk (User.email d) (User.password d) (User.name d) (User.username d)
    (User.hasSetUsername d) (User.createdAt d)
    (Some (level (calculateLevel (newTotalXP a)))) (Some (newTotalXP a)) (User.xp d)
    (Some (newStats a))
    (if isDaily then Some (newStreakDays a) else User.streakDays d)
    (Some today) (new_completed u b)
    (if isDaily then Some true else User.hasCompletedDailyStrength u)
    (User.assignedQuests d).

(** The route.  [session] is the authenticated user id, [body] the
    parsed JSON ([None] when [request.json()] throws), [today] the
    request time. *)
Definition POST (session : option string) (body : option Body) (today : JsDate.t)
    (db : Db) : Response Result * Db :=
  match session with
  | None => (respond_err 401 "Unauthorized", db)
  | Some userId =>
  match body with
  | None => (respond_err 500 "Internal server error", db)
  | Some b =>
  match db !! userId with
  | None => (respond_err 404 "User not found", db)
  | Some u =>
  match branch u b today with
  | inl r => (r, db)
  | inr a =>
      let levelInfo := calculateLevel (newTotalXP a) in
      let '(modifiedCount, db') := Mongo.updateOne userId (updateFields u b today a) db in
      if modifiedCount =? 0 then (respond_err 500 "Failed to update user", db')
      else (respond_ok (mkResult levelInfo (newStats a) (newStreakDays a) (new_completed u b)), db')
  end end end end.


(** The four names were all submitted, as the validation requires. *)
Definition valid_daily (l : list string) : Prop :=
  length l = 4 /\ Forall (fun n => n ∈ l) (map name DAILY_STRENGTH_QUESTS).

#[export] Instance valid_daily_dec (l : list string) : Decision (valid_daily l).
Proof. unfold valid_daily. apply _. Defined.

(** The experience a document counts for ([totalXP || 0]), and the
    document invariant that a stored [level] is the level of it. *)
Definition xp_of (d : User.t) : nat := js_or_nat (User.totalXP d) 0.

Definition level_consistent (d : User.t) : Prop :=
  forall l, User.level d = Some l -> l = level (calculateLevel (xp_of d)).

(** ** Shared lemmas *)

(** The outcomes of the route: the collection is unchanged, or the
    branch succeeded and its update was written and reported. *)
(** Every early return of a branch is an error response. *)
Lemma branch_err_is_error (u : User.t) (b : Body) (t : JsDate.t) (r : Response Result) :
  branch u b t = inl r -> is_error r = true.
Proof.
  unfold branch, daily_branch, individual_branch, streak_step.
  repeat (case_match; simpl in * ); intros; simplify_eq; done.
Qed.

Lemma POST_cases (s : option string) (ob : option Body) (t : JsDate.t)
    (db db' : Db) (r : Response Result) :
  POST s ob t db = (r, db') ->
  (db' = db /\ is_error r = true) \/
  exists uid b u a, s = Some uid /\ ob = Some b /\ db !! uid = Some u /\
    branch u b t = inr a /\
    db' = <[uid := updateFields u b t a u]> db /\
    r = respond_ok (mkResult (calculateLevel (newTotalXP a)) (newStats a)
                      (newStreakDays a) (new_completed u b)).
Proof.
  unfold POST. intros Hp.
  destruct s as [uid|]; [|by inversion Hp; left].
  destruct ob as [b|]; [|by inversion Hp; left].
  destruct (db !! uid) as [u|] eqn:Hu; [|by inversion Hp; left].
  destruct (branch u b t) as [r0|a] eqn:Hb.
  { inversion Hp; subst. left. split; [done|]. by eapply branch_err_is_error. }
  destruct (Mongo.updateOne _ _ _) as [mc db1] eqn:Hup.
  destruct mc as [|mc].
  - apply Mongo.updateOne_unmodified in Hup. simpl in Hp. inversion Hp; subst. by left.
  - unfold Mongo.updateOne in Hup. rewrite Hu in Hup.
    case_decide; inversion Hup; subst. simpl in Hp. inversion Hp; subst.
    right. eauto 12.
Qed.

(** A successful branch whose update changes the document is written
    and answered with status 200. *)
Lemma POST_branch_ok (uid : string) (b : Body) (t : JsDate.t) (db : Db)
    (u : User.t) (a : Acc) :
  db !! uid = Some u -> branch u b t = inr a ->
  updateFields u b t a u <> u ->
  POST (Some uid) (Some b) t db =
    (respond_ok (mkResult (calculateLevel (newTotalXP a)) (newStats a)
                   (newStreakDays a) (new_completed u b)),
     <[uid := updateFields u b t a u]> db).
Proof.
  intros Hu Hb Hne. unfold POST. rewrite Hu, Hb.
  by rewrite (Mongo.updateOne_modified _ _ _ _ Hu Hne).
Qed.

Lemma POST_branch_err (uid : string) (b : Body) (t : JsDate.t) (db : Db)
    (u : User.t) (r : Response Result) :
  db !! uid = Some u -> branch u b t = inl r ->
  POST (Some uid) (Some b) t db = (r, db).
Proof. intros Hu Hb. unfold POST. by rewrite Hu, Hb. Qed.

(** Writing [lastQuestDate := today] changes a document that did not
    already hold that exact date. *)
Lemma updateFields_changes (u : User.t) (b : Body) (t : JsDate.t) (a : Acc) :
  User.lastQuestDate u <> Some t -> updateFields u b t a u <> u.
Proof. intros Hne Heq. apply Hne. by rewrite <- Heq. Qed.

Lemma js_every_includes (l req : list string) :
  js_every (js_includes l) req = true <-> Forall (fun n => n ∈ l) req.
Proof.
  unfold js_every. rewrite forallb_forall, Forall_forall. split.
  - intros Hf x Hx. apply js_includes_spec, Hf. by apply list_elem_of_In.
  - intros Hf x Hx. apply js_includes_spec, Hf. by apply list_elem_of_In.
Qed.

Lemma daily_branch_valid (u : User.t) (l : list string) (t : JsDate.t) (a : Acc) :
  valid_daily l ->
  daily_branch u (Some l) t a =
    streak_step u t (mkAcc (newTotalXP a + daily_rewards.1)
                       (Stats.add (newStats a) strength daily_rewards.2) (newStreakDays a)).
Proof.
  intros [Hlen Hall]. unfold daily_branch. rewrite Hlen. simpl.
  apply js_every_includes in Hall. rewrite Hall. simpl.
  by destruct daily_rewards.
Qed.

(** The streak transition, one lemma per case of the code. *)
Lemma streak_step_yesterday (u : User.t) (t lq : JsDate.t) (a : Acc) :
  User.lastQuestDate u = Some lq ->
  JsDate.toDateString lq = (JsDate.toDateString t - 1)%Z ->
  streak_step u t a = inr (set_streak a (js_or_nat (User.streakDays u) 0 + 1)).
Proof.
  intros Hl Hd. unfold streak_step. rewrite Hl. autorewrite with hl_rw. rewrite Hd.
  by rewrite Z.eqb_refl.
Qed.

Lemma streak_step_today (u : User.t) (t lq : JsDate.t) (a : Acc) :
  User.lastQuestDate u = Some lq ->
  JsDate.toDateString lq = JsDate.toDateString t ->
  streak_step u t a = inl (respond_err 400 MSG_DAILY_DONE).
Proof.
  intros Hl Hd. unfold streak_step. rewrite Hl. autorewrite with hl_rw. rewrite Hd.
  hl_case_bool; [lia | done | lia].
Qed.

Lemma streak_step_gap (u : User.t) (t lq : JsDate.t) (a : Acc) :
  User.lastQuestDate u = Some lq ->
  JsDate.toDateString lq <> (JsDate.toDateString t - 1)%Z ->
  JsDate.toDateString lq <> JsDate.toDateString t ->
  streak_step u t a = inr (set_streak a 1).
Proof.
  intros Hl Hd1 Hd2. unfold streak_step. rewrite Hl. autorewrite with hl_rw.
  hl_case_bool; congruence.
Qed.

(** The streak step goes through unless the last completion is today. *)
Lemma streak_step_not_today (u : User.t) (t : JsDate.t) (a : Acc) :
  (forall lq, User.lastQuestDate u = Some lq -> JsDate.toDateString lq <> JsDate.toDateString t) ->
  exists a', streak_step u t a = inr a'.
Proof.
  intros Hn. unfold streak_step. destruct (User.lastQuestDate u) as [lq|]; [|by eexists].
  specialize (Hn lq eq_refl). cbv zeta. hl_case_bool; [by eexists | done | by eexists].
Qed.

(** A daily request on the day of [lastQuestDate] is refused:
    with a 400 "already completed" when the four names are valid. *)
Lemma daily_branch_same_day (u : User.t) (cq : option (list string)) (t lq : JsDate.t)
    (a : Acc) :
  User.lastQuestDate u = Some lq ->
  JsDate.toDateString lq = JsDate.toDateString t ->
  exists r, daily_branch u cq t a = inl r /\ is_error r = true /\
    (forall l, cq = Some l -> valid_daily l -> r = respond_err 400 MSG_DAILY_DONE).
Proof.
  intros Hl Hd. destruct cq as [l|]; simpl.
  2: { eexists; split; [done|]. split; [done|]. by intros. }
  destruct (Nat.eqb_spec (length l) 4) as [E|E]; simpl.
  - destruct (js_every (js_includes l) _) eqn:Hall; simpl.
    + destruct daily_rewards. rewrite (streak_step_today _ _ _ _ Hl Hd).
      eexists; split; [done|]. by split.
    + eexists; split; [done|]. split; [done|].
      intros ? [= <-] [_ Hv]. apply js_every_includes in Hv. congruence.
  - eexists; split; [done|]. split; [done|]. intros ? [= <-] [Hv _]. congruence.
Qed.

(** After any successful completion at [t1] the stored document
    holds [lastQuestDate = t1]. *)
(** A valid daily set on a day without a completion is accepted: the
    document is written with the daily set done, today as the date of
    the last completion. *)
Lemma daily_accepted (uid : string) (l : list string) (t : JsDate.t) (db : Db) (u : User.t) :
  db !! uid = Some u -> valid_daily l ->
  (forall lq, User.lastQuestDate u = Some lq -> JsDate.toDateString lq <> JsDate.toDateString t) ->
  exists a, POST (Some uid) (Some (mkBody (Some l) QDaily)) t db =
    (respond_ok (mkResult (calculateLevel (newTotalXP a)) (newStats a) (newStreakDays a) (Some l)),
     <[uid := updateFields u (mkBody (Some l) QDaily) t a u]> db) /\
    User.hasCompletedDailyStrength (updateFields u (mkBody (Some l) QDaily) t a u) = Some true /\
    User.lastQuestDate (updateFields u (mkBody (Some l) QDaily) t a u) = Some t.
Proof.
  intros Hu Hv Hn. edestruct (streak_step_not_today u t) as [a' Ha']; [exact Hn|].
  assert (Hb : branch u (mkBody (Some l) QDaily) t = inr a').
  { cbn [branch questType completedQuests]. rewrite (daily_branch_valid _ _ _ _ Hv). exact Ha'. }
  exists a'. rewrite (POST_branch_ok _ _ _ _ _ _ Hu Hb); [done|].
  apply updateFields_changes. intros Hl. exact (Hn t Hl eq_refl).
Qed.

Lemma POST_success_doc (uid : string) (ob : option Body) (t : JsDate.t) (db db' : Db)
    (r : Response Result) (res : Result) :
  POST (Some uid) ob t db = (r, db') -> json r = JSuccess res ->
  exists b u a, ob = Some b /\ db !! uid = Some u /\ branch u b t = inr a /\
    db' = <[uid := updateFields u b t a u]> db /\
    r = respond_ok (mkResult (calculateLevel (newTotalXP a)) (newStats a)
                      (newStreakDays a) (new_completed u b)).
Proof.
  intros Hp Hj. apply POST_cases in Hp as [[_ He] | (uid' & b & u & a & [= <-] & Hb & Hu & Hbr & -> & ->)].
  - unfold is_error in He. by rewrite Hj in He.
  - eauto 10.
Qed.

Lemma daily_blocked_after_success (uid : string) (ob1 : option Body) (b2 : Body)
    (t1 t2 : JsDate.t) (db db1 : Db) (r1 : Response Result) (res : Result) :
  POST (Some uid) ob1 t1 db = (r1, db1) -> json r1 = JSuccess res ->
  questType b2 = QDaily ->
  JsDate.toDateString t2 = JsDate.toDateString t1 ->
  exists r2, POST (Some uid) (Some b2) t2 db1 = (r2, db1) /\ is_error r2 = true /\
    (forall l, completedQuests b2 = Some l -> valid_daily l ->
       r2 = respond_err 400 MSG_DAILY_DONE).
Proof.
  intros Hp Hj Hq Hd.
  destruct (POST_success_doc _ _ _ _ _ _ _ Hp Hj) as (b1 & u & a & _ & Hu & _ & -> & _).
  destruct (daily_branch_same_day (updateFields u b1 t1 a u) (completedQuests b2) t2 t1
              (initial_acc (updateFields u b1 t1 a u)) eq_refl (eq_sym Hd))
    as (r2 & Hbr & Herr & Hv).
  exists r2. split; [|done]. apply POST_branch_err with (updateFields u b1 t1 a u).
  - by rewrite lookup_insert_eq.
  - unfold branch. by rewrite Hq.
Qed.

Lemma streak_step_inr (u : User.t) (t : JsDate.t) (a a' : Acc) :
  streak_step u t a = inr a' -> newTotalXP a' = newTotalXP a /\ newStats a' = newStats a.
Proof. unfold streak_step. repeat case_match; intros; simplify_eq; done. Qed.

Lemma fold_award_mono (l : list string) (a : Acc) :
  newTotalXP a <= newTotalXP (fold_left award l a) /\
  Stats.le (newStats a) (newStats (fold_left award l a)).
Proof.
  revert a. induction l as [|x l IH]; intros a; simpl; [split; auto with hl|].
  destruct (IH (award a x)) as [H1 H2]. unfold award in *.
  destruct (findByName x); simpl in *; [|done].
  split; [lia|]. eapply Stats.le_trans; [apply Stats.le_add | done].
Qed.

(** A branch only adds experience and stats. *)
Lemma branch_mono (u : User.t) (b : Body) (t : JsDate.t) (a : Acc) :
  branch u b t = inr a -> xp_of u <= newTotalXP a /\ Stats.le (initial_stats u) (newStats a).
Proof.
  unfold branch. destruct (questType b).
  - unfold daily_branch. repeat case_match; intros Hs; try discriminate.
    apply streak_step_inr in Hs as [-> ->].
    split; [unfold xp_of; simpl; lia | apply (Stats.le_add (initial_stats u))].
  - unfold individual_branch. repeat case_match; intros Hs; try discriminate.
    injection Hs as <-. exact (fold_award_mono l (initial_acc u)).
  - intros [= <-]. split; auto with hl.
Qed.

(** Reading stats back through [|| 10] gives at least the stored values. *)
Lemma initial_stats_ge (d : User.t) (s : Stats.t) :
  User.stats d = Some s -> Stats.le s (initial_stats d).
Proof.
  intros Hs k. unfold initial_stats. rewrite Hs.
  destruct k; apply js_or_nat_Some_ge.
Qed.

Lemma xp_of_updateFields (u : User.t) (b : Body) (t : JsDate.t) (a : Acc) (d : User.t) :
  xp_of (updateFields u b t a d) = newTotalXP a.
Proof. unfold xp_of, updateFields. cbn [User.totalXP]. by autorewrite with hl_rw. Qed.

(** An individual completion always changes [questsCompletedToday]. *)
Lemma updateFields_individual_changes (u : User.t) (b : Body) (t : JsDate.t) (a : Acc) :
  questType b = QIndividual -> updateFields u b t a u <> u.
Proof.
  intros Hq Heq. assert (E : User.questsCompletedToday (updateFields u b t a u) =
                             User.questsCompletedToday u) by (by rewrite Heq).
  simpl in E. unfold new_completed in E. rewrite Hq in E.
  destruct (User.questsCompletedToday u) as [l|]; simpl in E; [|done].
  injection E as E. apply (f_equal length) in E. rewrite length_app in E. simpl in E. lia.
Qed.

(** ** Properties of the route *)

(** C4: every error answer of the route, whatever its status, leaves
    the collection unchanged: effects are applied only after all
    checks pass. *)
Theorem POST_error_atomic (s : option string) (ob : option Body) (t : JsDate.t)
    (db db' : Db) (r : Response Result) :
  POST s ob t db = (r, db') -> is_error r = true -> db' = db.
Proof.
  intros Hp He. apply POST_cases in Hp as [[-> _] | (? & ? & ? & ? & _ & _ & _ & _ & _ & ->)]; done.
Qed.

(** C1: once the route has succeeded for a user, a daily-set request
    on the same calendar day is refused and changes nothing; with the
    four valid names the answer is 400 "Daily Quest already
    completed today". *)
Theorem daily_twice_same_day (uid : string) (l1 : list string) (b2 : Body)
    (t1 t2 : JsDate.t) (db db1 : Db) (r1 : Response Result) (res : Result) :
  POST (Some uid) (Some (mkBody (Some l1) QDaily)) t1 db = (r1, db1) ->
  json r1 = JSuccess res ->
  questType b2 = QDaily ->
  JsDate.toDateString t2 = JsDate.toDateString t1 ->
  exists r2, POST (Some uid) (Some b2) t2 db1 = (r2, db1) /\ is_error r2 = true /\
    (forall l, completedQuests b2 = Some l -> valid_daily l ->
       r2 = respond_err 400 MSG_DAILY_DONE).
Proof. intros Hp Hj Hq Hd. exact (daily_blocked_after_success _ _ _ _ _ _ _ _ _ Hp Hj Hq Hd). Qed.

(** C2: a valid daily set on the day after the last completion is
    accepted and the streak becomes the stored streak plus one, in
    the answer and in the document. *)
Theorem daily_streak_next_day (uid : string) (l : list string) (t lq : JsDate.t)
    (db : Db) (u : User.t) :
  db !! uid = Some u -> User.lastQuestDate u = Some lq ->
  JsDate.toDateString lq = (JsDate.toDateString t - 1)%Z -> valid_daily l ->
  exists res d', POST (Some uid) (Some (mkBody (Some l) QDaily)) t db =
                   (respond_ok res, <[uid := d']> db) /\
    res_streakDays res = js_or_nat (User.streakDays u) 0 + 1 /\
    User.streakDays d' = Some (res_streakDays res).
Proof.
  intros Hu Hl Hd Hv.
  assert (Hb : branch u (mkBody (Some l) QDaily) t =
               inr (set_streak (mkAcc (xp_of u + daily_rewards.1)
                      (Stats.add (initial_stats u) strength daily_rewards.2)
                      (js_or_nat (User.streakDays u) 1))
                      (js_or_nat (User.streakDays u) 0 + 1))).
  { cbn [branch questType completedQuests]. rewrite (daily_branch_valid _ _ _ _ Hv).
    exact (streak_step_yesterday _ _ _ _ Hl Hd). }
  rewrite (POST_branch_ok _ _ _ _ _ _ Hu Hb).
  - by do 2 eexists.
  - apply updateFields_changes. rewrite Hl. intros [= ->]. lia.
Qed.

(** C3: a valid daily set two or more days after the last completion
    is accepted and restarts the streak at 1. *)
Theorem daily_streak_gap (uid : string) (l : list string) (t lq : JsDate.t)
    (db : Db) (u : User.t) :
  db !! uid = Some u -> User.lastQuestDate u = Some lq ->
  (JsDate.toDateString lq < JsDate.toDateString t - 1)%Z -> valid_daily l ->
  exists res d', POST (Some uid) (Some (mkBody (Some l) QDaily)) t db =
                   (respond_ok res, <[uid := d']> db) /\
    res_streakDays res = 1 /\ User.streakDays d' = Some 1.
Proof.
  intros Hu Hl Hd Hv.
  assert (Hb : branch u (mkBody (Some l) QDaily) t =
               inr (set_streak (mkAcc (xp_of u + daily_rewards.1)
                      (Stats.add (initial_stats u) strength daily_rewards.2)
                      (js_or_nat (User.streakDays u) 1)) 1)).
  { cbn [branch questType completedQuests]. rewrite (daily_branch_valid _ _ _ _ Hv).
    apply (streak_step_gap _ _ _ _ Hl); lia. }
  rewrite (POST_branch_ok _ _ _ _ _ _ Hu Hb).
  - by do 2 eexists.
  - apply updateFields_changes. rewrite Hl. intros [= ->]. lia.
Qed.

(** C5: submitting an individual quest already in
    [questsCompletedToday] is refused with 400 and changes nothing. *)
Theorem individual_duplicate_rejected (uid qn : string) (t : JsDate.t) (db : Db) (u : User.t) :
  db !! uid = Some u -> qn ∈ js_or_list (User.questsCompletedToday u) ->
  POST (Some uid) (Some (mkBody (Some [qn]) QIndividual)) t db =
    (respond_err 400 MSG_QUEST_DONE, db).
Proof.
  intros Hu Hin. apply (POST_branch_err _ _ _ _ u); [done|].
  unfold branch, individual_branch. simpl. by rewrite (proj2 (js_includes_spec _ _) Hin).
Qed.

(** C7 (finding): an individual quest name that is in no rotating
    category is accepted: the answer is a success, no experience is
    added, and the unknown name is recorded as completed today. *)
Theorem individual_unknown_quest_accepted (uid qn : string) (t : JsDate.t) (db : Db)
    (u : User.t) :
  db !! uid = Some u -> findByName qn = None ->
  qn ∉ js_or_list (User.questsCompletedToday u) ->
  exists res d', POST (Some uid) (Some (mkBody (Some [qn]) QIndividual)) t db =
                   (respond_ok res, <[uid := d']> db) /\
    xp_of d' = xp_of u /\
    User.questsCompletedToday d' = Some (js_or_list (User.questsCompletedToday u) ++ [qn]).
Proof.
  intros Hu Hf Hin.
  assert (Hb : branch u (mkBody (Some [qn]) QIndividual) t = inr (initial_acc u)).
  { unfold branch, individual_branch. simpl.
    rewrite (proj2 (js_includes_false _ _) Hin). simpl. unfold award. by rewrite Hf. }
  rewrite (POST_branch_ok _ _ _ _ _ _ Hu Hb); [|by apply updateFields_individual_changes].
  do 2 eexists. split; [done|]. split; [apply xp_of_updateFields | done].
Qed.

(** C8 (finding): after a successful individual completion, the
    daily set submitted the same calendar day with its four valid
    names is refused as "already completed", although the individual
    completion did not set [hasCompletedDailyStrength]. *)
Theorem individual_blocks_daily (uid qn : string) (l : list string) (t1 t2 : JsDate.t)
    (db db1 : Db) (r1 : Response Result) (res : Result) :
  POST (Some uid) (Some (mkBody (Some [qn]) QIndividual)) t1 db = (r1, db1) ->
  json r1 = JSuccess res ->
  JsDate.toDateString t2 = JsDate.toDateString t1 -> valid_daily l ->
  (db1 !! uid) ≫= User.hasCompletedDailyStrength = (db !! uid) ≫= User.hasCompletedDailyStrength /\
  POST (Some uid) (Some (mkBody (Some l) QDaily)) t2 db1 = (respond_err 400 MSG_DAILY_DONE, db1).
Proof.
  intros Hp Hj Hd Hv.
  destruct (daily_blocked_after_success _ _ (mkBody (Some l) QDaily) _ _ _ _ _ _ Hp Hj eq_refl Hd)
    as (r2 & Hp2 & _ & Hr2).
  rewrite Hp2, (Hr2 l eq_refl Hv). split; [|done].
  destruct (POST_success_doc _ _ _ _ _ _ _ Hp Hj) as (b & u & a & [= <-] & Hu & _ & -> & _).
  by rewrite lookup_insert_eq, Hu.
Qed.

(** The route never loses experience or stats: every document
    is still there afterwards, with at least its experience and, as
    the route reads stats ([|| 10]), at least each stat. *)
Theorem POST_monotone (s : option string) (ob : option Body) (t : JsDate.t) (db db' : Db)
    (r : Response Result) :
  POST s ob t db = (r, db') ->
  forall k d, db !! k = Some d ->
    exists d', db' !! k = Some d' /\ xp_of d <= xp_of d' /\
               Stats.le (initial_stats d) (initial_stats d').
Proof.
  intros Hp k d Hk.
  apply POST_cases in Hp as [[-> _] | (uid & b & u & a & _ & _ & Hu & Hb & -> & _)].
  { exists d. split; [done|]. split; auto with hl. }
  destruct (decide (uid = k)) as [<-|Hne].
  - rewrite lookup_insert_eq. eexists; split; [done|].
    rewrite Hu in Hk. injection Hk as <-.
    destruct (branch_mono _ _ _ _ Hb) as [Hx Hs]. rewrite xp_of_updateFields.
    split; [done|]. eapply Stats.le_trans; [exact Hs | by apply initial_stats_ge].
  - rewrite lookup_insert_ne by done. exists d. split; [done|]. split; auto with hl.
Qed.

(** C6: the route keeps the stored [level] equal to the level of the
    stored experience in every document. *)
Theorem POST_level_consistent (s : option string) (ob : option Body) (t : JsDate.t)
    (db db' : Db) (r : Response Result) :
  POST s ob t db = (r, db') ->
  map_Forall (fun _ d => level_consistent d) db ->
  map_Forall (fun _ d => level_consistent d) db'.
Proof.
  intros Hp Hinv.
  apply POST_cases in Hp as [[-> _] | (? & ? & ? & ? & _ & _ & _ & _ & -> & _)]; [done|].
  apply map_Forall_insert_2; [|done].
  intros l Hl. rewrite xp_of_updateFields. simpl in Hl. by injection Hl as <-.
Qed.

(** With the four valid names, the daily set is refused exactly
    when the document's [lastQuestDate] (written by any completion,
    daily or individual) falls on today's calendar day; otherwise it
    succeeds. *)
Theorem daily_refused_iff (uid : string) (l : list string) (t : JsDate.t) (db : Db) (u : User.t) :
  db !! uid = Some u -> valid_daily l ->
  is_error (POST (Some uid) (Some (mkBody (Some l) QDaily)) t db).1 = true <->
  exists lq, User.lastQuestDate u = Some lq /\ JsDate.toDateString lq = JsDate.toDateString t.
Proof.
  intros Hu Hv.
  assert (Hok : (forall lq, User.lastQuestDate u = Some lq ->
                   JsDate.toDateString lq <> JsDate.toDateString t) ->
                is_error (POST (Some uid) (Some (mkBody (Some l) QDaily)) t db).1 = false).
  { intros Hn. by destruct (daily_accepted uid l t db u Hu Hv Hn) as (a & -> & _). }
  destruct (User.lastQuestDate u) as [lq|] eqn:Hl.
  - destruct (Z.eq_dec (JsDate.toDateString lq) (JsDate.toDateString t)) as [Hd|Hd].
    + destruct (daily_branch_same_day u (Some l) t lq (initial_acc u) Hl Hd) as (r & Hb & He & _).
      rewrite (POST_branch_err uid (mkBody (Some l) QDaily) t db u r Hu Hb). simpl. split; [intros _; by exists lq | done].
    + rewrite Hok by (intros ? [= <-]; done). split; [done|]. by intros (? & [= <-] & ?).
  - rewrite Hok by done. split; [done|]. by intros (? & ? & _).
Qed.

End WithCatalog.

(** ** Witnesses, on the sample catalog and collection *)

Definition daily_names : list string := ["Push-ups"; "Sit-ups"; "Squats"; "Running"].
Definition daily_body : Body := mkBody (Some daily_names) QDaily.

Lemma POST_error_atomic_witness :
  POST None (Some daily_body) (Sample.day 1000 5) Sample.db0 =
    (respond_err 401 "Unauthorized", Sample.db0) /\ Sample.db0 = Sample.db0.
Proof.
  split; [reflexivity|].
  apply (POST_error_atomic None (Some daily_body) (Sample.day 1000 5) Sample.db0 Sample.db0
           (respond_err 401 "Unauthorized")); reflexivity.
Defined.

Lemma daily_twice_same_day_witness :
  let db1 := (POST (Some "u1") (Some daily_body) (Sample.day 1000 5) Sample.db0).2 in
  exists r2, POST (Some "u1") (Some daily_body) (Sample.day 1000 50) db1 = (r2, db1) /\
    is_error r2 = true /\
    (forall l, completedQuests daily_body = Some l -> valid_daily l ->
       r2 = respond_err 400 MSG_DAILY_DONE).
Proof.
  cbv zeta. eapply (daily_twice_same_day "u1" daily_names daily_body (Sample.day 1000 5)
           (Sample.day 1000 50) Sample.db0).
  - apply surjective_pairing.
  - reflexivity.
  - reflexivity.
  - vm_compute. reflexivity.
Defined.

Lemma daily_streak_next_day_witness :
  exists res d', POST (Some "u1") (Some daily_body) (Sample.day 1000 5)
                   (<["u1" := Sample.u_after 999 3 daily_names]> ∅) =
                 (respond_ok res, <["u1" := d']> (<["u1" := Sample.u_after 999 3 daily_names]> ∅)) /\
    res_streakDays res = 4 /\ User.streakDays d' = Some (res_streakDays res).
Proof.
  apply (daily_streak_next_day "u1" daily_names (Sample.day 1000 5) (Sample.day 999 3600000)
           _ (Sample.u_after 999 3 daily_names)).
  - reflexivity.
  - reflexivity.
  - vm_compute. reflexivity.
  - apply (bool_decide_unpack _). vm_compute. reflexivity.
Defined.

Lemma daily_streak_gap_witness :
  exists res d', POST (Some "u1") (Some daily_body) (Sample.day 1000 5)
                   (<["u1" := Sample.u_after 997 3 daily_names]> ∅) =
                 (respond_ok res, <["u1" := d']> (<["u1" := Sample.u_after 997 3 daily_names]> ∅)) /\
    res_streakDays res = 1 /\ User.streakDays d' = Some 1.
Proof.
  apply (daily_streak_gap "u1" daily_names (Sample.day 1000 5) (Sample.day 997 3600000)
           _ (Sample.u_after 997 3 daily_names)).
  - reflexivity.
  - reflexivity.
  - vm_compute. reflexivity.
  - apply (bool_decide_unpack _). vm_compute. reflexivity.
Defined.

Lemma individual_duplicate_rejected_witness :
  POST (Some "u1") (Some (mkBody (Some ["Read"]) QIndividual)) (Sample.day 1000 5)
    (<["u1" := Sample.u_after 1000 1 ["Read"]]> ∅) =
    (respond_err 400 MSG_QUEST_DONE, <["u1" := Sample.u_after 1000 1 ["Read"]]> ∅).
Proof.
  apply (individual_duplicate_rejected "u1" "Read" _ _ (Sample.u_after 1000 1 ["Read"])).
  - reflexivity.
  - apply (bool_decide_unpack _). vm_compute. reflexivity.
Defined.

Lemma individual_unknown_quest_accepted_witness :
  exists res d', POST (Some "u1") (Some (mkBody (Some ["Fly"]) QIndividual)) (Sample.day 1000 5)
                   Sample.db0 = (respond_ok res, <["u1" := d']> Sample.db0) /\
    xp_of d' = xp_of Sample.u_default /\
    User.questsCompletedToday d' = Some ([] ++ ["Fly"]).
Proof.
  apply (individual_unknown_quest_accepted "u1" "Fly" (Sample.day 1000 5) Sample.db0 Sample.u_default).
  - reflexivity.
  - reflexivity.
  - apply (bool_decide_unpack _). vm_compute. reflexivity.
Defined.

Lemma individual_blocks_daily_witness :
  let db1 := (POST (Some "u1") (Some (mkBody (Some ["Read"]) QIndividual)) (Sample.day 1000 5)
               Sample.db0).2 in
  (db1 !! "u1") ≫= User.hasCompletedDailyStrength = (Sample.db0 !! "u1") ≫= User.hasCompletedDailyStrength /\
  POST (Some "u1") (Some daily_body) (Sample.day 1000 600) db1 = (respond_err 400 MSG_DAILY_DONE, db1).
Proof.
  cbv zeta. eapply (individual_blocks_daily "u1" "Read" daily_names (Sample.day 1000 5) (Sample.day 1000 600)
           Sample.db0).
  - apply surjective_pairing.
  - reflexivity.
  - vm_compute. reflexivity.
  - apply (bool_decide_unpack _). vm_compute. reflexivity.
Defined.

Lemma POST_monotone_witness :
  let p := POST (Some "u1") (Some daily_body) (Sample.day 1000 5) Sample.db0 in
  exists d', p.2 !! "u1" = Some d' /\ xp_of Sample.u_default <= xp_of d' /\
             Stats.le (initial_stats Sample.u_default) (initial_stats d').
Proof.
  apply (POST_monotone (Some "u1") (Some daily_body) (Sample.day 1000 5) Sample.db0 _ _
           (surjective_pairing _)).
  reflexivity.
Defined.

Lemma POST_level_consistent_witness :
  map_Forall (fun _ d => level_consistent d)
    (POST (Some "u1") (Some daily_body) (Sample.day 1000 5) Sample.db0).2.
Proof.
  apply (POST_level_consistent (Some "u1") (Some daily_body) (Sample.day 1000 5) Sample.db0 _ _
           (surjective_pairing _)).
  apply map_Forall_insert_2; [| apply map_Forall_empty].
  intros l Hl. injection Hl as <-. reflexivity.
Defined.

Lemma daily_refused_iff_witness :
  is_error (POST (Some "u1") (Some daily_body) (Sample.day 1000 5)
              (<["u1" := Sample.u_after 1000 1 ["Read"]]> ∅)).1 = true <->
  exists lq, User.lastQuestDate (Sample.u_after 1000 1 ["Read"]) = Some lq /\
    JsDate.toDateString lq = JsDate.toDateString (Sample.day 1000 5).
Proof.
  apply daily_refused_iff; [reflexivity|].
  apply (bool_decide_unpack _). vm_compute. reflexivity.
Defined.

End Complete.
