(* ===== verification/Initialize.v ===== *)
(** * Initialize: the user-initialization route and the daily reset

    Models [POST] of [src/solo-leveling/src/app/api/user/initialize/route.ts].
    Every page calls it first.  It gives a document without a [level]
    the defaults [DEFAULT_USER_STATS] ([checkIfUserHasGamingStats],
    [initializeUserGamingStats] of [userHelpers.ts]), reads the document
    back, and applies the daily reset policy: when [lastQuestDate] lies
    on another calendar day than today, [questsCompletedToday] becomes
    [[]] and [hasCompletedDailyStrength] becomes [false], in the store
    ([updateOne], result ignored) and in the returned [userData]. *)

From S2P Require Import Prelude Level Catalog Store Complete.

Module Initialize.

(** The payload [{success: true, userData, wasInitialized}];
    [userData] is [null] when the document is missing. *)
Record Result := mkResult {
  userData : option User.t;
  wasInitialized : bool
}.

(** [$set: {questsCompletedToday: [], hasCompletedDailyStrength: false}]. *)
Definition reset_today (d : User.t) : User.t :=
  User.mk (User.email d) (User.password d) (User.name d) (User.username d)
    (User.hasSetUsername d) (User.createdAt d) (User.level d) (User.totalXP d)
    (User.xp d) (User.stats d) (User.streakDays d) (User.lastQuestDate d)
    (Some []) (Some false) (User.assignedQuests d).

(** The daily reset policy on the document read back: the document to
    return and the collection after the reset write. *)
Definition daily_reset (userId : string) (ud : option User.t) (today : JsDate.t) (db : Db)
    : option User.t * Db :=
  match ud with
  | Some u =>
      match User.lastQuestDate u with
      | Some lq =>
          if negb (Z.eqb (JsDate.toDateString lq) (JsDate.toDateString today)) then
            (Some (reset_today u), (Mongo.updateOne userId reset_today db).2)
          else (ud, db)
      | None => (ud, db)
      end
  | None => (ud, db)
  end.

(** The document an answer carries. *)
Definition result_data (r : Response Result) : option User.t :=
  match json r with JSuccess x => userData x | JError _ => None end.

Definition POST (session : option string) (today : JsDate.t) (db : Db) : Response Result * Db :=
  match session with
  | None => (respond_err 401 "Not authenticated", db)
  | Some userId =>
      let hasStats := UserHelpers.checkIfUserHasGamingStats userId db in
      let db1 := if hasStats then db else UserHelpers.initializeUserGamingStats userId db in
      let ud := UserHelpers.getUserWithGamingStats userId db1 in
      let '(ud', db2) := daily_reset userId ud today db1 in
      (respond_ok (mkResult ud' (negb hasStats)), db2)
  end.

(** ** Lemmas *)

Lemma daily_reset_same_day (uid : string) (u : User.t) (t : JsDate.t) (db : Db) :
  (forall lq, User.lastQuestDate u = Some lq -> JsDate.toDateString lq = JsDate.toDateString t) ->
  daily_reset uid (Some u) t db = (Some u, db).
Proof.
  intros H. unfold daily_reset. destruct (User.lastQuestDate u) as [lq|] eqn:E; [|done].
  rewrite (H lq eq_refl), Z.eqb_refl. done.
Qed.

Lemma daily_reset_new_day (uid : string) (u : User.t) (t lq : JsDate.t) (db : Db) :
  db !! uid = Some u -> User.lastQuestDate u = Some lq ->
  JsDate.toDateString lq <> JsDate.toDateString t ->
  daily_reset uid (Some u) t db = (Some (reset_today u), <[uid := reset_today u]> db).
Proof.
  intros Hu Hl Hd. unfold daily_reset. rewrite Hl.
  destruct (Z.eqb_spec (JsDate.toDateString lq) (JsDate.toDateString t)); [done|].
  simpl. by rewrite (Mongo.updateOne_lookup _ _ _ _ Hu).
Qed.

Lemma reset_today_idem (u : User.t) : reset_today (reset_today u) = reset_today u.
Proof. done. Qed.

(** The route on a document that already has its gaming stats. *)
Lemma POST_initialized (uid : string) (u : User.t) (t : JsDate.t) (db : Db) :
  db !! uid = Some u -> is_Some (User.level u) ->
  POST (Some uid) t db =
    let '(ud', db2) := daily_reset uid (Some u) t db in
    (respond_ok (mkResult ud' false), db2).
Proof.
  intros Hu Hl. unfold POST, UserHelpers.checkIfUserHasGamingStats, UserHelpers.getUserWithGamingStats.
  rewrite Hu. rewrite bool_decide_eq_true_2 by done. simpl. by rewrite Hu.
Qed.

(** A call for a document that is missing writes nothing. *)
Lemma POST_missing (uid : string) (t : JsDate.t) (db : Db) :
  db !! uid = None -> POST (Some uid) t db = (respond_ok (mkResult None true), db).
Proof.
  intros Hu. unfold POST, UserHelpers.checkIfUserHasGamingStats,
    UserHelpers.initializeUserGamingStats, UserHelpers.getUserWithGamingStats.
  rewrite Hu. simpl. rewrite Mongo.updateOne_missing by done. simpl. by rewrite Hu.
Qed.

(** A call for an existing document first makes sure it has stats. *)
Lemma POST_some (uid : string) (u : User.t) (t : JsDate.t) (db : Db) :
  db !! uid = Some u ->
  exists u1 db1, db1 !! uid = Some u1 /\ is_Some (User.level u1) /\
    POST (Some uid) t db =
      let '(ud', db2) := daily_reset uid (Some u1) t db1 in
      (respond_ok (mkResult ud' (negb (bool_decide (is_Some (User.level u))))), db2).
Proof.
  intros Hu. unfold POST, UserHelpers.checkIfUserHasGamingStats,
    UserHelpers.initializeUserGamingStats, UserHelpers.getUserWithGamingStats.
  rewrite Hu. case_bool_decide as Hl; simpl.
  - exists u, db. by rewrite Hu.
  - exists (UserHelpers.DEFAULT_USER_STATS u), (<[uid := UserHelpers.DEFAULT_USER_STATS u]> db).
    rewrite (Mongo.updateOne_lookup _ _ _ _ Hu), lookup_insert_eq. split; [done|]. split; [by eexists|done].
Qed.

(** The reset reaches a fixed point: applied again to what it returns
    and wrote, it changes nothing. *)
Lemma daily_reset_stable (uid : string) (u : User.t) (t : JsDate.t) (db : Db) :
  db !! uid = Some u ->
  exists u' db2, daily_reset uid (Some u) t db = (Some u', db2) /\ db2 !! uid = Some u' /\
    User.level u' = User.level u /\ daily_reset uid (Some u') t db2 = (Some u', db2).
Proof.
  intros Hu. unfold daily_reset. destruct (User.lastQuestDate u) as [lq|] eqn:Hl.
  - destruct (Z.eqb_spec (JsDate.toDateString lq) (JsDate.toDateString t)); simpl.
    + exists u, db. rewrite Hl. destruct (Z.eqb_spec (JsDate.toDateString lq) (JsDate.toDateString t)); done.
    + rewrite (Mongo.updateOne_lookup _ _ _ _ Hu).
      exists (reset_today u), (<[uid := reset_today u]> db).
      split; [done|]. split; [apply lookup_insert_eq|]. split; [done|]. simpl. rewrite Hl.
      destruct (Z.eqb_spec (JsDate.toDateString lq) (JsDate.toDateString t)); [done|]. simpl.
      rewrite (Mongo.updateOne_lookup _ _ _ _ (lookup_insert_eq _ _ _)).
      by rewrite reset_today_idem, insert_insert_eq.
  - exists u, db. by rewrite Hl.
Qed.

(** ** Properties of the route *)

(** C13: on a document that has its gaming stats the route applies
    the daily reset policy and nothing else: on a new calendar day it
    clears the day's completion state ([questsCompletedToday = []],
    [hasCompletedDailyStrength = false]) in the answer and in the
    store, leaving experience, level, stats, streak and the date of the
    last completion as they were; on the day of the last completion (or
    with none) it changes nothing and returns the stored document. *)
Theorem initialize_daily_policy (uid : string) (u : User.t) (t : JsDate.t) (db : Db) :
  db !! uid = Some u -> is_Some (User.level u) ->
  (forall lq, User.lastQuestDate u = Some lq -> JsDate.toDateString lq <> JsDate.toDateString t ->
    exists d, POST (Some uid) t db = (respond_ok (mkResult (Some d) false), <[uid := d]> db) /\
      User.questsCompletedToday d = Some [] /\ User.hasCompletedDailyStrength d = Some false /\
      User.totalXP d = User.totalXP u /\ User.level d = User.level u /\
      User.stats d = User.stats u /\ User.streakDays d = User.streakDays u /\
      User.lastQuestDate d = User.lastQuestDate u) /\
  ((forall lq, User.lastQuestDate u = Some lq -> JsDate.toDateString lq = JsDate.toDateString t) ->
    POST (Some uid) t db = (respond_ok (mkResult (Some u) false), db)).
Proof.
  intros Hu Hl. rewrite (POST_initialized _ _ _ _ Hu Hl). split.
  - intros lq Hlq Hd. rewrite (daily_reset_new_day _ _ _ _ _ Hu Hlq Hd). by eexists.
  - intros Hd. by rewrite daily_reset_same_day.
Qed.

(** A document without gaming stats gets [DEFAULT_USER_STATS]
    (level 1, no experience, every stat 10, no streak) and the answer
    reports the initialization. *)
Lemma initialize_defaults (uid : string) (u : User.t) (t : JsDate.t) (db : Db) :
  db !! uid = Some u -> User.level u = None ->
  POST (Some uid) t db =
    (respond_ok (mkResult (Some (UserHelpers.DEFAULT_USER_STATS u)) true),
     <[uid := UserHelpers.DEFAULT_USER_STATS u]> db).
Proof.
  intros Hu Hl. unfold POST, UserHelpers.checkIfUserHasGamingStats,
    UserHelpers.initializeUserGamingStats, UserHelpers.getUserWithGamingStats.
  rewrite Hu, Hl. simpl. rewrite (Mongo.updateOne_lookup _ _ _ _ Hu), lookup_insert_eq. done.
Qed.

(** The reset keeps a document at the [UserGamingStats] interface. *)
Lemma of_user_reset (d : User.t) :
  is_Some (GamingStats.of_user d) -> is_Some (GamingStats.of_user (reset_today d)).
Proof.
  unfold GamingStats.of_user. simpl.
  by destruct (User.level d), (User.totalXP d), (User.stats d), (User.streakDays d); simpl; intros [].
Qed.

(** The document the route answers is a [UserGamingStats] for every
    account that had no gaming stats (it gets [DEFAULT_USER_STATS]) or
    already was one; an account with a level but missing fields, as
    registration creates it, is answered as it is. *)
Lemma initialize_answer_typed (uid : string) (u : User.t) (t : JsDate.t) (db : Db) :
  db !! uid = Some u -> User.level u = None \/ is_Some (GamingStats.of_user u) ->
  exists d, result_data (POST (Some uid) t db).1 = Some d /\ is_Some (GamingStats.of_user d).
Proof.
  intros Hu [Hl|Hg].
  - rewrite (initialize_defaults _ _ _ _ Hu Hl). simpl. eexists. split; [done | by eexists].
  - assert (Hl : is_Some (User.level u)).
    { revert Hg. unfold GamingStats.of_user. destruct (User.level u); [by eexists | by intros []]. }
    rewrite (POST_initialized _ _ _ _ Hu Hl). unfold daily_reset.
    repeat case_match; simplify_eq/=; eexists; (split; [done|]); auto using of_user_reset.
Qed.

(** The route is idempotent: a second call at the same time
    leaves the collection as the first call left it and returns the same
    document. *)
Theorem initialize_idempotent (s : option string) (t : JsDate.t) (db : Db) :
  let p := POST s t db in
  (POST s t p.2).2 = p.2 /\ result_data (POST s t p.2).1 = result_data p.1.
Proof.
  destruct s as [uid|]; [|done]. cbv zeta.
  destruct (db !! uid) as [u|] eqn:Hu.
  - destruct (POST_some _ _ t _ Hu) as (u1 & db1 & Hu1 & Hl1 & ->).
    destruct (daily_reset_stable uid u1 t db1 Hu1) as (u' & db2 & -> & Hu' & Hl' & Hdr').
    rewrite (POST_initialized _ _ _ _ Hu'); [by rewrite Hdr' | by rewrite Hl'].
  - by rewrite !(POST_missing _ _ _ Hu).
Qed.

(** ** Witnesses *)

Definition u_read : User.t := Sample.u_after 1000 2 ["Read"].
Definition db_read : Db := <["u1" := u_read]> ∅.

Lemma initialize_daily_policy_witness :
  (exists d, POST (Some "u1") (Sample.day 1001 5) db_read =
      (respond_ok (mkResult (Some d) false), <["u1" := d]> db_read) /\
    User.questsCompletedToday d = Some [] /\ User.hasCompletedDailyStrength d = Some false /\
    User.totalXP d = User.totalXP u_read /\ User.level d = User.level u_read /\
    User.stats d = User.stats u_read /\ User.streakDays d = User.streakDays u_read /\
    User.lastQuestDate d = User.lastQuestDate u_read) /\
  POST (Some "u1") (Sample.day 1000 5) db_read = (respond_ok (mkResult (Some u_read) false), db_read).
Proof.
  split.
  - apply (proj1 (initialize_daily_policy "u1" u_read (Sample.day 1001 5) db_read eq_refl
                    ltac:(by eexists)) (Sample.day 1000 3600000)); [reflexivity | vm_compute; discriminate].
  - apply (proj2 (initialize_daily_policy "u1" u_read (Sample.day 1000 5) db_read eq_refl
                    ltac:(by eexists))).
    intros lq Hlq. injection Hlq as <-. vm_compute. reflexivity.
Defined.

End Initialize.
