(* ===== verification/Progression.v ===== *)
(** * Progression: the progression engine's contract and its refinement

    The specification describes the progression engine abstractly: a
    per-user [UserProgression] (cumulative experience, stats, streak,
    the date of the last completion, the names completed that day and
    whether the daily set was), the daily reset policy [normalize], and
    the two completion operations with their error taxonomy.  Module
    [ProgressionSpec] states that contract as executable definitions,
    independent of the code: it is what the routes are measured
    against, not a model of them.

    Module [Refinement] relates the code to it.  [abs] reads a stored
    document the way the completion route reads it ([totalXP || 0],
    each stat [|| 10], [streakDays || 0], the calendar day of
    [lastQuestDate]); [error_of] classifies an error answer by its
    message.  The theorems state when [Complete.POST] and the answer of
    [Initialize.POST] implement [completeDaily], [completeIndividual]
    and [normalize], and their hypotheses are exactly where the code
    departs from the contract (see the findings of [Complete]). *)

From S2P Require Import Prelude Level Catalog Store Complete Initialize.
Import Catalog Level.

Module ProgressionSpec.

(** [UserProgression], without the assignment (see [Assign]). *)
Record Progression := mkProg {
  cumulativeExperience : nat;
  stats : Stats.t;
  streakDays : nat;
  lastCompletionDate : option Z;
  completedToday : list string;
  dailySetCompletedToday : bool
}.

#[global] Instance Progression_eq_dec : EqDecision Progression.
Proof. solve_decision. Defined.

Inductive Error := InvalidRequest | AlreadyCompleted | UnknownQuest | NotAuthenticated
                 | StorageUnavailable.

#[global] Instance Error_eq_dec : EqDecision Error.
Proof. solve_decision. Defined.

(** The daily reset policy: stale per-day tracking is cleared. *)
Definition normalize (p : Progression) (today : Z) : Progression :=
  match lastCompletionDate p with
  | Some d =>
      if Z.eqb d today then p
      else mkProg (cumulativeExperience p) (stats p) (streakDays p) (lastCompletionDate p) [] false
  | None => p
  end.

(** The streak transition of a daily completion. *)
Definition streak_transition (prev : option Z) (streak : nat) (today : Z) : nat :=
  match prev with
  | None => 1
  | Some d => if Z.eqb d (today - 1) then streak + 1 else 1
  end.

Section WithCatalog.
Context `{QuestCatalog}.

Definition daily_names : list string := map name DAILY_STRENGTH_QUESTS.

(** Four names that equal, as a set, the names of the daily set. *)
Definition is_daily_set (names : list string) : bool :=
  (length names =? 4) && forallb (fun n => bool_decide (n ∈ daily_names)) names &&
  forallb (fun n => bool_decide (n ∈ names)) daily_names.

Definition daily_xp : nat := sum_list_with xpReward DAILY_STRENGTH_QUESTS.
Definition daily_strength : nat := sum_list_with statReward DAILY_STRENGTH_QUESTS.

Definition completeDaily (names : list string) (today : Z) (p0 : Progression)
    : Error + Progression :=
  let p := normalize p0 today in
  if negb (is_daily_set names) then inl InvalidRequest
  else if dailySetCompletedToday p then inl AlreadyCompleted
  else inr (mkProg (cumulativeExperience p + daily_xp) (Stats.add (stats p) strength daily_strength)
              (streak_transition (lastCompletionDate p) (streakDays p) today) (Some today)
              (completedToday p) true).

(** The quest of a name, the first match in the rotating categories. *)
Definition completeIndividual (names : list string) (today : Z) (p0 : Progression)
    : Error + Progression :=
  let p := normalize p0 today in
  match names with
  | [n] =>
      if bool_decide (n ∈ completedToday p) then inl AlreadyCompleted else
      match findByName n with
      | None => inl UnknownQuest
      | Some q =>
          inr (mkProg (cumulativeExperience p + xpReward q) (Stats.add (stats p) (stat q) (statReward q))
                 (streakDays p) (Some today) (completedToday p ++ [n]) (dailySetCompletedToday p))
      end
  | _ => inl InvalidRequest
  end.

End WithCatalog.
End ProgressionSpec.

Module Refinement.
Import ProgressionSpec.

(** The calendar day of a request time. *)
Definition day (t : JsDate.t) : Z := JsDate.toDateString t.

(** A stored document read as a [Progression], with the defaults the
    completion route applies when it reads it. *)
Definition abs (u : User.t) : Progression :=
  mkProg (Complete.xp_of u) (Complete.initial_stats u) (js_or_nat (User.streakDays u) 0)
    (JsDate.toDateString <$> User.lastQuestDate u) (js_or_list (User.questsCompletedToday u))
    (bool_decide (User.hasCompletedDailyStrength u = Some true)).

(** An error answer of the completion route, classified by its message. *)
Definition error_of (r : Response Complete.Result) : option Error :=
  match json r with
  | JSuccess _ => None
  | JError m =>
      Some (if String.eqb m Complete.MSG_DAILY || String.eqb m Complete.MSG_INDIVIDUAL then InvalidRequest
            else if String.eqb m Complete.MSG_DAILY_DONE || String.eqb m Complete.MSG_QUEST_DONE
            then AlreadyCompleted
            else if String.eqb m "Unauthorized" then NotAuthenticated
            else StorageUnavailable)
  end.

(** Where the code's daily check agrees with the contract's: a
    completion dated today is the daily set's, and a document without
    a completion date has neither the daily set done nor a streak
    beyond 1. *)
Definition coherent (u : User.t) (t : JsDate.t) : Prop :=
  (lastCompletionDate (abs u) = Some (day t) -> dailySetCompletedToday (abs u) = true) /\
  (lastCompletionDate (abs u) = None ->
     dailySetCompletedToday (abs u) = false /\ streakDays (abs u) <= 1).

(** A document whose per-day tracking is current for [t]. *)
Definition normal (u : User.t) (t : JsDate.t) : Prop := normalize (abs u) (day t) = abs u.

(** The contract's result with the code's [questsCompletedToday]. *)
Definition with_completed (names : list string) (p : Progression) : Progression :=
  mkProg (cumulativeExperience p) (stats p) (streakDays p) (lastCompletionDate p) names
    (dailySetCompletedToday p).

(** Every stat at least 1: what reading through [|| 10] yields. *)
Definition stats_pos (s : Stats.t) : Prop := forall k, 1 <= Stats.get s k.

(** ** Lemmas *)

Lemma normalize_fields (p : Progression) (today : Z) :
  cumulativeExperience (normalize p today) = cumulativeExperience p /\
  stats (normalize p today) = stats p /\ streakDays (normalize p today) = streakDays p /\
  lastCompletionDate (normalize p today) = lastCompletionDate p.
Proof. unfold normalize. by repeat case_match. Qed.

Lemma normalize_done (p : Progression) (today : Z) :
  dailySetCompletedToday (normalize p today) = true <->
  (lastCompletionDate p = Some today \/ lastCompletionDate p = None) /\ dailySetCompletedToday p = true.
Proof.
  unfold normalize. destruct (lastCompletionDate p) as [d|].
  - destruct (Z.eqb_spec d today) as [->|Hne]; simpl; [naive_solver|].
    split; [discriminate | intros [[[= ->]|?] _]; congruence].
  - naive_solver.
Qed.

Lemma js_or_nat_pos (n d : nat) : 1 <= n -> js_or_nat (Some n) d = n.
Proof. by destruct n; [lia|]. Qed.

Lemma initial_stats_pos (u : User.t) : stats_pos (Complete.initial_stats u).
Proof.
  intros k. unfold Complete.initial_stats. destruct (User.stats u) as [s|]; simpl;
    destruct k; simpl; unfold js_or_nat; repeat case_match; lia.
Qed.

Lemma stats_pos_add (s : Stats.t) (k : Stat) (n : nat) : stats_pos s -> stats_pos (Stats.add s k n).
Proof.
  intros Hs k'. pose proof (Hs k'). destruct (decide (k = k')) as [<-|Hne];
    [rewrite Stats.get_add_eq | rewrite Stats.get_add_ne by done]; lia.
Qed.

(** Stats written by the route are read back unchanged. *)
Lemma initial_stats_stored (d : User.t) (s : Stats.t) :
  User.stats d = Some s -> stats_pos s -> Complete.initial_stats d = s.
Proof.
  intros Hd Hs. unfold Complete.initial_stats. rewrite Hd. simpl.
  pose proof (Hs strength). pose proof (Hs agility). pose proof (Hs vitality).
  pose proof (Hs intelligence). pose proof (Hs sense).
  destruct s as [[|] [|] [|] [|] [|]]; simpl in *; try lia; done.
Qed.

Lemma fold_rewards `{QuestCatalog} (l : list QuestTemplate) (x s : nat) :
  fold_left (fun '(x, s) q => (x + xpReward q, s + statReward q)) l (x, s) =
  (x + sum_list_with xpReward l, s + sum_list_with statReward l).
Proof.
  revert x s. induction l as [|q l IH]; intros x s; simpl; [f_equal; lia|].
  rewrite IH. f_equal; lia.
Qed.

(** The rewards the route adds up are the contract's sums. *)
Lemma daily_rewards_sum `{QuestCatalog} : Complete.daily_rewards = (daily_xp, daily_strength).
Proof. unfold Complete.daily_rewards. by rewrite fold_rewards. Qed.

(** The route's check of the four names decides the contract's
    precondition: with four distinct daily names, four submitted names
    that include them all are them, as a set. *)
Lemma is_daily_set_spec `{CatalogLaws} (l : list string) :
  is_daily_set l = true <-> Complete.valid_daily l.
Proof.
  unfold is_daily_set, Complete.valid_daily, daily_names.
  rewrite !andb_true_iff, Nat.eqb_eq, !forallb_forall, Forall_forall.
  setoid_rewrite bool_decide_eq_true. setoid_rewrite <- list_elem_of_In. split.
  - intros [[Hl _] Hd]. by split.
  - intros [Hl Hall]. split; [split; [done|] | done]. intros n Hn.
    assert (Hp : map name DAILY_STRENGTH_QUESTS ≡ₚ l).
    { apply submseteq_length_Permutation; [by apply NoDup_submseteq; [apply daily_names_nodup|]|].
      rewrite length_map, daily_length. lia. }
    by rewrite Hp.
Qed.

Lemma daily_branch_invalid `{QuestCatalog} (u : User.t) (l : list string) (t : JsDate.t)
    (a : Complete.Acc) :
  ~ Complete.valid_daily l ->
  exists r, Complete.daily_branch u (Some l) t a = inl r /\ json r = JError Complete.MSG_DAILY.
Proof.
  intros Hn. unfold Complete.daily_branch.
  destruct (Nat.eqb_spec (length l) 4) as [E|E]; simpl; [|by eexists].
  destruct (js_every _ _) eqn:Hall; simpl; [|by eexists].
  exfalso. apply Hn. split; [done|]. by apply Complete.js_every_includes.
Qed.

(** The streak the route computes, off the day of the last
    completion, is the contract's transition. *)
Lemma streak_step_spec `{QuestCatalog} (u : User.t) (t : JsDate.t) (a : Complete.Acc) :
  Complete.newStreakDays a = js_or_nat (User.streakDays u) 1 -> coherent u t ->
  lastCompletionDate (abs u) <> Some (day t) ->
  Complete.streak_step u t a =
    inr (Complete.set_streak a (streak_transition (lastCompletionDate (abs u)) (streakDays (abs u)) (day t))).
Proof.
  intros Ha [_ Hc] Hne. unfold Complete.streak_step, streak_transition, day in *. cbn in *.
  destruct (User.lastQuestDate u) as [lq|]; simpl in *.
  - rewrite JsDate.toDateString_yesterday.
    destruct (Z.eqb_spec (JsDate.toDateString lq) (JsDate.toDateString t - 1)); [done|].
    destruct (Z.eqb_spec (JsDate.toDateString lq) (JsDate.toDateString t)); [congruence | done].
  - destruct (Hc eq_refl) as [_ Hs]. f_equal. destruct a as [x s k]. unfold Complete.set_streak. simpl in *.
    subst k. f_equal. destruct (User.streakDays u) as [[|[|]]|]; simpl in *; lia.
Qed.

(** The document the route writes, read back. *)
Lemma abs_updateFields (u : User.t) (b : Complete.Body) (t : JsDate.t) (a : Complete.Acc) (d : User.t) :
  stats_pos (Complete.newStats a) ->
  cumulativeExperience (abs (Complete.updateFields u b t a d)) = Complete.newTotalXP a /\
  stats (abs (Complete.updateFields u b t a d)) = Complete.newStats a /\
  lastCompletionDate (abs (Complete.updateFields u b t a d)) = Some (day t) /\
  completedToday (abs (Complete.updateFields u b t a d)) = js_or_list (Complete.new_completed u b).
Proof.
  intros Hp. split; [apply Complete.xp_of_updateFields|]. split; [|done].
  by apply initial_stats_stored.
Qed.

Lemma Progression_eta (p : Progression) :
  p = mkProg (cumulativeExperience p) (stats p) (streakDays p) (lastCompletionDate p)
        (completedToday p) (dailySetCompletedToday p).
Proof. by destruct p. Qed.

(** The initialization route's answer is the snapshot the contract
    describes: on a document with its gaming stats, the document
    returned reads as [normalize] of the stored one. *)
Lemma snapshot_refines_normalize (uid : string) (u : User.t) (t : JsDate.t) (db : Db) :
  db !! uid = Some u -> is_Some (User.level u) ->
  exists d, Initialize.result_data (Initialize.POST (Some uid) t db).1 = Some d /\
    abs d = normalize (abs u) (day t).
Proof.
  intros Hu Hl. rewrite (Initialize.POST_initialized _ _ _ _ Hu Hl).
  unfold Initialize.daily_reset, normalize, abs, day. simpl.
  destruct (User.lastQuestDate u) as [lq|] eqn:Hq; simpl; rewrite ?Hq; simpl;
    [|eexists; split; [reflexivity|]; unfold abs; by rewrite Hq].
  destruct (JsDate.toDateString lq =? JsDate.toDateString t)%Z eqn:E; simpl;
    eexists; (split; [reflexivity|]); unfold abs; simpl; rewrite ?Hq; simpl; rewrite ?E; reflexivity.
Qed.

(** ** Properties *)

#[local] Arguments Complete.POST : simpl never.
#[local] Arguments normalize : simpl never.
#[local] Arguments abs : simpl never.

(** C9: the daily-set completion of the route refines the contract's
    [completeDaily] on every document where a completion dated today is
    the daily set's: the same error class with nothing written, or the
    contract's new progression written and answered (level, stats and
    streak), the code storing the four names as the day's completions
    where the contract keeps the day's list. *)
Theorem POST_refines_completeDaily `{CatalogLaws} (uid : string) (u : User.t) (names : list string)
    (t : JsDate.t) (db : Db) :
  db !! uid = Some u -> coherent u t ->
  match completeDaily names (day t) (abs u) with
  | inl e => exists r, Complete.POST (Some uid) (Some (Complete.mkBody (Some names) Complete.QDaily)) t db
                       = (r, db) /\ error_of r = Some e
  | inr p => exists d, Complete.POST (Some uid) (Some (Complete.mkBody (Some names) Complete.QDaily)) t db
                       = (respond_ok (Complete.mkResult (calculateLevel (cumulativeExperience p)) (stats p)
                                        (streakDays p) (Some names)), <[uid := d]> db) /\
                       abs d = with_completed names p
  end.
Proof.
  intros Hu Hc. unfold completeDaily. cbv zeta.
  destruct (is_daily_set names) eqn:Hd; simpl.
  2: { assert (Hn : ~ Complete.valid_daily names) by (rewrite <- is_daily_set_spec; congruence).
       destruct (daily_branch_invalid u names t (Complete.initial_acc u) Hn) as (r & Hb & Hj).
       exists r. split; [by apply (Complete.POST_branch_err _ _ _ _ u) | unfold error_of; by rewrite Hj]. }
  apply is_daily_set_spec in Hd.
  destruct (decide (lastCompletionDate (abs u) = Some (day t))) as [Ht|Ht].
  - assert (E : dailySetCompletedToday (normalize (abs u) (day t)) = true)
      by (apply normalize_done; split; [by left | by apply Hc]).
    rewrite E. unfold abs in Ht. simpl in Ht. apply fmap_Some in Ht as (lq & Hl & Hday).
    destruct (Complete.daily_branch_same_day u (Some names) t lq (Complete.initial_acc u) Hl (eq_sym Hday))
      as (r & Hb & _ & Hv).
    rewrite (Hv names eq_refl Hd) in Hb. eexists. split; [by apply (Complete.POST_branch_err _ _ _ _ u) | done].
  - destruct (dailySetCompletedToday (normalize (abs u) (day t))) eqn:E.
    { exfalso. apply normalize_done in E as [[?|HN] Hdone]; [done|]. destruct (proj2 Hc HN). congruence. }
    simpl. destruct (normalize_fields (abs u) (day t)) as (E1 & E2 & E3 & E4). rewrite E1, E2, E3, E4.
    set (a := Complete.set_streak
                (Complete.mkAcc (Complete.xp_of u + daily_xp) (Stats.add (Complete.initial_stats u) strength daily_strength)
                   (js_or_nat (User.streakDays u) 1))
                (streak_transition (lastCompletionDate (abs u)) (streakDays (abs u)) (day t))).
    assert (Hb : Complete.branch u (Complete.mkBody (Some names) Complete.QDaily) t = inr a).
    { cbn [Complete.branch Complete.questType Complete.completedQuests].
      rewrite (Complete.daily_branch_valid _ _ _ _ Hd), daily_rewards_sum. by apply streak_step_spec. }
    assert (Hch : User.lastQuestDate u <> Some t) by (intros Hl; apply Ht; unfold abs; simpl; by rewrite Hl).
    eexists. rewrite (Complete.POST_branch_ok _ _ _ _ _ _ Hu Hb (Complete.updateFields_changes _ _ _ _ Hch)).
    split; [done|].
    assert (Hp : stats_pos (Complete.newStats a)) by apply stats_pos_add, initial_stats_pos.
    destruct (abs_updateFields u (Complete.mkBody (Some names) Complete.QDaily) t a u Hp) as (X1 & X2 & X3 & X4).
    rewrite (Progression_eta (abs _)), X1, X2, X3, X4. unfold with_completed, abs. simpl.
    by destruct (streak_transition _ _ _).
Qed.

(** C10: the individual completion of the route refines the
    contract's [completeIndividual] on every document whose per-day
    tracking is current and for a name of a rotating quest: the same
    error class with nothing written, or the contract's new
    progression written and answered (level, stats and the day's
    completions). *)
Theorem POST_refines_completeIndividual `{CatalogLaws} (uid : string) (u : User.t)
    (names : list string) (t : JsDate.t) (db : Db) :
  db !! uid = Some u -> normal u t -> (forall n, names = [n] -> is_Some (findByName n)) ->
  match completeIndividual names (day t) (abs u) with
  | inl e => exists r, Complete.POST (Some uid) (Some (Complete.mkBody (Some names) Complete.QIndividual)) t db
                       = (r, db) /\ error_of r = Some e
  | inr p => exists res d,
      Complete.POST (Some uid) (Some (Complete.mkBody (Some names) Complete.QIndividual)) t db
        = (respond_ok res, <[uid := d]> db) /\ abs d = p /\
      Complete.res_levelInfo res = calculateLevel (cumulativeExperience p) /\
      Complete.res_newStats res = stats p /\ Complete.res_questsCompletedToday res = Some (completedToday p)
  end.
Proof.
  intros Hu Hn Hk. unfold completeIndividual. cbv zeta. rewrite Hn.
  destruct names as [|n [|n' rest]].
  2: destruct (bool_decide (n ∈ completedToday (abs u))) eqn:Hin.
  all: cbn iota.
  1,4: eexists; split; [apply (Complete.POST_branch_err _ _ _ _ u); [done | reflexivity] | reflexivity].
  - apply bool_decide_eq_true, js_includes_spec in Hin. unfold abs in Hin. simpl in Hin.
    exists (respond_err 400 Complete.MSG_QUEST_DONE). split; [|reflexivity].
    apply (Complete.POST_branch_err _ _ _ _ u); [done|].
    cbn [Complete.branch Complete.questType Complete.completedQuests Complete.individual_branch].
    simpl. rewrite Hin. reflexivity.
  - destruct (Hk n eq_refl) as [q Hq]. rewrite Hq.
    apply bool_decide_eq_false in Hin. unfold abs in Hin. simpl in Hin.
    assert (Hnot : js_includes (js_or_list (User.questsCompletedToday u)) n = false).
    { destruct (js_includes _ _) eqn:E; [|done]. by apply js_includes_spec in E. }
    set (a := Complete.mkAcc (Complete.xp_of u + xpReward q)
                (Stats.add (Complete.initial_stats u) (stat q) (statReward q)) (js_or_nat (User.streakDays u) 1)).
    assert (Hb : Complete.branch u (Complete.mkBody (Some [n]) Complete.QIndividual) t = inr a).
    { cbn [Complete.branch Complete.questType Complete.completedQuests Complete.individual_branch].
      simpl. rewrite Hnot. simpl. unfold Complete.award. by rewrite Hq. }
    do 2 eexists. rewrite (Complete.POST_branch_ok _ _ _ _ _ _ Hu Hb
                             (Complete.updateFields_individual_changes u (Complete.mkBody (Some [n]) Complete.QIndividual) t a eq_refl)).
    split; [done|].
    assert (Hp : stats_pos (Complete.newStats a)) by apply stats_pos_add, initial_stats_pos.
    destruct (abs_updateFields u (Complete.mkBody (Some [n]) Complete.QIndividual) t a u Hp) as (X1 & X2 & X3 & X4).
    split; [|done]. rewrite (Progression_eta (abs _)), X1, X2, X3, X4. by unfold abs.
Qed.

(** ** Witnesses *)

Definition sample_daily : list string := ["Push-ups"; "Sit-ups"; "Squats"; "Running"].

Lemma coherent_u_default : coherent Sample.u_default (Sample.day 10 0).
Proof. unfold coherent, abs. vm_compute. split; [intros [=] | intros _; split; [reflexivity | lia]]. Qed.

Lemma POST_refines_completeDaily_witness :
  coherent Sample.u_default (Sample.day 10 0) /\
  match completeDaily sample_daily (day (Sample.day 10 0)) (abs Sample.u_default) with
  | inl e => exists r, Complete.POST (Some "u1") (Some (Complete.mkBody (Some sample_daily) Complete.QDaily))
                         (Sample.day 10 0) Sample.db0 = (r, Sample.db0) /\ error_of r = Some e
  | inr p => exists d, Complete.POST (Some "u1") (Some (Complete.mkBody (Some sample_daily) Complete.QDaily))
                         (Sample.day 10 0) Sample.db0
                       = (respond_ok (Complete.mkResult (calculateLevel (cumulativeExperience p)) (stats p)
                                        (streakDays p) (Some sample_daily)), <[ "u1" := d]> Sample.db0) /\
                       abs d = with_completed sample_daily p
  end.
Proof.
  split; [apply coherent_u_default|].
  apply (POST_refines_completeDaily "u1" Sample.u_default sample_daily (Sample.day 10 0) Sample.db0).
  - reflexivity.
  - apply coherent_u_default.
Defined.

Lemma POST_refines_completeIndividual_witness :
  normal Sample.u_default (Sample.day 10 0) /\ is_Some (findByName "Read") /\
  match completeIndividual ["Read"] (day (Sample.day 10 0)) (abs Sample.u_default) with
  | inl e => exists r, Complete.POST (Some "u1") (Some (Complete.mkBody (Some ["Read"]) Complete.QIndividual))
                         (Sample.day 10 0) Sample.db0 = (r, Sample.db0) /\ error_of r = Some e
  | inr p => exists res d,
      Complete.POST (Some "u1") (Some (Complete.mkBody (Some ["Read"]) Complete.QIndividual)) (Sample.day 10 0)
        Sample.db0 = (respond_ok res, <[ "u1" := d]> Sample.db0) /\ abs d = p /\
      Complete.res_levelInfo res = calculateLevel (cumulativeExperience p) /\
      Complete.res_newStats res = stats p /\ Complete.res_questsCompletedToday res = Some (completedToday p)
  end.
Proof.
  split; [reflexivity|]. split; [vm_compute; by eexists|].
  apply (POST_refines_completeIndividual "u1" Sample.u_default ["Read"] (Sample.day 10 0) Sample.db0).
  - reflexivity.
  - reflexivity.
  - intros n [= <-]. vm_compute. by eexists.
Defined.

End Refinement.
