(* ===== verification/Concurrency.v ===== *)
(** * Concurrency: overlapping requests to the completion route

    The completion route awaits twice on the collection: [findOne]
    reads the document, the handler computes [updateFields] from that
    snapshot, and [updateOne] writes it with [$set].  Between the two,
    the server may run other requests of the same user.  [prepare] is
    the route up to the write (every early return included), [commit]
    the write and the answer; [POST_prepare_commit] shows the route is
    their composition.  [overlap] runs two requests with both reads
    before both writes, the interleaving the store's last-write-wins
    semantics allows; [serial] runs them one after the other.
    [overlap_last_write_wins] shows that two overlapping completions
    that both pass their checks leave the collection as the second
    alone would, and [overlapping_individual_lost_update] what that
    costs for two individual quests. *)

From S2P Require Import Prelude Level Catalog Store Complete.
Import Catalog Level.

Module Concurrency.
Import Complete.

(** A request: the session, the parsed body, the request time. *)
Record Request := mkReq { rq_session : option string; rq_body : option Body; rq_today : JsDate.t }.

(** What the route holds when it reaches [updateOne]. *)
Record Prepared := mkPrepared {
  pr_user : string;
  pr_snapshot : User.t;
  pr_body : Body;
  pr_today : JsDate.t;
  pr_acc : Acc
}.

(** The route up to the write: an early answer, or the update to
    write computed from the document read. *)
Definition prepare `{QuestCatalog} (q : Request) (db : Db) : Response Result + Prepared :=
  match rq_session q with
  | None => inl (respond_err 401 "Unauthorized")
  | Some userId =>
  match rq_body q with
  | None => inl (respond_err 500 "Internal server error")
  | Some b =>
  match db !! userId with
  | None => inl (respond_err 404 "User not found")
  | Some u =>
  match branch u b (rq_today q) with
  | inl r => inl r
  | inr a => inr (mkPrepared userId u b (rq_today q) a)
  end end end end.

(** [updateOne({_id}, {$set: updateFields})] on the collection as it
    is now, and the answer. *)
Definition commit (p : Prepared) (db : Db) : Response Result * Db :=
  let '(modifiedCount, db') :=
    Mongo.updateOne (pr_user p) (updateFields (pr_snapshot p) (pr_body p) (pr_today p) (pr_acc p)) db in
  if modifiedCount =? 0 then (respond_err 500 "Failed to update user", db')
  else (respond_ok (mkResult (calculateLevel (newTotalXP (pr_acc p))) (newStats (pr_acc p))
                      (newStreakDays (pr_acc p)) (new_completed (pr_snapshot p) (pr_body p))), db').

(** A request whose read has happened: answered, or waiting to write. *)
Definition finish (x : Response Result + Prepared) (db : Db) : Response Result * Db :=
  match x with inl r => (r, db) | inr p => commit p db end.

(** Both reads, then both writes in the order of the reads. *)
Definition overlap `{QuestCatalog} (q1 q2 : Request) (db : Db) : Response Result * Response Result * Db :=
  let x1 := prepare q1 db in
  let x2 := prepare q2 db in
  let '(r1, db1) := finish x1 db in
  let '(r2, db2) := finish x2 db1 in
  (r1, r2, db2).

(** One request after the other. *)
Definition serial `{QuestCatalog} (q1 q2 : Request) (db : Db) : Response Result * Response Result * Db :=
  let '(r1, db1) := POST (rq_session q1) (rq_body q1) (rq_today q1) db in
  let '(r2, db2) := POST (rq_session q2) (rq_body q2) (rq_today q2) db1 in
  (r1, r2, db2).

(** An individual completion of one quest by [uid] at [t]. *)
Definition individual (uid n : string) (t : JsDate.t) : Request :=
  mkReq (Some uid) (Some (mkBody (Some [n]) QIndividual)) t.

(** ** Lemmas *)

Section WithCatalog.
Context `{QuestCatalog}.

(** The route is its read phase followed by its write phase. *)
Lemma POST_prepare_commit (q : Request) (db : Db) :
  POST (rq_session q) (rq_body q) (rq_today q) db = finish (prepare q db) db.
Proof. unfold POST, prepare, finish, commit. repeat (case_match; simpl in *); by simplify_eq. Qed.

(** The update an individual completion of a rotating quest prepares. *)
Lemma prepare_individual (uid n : string) (t : JsDate.t) (db : Db) (u : User.t) (q : QuestTemplate) :
  db !! uid = Some u -> findByName n = Some q -> n ∉ js_or_list (User.questsCompletedToday u) ->
  prepare (individual uid n t) db =
    inr (mkPrepared uid u (mkBody (Some [n]) QIndividual) t
           (mkAcc (xp_of u + xpReward q) (Stats.add (initial_stats u) (stat q) (statReward q))
              (js_or_nat (User.streakDays u) 1))).
Proof.
  intros Hu Hq Hn. unfold prepare, individual. cbn [rq_session rq_body rq_today]. rewrite Hu.
  cbn [branch questType completedQuests individual_branch]. simpl.
  destruct (js_includes _ n) eqn:E; [by apply js_includes_spec in E|]. simpl.
  unfold award. by rewrite Hq.
Qed.

(** A write changes any document whose day list differs from the one
    it writes, and is then answered with success. *)
Lemma commit_changes (p : Prepared) (db : Db) (d : User.t) :
  db !! pr_user p = Some d ->
  User.questsCompletedToday d <> new_completed (pr_snapshot p) (pr_body p) ->
  commit p db = (respond_ok (mkResult (calculateLevel (newTotalXP (pr_acc p))) (newStats (pr_acc p))
                               (newStreakDays (pr_acc p)) (new_completed (pr_snapshot p) (pr_body p))),
                 <[pr_user p := updateFields (pr_snapshot p) (pr_body p) (pr_today p) (pr_acc p) d]> db).
Proof.
  intros Hd Hne. unfold commit.
  rewrite (Mongo.updateOne_modified _ _ _ _ Hd); [done|].
  intros E. apply Hne. by rewrite <- E.
Qed.

(** Run one after the other, the same two completions both count. *)
Lemma serial_individual_adds (uid n1 n2 : string) (q1 q2 : QuestTemplate) (t1 t2 : JsDate.t) (db : Db)
    (u : User.t) :
  db !! uid = Some u -> findByName n1 = Some q1 -> findByName n2 = Some q2 -> n1 <> n2 ->
  n1 ∉ js_or_list (User.questsCompletedToday u) -> n2 ∉ js_or_list (User.questsCompletedToday u) ->
  exists d, (serial (individual uid n1 t1) (individual uid n2 t2) db).2 !! uid = Some d /\
    xp_of d = xp_of u + xpReward q1 + xpReward q2 /\
    js_or_list (User.questsCompletedToday d) = js_or_list (User.questsCompletedToday u) ++ [n1; n2].
Proof.
  intros Hu Hq1 Hq2 Hne Hn1 Hn2. unfold serial.
  rewrite (POST_prepare_commit (individual uid n1 t1)), (prepare_individual _ _ _ _ _ _ Hu Hq1 Hn1).
  unfold finish. rewrite (commit_changes _ _ u); [|done|].
  2: { unfold new_completed. simpl. destruct (User.questsCompletedToday u) as [l|]; simpl in *.
       - intros [= E]. apply (f_equal length) in E. rewrite length_app in E. simpl in E. lia.
       - done. }
  set (u1 := updateFields u (mkBody (Some [n1]) QIndividual) t1
               (mkAcc (xp_of u + xpReward q1) (Stats.add (initial_stats u) (stat q1) (statReward q1))
                  (js_or_nat (User.streakDays u) 1)) u).
  assert (Hu1 : <[uid := u1]> db !! uid = Some u1) by apply lookup_insert_eq.
  assert (Hn2' : n2 ∉ js_or_list (User.questsCompletedToday u1)).
  { unfold u1, new_completed. simpl. rewrite elem_of_app, list_elem_of_singleton. intros [?|?]; congruence. }
  rewrite (POST_prepare_commit (individual uid n2 t2)), (prepare_individual _ _ _ _ _ _ Hu1 Hq2 Hn2').
  unfold finish. rewrite (commit_changes _ _ u1); [|done|].
  2: { unfold new_completed. simpl. intros [= E]. apply (f_equal length) in E.
       rewrite !length_app in E. simpl in E. lia. }
  simpl. rewrite lookup_insert_eq. eexists. split; [done|]. split.
  - rewrite xp_of_updateFields. unfold u1. rewrite xp_of_updateFields. cbn [newTotalXP]. lia.
  - unfold new_completed. simpl. by rewrite <- app_assoc.
Qed.

(** Two individual completions of different quests whose reads both
    precede either write: both answers and the collection left. *)
Lemma overlap_individual (uid n1 n2 : string) (q1 q2 : QuestTemplate) (t1 t2 : JsDate.t) (db : Db)
    (u : User.t) :
  db !! uid = Some u -> findByName n1 = Some q1 -> findByName n2 = Some q2 -> n1 <> n2 ->
  n1 ∉ js_or_list (User.questsCompletedToday u) -> n2 ∉ js_or_list (User.questsCompletedToday u) ->
  exists res1 res2 d,
    overlap (individual uid n1 t1) (individual uid n2 t2) db = (respond_ok res1, respond_ok res2, <[uid := d]> db) /\
    res_questsCompletedToday res1 = Some (js_or_list (User.questsCompletedToday u) ++ [n1]) /\
    res_questsCompletedToday res2 = Some (js_or_list (User.questsCompletedToday u) ++ [n2]) /\
    xp_of d = xp_of u + xpReward q2 /\
    User.questsCompletedToday d = Some (js_or_list (User.questsCompletedToday u) ++ [n2]).
Proof.
  intros Hu Hq1 Hq2 Hne Hn1 Hn2. unfold overlap.
  rewrite (prepare_individual _ _ _ _ _ _ Hu Hq1 Hn1), (prepare_individual _ _ _ _ _ _ Hu Hq2 Hn2).
  unfold finish. rewrite (commit_changes _ _ u); [|done|].
  2: { unfold new_completed. simpl. destruct (User.questsCompletedToday u) as [l|]; simpl in *.
       - intros [= E]. apply (f_equal length) in E. rewrite length_app in E. simpl in E. lia.
       - done. }
  rewrite (commit_changes _ _ (updateFields u (mkBody (Some [n1]) QIndividual) t1
                                   (mkAcc (xp_of u + xpReward q1) (Stats.add (initial_stats u) (stat q1) (statReward q1))
                                      (js_or_nat (User.streakDays u) 1)) u));
    [| by rewrite lookup_insert_eq |].
  2: { unfold new_completed. simpl. intros [= E]. apply app_inv_head in E. congruence. }
  rewrite insert_insert_eq. do 3 eexists. split; [reflexivity|].
  split; [done|]. split; [done|]. split; [by rewrite xp_of_updateFields | done].
Qed.

(** The document a request prepares from is the one stored. *)
Lemma prepare_snapshot (q : Request) (db : Db) (p : Prepared) :
  prepare q db = inr p -> db !! pr_user p = Some (pr_snapshot p).
Proof. unfold prepare. repeat case_match; intros; simplify_eq; done. Qed.

End WithCatalog.

(** The collection after a write: the update applied to the stored
    document, whatever the answer. *)
Lemma commit_db (p : Prepared) (db : Db) (d : User.t) :
  db !! pr_user p = Some d ->
  (commit p db).2 = <[pr_user p := updateFields (pr_snapshot p) (pr_body p) (pr_today p) (pr_acc p) d]> db.
Proof.
  intros Hd. unfold commit. rewrite <- (Mongo.updateOne_lookup _ _ _ _ Hd).
  destruct (Mongo.updateOne _ _ _) as [m db']. by destruct (m =? 0).
Qed.

(** A second update overwrites every field the first one wrote, unless
    the first wrote a streak the second (an individual completion)
    keeps. *)
Lemma updateFields_overwrite (u1 u2 d : User.t) (b1 b2 : Body) (t1 t2 : JsDate.t) (a1 a2 : Acc) :
  questType b1 = QIndividual \/ questType b2 = QDaily ->
  updateFields u2 b2 t2 a2 (updateFields u1 b1 t1 a1 d) = updateFields u2 b2 t2 a2 d.
Proof. intros [H|H]; unfold updateFields; rewrite H; simpl; by destruct (questType _). Qed.

(** ** Properties *)

(** Finding: two individual completions of different quests
    whose reads both happen before either write both answer success,
    yet the document keeps only the second: its experience is the
    stored experience plus the second quest's reward, the first quest
    is missing from the day's completions, and the experience written
    by the first request is overwritten, so it decreases whenever the
    first reward is the larger. *)
Theorem overlapping_individual_lost_update `{QuestCatalog} (uid n1 n2 : string) (q1 q2 : QuestTemplate)
    (t1 t2 : JsDate.t) (db : Db) (u : User.t) :
  db !! uid = Some u -> findByName n1 = Some q1 -> findByName n2 = Some q2 -> n1 <> n2 ->
  n1 ∉ js_or_list (User.questsCompletedToday u) -> n2 ∉ js_or_list (User.questsCompletedToday u) ->
  let '(r1, r2, db') := overlap (individual uid n1 t1) (individual uid n2 t2) db in
  is_error r1 = false /\ is_error r2 = false /\
  exists d, db' !! uid = Some d /\ xp_of d = xp_of u + xpReward q2 /\
    n1 ∉ js_or_list (User.questsCompletedToday d).
Proof.
  intros Hu Hq1 Hq2 Hne Hn1 Hn2.
  destruct (overlap_individual uid n1 n2 q1 q2 t1 t2 db u Hu Hq1 Hq2 Hne Hn1 Hn2)
    as (res1 & res2 & d & -> & _ & _ & Hx & Hc).
  split; [done|]. split; [done|]. exists d. rewrite lookup_insert_eq. split; [done|]. split; [done|].
  rewrite Hc. simpl. rewrite elem_of_app, list_elem_of_singleton. intros [?|?]; [done | congruence].
Qed.

(** C33 (finding): when two completions of one user both pass their
    checks on the same read, the store ends exactly as if the first had
    never run: the collection is the original one with only the second
    update, computed from the document read, applied; this is what the
    second request run alone leaves.  The only exception is a daily set
    overlapped by a later individual completion, whose write keeps the
    daily set's streak. *)
Theorem overlap_last_write_wins `{QuestCatalog} (q1 q2 : Request) (db : Db) (p1 p2 : Prepared) :
  prepare q1 db = inr p1 -> prepare q2 db = inr p2 -> pr_user p1 = pr_user p2 ->
  questType (pr_body p1) = QIndividual \/ questType (pr_body p2) = QDaily ->
  (overlap q1 q2 db).2 =
    <[pr_user p2 := updateFields (pr_snapshot p2) (pr_body p2) (pr_today p2) (pr_acc p2) (pr_snapshot p2)]> db /\
  (overlap q1 q2 db).2 = (POST (rq_session q2) (rq_body q2) (rq_today q2) db).2.
Proof.
  intros H1 H2 Hu Ht. pose proof (prepare_snapshot _ _ _ H1) as Hs1.
  pose proof (prepare_snapshot _ _ _ H2) as Hs2.
  assert (Hfin : (overlap q1 q2 db).2 =
    <[pr_user p2 := updateFields (pr_snapshot p2) (pr_body p2) (pr_today p2) (pr_acc p2) (pr_snapshot p2)]> db).
  { unfold overlap. rewrite H1, H2. cbn [finish].
    destruct (commit p1 db) as [r1 db1] eqn:E1.
    pose proof (f_equal snd E1) as Edb. rewrite (commit_db p1 db _ Hs1) in Edb. simpl in Edb.
    assert (Hd1 : db1 !! pr_user p2 = Some (updateFields (pr_snapshot p1) (pr_body p1) (pr_today p1) (pr_acc p1) (pr_snapshot p1))).
    { rewrite <- Edb, <- Hu. apply lookup_insert_eq. }
    destruct (commit p2 db1) as [r2 db2] eqn:E2. simpl.
    pose proof (f_equal snd E2) as Edb2. rewrite (commit_db p2 db1 _ Hd1) in Edb2. simpl in Edb2.
    assert (pr_snapshot p1 = pr_snapshot p2) as Hs by congruence.
    by rewrite <- Edb2, <- Edb, <- Hu, insert_insert_eq, Hu, Hs, (updateFields_overwrite _ _ _ _ _ _ _ _ _ Ht). }
  split; [exact Hfin|]. rewrite Hfin, POST_prepare_commit, H2. cbn [finish]. by rewrite (commit_db p2 db _ Hs2).
Qed.

(** ** Witnesses *)

#[local] Existing Instance SampleCatalog.

Lemma overlapping_individual_lost_update_witness :
  let '(r1, r2, db') := overlap (individual "u1" "Read" (Sample.day 10 0))
                          (individual "u1" "Meditate" (Sample.day 10 1)) Sample.db0 in
  is_error r1 = false /\ is_error r2 = false /\
  exists d, db' !! "u1" = Some d /\ xp_of d = xp_of Sample.u_default + 10 /\
    "Read" ∉ js_or_list (User.questsCompletedToday d).
Proof.
  apply (overlapping_individual_lost_update "u1" "Read" "Meditate"
           (sq "i1" "Read" 15 1 intelligence) (sq "e1" "Meditate" 10 1 sense));
    [reflexivity | reflexivity | reflexivity | discriminate | vm_compute; set_solver | vm_compute; set_solver].
Defined.

Lemma overlap_last_write_wins_witness :
  exists p1 p2,
    prepare (individual "u1" "Read" (Sample.day 10 0)) Sample.db0 = inr p1 /\
    prepare (individual "u1" "Meditate" (Sample.day 10 1)) Sample.db0 = inr p2 /\
    pr_user p1 = pr_user p2 /\
    (overlap (individual "u1" "Read" (Sample.day 10 0)) (individual "u1" "Meditate" (Sample.day 10 1))
       Sample.db0).2 =
      <[pr_user p2 := updateFields (pr_snapshot p2) (pr_body p2) (pr_today p2) (pr_acc p2) (pr_snapshot p2)]>
        Sample.db0 /\
    (overlap (individual "u1" "Read" (Sample.day 10 0)) (individual "u1" "Meditate" (Sample.day 10 1))
       Sample.db0).2 =
      (POST (Some "u1") (Some (mkBody (Some ["Meditate"]) QIndividual)) (Sample.day 10 1) Sample.db0).2.
Proof.
  eexists; eexists. split; [reflexivity|]. split; [reflexivity|]. split; [reflexivity|].
  eapply (overlap_last_write_wins (individual "u1" "Read" (Sample.day 10 0))
           (individual "u1" "Meditate" (Sample.day 10 1)));
    [reflexivity | vm_compute; reflexivity | reflexivity | left; reflexivity].
Defined.

End Concurrency.
