(* ===== verification/Config.v ===== *)
(** * Config: the build configuration of health-leveling

    Models [src/health-leveling/next.config.js]: [reactStrictMode] and
    the two switches that let a build succeed with type and lint
    errors.  Under [reactStrictMode], React runs each effect of a page
    twice when the page mounts in development (mount, unmount,
    mount), so the effects that call the routes send their request
    twice; [effect_runs] counts the runs.  The lemma below shows that
    for the initialization effect of the pages this is harmless: the
    initialization route is idempotent. *)

From S2P Require Import Prelude Store Initialize.

Module Config.

Record NextConfig := mkConfig {
  reactStrictMode : bool;
  ignoreBuildErrors : bool;
  ignoreDuringBuilds : bool
}.

(** [nextConfig] of the repository. *)
Definition nextConfig : NextConfig := mkConfig true true true.

Inductive Mode := Development | Production.

(** How many times an effect runs when its page mounts. *)
Definition effect_runs (c : NextConfig) (m : Mode) : nat :=
  match m with
  | Development => if reactStrictMode c then 2 else 1
  | Production => 1
  end.

(** A build with [n] type errors and [k] lint errors succeeds. *)
Definition build_succeeds (c : NextConfig) (n k : nat) : bool :=
  (ignoreBuildErrors c || (n =? 0)) && (ignoreDuringBuilds c || (k =? 0)).

(** The initialization request sent [n] times at time [t]. *)
Fixpoint run_init (n : nat) (s : option string) (t : JsDate.t) (db : Db) : Db :=
  match n with 0 => db | S n' => run_init n' s t (Initialize.POST s t db).2 end.

(** ** Lemmas *)

Lemma effect_runs_pos (c : NextConfig) (m : Mode) : 1 <= effect_runs c m <= 2.
Proof. destruct m; simpl; [destruct (reactStrictMode c)|]; lia. Qed.

(** Running the initialization effect as often as the configuration
    makes React run it leaves the collection as one run does, and the
    second run answers the same document as the first. *)
Lemma strict_mode_init_harmless (m : Mode) (s : option string) (t : JsDate.t) (db : Db) :
  run_init (effect_runs nextConfig m) s t db = (Initialize.POST s t db).2 /\
  Initialize.result_data (Initialize.POST s t (Initialize.POST s t db).2).1 =
    Initialize.result_data (Initialize.POST s t db).1.
Proof.
  destruct (Initialize.initialize_idempotent s t db) as [H1 H2]. split; [|exact H2].
  destruct m; simpl; [exact H1 | done].
Qed.

(** The repository's configuration builds whatever the type and lint
    errors, such as the quest page's reference to an undeclared
    [currentUser] (line 74). *)
Lemma nextConfig_builds (n k : nat) : build_succeeds nextConfig n k = true.
Proof. done. Qed.

End Config.
