(* ===== verification/Assign.v ===== *)
(** * Assign: the daily quest assignment route

    Models [POST] of [src/solo-leveling/src/app/api/quests/assign/route.ts].
    If the user document holds an assignment dated today whose first
    stored quest is an identifier, the identifiers are resolved with
    [getQuestTemplateById] and returned; a failed resolution (an
    unknown identifier or a stored object, which [getQuestTemplateById]
    rejects by throwing) and any other stored shape fall through to a
    new draw: two quests of each rotating category by [getRandomQuests],
    stored as identifiers under today's date string with one
    [updateOne].  The random source is threaded through the four draws
    and returned. *)

From S2P Require Import Prelude Catalog Selector Store.
Import Catalog Selector.

Module Assign.

(** The payload [{success, message, assignedQuests}]. *)
Record Result := mkResult {
  message : string;
  assignedQuests : list QuestTemplate
}.

Definition MSG_EXISTING : string := "Returning existing assigned quests".
Definition MSG_NEW : string := "New quests assigned successfully".

(** [$set: {assignedQuests: aq}]. *)
Definition setAssigned (aq : AssignedQuests) (d : User.t) : User.t :=
  User.mk (User.email d) (User.password d) (User.name d) (User.username d)
    (User.hasSetUsername d) (User.createdAt d) (User.level d) (User.totalXP d)
    (User.xp d) (User.stats d) (User.streakDays d) (User.lastQuestDate d)
    (User.questsCompletedToday d) (User.hasCompletedDailyStrength d) (Some aq).

(** [q._id!], as stored in the array. *)
Definition storedId (q : QuestTemplate) : StoredQuest :=
  match _id q with Some i => SQId i | None => SQNull end.

Section WithCatalog.
Context `{QuestCatalog}.

(** [getQuestTemplateById(qid)] on one stored element: only a string
    can equal a template's [_id]. *)
Definition resolve (sq : StoredQuest) : option QuestTemplate :=
  match sq with SQId id => getQuestTemplateById id | _ => None end.

(** [storedQuests.map(getQuestTemplateById)], failing at the first
    element that throws. *)
Definition resolveAll (l : list StoredQuest) : option (list QuestTemplate) :=
  mapM resolve l.

(** The branch for an assignment already stored today (lines 52-76):
    the resolved quests, or [None] to fall through. *)
Definition existing (u : User.t) (todayDateString : Z) : option (list QuestTemplate) :=
  match User.assignedQuests u with
  | Some aq =>
      if Z.eqb (aq_date aq) todayDateString then
        match aq_quests aq with
        | SQId _ :: _ => resolveAll (aq_quests aq)
        | _ => None
        end
      else None
  | None => None
  end.

(** The four draws of two quests, in the code's order. *)
Definition draw (rng : Rng) : list QuestTemplate * Rng :=
  let '(agilityQuests, r1) := getRandomQuests AGILITY_QUESTS 2 rng in
  let '(vitalityQuests, r2) := getRandomQuests VITALITY_QUESTS 2 r1 in
  let '(intelligenceQuests, r3) := getRandomQuests INTELLIGENCE_QUESTS 2 r2 in
  let '(senseQuests, r4) := getRandomQuests SENSE_QUESTS 2 r3 in
  (agilityQuests ++ vitalityQuests ++ intelligenceQuests ++ senseQuests, r4).

Definition POST (session : option string) (today : JsDate.t) (rng : Rng) (db : Db)
    : Response Result * Db * Rng :=
  match session with
  | None => (respond_err 401 "Unauthorized", db, rng)
  | Some userId =>
  let todayDateString := JsDate.toDateString today in
  match db !! userId with
  | None => (respond_err 404 "User not found", db, rng)
  | Some u =>
  match existing u todayDateString with
  | Some qs => (respond_ok (mkResult MSG_EXISTING qs), db, rng)
  | None =>
      let '(newAssignedQuests, rng') := draw rng in
      let questIds := map storedId newAssignedQuests in
      let '(modifiedCount, db') :=
        Mongo.updateOne userId (setAssigned (mkAssigned todayDateString questIds)) db in
      if modifiedCount =? 0 then (respond_err 500 "Failed to assign quests", db', rng')
      else (respond_ok (mkResult MSG_NEW newAssignedQuests), db', rng')
  end end end.

(** ** Lemmas *)

Lemma find_id_unique (l : list QuestTemplate) (q : QuestTemplate) (i : string) :
  NoDup (map _id l) -> q ∈ l -> _id q = Some i -> List.find (id_is i) l = Some q.
Proof.
  induction l as [|q' l IH]; intros Hnd Hin Hid; [set_solver|].
  simpl in Hnd. apply NoDup_cons in Hnd as [Hnin Hnd]. simpl.
  destruct (id_is i q') eqn:E.
  - unfold id_is in E. destruct (_id q') as [i'|] eqn:Hq'; [|done].
    apply String.eqb_eq in E. subst i'.
    apply elem_of_cons in Hin as [->|Hin]; [done|].
    exfalso. apply Hnin. rewrite <- Hid. by apply list_elem_of_fmap_2.
  - apply elem_of_cons in Hin as [->|Hin].
    + unfold id_is in E. rewrite Hid, String.eqb_refl in E. discriminate.
    + by apply IH.
Qed.

Section WithLaws.
Context `{!CatalogLaws}.

Lemma resolve_storedId (q : QuestTemplate) :
  q ∈ allOtherQuests -> resolve (storedId q) = Some q.
Proof.
  intros Hin. pose proof ids_present as Hp. rewrite Forall_forall in Hp.
  destruct (Hp q Hin) as [i Hi].
  unfold storedId. rewrite Hi. simpl. unfold getQuestTemplateById.
  apply find_id_unique; [apply ids_nodup | done | done].
Qed.

Lemma resolveAll_storedIds (qs : list QuestTemplate) :
  Forall (fun q => q ∈ allOtherQuests) qs -> resolveAll (map storedId qs) = Some qs.
Proof.
  induction 1 as [|q qs Hq Hqs IH]; [done|].
  unfold resolveAll in *. simpl. by rewrite resolve_storedId, IH.
Qed.

Lemma storedId_head (q : QuestTemplate) :
  q ∈ allOtherQuests -> exists i, storedId q = SQId i.
Proof.
  intros Hin. pose proof ids_present as Hp. rewrite Forall_forall in Hp.
  destruct (Hp q Hin) as [i Hi].
  exists i. unfold storedId. by rewrite Hi.
Qed.

Lemma allOtherQuests_nodup : NoDup allOtherQuests.
Proof. apply (NoDup_fmap_1 _id), ids_nodup. Qed.
End WithLaws.

(** The draw is four selections from the four categories. *)
Lemma draw_parts (rng : Rng) :
  exists a v i s r1 r2 r3,
    (draw rng).1 = a ++ v ++ i ++ s /\
    a = (getRandomQuests AGILITY_QUESTS 2 rng).1 /\
    v = (getRandomQuests VITALITY_QUESTS 2 r1).1 /\
    i = (getRandomQuests INTELLIGENCE_QUESTS 2 r2).1 /\
    s = (getRandomQuests SENSE_QUESTS 2 r3).1.
Proof.
  unfold draw.
  destruct (getRandomQuests AGILITY_QUESTS 2 rng) as [a r1] eqn:E1.
  destruct (getRandomQuests VITALITY_QUESTS 2 r1) as [v r2] eqn:E2.
  destruct (getRandomQuests INTELLIGENCE_QUESTS 2 r2) as [i r3] eqn:E3.
  destruct (getRandomQuests SENSE_QUESTS 2 r3) as [s r4] eqn:E4.
  exists a, v, i, s, r1, r2, r3. by rewrite E2, E3, E4.
Qed.

Lemma draw_in_catalog (rng : Rng) :
  Forall (fun q => q ∈ allOtherQuests) (draw rng).1.
Proof.
  destruct (draw_parts rng) as (a & v & i & s & r1 & r2 & r3 & -> & Ha & Hv & Hi & Hs).
  apply Forall_forall. intros q Hq. unfold allOtherQuests.
  repeat rewrite elem_of_app in *.
  destruct Hq as [Hq|[Hq|[Hq|Hq]]]; subst;
    [left | right; left | right; right; left | right; right; right];
    eapply getRandomQuests_incl; exact Hq.
Qed.

Lemma draw_nonempty (rng : Rng) : allOtherQuests <> [] -> (draw rng).1 <> [].
Proof.
  intros Hne. destruct (draw_parts rng) as (a & v & i & s & r1 & r2 & r3 & -> & Ha & Hv & Hi & Hs).
  intros E. apply Hne. unfold allOtherQuests.
  apply app_nil in E as [Ea E]. apply app_nil in E as [Ev E]. apply app_nil in E as [Ei Es].
  pose proof (getRandomQuests_length AGILITY_QUESTS 2 rng) as La.
  pose proof (getRandomQuests_length VITALITY_QUESTS 2 r1) as Lv.
  pose proof (getRandomQuests_length INTELLIGENCE_QUESTS 2 r2) as Li.
  pose proof (getRandomQuests_length SENSE_QUESTS 2 r3) as Ls.
  subst. rewrite Ea in La. rewrite Ev in Lv. rewrite Ei in Li. rewrite Es in Ls. simpl in *.
  destruct AGILITY_QUESTS, VITALITY_QUESTS, INTELLIGENCE_QUESTS, SENSE_QUESTS; simpl in *; done || lia.
Qed.

(** The outcomes of a successful call: the stored assignment of today,
    or a new draw written to the document. *)
Lemma POST_success (uid : string) (t : JsDate.t) (rng rng' : Rng) (db db' : Db)
    (r : Response Result) (res : Result) :
  POST (Some uid) t rng db = (r, db', rng') -> json r = JSuccess res ->
  exists u, db !! uid = Some u /\
    ((existing u (JsDate.toDateString t) = Some (assignedQuests res) /\ db' = db) \/
     (existing u (JsDate.toDateString t) = None /\ assignedQuests res = (draw rng).1 /\
      db' = <[uid := setAssigned (mkAssigned (JsDate.toDateString t)
                                    (map storedId (draw rng).1)) u]> db)).
Proof.
  unfold POST. intros Hp Hj.
  destruct (db !! uid) as [u|] eqn:Hu; [|inversion Hp; subst; discriminate].
  exists u. split; [done|].
  destruct (existing u _) as [qs|] eqn:He.
  - inversion Hp; subst. simpl in Hj. injection Hj as <-. by left.
  - destruct (draw rng) as [na r4] eqn:Hd.
    destruct (Mongo.updateOne _ _ _) as [mc db1] eqn:Hup.
    destruct mc; simpl in Hp; inversion Hp; subst; [discriminate|].
    simpl in Hj. injection Hj as <-. right. split; [done|]. split; [done|].
    unfold Mongo.updateOne in Hup. rewrite Hu in Hup. case_decide; by inversion Hup.
Qed.

Section WithLaws2.
Context `{!CatalogLaws}.

(** A new draw, once stored, is found again as today's assignment. *)
Lemma existing_after_draw (u : User.t) (d : Z) (rng : Rng) :
  allOtherQuests <> [] ->
  existing (setAssigned (mkAssigned d (map storedId (draw rng).1)) u) d = Some (draw rng).1.
Proof.
  intros Hne. pose proof (draw_nonempty rng Hne) as Hn. pose proof (draw_in_catalog rng) as Hin.
  unfold existing. simpl. rewrite Z.eqb_refl.
  destruct (draw rng).1 as [|q qs] eqn:E; [done|].
  destruct (storedId_head q) as [i Hi]; [by inversion Hin|].
  rewrite <- (resolveAll_storedIds (q :: qs) Hin). simpl. by rewrite Hi.
Qed.

(** When nothing usable is stored for today, the new assignment differs
    from the stored one, so the write is reported. *)
Lemma setAssigned_changes (u : User.t) (d : Z) (rng : Rng) :
  allOtherQuests <> [] -> existing u d = None ->
  setAssigned (mkAssigned d (map storedId (draw rng).1)) u <> u.
Proof.
  intros Hne He Heq. rewrite <- Heq in He.
  by rewrite (existing_after_draw u d rng Hne) in He.
Qed.

(** A part of the draw: quests of one category with that category's stat. *)
Lemma part_in_category (C : list QuestTemplate) (c : Stat) (r : Rng) (q : QuestTemplate) :
  Forall (fun q => stat q = c) C -> q ∈ (getRandomQuests C 2 r).1 -> q ∈ C /\ stat q = c.
Proof.
  intros HC Hq. assert (q ∈ C) as HqC by (eapply getRandomQuests_incl; exact Hq).
  split; [done|]. rewrite Forall_forall in HC. by apply HC.
Qed.

(** ** Properties of the route *)

(** C14: once the route has answered, any call on the same calendar
    day, whatever the random source, answers with the same quests in
    the same order and changes nothing (when the catalog has a rotating
    quest at all). *)
Theorem assign_same_day_stable (uid : string) (t1 t2 : JsDate.t) (rng rng1 rng2 : Rng)
    (db db1 : Db) (r1 : Response Result) (res : Result) :
  allOtherQuests <> [] ->
  POST (Some uid) t1 rng db = (r1, db1, rng1) -> json r1 = JSuccess res ->
  JsDate.toDateString t2 = JsDate.toDateString t1 ->
  POST (Some uid) t2 rng2 db1 = (respond_ok (mkResult MSG_EXISTING (assignedQuests res)), db1, rng2).
Proof.
  intros Hne Hp Hj Hd.
  destruct (POST_success _ _ _ _ _ _ _ _ Hp Hj) as (u & Hu & [[He ->] | (He & Hres & ->)]);
    unfold POST.
  - by rewrite Hu, Hd, He.
  - by rewrite lookup_insert_eq, Hd, existing_after_draw, Hres.
Qed.

(** C15: when no usable assignment is stored for today, the route
    draws anew, stores the identifiers of the drawn quests under
    today's date and answers with the drawn quests. *)
Theorem assign_new_draw (uid : string) (t : JsDate.t) (rng : Rng) (db : Db) (u : User.t) :
  allOtherQuests <> [] -> db !! uid = Some u -> existing u (JsDate.toDateString t) = None ->
  POST (Some uid) t rng db =
    (respond_ok (mkResult MSG_NEW (draw rng).1),
     <[uid := setAssigned (mkAssigned (JsDate.toDateString t) (map storedId (draw rng).1)) u]> db,
     (draw rng).2).
Proof.
  intros Hne Hu He. unfold POST. rewrite Hu, He.
  pose proof (setAssigned_changes u (JsDate.toDateString t) rng Hne He) as Hch.
  destruct (draw rng) as [na r4] eqn:Hd. simpl in Hch.
  by rewrite (Mongo.updateOne_modified _ _ _ _ Hu Hch).
Qed.

(** a draw is two distinct quests of each rotating category, in
    the order agility, vitality, intelligence, sense: eight distinct
    quests of the catalog when every category has at least two. *)
Lemma draw_shape (rng : Rng) :
  2 <= length AGILITY_QUESTS -> 2 <= length VITALITY_QUESTS ->
  2 <= length INTELLIGENCE_QUESTS -> 2 <= length SENSE_QUESTS ->
  exists a v i s, (draw rng).1 = a ++ v ++ i ++ s /\
    length a = 2 /\ length v = 2 /\ length i = 2 /\ length s = 2 /\
    (forall q, q ∈ a -> q ∈ AGILITY_QUESTS) /\ (forall q, q ∈ v -> q ∈ VITALITY_QUESTS) /\
    (forall q, q ∈ i -> q ∈ INTELLIGENCE_QUESTS) /\ (forall q, q ∈ s -> q ∈ SENSE_QUESTS) /\
    NoDup (draw rng).1.
Proof.
  intros La Lv Li Ls.
  destruct (draw_parts rng) as (a & v & i & s & r1 & r2 & r3 & Hdr & Ha & Hv & Hi & Hs).
  pose proof allOtherQuests_nodup as Hnd. unfold allOtherQuests in Hnd.
  apply NoDup_app in Hnd as (NA & _ & Hnd). apply NoDup_app in Hnd as (NV & _ & Hnd).
  apply NoDup_app in Hnd as (NI & _ & NS).
  pose proof (getRandomQuests_length AGILITY_QUESTS 2 rng) as LA. pose proof (getRandomQuests_NoDup AGILITY_QUESTS 2 rng) as DA.
  pose proof (getRandomQuests_length VITALITY_QUESTS 2 r1) as LV. pose proof (getRandomQuests_NoDup VITALITY_QUESTS 2 r1) as DV.
  pose proof (getRandomQuests_length INTELLIGENCE_QUESTS 2 r2) as LI. pose proof (getRandomQuests_NoDup INTELLIGENCE_QUESTS 2 r2) as DI.
  pose proof (getRandomQuests_length SENSE_QUESTS 2 r3) as LS. pose proof (getRandomQuests_NoDup SENSE_QUESTS 2 r3) as DS.
  pose proof (fun q => part_in_category _ _ rng q agility_stat) as PA.
  pose proof (fun q => part_in_category _ _ r1 q vitality_stat) as PV.
  pose proof (fun q => part_in_category _ _ r2 q intelligence_stat) as PI.
  pose proof (fun q => part_in_category _ _ r3 q sense_stat) as PS.
  subst a v i s. exists (getRandomQuests AGILITY_QUESTS 2 rng).1,
    (getRandomQuests VITALITY_QUESTS 2 r1).1, (getRandomQuests INTELLIGENCE_QUESTS 2 r2).1,
    (getRandomQuests SENSE_QUESTS 2 r3).1.
  split; [done|]. do 4 (split; [lia|]).
  split; [intros q Hq; by apply PA|]. split; [intros q Hq; by apply PV|].
  split; [intros q Hq; by apply PI|]. split; [intros q Hq; by apply PS|].
  rewrite Hdr. repeat (apply NoDup_app; split; [auto|split]); auto.
  - intros q Hq1 Hq2. apply PA in Hq1 as [_ E1].
    repeat rewrite elem_of_app in Hq2.
    destruct Hq2 as [Hq2|[Hq2|Hq2]]; [apply PV in Hq2 | apply PI in Hq2 | apply PS in Hq2];
      destruct Hq2 as [_ E2]; congruence.
  - intros q Hq1 Hq2. apply PV in Hq1 as [_ E1]. rewrite elem_of_app in Hq2.
    destruct Hq2 as [Hq2|Hq2]; [apply PI in Hq2 | apply PS in Hq2]; destruct Hq2 as [_ E2]; congruence.
  - intros q Hq1 Hq2. apply PI in Hq1 as [_ E1]. apply PS in Hq2 as [_ E2]. congruence.
Qed.
End WithLaws2.

End WithCatalog.

(** ** Witnesses, on the sample catalog *)

(** A second random source, beside [Selector.sample_rng]. *)
Definition other_rng : Rng := fun n => (Z.of_nat n * 2 ^ 49)%Z.

Lemma assign_same_day_stable_witness :
  let p := POST (Some "u1") (Sample.day 1000 5) sample_rng Sample.db0 in
  POST (Some "u1") (Sample.day 1000 77) other_rng p.1.2 =
    (respond_ok (mkResult MSG_EXISTING (draw sample_rng).1), p.1.2, other_rng).
Proof.
  cbv zeta.
  apply (assign_same_day_stable "u1" (Sample.day 1000 5) (Sample.day 1000 77) sample_rng
           (POST (Some "u1") (Sample.day 1000 5) sample_rng Sample.db0).2 other_rng Sample.db0
           _ (POST (Some "u1") (Sample.day 1000 5) sample_rng Sample.db0).1.1
           (mkResult MSG_NEW (draw sample_rng).1)).
  - unfold allOtherQuests. simpl. discriminate.
  - vm_compute. reflexivity.
  - vm_compute. reflexivity.
  - vm_compute. reflexivity.
Defined.

Lemma assign_new_draw_witness :
  POST (Some "u1") (Sample.day 1000 5) sample_rng Sample.db0 =
    (respond_ok (mkResult MSG_NEW (draw sample_rng).1),
     <["u1" := setAssigned (mkAssigned (JsDate.toDateString (Sample.day 1000 5))
                 (map storedId (draw sample_rng).1)) Sample.u_default]> Sample.db0,
     (draw sample_rng).2).
Proof.
  apply assign_new_draw.
  - unfold allOtherQuests. simpl. discriminate.
  - reflexivity.
  - reflexivity.
Defined.

End Assign.
