(* ===== verification/Username.v ===== *)
(** * Username: choosing a username

    Models [POST] of [src/health-leveling/src/app/api/user/username/route.ts]
    and the client-side check [validateUsername] with the submit guard of
    [src/health-leveling/src/app/username-setup/page.tsx].  The server
    trims the name, requires 1 to 10 characters of [[a-zA-Z0-9_]], and
    refuses a name that some stored username matches case-insensitively
    ([findOne({username: {$regex: new RegExp(`^${name}$`, 'i')}})]); the
    name is then written with [hasSetUsername: true].

    Strings are Rocq [string]s of 8-bit characters, read as the code
    units U+0000 to U+00FF of the JavaScript string.  The regular
    expression built from an accepted name has no metacharacter (the
    name is made of [[a-zA-Z0-9_]]), so matching it with the [i] flag
    against a stored username is ASCII case-insensitive equality. *)

From Stdlib Require Import Ascii.
From S2P Require Import Prelude Regex Store.
Import Regex.

Module Username.

(** [\s] among the code units U+0000 to U+00FF: tab, line feed, vertical
    tab, form feed, carriage return, space and no-break space. *)
Definition is_ws (c : ascii) : bool :=
  let n := nat_of_ascii c in (9 <=? n) && (n <=? 13) || (n =? 32) || (n =? 160).

Fixpoint drop_ws (l : list ascii) : list ascii :=
  match l with
  | c :: l' => if is_ws c then drop_ws l' else l
  | [] => []
  end.

(** [String.prototype.trim]. *)
Definition trim (s : string) : string :=
  String.string_of_list_ascii (rev (drop_ws (rev (drop_ws (String.list_ascii_of_string s))))).

Definition in_range (lo hi : ascii) (c : ascii) : bool :=
  (nat_of_ascii lo <=? nat_of_ascii c) && (nat_of_ascii c <=? nat_of_ascii hi).

(** A character of the class [[a-zA-Z0-9_]]. *)
Definition is_word_char (c : ascii) : bool :=
  in_range "a"%char "z"%char c || in_range "A"%char "Z"%char c || in_range "0"%char "9"%char c || (nat_of_ascii c =? 95).

(** [/^[a-zA-Z0-9_]+$/]. *)
Definition usernameRegex : Re := RPlus is_word_char.

(** [/^[a-zA-Z0-9_]+$/.test(s)]. *)
Definition username_format (s : string) : bool := test usernameRegex s.

(** Case folding of the [i] flag on ASCII letters. *)
Definition lower (c : ascii) : ascii :=
  if in_range "A"%char "Z"%char c then ascii_of_nat (nat_of_ascii c + 32) else c.

Definition lower_string (s : string) : string :=
  String.string_of_list_ascii (map lower (String.list_ascii_of_string s)).

(** [new RegExp(`^${name}$`, 'i').test(stored)] for a name without
    metacharacters. *)
Definition matches_ci (nm stored : string) : bool :=
  String.eqb (lower_string nm) (lower_string stored).

Definition MSG_REQUIRED : string := "Username is required".
Definition MSG_LENGTH : string := "Username must be between 1-10 characters".
Definition MSG_FORMAT : string := "Username can only contain letters, numbers, and underscores".
Definition MSG_TAKEN : string := "Username already taken".

(** The checks of lines 18-35: the trimmed name or the error message.
    [username] is [None] when the field is missing or not a string. *)
Definition validate (username : option string) : string + string :=
  match username with
  | None => inl MSG_REQUIRED
  | Some u =>
      if String.eqb u "" then inl MSG_REQUIRED else
      let trimmedUserName := trim u in
      if (String.length trimmedUserName =? 0) || (10 <? String.length trimmedUserName) then
        inl MSG_LENGTH
      else if negb (username_format trimmedUserName) then inl MSG_FORMAT
      else inr trimmedUserName
  end.

(** [$set: {username, hasSetUsername: true}]. *)
Definition setUsername (nm : string) (d : User.t) : User.t :=
  User.mk (User.email d) (User.password d) (User.name d) (Some nm) (Some true)
    (User.createdAt d) (User.level d) (User.totalXP d) (User.xp d) (User.stats d)
    (User.streakDays d) (User.lastQuestDate d) (User.questsCompletedToday d)
    (User.hasCompletedDailyStrength d) (User.assignedQuests d).

(** The stored username, if any, matched by the case-insensitive regex. *)
Definition taken_by (nm : string) (d : User.t) : bool :=
  match User.username d with Some n => matches_ci nm n | None => false end.

(** The route; [body] is the parsed JSON's [username] field ([None]
    for the outer option when [request.json()] throws). *)
Definition POST (session : option string) (body : option (option string)) (db : Db)
    : Response string * Db :=
  match session with
  | None => (respond_err 401 "Not authenticated", db)
  | Some userId =>
  match body with
  | None => (respond_err 500 "Internal server error", db)
  | Some username =>
  match validate username with
  | inl msg => (respond_err 400 msg, db)
  | inr trimmedUserName =>
  match Mongo.findOne (taken_by trimmedUserName) db with
  | Some _ => (respond_err 400 MSG_TAKEN, db)
  | None =>
      let '(modifiedCount, db') := Mongo.updateOne userId (setUsername trimmedUserName) db in
      if modifiedCount =? 0 then (respond_err 500 "Failed to update username", db')
      else (respond_ok trimmedUserName, db')
  end end end end.

(** The client check [validateUsername(value)] of the setup page: the
    error shown and [isValid]. *)
Definition validateUsername (value : string) : string * bool :=
  if String.length value =? 0 then ("", false)
  else if 10 <? String.length value then ("Username must be 10 characters or less", false)
  else if negb (username_format value) then (MSG_FORMAT, false)
  else ("", true).

(** [handleSubmit]: the name sent, if the guard
    [!isValid || !username.trim()] lets the request go. *)
Definition handleSubmit (username : string) : option string :=
  if negb (validateUsername username).2 || String.eqb (trim username) "" then None
  else Some (trim username).

(** The store's invariant: no two documents hold usernames that the
    route's regex would take for each other. *)
Definition usernames_unique (db : Db) : Prop :=
  forall k1 k2 d1 d2 n1 n2, k1 <> k2 -> db !! k1 = Some d1 -> db !! k2 = Some d2 ->
    User.username d1 = Some n1 -> User.username d2 = Some n2 -> matches_ci n1 n2 = false.

(** ** Lemmas *)

Lemma word_char_not_ws (c : ascii) : is_word_char c = true -> is_ws c = false.
Proof. destruct c as [[] [] [] [] [] [] [] []]; vm_compute; intros H; solve [reflexivity | discriminate]. Qed.

Lemma drop_ws_word (l : list ascii) : forallb is_word_char l = true -> drop_ws l = l.
Proof.
  destruct l as [|c l]; [done|]. simpl. intros [Hc _]%andb_true_iff.
  by rewrite (word_char_not_ws c Hc).
Qed.

Lemma forallb_rev {A} (p : A -> bool) (l : list A) : forallb p (rev l) = forallb p l.
Proof.
  induction l as [|x l IH]; [done|]. simpl. rewrite forallb_app, IH. simpl.
  by rewrite andb_true_r, andb_comm.
Qed.

(** The regular expression accepts the non-empty strings of word
    characters. *)
Lemma username_format_eq (s : string) :
  username_format s = negb (String.length s =? 0) && forallb is_word_char (String.list_ascii_of_string s).
Proof.
  apply Bool.eq_iff_eq_true. unfold username_format, usernameRegex.
  rewrite test_spec, lang_plus, andb_true_iff, negb_true_iff, forallb_forall, Forall_forall.
  setoid_rewrite list_elem_of_In. destruct s as [|c s]; simpl; [naive_solver|].
  split; [intros [_ H]; split; [done | exact H] | intros [_ H]; split; [done | exact H]].
Qed.

(** A name made of word characters is its own [trim]. *)
Lemma trim_word (s : string) :
  forallb is_word_char (String.list_ascii_of_string s) = true -> trim s = s.
Proof.
  intros Hw. unfold trim. rewrite (drop_ws_word _ Hw), drop_ws_word.
  - by rewrite rev_involutive, String.string_of_list_ascii_of_string.
  - by rewrite forallb_rev.
Qed.

(** A value the client check accepts is sent as typed: it has no
    white space to trim. *)
Lemma validateUsername_sent (v : string) :
  (validateUsername v).2 = true -> handleSubmit v = Some v.
Proof.
  intros Hv. unfold handleSubmit. rewrite Hv. revert Hv. unfold validateUsername.
  destruct (String.length v =? 0) eqn:E0; [done|]. destruct (10 <? _); [done|].
  rewrite username_format_eq, E0. simpl. destruct (forallb is_word_char _) eqn:Ew; [|done].
  intros _. rewrite (trim_word v Ew). destruct v; [done | reflexivity].
Qed.

Lemma matches_ci_sym (a b : string) : matches_ci a b = matches_ci b a.
Proof. unfold matches_ci. apply String.eqb_sym. Qed.

(** What an accepted name satisfies. *)
Lemma validate_ok (u : option string) (n : string) :
  validate u = inr n ->
  1 <= String.length n <= 10 /\ forallb is_word_char (String.list_ascii_of_string n) = true.
Proof.
  unfold validate. destruct u as [u|]; [|done].
  destruct (String.eqb u ""); [done|].
  destruct (String.length (trim u) =? 0) eqn:E0; simpl; [done|].
  destruct (10 <? String.length (trim u)) eqn:E1; simpl; [done|].
  rewrite username_format_eq, E0. simpl.
  destruct (forallb is_word_char _) eqn:Ew; simpl; [|done]. intros [= <-].
  apply Nat.eqb_neq in E0. apply Nat.ltb_ge in E1. split; [lia | done].
Qed.

(** The outcomes of the route: nothing written, or the validated name
    written to the caller's document after no stored name matched it. *)
Lemma POST_username_cases (s : option string) (b : option (option string)) (db db' : Db)
    (r : Response string) :
  POST s b db = (r, db') ->
  (db' = db /\ is_error r = true) \/
  exists uid u n, s = Some uid /\ b = Some u /\ validate u = inr n /\
    Mongo.findOne (taken_by n) db = None /\ r = respond_ok n /\
    exists d, db !! uid = Some d /\ db' = <[uid := setUsername n d]> db.
Proof.
  unfold POST. intros Hp.
  destruct s as [uid|]; [|by inversion Hp; left].
  destruct b as [u|]; [|by inversion Hp; left].
  destruct (validate u) as [msg|n] eqn:Hv; [by inversion Hp; left|].
  destruct (Mongo.findOne _ _) eqn:Hf; [by inversion Hp; left|].
  destruct (Mongo.updateOne _ _ _) as [mc db1] eqn:Hup.
  destruct mc; simpl in Hp; inversion Hp; subst.
  - left. split; [by apply Mongo.updateOne_unmodified in Hup | done].
  - right. exists uid, u, n. do 5 (split; [done|]).
    unfold Mongo.updateOne in Hup. destruct (db !! uid) as [d|] eqn:Hd; [|done].
    case_decide; inversion Hup. eauto.
Qed.

(** Writing a name that no stored username matches keeps usernames
    unique. *)
Lemma setUsername_unique (uid n : string) (d : User.t) (db : Db) :
  usernames_unique db -> Mongo.findOne (taken_by n) db = None ->
  usernames_unique (<[uid := setUsername n d]> db).
Proof.
  intros Hu Hf k1 k2 d1 d2 n1 n2 Hne Hk1 Hk2 Hn1 Hn2.
  assert (Hfree : forall k d', db !! k = Some d' -> forall n', User.username d' = Some n' ->
                    matches_ci n n' = false).
  { intros k d' Hk n' Hn'. pose proof (Mongo.findOne_None _ _ _ _ Hf Hk) as Ht.
    unfold taken_by in Ht. by rewrite Hn' in Ht. }
  destruct (decide (uid = k1)) as [<-|H1]; destruct (decide (uid = k2)) as [<-|H2]; try done.
  - rewrite lookup_insert_eq in Hk1. injection Hk1 as <-. simpl in Hn1. injection Hn1 as <-.
    rewrite lookup_insert_ne in Hk2 by done. eauto.
  - rewrite lookup_insert_eq in Hk2. injection Hk2 as <-. simpl in Hn2. injection Hn2 as <-.
    rewrite lookup_insert_ne in Hk1 by done. rewrite matches_ci_sym. eauto.
  - rewrite lookup_insert_ne in Hk1, Hk2 by done. eauto.
Qed.

(** ** Properties *)

(** The client check refines the server check: a name the setup
    page submits passes every validation of the route unchanged. *)
Lemma client_refines_server (v n : string) :
  handleSubmit v = Some n -> validate (Some n) = inr n.
Proof.
  unfold handleSubmit, validateUsername.
  destruct (String.length v =? 0) eqn:E0; [done|].
  destruct (10 <? String.length v) eqn:E1; [done|].
  rewrite username_format_eq, E0. simpl.
  destruct (forallb is_word_char _) eqn:Ew; [|done]. simpl.
  rewrite (trim_word v Ew). destruct (String.eqb v "") eqn:Ee; [done|]. intros [= <-].
  unfold validate. rewrite Ee, (trim_word v Ew), E0, E1. simpl.
  rewrite username_format_eq. by rewrite E0, Ew.
Qed.

(** C24: a name the route accepts is 1 to 10 word characters, matches
    no username stored before, and is written with [hasSetUsername]
    to the caller's document. *)
Theorem username_accepted (uid : string) (b : option string) (db db' : Db) (r : Response string)
    (n : string) :
  POST (Some uid) (Some b) db = (r, db') -> json r = JSuccess n ->
  1 <= String.length n <= 10 /\ forallb is_word_char (String.list_ascii_of_string n) = true /\
  (forall k d, db !! k = Some d -> taken_by n d = false) /\
  exists d, db' !! uid = Some d /\ User.username d = Some n /\ User.hasSetUsername d = Some true.
Proof.
  intros Hp Hj. apply POST_username_cases in Hp as [[_ He] | (uid' & u & n' & [= <-] & [= <-] & Hv & Hf & -> & d & Hd & ->)].
  { unfold is_error in He. by rewrite Hj in He. }
  simpl in Hj. injection Hj as ->.
  destruct (validate_ok _ _ Hv) as [Hl Hw]. split; [done|]. split; [done|]. split.
  - intros k d' Hk. by eapply Mongo.findOne_None.
  - exists (setUsername n d). by rewrite lookup_insert_eq.
Qed.

(** The route keeps usernames unique up to the case-insensitive
    match it checks. *)
Theorem POST_usernames_unique (s : option string) (b : option (option string)) (db db' : Db)
    (r : Response string) :
  POST s b db = (r, db') -> usernames_unique db -> usernames_unique db'.
Proof.
  intros Hp Hu. apply POST_username_cases in Hp as [[-> _] | (uid & u & n & _ & _ & _ & Hf & _ & d & Hd & ->)]; [done|].
  by apply setUsername_unique.
Qed.

(** C25 (finding): the route refuses as "already taken" the name the
    caller already holds, and any change of its letter case, because
    the uniqueness query also matches the caller's own document. *)
Theorem own_username_taken (uid n0 : string) (b : option string) (n : string) (db : Db)
    (u : User.t) :
  db !! uid = Some u -> User.username u = Some n0 -> validate b = inr n -> matches_ci n n0 = true ->
  POST (Some uid) (Some b) db = (respond_err 400 MSG_TAKEN, db).
Proof.
  intros Hu Hn0 Hv Hm. unfold POST. rewrite Hv.
  destruct (Mongo.findOne (taken_by n) db) eqn:Hf; [done|].
  pose proof (Mongo.findOne_None _ _ _ _ Hf Hu) as Ht. unfold taken_by in Ht.
  by rewrite Hn0, Hm in Ht.
Qed.

(** ** Witnesses *)

Definition db_ada : Db :=
  <["u1" := setUsername "Ada" Sample.u_default]> (<["u2" := Sample.u_default]> ∅).

Lemma username_accepted_witness :
  let p := POST (Some "u2") (Some (Some " Grace ")) db_ada in
  1 <= String.length "Grace" <= 10 /\ forallb is_word_char (String.list_ascii_of_string "Grace") = true /\
  (forall k d, db_ada !! k = Some d -> taken_by "Grace" d = false) /\
  exists d, p.2 !! "u2" = Some d /\ User.username d = Some "Grace" /\ User.hasSetUsername d = Some true.
Proof.
  cbv zeta.
  apply (username_accepted "u2" (Some " Grace ") db_ada _
           (POST (Some "u2") (Some (Some " Grace ")) db_ada).1 "Grace").
  - apply surjective_pairing.
  - vm_compute. reflexivity.
Defined.

Lemma POST_usernames_unique_witness :
  usernames_unique (POST (Some "u2") (Some (Some "Grace")) db_ada).2.
Proof.
  apply (POST_usernames_unique (Some "u2") (Some (Some "Grace")) db_ada _
           (POST (Some "u2") (Some (Some "Grace")) db_ada).1).
  - apply surjective_pairing.
  - intros k1 k2 d1 d2 n1 n2 Hne Hk1 Hk2 Hn1 Hn2. unfold db_ada in *.
    destruct (decide (k1 = "u2")) as [->|]; [rewrite lookup_insert_ne, lookup_insert_eq in Hk1 by done;
      injection Hk1 as <-; discriminate|].
    destruct (decide (k2 = "u2")) as [->|]; [rewrite lookup_insert_ne, lookup_insert_eq in Hk2 by done;
      injection Hk2 as <-; discriminate|].
    destruct (decide (k1 = "u1")) as [->|]; [|by rewrite !lookup_insert_ne in Hk1].
    destruct (decide (k2 = "u1")) as [->|]; [done|by rewrite !lookup_insert_ne in Hk2].
Defined.

Lemma own_username_taken_witness :
  POST (Some "u1") (Some (Some "ADA")) db_ada = (respond_err 400 MSG_TAKEN, db_ada).
Proof. apply (own_username_taken "u1" "Ada" (Some "ADA") "ADA" db_ada (setUsername "Ada" Sample.u_default)); reflexivity. Defined.

End Username.
