(* ===== verification/Register.v ===== *)
(** * Register: account creation with e-mail and password

    Models [POST] of [src/health-leveling/src/app/api/auth/register/route.ts].
    The route requires a non-empty e-mail and password, checks the
    e-mail against [/^[^\s@]+@[^\s@]+\.[^\s@]+$/] and the password
    length, refuses an e-mail some document already has (409), hashes
    the password with bcrypt and inserts the document
    [{email, password, createdAt, name: '', level: 1, xp: 0}].

    bcrypt is an interface ([Bcrypt]): [hash] with the salt the
    library draws is an injected function, and [compare] is required
    to accept exactly the password a hash was made from
    ([BcryptLaws]).  The identifier MongoDB generates for the new
    document is an input of the route. *)

From Stdlib Require Import Ascii.
From S2P Require Import Prelude Regex Store Username.
Import Regex.

Module Register.

(** bcrypt: [hash(password, 12)] and [compare(password, hash)]. *)
Class Bcrypt := {
  hash : string -> string;
  compare : string -> string -> bool
}.

Class BcryptLaws `{Bcrypt} := {
  compare_hash : forall p, compare p (hash p) = true;
  compare_sound : forall p h, compare p h = true -> h = hash p;
  hash_nonempty : forall p, hash p <> ""
}.

(** [[^\s@]]. *)
Definition email_char (c : ascii) : bool := negb (Username.is_ws c) && negb (Ascii.eqb c "@"%char).

(** [/^[^\s@]+@[^\s@]+\.[^\s@]+$/]. *)
Definition emailRegex : Re :=
  RSeq (RPlus email_char) (RSeq (RClass (chr "@"%char))
    (RSeq (RPlus email_char) (RSeq (RClass (chr "."%char)) (RPlus email_char)))).

(** The parsed body [{email, password}]: a field is [None] when it is
    absent or not a string. *)
Record Body := mkBody {
  email : option string;
  password : option string
}.

(** The created answer [{message, userId}]. *)
Record Result := mkResult {
  message : string;
  userId : string
}.

Definition MSG_MISSING : string := "Missing email or password".
Definition MSG_EMAIL : string := "Invalid email format".
Definition MSG_PASSWORD : string := "Password must be at least 6 characters".
Definition MSG_EXISTS : string := "User already exists!".
Definition MSG_CREATED : string := "User registered successfully".

(** [!email || !password]: an absent field or the empty string. *)
Definition js_truthy (s : option string) : option string :=
  match s with Some "" => None | _ => s end.

(** [findOne({email})]. *)
Definition has_email (e : string) (d : User.t) : bool :=
  bool_decide (User.email d = Some e).

(** [newUser]. *)
Definition newUser `{Bcrypt} (e p : string) (now : JsDate.t) : User.t :=
  User.mk (Some e) (Some (hash p)) (Some "") None None (Some now)
    (Some 1) None (Some 0) None None None None None None.

Section WithBcrypt.
Context `{Bcrypt}.

(** The route; [body] is [None] when [req.json()] throws, [newId] the
    identifier [insertOne] generates, [now] the request time.  A
    failed insertion throws and is answered by the [catch]. *)
Definition POST (body : option Body) (newId : string) (now : JsDate.t) (db : Db)
    : Response Result * Db :=
  match body with
  | None => (respond_err 500 "Internal server error", db)
  | Some b =>
  match js_truthy (email b), js_truthy (password b) with
  | Some e, Some p =>
      if negb (test emailRegex e) then (respond_err 400 MSG_EMAIL, db)
      else if String.length p <? 6 then (respond_err 400 MSG_PASSWORD, db)
      else match Mongo.findOne (has_email e) db with
      | Some _ => (respond_err 409 MSG_EXISTS, db)
      | None =>
          match Mongo.insertOne newId (newUser e p now) db with
          | None => (respond_err 500 "Internal server error", db)
          | Some db' => (mkResponse 201 (JSuccess (mkResult MSG_CREATED newId)), db')
          end
      end
  | _, _ => (respond_err 400 MSG_MISSING, db)
  end end.

End WithBcrypt.

(** No two documents share an e-mail. *)
Definition emails_unique (db : Db) : Prop :=
  forall k1 k2 d1 d2 e, db !! k1 = Some d1 -> db !! k2 = Some d2 ->
    User.email d1 = Some e -> User.email d2 = Some e -> k1 = k2.

(** The shape the regular expression accepts: [local@domain.tld] with
    three non-empty parts of [[^\s@]]-characters. *)
Definition email_shape (l : list ascii) : Prop :=
  exists a b c, l = a ++ "@"%char :: b ++ "."%char :: c /\
    a <> [] /\ b <> [] /\ c <> [] /\
    Forall (fun x => email_char x = true) (a ++ b ++ c).

(** ** Lemmas *)

Lemma has_email_spec (e : string) (d : User.t) :
  has_email e d = true <-> User.email d = Some e.
Proof. unfold has_email. by rewrite bool_decide_eq_true. Qed.

Lemma js_truthy_Some (s e : string) : js_truthy (Some s) = Some e -> s = e /\ s <> "".
Proof. destruct s as [|c s]; simpl; [intros [=]|]. intros [= <-]. split; [done | discriminate]. Qed.

Lemma emailRegex_lang (l : list ascii) : lang emailRegex l <-> email_shape l.
Proof.
  unfold emailRegex, email_shape. split.
  - intros H. apply lang_seq in H as (a & l1 & -> & Ha & H). apply lang_plus in Ha as [Ha Fa].
    apply lang_seq in H as (l2 & l3 & -> & H2 & H). apply lang_class in H2 as (c1 & -> & ->%chr_spec).
    apply lang_seq in H as (b & l4 & -> & Hb & H). apply lang_plus in Hb as [Hb Fb].
    apply lang_seq in H as (l5 & c & -> & H5 & Hc). apply lang_class in H5 as (c2 & -> & ->%chr_spec).
    apply lang_plus in Hc as [Hc Fc].
    exists a, b, c. split; [done|]. do 3 (split; [done|]). rewrite !Forall_app. done.
  - intros (a & b & c & -> & Ha & Hb & Hc & F). rewrite !Forall_app in F. destruct F as (Fa & Fb & Fc).
    apply lang_seq. exists a, ("@"%char :: b ++ "."%char :: c). split; [done|].
    split; [by apply lang_plus|]. apply lang_seq.
    exists ["@"%char], (b ++ "."%char :: c). split; [done|]. split; [by apply lang_class; eexists|].
    apply lang_seq. exists b, ("."%char :: c). split; [done|]. split; [by apply lang_plus|].
    apply lang_seq. exists ["."%char], c. split; [done|].
    split; [by apply lang_class; eexists | by apply lang_plus].
Qed.

Section Laws.
Context `{BcryptLaws}.

(** The outcomes of the route: an error answer with the collection
    unchanged, or the new document inserted under a fresh identifier. *)
Lemma register_POST_cases (ob : option Body) (newId : string) (now : JsDate.t) (db db' : Db)
    (r : Response Result) :
  POST ob newId now db = (r, db') ->
  (db' = db /\ is_error r = true) \/
  exists b e p, ob = Some b /\ js_truthy (email b) = Some e /\ js_truthy (password b) = Some p /\
    test emailRegex e = true /\ 6 <= String.length p /\
    Mongo.findOne (has_email e) db = None /\ db !! newId = None /\
    db' = <[newId := newUser e p now]> db /\
    r = mkResponse 201 (JSuccess (mkResult MSG_CREATED newId)).
Proof.
  unfold POST. destruct ob as [b|]; [|intros [= <- <-]; by left].
  destruct (js_truthy (email b)) as [e|] eqn:He, (js_truthy (password b)) as [p|] eqn:Hp;
    try (intros [= <- <-]; by left).
  destruct (test emailRegex e) eqn:Ht; simpl; [|intros [= <- <-]; by left].
  destruct (String.length p <? 6) eqn:Hl; [intros [= <- <-]; by left|].
  apply Nat.ltb_ge in Hl.
  destruct (Mongo.findOne _ db) eqn:Hf; [intros [= <- <-]; by left|].
  unfold Mongo.insertOne. destruct (db !! newId) eqn:Hn; [intros [= <- <-]; by left|].
  intros [= <- <-]. right. by exists b, e, p.
Qed.

Lemma register_POST_success (ob : option Body) (newId : string) (now : JsDate.t) (db db' : Db)
    (r : Response Result) :
  POST ob newId now db = (r, db') -> is_error r = false ->
  exists e p, db !! newId = None /\ db' = <[newId := newUser e p now]> db /\
    Mongo.findOne (has_email e) db = None.
Proof.
  intros Hp He. apply register_POST_cases in Hp as [[_ He'] | (b & e & p & _ & _ & _ & _ & _ & Hf & Hn & -> & _)].
  - by rewrite He in He'.
  - by exists e, p.
Qed.

End Laws.

(** After an insertion guarded by [findOne({email})], the new document
    is the only one with that e-mail. *)
Lemma inserted_email_only (e k k' : string) (d d' : User.t) (db : Db) :
  Mongo.findOne (has_email e) db = None -> User.email d = Some e ->
  <[k := d]> db !! k' = Some d' -> User.email d' = Some e -> k' = k /\ d' = d.
Proof.
  intros Hf _ Hk' He'. apply lookup_insert_Some in Hk' as [[-> ->] | [Hne Hk']]; [done|].
  eapply Mongo.findOne_None in Hf; [|exact Hk']. apply has_email_spec in He'. congruence.
Qed.

(** Inserting a document whose e-mail no stored document has keeps
    e-mails unique. *)
Lemma insert_emails_unique (e k : string) (d : User.t) (db : Db) :
  emails_unique db -> Mongo.findOne (has_email e) db = None -> User.email d = Some e ->
  emails_unique (<[k := d]> db).
Proof.
  intros Hu Hf He k1 k2 d1 d2 e' H1 H2 E1 E2.
  destruct (decide (Some e' = Some e)) as [[= ->]|Ne].
  - by rewrite (proj1 (inserted_email_only e k k1 d d1 db Hf He H1 E1)),
               (proj1 (inserted_email_only e k k2 d d2 db Hf He H2 E2)).
  - apply lookup_insert_Some in H1 as [[_ <-]|[_ H1]]; [congruence|].
    apply lookup_insert_Some in H2 as [[_ <-]|[_ H2]]; [congruence|]. eapply Hu; eauto.
Qed.

(** ** Properties *)

(** C28: the e-mail check [/^[^\s@]+@[^\s@]+\.[^\s@]+$/.test] accepts
    exactly the strings [local@domain.tld] whose three parts are
    non-empty and free of white space and [@]: one [@], and a dot
    after it that is neither its first nor its last character. *)
Theorem register_email_format (s : string) :
  test emailRegex s = true <-> email_shape (String.list_ascii_of_string s).
Proof. by rewrite test_spec, emailRegex_lang. Qed.

Section Props.
Context `{BcryptLaws}.

(** C29: a well-formed e-mail not yet registered and a password of at
    least 6 characters create the document [newUser] under the new
    identifier with answer 201, and the stored hash verifies the
    password. *)
Theorem register_creates (e p newId : string) (now : JsDate.t) (db : Db) :
  e <> "" -> test emailRegex e = true -> 6 <= String.length p ->
  (forall k d, db !! k = Some d -> User.email d <> Some e) -> db !! newId = None ->
  POST (Some (mkBody (Some e) (Some p))) newId now db =
    (mkResponse 201 (JSuccess (mkResult MSG_CREATED newId)), <[newId := newUser e p now]> db) /\
  exists h, User.password (newUser e p now) = Some h /\ compare p h = true.
Proof.
  intros He Ht Hl Hu Hn. split.
  - assert (Hf : Mongo.findOne (has_email e) db = None).
    { destruct (Mongo.findOne _ db) as [d|] eqn:Hf; [|done].
      apply Mongo.findOne_Some in Hf as [Hd [k Hk]]. apply has_email_spec in Hd. by destruct (Hu k d Hk). }
    unfold POST. destruct e as [|c e']; [done|]. destruct p as [|c' p']; [simpl in Hl; lia|].
    cbn [email password js_truthy]. rewrite Ht.
    simpl negb. cbv iota. replace (String.length (String c' p') <? 6) with false by (symmetry; apply Nat.ltb_ge; lia).
    rewrite Hf. unfold Mongo.insertOne. by rewrite Hn.
  - eexists. split; [done | apply compare_hash].
Qed.

(** The route keeps e-mails unique: it inserts a document only
    when no document has its e-mail. *)
Theorem register_emails_unique (ob : option Body) (newId : string) (now : JsDate.t)
    (db db' : Db) (r : Response Result) :
  POST ob newId now db = (r, db') -> emails_unique db -> emails_unique db'.
Proof.
  intros Hp Hu. apply register_POST_cases in Hp as [[-> _] | (b & e & p & _ & _ & _ & _ & _ & Hf & Hn & -> & _)]; [done|].
  by apply (insert_emails_unique e).
Qed.

(** every refusal of the route, and the answer to a failed
    insertion, leaves the collection unchanged. *)
Lemma register_error_unchanged (ob : option Body) (newId : string) (now : JsDate.t)
    (db db' : Db) (r : Response Result) :
  POST ob newId now db = (r, db') -> is_error r = true -> db' = db.
Proof.
  intros Hp He. apply register_POST_cases in Hp as [[-> _] | (? & ? & ? & _ & _ & _ & _ & _ & _ & _ & _ & ->)]; done.
Qed.

(** Finding: a registered account is never given the gaming
    defaults: [register] writes [level: 1], so
    [checkIfUserHasGamingStats] reports gaming stats and
    [initializeUserGamingStats] is never applied, although the
    document has no [stats], no [totalXP] (the route writes [xp]
    instead) and no [streakDays]. *)
Theorem register_skips_initialization (ob : option Body) (newId : string) (now : JsDate.t)
    (db db' : Db) (r : Response Result) :
  POST ob newId now db = (r, db') -> is_error r = false ->
  UserHelpers.checkIfUserHasGamingStats newId db' = true /\
  exists d, db' !! newId = Some d /\ User.stats d = None /\ User.totalXP d = None /\
    User.streakDays d = None.
Proof.
  intros Hp He. destruct (register_POST_success _ _ _ _ _ _ Hp He) as (e & p & _ & -> & _).
  unfold UserHelpers.checkIfUserHasGamingStats. rewrite lookup_insert_eq.
  split; [by apply bool_decide_eq_true | by eexists].
Qed.

End Props.

(** ** Witnesses, with a stand-in for bcrypt on the sample collection *)

#[local] Instance SampleBcrypt : Bcrypt := {|
  hash p := String.append "$2b$12$" p;
  compare p h := String.eqb h (String.append "$2b$12$" p)
|}.

#[local] Instance SampleBcrypt_laws : BcryptLaws.
Proof. split; simpl; [intros p; apply String.eqb_refl | intros p h; apply String.eqb_eq | discriminate]. Qed.

Definition bob : Body := mkBody (Some "bob@example.com") (Some "secret1").

Lemma db0_emails_unique : emails_unique Sample.db0.
Proof.
  intros k1 k2 d1 d2 e H1 H2 _ _. unfold Sample.db0 in *.
  apply lookup_insert_Some in H1 as [[<- _] | [_ H1]]; [|done].
  apply lookup_insert_Some in H2 as [[<- _] | [_ H2]]; done.
Qed.

Lemma db0_no_bob (k : string) (d : User.t) :
  Sample.db0 !! k = Some d -> User.email d <> Some "bob@example.com".
Proof.
  unfold Sample.db0. intros H. apply lookup_insert_Some in H as [[_ <-] | [_ H]]; [|done].
  vm_compute. discriminate.
Qed.

Lemma register_creates_witness :
  POST (Some bob) "u2" 0%Z Sample.db0 =
    (mkResponse 201 (JSuccess (mkResult MSG_CREATED "u2")),
     <["u2" := newUser "bob@example.com" "secret1" 0%Z]> Sample.db0) /\
  exists h, User.password (newUser "bob@example.com" "secret1" 0%Z) = Some h /\
    compare "secret1" h = true.
Proof.
  apply register_creates; [discriminate | vm_compute; reflexivity | simpl; lia | apply db0_no_bob |
    vm_compute; reflexivity].
Defined.

Lemma register_emails_unique_witness : emails_unique (POST (Some bob) "u2" 0%Z Sample.db0).2.
Proof.
  apply (register_emails_unique (Some bob) "u2" 0%Z Sample.db0 _ (POST (Some bob) "u2" 0%Z Sample.db0).1).
  - apply surjective_pairing.
  - apply db0_emails_unique.
Defined.

Lemma register_skips_initialization_witness :
  UserHelpers.checkIfUserHasGamingStats "u2" (POST (Some bob) "u2" 0%Z Sample.db0).2 = true /\
  exists d, (POST (Some bob) "u2" 0%Z Sample.db0).2 !! "u2" = Some d /\ User.stats d = None /\
    User.totalXP d = None /\ User.streakDays d = None.
Proof.
  apply (register_skips_initialization (Some bob) "u2" 0%Z Sample.db0 _
           (POST (Some bob) "u2" 0%Z Sample.db0).1).
  - apply surjective_pairing.
  - vm_compute. reflexivity.
Defined.

End Register.
