(* ===== verification/Uniqueness.v ===== *)
(** * Uniqueness: the check-then-write routes under overlapping requests

    The username route and the registration route keep a key unique by
    a query followed by a write: [findOne] for a matching username,
    then [updateOne] with [$set]; [findOne({email})], then
    [bcrypt.hash] (cost 12) and [insertOne].  Each [await] lets other
    requests run, and no unique index backs the check (the sources
    create none).  As in [Concurrency], each route is split at its
    awaits into the checks ([username_prepare], [register_prepare])
    and the write ([username_commit], [register_commit]), proved equal
    to the route when run together, and two requests are run with
    both checks before both writes. *)

From S2P Require Import Prelude Regex Store Username Register.
Import Regex.

Module Uniqueness.

(** ** The username route *)

(** [POST /api/user/username] up to its [updateOne]: an early answer,
    or the trimmed name to write for the session user. *)
Definition username_prepare (session : option string) (body : option (option string)) (db : Db)
    : Response string + string :=
  match session with
  | None => inl (respond_err 401 "Not authenticated")
  | Some _ =>
  match body with
  | None => inl (respond_err 500 "Internal server error")
  | Some username =>
  match Username.validate username with
  | inl msg => inl (respond_err 400 msg)
  | inr trimmedUserName =>
  match Mongo.findOne (Username.taken_by trimmedUserName) db with
  | Some _ => inl (respond_err 400 Username.MSG_TAKEN)
  | None => inr trimmedUserName
  end end end end.

(** The [updateOne] and the answer. *)
Definition username_commit (userId nm : string) (db : Db) : Response string * Db :=
  let '(modifiedCount, db') := Mongo.updateOne userId (Username.setUsername nm) db in
  if modifiedCount =? 0 then (respond_err 500 "Failed to update username", db')
  else (respond_ok nm, db').

(** Two username requests, both checks before both writes. *)
Definition username_overlap (s1 s2 : string) (b1 b2 : option (option string)) (db : Db)
    : Response string * Response string * Db :=
  let finish s x d :=
    match x with inl r => (r, d) | inr nm => username_commit s nm d end in
  let x1 := username_prepare (Some s1) b1 db in
  let x2 := username_prepare (Some s2) b2 db in
  let '(r1, db1) := finish s1 x1 db in
  let '(r2, db2) := finish s2 x2 db1 in
  (r1, r2, db2).

(** ** The registration route *)

Section WithBcrypt.
Context `{Register.Bcrypt}.

(** [POST /api/auth/register] up to its [insertOne]: an early answer,
    or the e-mail and password of the document to insert. *)
Definition register_prepare (body : option Register.Body) (db : Db)
    : Response Register.Result + (string * string) :=
  match body with
  | None => inl (respond_err 500 "Internal server error")
  | Some b =>
  match Register.js_truthy (Register.email b), Register.js_truthy (Register.password b) with
  | Some e, Some p =>
      if negb (test Register.emailRegex e) then inl (respond_err 400 Register.MSG_EMAIL)
      else if String.length p <? 6 then inl (respond_err 400 Register.MSG_PASSWORD)
      else match Mongo.findOne (Register.has_email e) db with
      | Some _ => inl (respond_err 409 Register.MSG_EXISTS)
      | None => inr (e, p)
      end
  | _, _ => inl (respond_err 400 Register.MSG_MISSING)
  end end.

(** The hash, the [insertOne] under the identifier the driver
    generates, and the answer. *)
Definition register_commit (e p newId : string) (now : JsDate.t) (db : Db)
    : Response Register.Result * Db :=
  match Mongo.insertOne newId (Register.newUser e p now) db with
  | None => (respond_err 500 "Internal server error", db)
  | Some db' => (mkResponse 201 (JSuccess (Register.mkResult Register.MSG_CREATED newId)), db')
  end.

(** Two registrations, both checks before both inserts. *)
Definition register_overlap (b1 b2 : option Register.Body) (id1 id2 : string) (now1 now2 : JsDate.t)
    (db : Db) : Response Register.Result * Response Register.Result * Db :=
  let finish x newId now d :=
    match x with inl r => (r, d) | inr (e, p) => register_commit e p newId now d end in
  let x1 := register_prepare b1 db in
  let x2 := register_prepare b2 db in
  let '(r1, db1) := finish x1 id1 now1 db in
  let '(r2, db2) := finish x2 id2 now2 db1 in
  (r1, r2, db2).

End WithBcrypt.

(** ** Lemmas *)

(** The username route is its checks followed by its write. *)
Lemma username_POST_split (s : string) (b : option (option string)) (db : Db) :
  Username.POST (Some s) b db =
    match username_prepare (Some s) b db with inl r => (r, db) | inr nm => username_commit s nm db end.
Proof. unfold Username.POST, username_prepare, username_commit. by repeat case_match. Qed.

(** The registration route is its checks followed by its insert. *)
Lemma register_POST_split `{Register.Bcrypt} (b : option Register.Body) (newId : string) (now : JsDate.t) (db : Db) :
  Register.POST b newId now db =
    match register_prepare b db with inl r => (r, db) | inr (e, p) => register_commit e p newId now db end.
Proof. unfold Register.POST, register_prepare, register_commit. by repeat case_match. Qed.

(** A write of a name to a document without a username. *)
Lemma username_commit_fresh (uid nm : string) (d : User.t) (db : Db) :
  db !! uid = Some d -> User.username d = None ->
  username_commit uid nm db = (respond_ok nm, <[uid := Username.setUsername nm d]> db).
Proof.
  intros Hd Hn. unfold username_commit.
  rewrite (Mongo.updateOne_modified _ _ _ _ Hd); [done|]. intros E.
  apply (f_equal User.username) in E. simpl in E. congruence.
Qed.

Lemma register_commit_fresh `{Register.Bcrypt} (e p newId : string) (now : JsDate.t) (db : Db) :
  db !! newId = None ->
  register_commit e p newId now db =
    (mkResponse 201 (JSuccess (Register.mkResult Register.MSG_CREATED newId)),
     <[newId := Register.newUser e p now]> db).
Proof. intros Hn. unfold register_commit, Mongo.insertOne. by rewrite Hn. Qed.

Lemma findOne_found (p : User.t -> bool) (db : Db) (k : string) (d : User.t) :
  db !! k = Some d -> p d = true -> exists d', Mongo.findOne p db = Some d'.
Proof.
  intros Hk Hp. destruct (Mongo.findOne p db) as [d'|] eqn:E; [by exists d'|].
  by rewrite (Mongo.findOne_None _ _ _ _ E Hk) in Hp.
Qed.

(** Once a document holds a matching name, the same request is refused. *)
Lemma username_prepare_taken (s : string) (b : option (option string)) (nm : string) (db db' : Db)
    (k : string) (d : User.t) :
  username_prepare (Some s) b db = inr nm -> db' !! k = Some d -> Username.taken_by nm d = true ->
  username_prepare (Some s) b db' = inl (respond_err 400 Username.MSG_TAKEN).
Proof.
  unfold username_prepare. intros Hp Hk Ht.
  destruct b as [b|]; [|done]. destruct (Username.validate b) as [m|n]; [done|].
  destruct (Mongo.findOne _ db); [done|]. injection Hp as <-.
  by destruct (findOne_found _ _ _ _ Hk Ht) as [d' ->].
Qed.

(** Once a document holds the e-mail, the same registration is refused. *)
Lemma register_prepare_exists `{Register.Bcrypt} (b : option Register.Body) (e p : string) (db db' : Db)
    (k : string) (d : User.t) :
  register_prepare b db = inr (e, p) -> db' !! k = Some d -> Register.has_email e d = true ->
  register_prepare b db' = inl (respond_err 409 Register.MSG_EXISTS).
Proof.
  unfold register_prepare. intros Hp Hk Ht.
  destruct b as [b|]; [|done].
  destruct (Register.js_truthy (Register.email b)) as [e'|], (Register.js_truthy (Register.password b)) as [p'|];
    try done.
  destruct (negb _); [done|]. destruct (_ <? 6); [done|].
  destruct (Mongo.findOne _ db); [done|]. injection Hp as <- <-.
  by destruct (findOne_found _ _ _ _ Hk Ht) as [d' ->].
Qed.

Lemma has_email_newUser `{Register.Bcrypt} (e p : string) (now : JsDate.t) :
  Register.has_email e (Register.newUser e p now) = true.
Proof. unfold Register.has_email. simpl. by apply bool_decide_eq_true. Qed.

(** ** Properties *)

(** C26 (finding): two users without a username ask for names that
    match up to case; when both uniqueness queries run before either
    write, both requests are answered with success and the collection
    ends with two documents whose usernames match, breaking the
    uniqueness the route's query enforces when the requests run one
    after the other, where the second is refused as taken. *)
Theorem overlapping_usernames_duplicate (uid1 uid2 : string) (b1 b2 : option (option string))
    (n1 n2 : string) (d1 d2 : User.t) (db : Db) :
  uid1 <> uid2 -> db !! uid1 = Some d1 -> db !! uid2 = Some d2 ->
  User.username d1 = None -> User.username d2 = None ->
  username_prepare (Some uid1) b1 db = inr n1 -> username_prepare (Some uid2) b2 db = inr n2 ->
  Username.matches_ci n1 n2 = true ->
  (let '(r1, r2, db') := username_overlap uid1 uid2 b1 b2 db in
   json r1 = JSuccess n1 /\ json r2 = JSuccess n2 /\ ~ Username.usernames_unique db') /\
  (Username.POST (Some uid2) b2 (Username.POST (Some uid1) b1 db).2).1 = respond_err 400 Username.MSG_TAKEN.
Proof.
  intros Hne H1 H2 Hn1 Hn2 P1 P2 Hm. split.
  - unfold username_overlap. rewrite P1, P2. cbv beta iota zeta.
    rewrite (username_commit_fresh _ _ _ _ H1 Hn1).
    rewrite (username_commit_fresh uid2 n2 d2); [| by rewrite lookup_insert_ne | done].
    split; [done|]. split; [done|]. intros Hu.
    assert (E : Username.matches_ci n1 n2 = false).
    { apply (Hu uid1 uid2 (Username.setUsername n1 d1) (Username.setUsername n2 d2)); [done | | | done | done].
      - by rewrite lookup_insert_ne, lookup_insert_eq.
      - apply lookup_insert_eq. }
    congruence.
  - rewrite (username_POST_split uid1), P1, (username_commit_fresh _ _ _ _ H1 Hn1). cbn [snd].
    rewrite username_POST_split.
    rewrite (username_prepare_taken uid2 b2 n2 db _ uid1 (Username.setUsername n1 d1) P2);
      [done | apply lookup_insert_eq |].
    unfold Username.taken_by. simpl. by rewrite Username.matches_ci_sym.
Qed.

(** C27 (finding): two registrations of one e-mail whose queries both
    run before either insertion (the [bcrypt.hash] of cost 12 between
    them makes the window wide) are both answered 201, and the
    collection ends with two documents holding that e-mail; run one
    after the other, the second is refused with 409. *)
Theorem overlapping_registrations_duplicate `{Register.Bcrypt} (b1 b2 : option Register.Body)
    (e p1 p2 id1 id2 : string) (now1 now2 : JsDate.t) (db : Db) :
  id1 <> id2 -> db !! id1 = None -> db !! id2 = None ->
  register_prepare b1 db = inr (e, p1) -> register_prepare b2 db = inr (e, p2) ->
  (let '(r1, r2, db') := register_overlap b1 b2 id1 id2 now1 now2 db in
   status r1 = 201 /\ status r2 = 201 /\
   db' !! id1 = Some (Register.newUser e p1 now1) /\ db' !! id2 = Some (Register.newUser e p2 now2) /\
   ~ Register.emails_unique db') /\
  (Register.POST b2 id2 now2 (Register.POST b1 id1 now1 db).2).1 = respond_err 409 Register.MSG_EXISTS.
Proof.
  intros Hne H1 H2 P1 P2. split.
  - unfold register_overlap. rewrite P1, P2. cbv beta iota zeta.
    rewrite (register_commit_fresh _ _ _ _ _ H1).
    rewrite (register_commit_fresh _ _ id2); [| by rewrite lookup_insert_ne].
    assert (L1 : <[id2 := Register.newUser e p2 now2]> (<[id1 := Register.newUser e p1 now1]> db) !! id1 =
                 Some (Register.newUser e p1 now1)) by (by rewrite lookup_insert_ne, lookup_insert_eq).
    split; [done|]. split; [done|]. split; [exact L1|]. split; [apply lookup_insert_eq|].
    intros Hu. apply Hne. by apply (Hu id1 id2 _ _ e L1 (lookup_insert_eq _ _ _)).
  - rewrite (register_POST_split b1), P1, (register_commit_fresh _ _ _ _ _ H1). cbn [snd].
    rewrite register_POST_split.
    by rewrite (register_prepare_exists b2 e p2 db _ id1 (Register.newUser e p1 now1) P2);
      [| apply lookup_insert_eq | apply has_email_newUser].
Qed.

(** ** Witnesses *)

#[local] Existing Instance Register.SampleBcrypt.

Definition two_users : Db :=
  <["u2" := User.fresh "bea@example.com"]> (<["u1" := User.fresh "ada@example.com"]> ∅).

Lemma overlapping_usernames_duplicate_witness :
  (let '(r1, r2, db') := username_overlap "u1" "u2" (Some (Some "Hero")) (Some (Some "hero")) two_users in
   json r1 = JSuccess "Hero" /\ json r2 = JSuccess "hero" /\ ~ Username.usernames_unique db') /\
  (Username.POST (Some "u2") (Some (Some "hero")) (Username.POST (Some "u1") (Some (Some "Hero")) two_users).2).1
    = respond_err 400 Username.MSG_TAKEN.
Proof.
  apply (overlapping_usernames_duplicate "u1" "u2" _ _ "Hero" "hero"
           (User.fresh "ada@example.com") (User.fresh "bea@example.com"));
    [discriminate | reflexivity | reflexivity | reflexivity | reflexivity
    | vm_compute; reflexivity | vm_compute; reflexivity | vm_compute; reflexivity].
Defined.

Definition bob_again : Register.Body := Register.mkBody (Some "bob@example.com") (Some "another1").

Lemma overlapping_registrations_duplicate_witness :
  (let '(r1, r2, db') := register_overlap (Some Register.bob) (Some bob_again) "u2" "u3" 0%Z 1%Z Sample.db0 in
   status r1 = 201 /\ status r2 = 201 /\
   db' !! "u2" = Some (Register.newUser "bob@example.com" "secret1" 0%Z) /\
   db' !! "u3" = Some (Register.newUser "bob@example.com" "another1" 1%Z) /\
   ~ Register.emails_unique db') /\
  (Register.POST (Some bob_again) "u3" 1%Z (Register.POST (Some Register.bob) "u2" 0%Z Sample.db0).2).1
    = respond_err 409 Register.MSG_EXISTS.
Proof.
  apply (overlapping_registrations_duplicate _ _ "bob@example.com" "secret1" "another1");
    [discriminate | reflexivity | reflexivity | vm_compute; reflexivity | vm_compute; reflexivity].
Defined.

End Uniqueness.
