(* ===== verification/Auth.v ===== *)
(** * Auth: sign-in, redirects and the session user id

    Models the callbacks of [authOptions] in
    [src/health-leveling/src/lib/auth.ts] (JWT sessions) and
    [src/solo-leveling/src/lib/auth.ts] (database sessions):
    - [authorize] of the credentials provider: look the e-mail up,
      compare the password with the stored bcrypt hash, and return
      [{id, email, name: name || email}] or [null];
    - [redirect]: keep a URL that starts with [baseUrl], send any
      other to [baseUrl + '/dashboard'];
    - [jwt] copies the signed-in user's id into the token and
      [session] copies the token's id (or, with database sessions, the
      adapter user's id) into [session.user.id], the identifier every
      route reads;
    - the two [authOptions] objects as [AuthOptions] records (providers,
      session strategy, sign-in page, callbacks) and [on_session], what a
      configuration's callbacks compute for a signed-in user.
    The Google provider's OAuth exchange, the MongoDB adapter and the token encryption
    are the library's and are not modelled. *)

From S2P Require Import Prelude Store Register.
Import Register.

Module Auth.

(** [credentials] of [authorize]: a field is [None] when absent. *)
Record Credentials := mkCred {
  cred_email : option string;
  cred_password : option string
}.

(** The user [authorize] returns. *)
Record AuthUser := mkAuthUser {
  id : string;
  au_email : option string;
  au_name : option string
}.

(** The token's [id] claim. *)
Record Token := mkToken { tok_id : option string }.

(** [session.user] (absent when the session has no user). *)
Record Session := mkSession { user : option (option string) }.

(** [user.name || user.email]. *)
Definition name_or_email (d : User.t) : option string :=
  match User.name d with
  | Some n => if String.eqb n "" then User.email d else Some n
  | None => User.email d
  end.

Section WithBcrypt.
Context `{Bcrypt}.

(** [authorize(credentials)]. *)
Definition authorize (c : option Credentials) (db : Db) : option AuthUser :=
  match c with
  | None => None
  | Some c =>
  match js_truthy (cred_email c), js_truthy (cred_password c) with
  | Some e, Some p =>
      match Mongo.findOneEntry (has_email e) db with
      | Some (k, d) =>
          match js_truthy (User.password d) with
          | Some h => if compare p h then Some (mkAuthUser k (User.email d) (name_or_email d)) else None
          | None => None
          end
      | None => None
      end
  | _, _ => None
  end end.

End WithBcrypt.

(** [redirect({url, baseUrl})]. *)
Definition redirect (url baseUrl : string) : string :=
  if String.prefix baseUrl url then url else String.append baseUrl "/dashboard".

(** [jwt({token, user})] (JWT strategy): [token.id = user.id || user._id?.toString()];
    a user built by [authorize] has no [_id]. *)
Definition jwt (token : Token) (u : option AuthUser) : Token :=
  match u with
  | Some u => mkToken (if String.eqb (id u) "" then None else Some (id u))
  | None => token
  end.

(** [session({session, token})] (JWT strategy). *)
Definition session_jwt (s : Session) (token : Token) : Session :=
  match user s with Some _ => mkSession (Some (tok_id token)) | None => s end.

(** [session({session, user})] (database strategy): the adapter's user. *)
Definition session_db (s : Session) (adapterUserId : string) : Session :=
  match user s with Some _ => mkSession (Some (Some adapterUserId)) | None => s end.

(** The session user id a route reads ([session?.user?.id]). *)
Definition session_user_id (s : Session) : option string := mjoin (user s).

(** ** The configuration objects

    [authOptions] of each application: its providers (Google, and the
    credentials provider with its [authorize]), the session strategy,
    the sign-in page and the callbacks.  Which callbacks the library
    runs, and when, is the library's and is not modelled; [on_session]
    is what a configuration's callbacks compute from a signed-in user. *)

Inductive Provider :=
| GoogleProvider
| CredentialsProvider (authorize : option Credentials -> Db -> option AuthUser).

Inductive SessionStrategy := JwtStrategy | DatabaseStrategy.

(** [callbacks.jwt] and [callbacks.session] of each strategy. *)
Inductive SessionCallbacks :=
| JwtCallbacks (jwt_cb : Token -> option AuthUser -> Token) (session_cb : Session -> Token -> Session)
| DatabaseCallbacks (session_cb : Session -> string -> Session).

Record AuthOptions := mkOptions {
  providers : list Provider;
  strategy : SessionStrategy;
  signInPage : string;
  redirect_cb : string -> string -> string;
  session_callbacks : SessionCallbacks
}.

(** [authOptions] of health-leveling. *)
Definition health_authOptions `{Bcrypt} : AuthOptions :=
  mkOptions [GoogleProvider; CredentialsProvider authorize] JwtStrategy "/" redirect
    (JwtCallbacks jwt session_jwt).

(** [authOptions] of solo-leveling: the same providers and redirect,
    database sessions. *)
Definition solo_authOptions `{Bcrypt} : AuthOptions :=
  mkOptions [GoogleProvider; CredentialsProvider authorize] DatabaseStrategy "/" redirect
    (DatabaseCallbacks session_db).

(** The session a configuration's callbacks build for the signed-in
    user [u] (for database sessions, the adapter's user of the same
    [_id]). *)
Definition on_session (o : AuthOptions) (s : Session) (u : AuthUser) : Session :=
  match session_callbacks o with
  | JwtCallbacks j sj => sj s (j (mkToken None) (Some u))
  | DatabaseCallbacks sd => sd s (id u)
  end.

(** [app/api/auth/[...nextauth]/route.ts]: [NextAuth(authOptions)],
    the library's request handler built from the configuration,
    exported as both [GET] and [POST]. *)
Record NextAuthRoute (Handler : Type) := mkRoute { GET : Handler; POST : Handler }.
Arguments mkRoute {Handler}.
Arguments GET {Handler}.
Arguments POST {Handler}.

Section NextAuthRoute.
Context {Handler : Type} (NextAuth : AuthOptions -> Handler).

Definition health_nextauth_route `{Bcrypt} : NextAuthRoute Handler :=
  let handler := NextAuth health_authOptions in mkRoute handler handler.

Definition solo_nextauth_route `{Bcrypt} : NextAuthRoute Handler :=
  let handler := NextAuth solo_authOptions in mkRoute handler handler.

End NextAuthRoute.

(** ** Lemmas *)

Lemma js_truthy_id (s : option string) (e : string) : js_truthy s = Some e -> s = Some e.
Proof. destruct s as [[|c s]|]; simpl; congruence. Qed.

Lemma prefix_append (a b : string) : String.prefix a (String.append a b) = true.
Proof. induction a as [|c a IH]; simpl; [by destruct b|]. by destruct (Ascii.ascii_dec c c). Qed.

(** ** Properties *)

Section Props.
Context `{BcryptLaws}.

(** What [authorize] checks of a user it accepts. *)
Lemma authorize_inv (c : option Credentials) (db : Db) (au : AuthUser) :
  authorize c db = Some au ->
  exists cr d p h, c = Some cr /\ db !! id au = Some d /\ User.email d = cred_email cr /\
    js_truthy (cred_password cr) = Some p /\ User.password d = Some h /\ compare p h = true.
Proof.
  unfold authorize. destruct c as [cr|]; [|done].
  destruct (js_truthy (cred_email cr)) as [e|] eqn:He, (js_truthy (cred_password cr)) as [p|] eqn:Hp;
    try done.
  destruct (Mongo.findOneEntry _ db) as [[k d]|] eqn:Hf; [|done].
  apply Mongo.findOneEntry_Some in Hf as [Hd Hk]. apply has_email_spec in Hd.
  destruct (js_truthy (User.password d)) as [h|] eqn:Hh; [|done].
  destruct (compare p h) eqn:Hc; [|done]. intros [= <-].
  exists cr, d, p, h. split; [done|]. split; [done|]. split; [by rewrite Hd, (js_truthy_id _ _ He)|].
  split; [done|]. by rewrite (js_truthy_id _ _ Hh).
Qed.

(** C30: a user [authorize] accepts is a stored document with the
    submitted e-mail whose stored hash is the hash of the submitted
    password; the returned id is that document's [_id]. *)
Theorem authorize_sound (c : option Credentials) (db : Db) (au : AuthUser) :
  authorize c db = Some au ->
  exists cr d p, c = Some cr /\ db !! id au = Some d /\ User.email d = cred_email cr /\
    js_truthy (cred_password cr) = Some p /\ User.password d = Some (hash p).
Proof.
  intros (cr & d & p & h & -> & Hd & He & Hp & Hh & Hc)%authorize_inv.
  exists cr, d, p. do 4 (split; [done|]). rewrite Hh. f_equal. by apply compare_sound.
Qed.

(** C31: registering and then signing in round-trip: after [register]
    creates an account, [authorize] with the same e-mail and password
    returns the new document's id, the e-mail, and the e-mail as name
    (the registration stores an empty name). *)
Theorem register_then_authorize (e p newId : string) (now : JsDate.t) (db db' : Db)
    (r : Response Result) :
  Register.POST (Some (Register.mkBody (Some e) (Some p))) newId now db = (r, db') ->
  is_error r = false ->
  authorize (Some (mkCred (Some e) (Some p))) db' = Some (mkAuthUser newId (Some e) (Some e)).
Proof.
  intros Hp Herr. apply Register.register_POST_cases in Hp as
    [[_ He] | (b & e' & p' & [= <-] & He & Hpw & _ & _ & Hf & Hn & -> & _)]; [by rewrite He in Herr|].
  cbn [Register.email Register.password] in He, Hpw. unfold authorize. cbn [cred_email cred_password].
  rewrite He, Hpw.
  destruct (Mongo.findOneEntry_exists (has_email e') (<[newId := newUser e' p' now]> db) newId
              (newUser e' p' now)) as [[k d] Hkd];
    [apply lookup_insert_eq | by apply has_email_spec|].
  rewrite Hkd. apply Mongo.findOneEntry_Some in Hkd as [Hd Hk]. apply has_email_spec in Hd.
  destruct (inserted_email_only e' newId k (newUser e' p' now) d db Hf eq_refl Hk Hd) as [-> ->].
  assert (Hh : js_truthy (User.password (newUser e' p' now)) = Some (hash p')).
  { simpl. pose proof (hash_nonempty p'). by destruct (hash p'). }
  rewrite Hh, compare_hash. apply js_truthy_id in He. by injection He as ->.
Qed.

(** after a credentials sign-in, the session built by the [jwt]
    and [session] callbacks carries as [session.user.id] the [_id] of
    the stored document whose e-mail and password were checked, which
    is the key every route looks the user up by. *)
Lemma session_identifies_user (c : option Credentials) (db : Db) (au : AuthUser)
    (tok : Token) (s : Session) :
  authorize c db = Some au -> id au <> "" -> user s <> None ->
  exists d, session_user_id (session_jwt s (jwt tok (Some au))) = Some (id au) /\
    db !! id au = Some d /\ exists cr, c = Some cr /\ User.email d = cred_email cr.
Proof.
  intros Ha Hid Hs. destruct (authorize_inv _ _ _ Ha) as (cr & d & p & h & -> & Hd & He & _).
  exists d. split; [|split; [done | by exists cr]].
  unfold session_user_id, session_jwt, jwt. destruct (user s); [|done]. simpl.
  by destruct (String.eqb_spec (id au) "").
Qed.

(** Both configurations build a session whose user id is the id of
    the signed-in user; they share the providers, the sign-in page and
    the redirect, and differ only in the strategy and its callbacks. *)
Lemma on_session_user_id (s : Session) (au : AuthUser) :
  user s <> None -> id au <> "" ->
  session_user_id (on_session health_authOptions s au) = Some (id au) /\
  session_user_id (on_session solo_authOptions s au) = Some (id au) /\
  providers health_authOptions = providers solo_authOptions /\
  signInPage health_authOptions = signInPage solo_authOptions /\
  redirect_cb health_authOptions = redirect_cb solo_authOptions.
Proof.
  intros Hs Hid. destruct s as [[o|]]; [|done].
  unfold on_session, session_user_id, session_jwt, session_db, jwt; simpl.
  by destruct (String.eqb_spec (id au) "").
Qed.

End Props.

(** [redirect] never leaves the application: its result always
    starts with [baseUrl]. *)
Theorem redirect_stays_on_base (url baseUrl : string) :
  String.prefix baseUrl (redirect url baseUrl) = true.
Proof.
  unfold redirect. destruct (String.prefix baseUrl url) eqn:E; [done|]. apply prefix_append.
Qed.

(** C34 (finding): the check is a string prefix test, not a comparison
    of origins: any URL that extends [baseUrl], such as
    [baseUrl + ".attacker.example/"] on another host, is followed as
    it is. *)
Theorem redirect_accepts_extended_host (baseUrl rest : string) :
  redirect (String.append baseUrl rest) baseUrl = String.append baseUrl rest.
Proof. unfold redirect. by rewrite prefix_append. Qed.

(** ** Witnesses, on the account [register] creates in the sample collection *)

#[local] Existing Instance Register.SampleBcrypt.
#[local] Existing Instance Register.SampleBcrypt_laws.

Definition db_bob : Db := (Register.POST (Some Register.bob) "u2" 0%Z Sample.db0).2.
Definition bob_cred : Credentials := mkCred (Some "bob@example.com") (Some "secret1").

Lemma register_then_authorize_witness :
  authorize (Some bob_cred) db_bob = Some (mkAuthUser "u2" (Some "bob@example.com") (Some "bob@example.com")).
Proof.
  apply (register_then_authorize "bob@example.com" "secret1" "u2" 0%Z Sample.db0 db_bob
           (Register.POST (Some Register.bob) "u2" 0%Z Sample.db0).1).
  - apply surjective_pairing.
  - vm_compute. reflexivity.
Defined.

Lemma authorize_sound_witness :
  exists cr d p, Some bob_cred = Some cr /\ db_bob !! "u2" = Some d /\
    User.email d = cred_email cr /\ js_truthy (cred_password cr) = Some p /\
    User.password d = Some (hash p).
Proof.
  apply (authorize_sound (Some bob_cred) db_bob
           (mkAuthUser "u2" (Some "bob@example.com") (Some "bob@example.com"))).
  vm_compute. reflexivity.
Defined.

End Auth.
