(* ===== verification/Client.v ===== *)
(** * Client: the decisions of the dashboard and quest pages

    Models the logic of [src/solo-leveling/src/app/dashboard/page.tsx]
    and [src/solo-leveling/src/app/quest/page.tsx] that decides what is
    sent to the routes and where the user is sent:
    - the dashboard's [initializeUser] effect routes on the document
      the initialization route returns (username setup, quest panel,
      or the daily set);
    - the dashboard's [handleQuestComplete] toggles a daily quest in
      the local list and submits the daily set when four are checked;
    - the quest panel's guard sends back to the dashboard a user whose
      daily set is not done, its to-do and completed lists filter the
      assigned quests by [questsCompletedToday], and a failed
      completion whose error mentions "daily" or "strength" returns to
      the dashboard.
    It also models the sign-in page's form of
    [src/solo-leveling/src/app/page.tsx] ([onSubmit], the handling of
    the registration and sign-in answers, [toggleMode]).
    A page's React state is the explicit state of these functions; the
    routes are the models of [Complete], [Initialize], [Register] and
    [Auth]. *)

From S2P Require Import Prelude Level Catalog Store Complete Initialize Register Auth.
Import Catalog Level Complete.

Module Client.

(** A page the client navigates to, or [Stay] to render the current one. *)
Inductive Route := Stay | ToHome | ToUsernameSetup | ToQuest | ToDashboard.

#[export] Instance Route_eq_dec : EqDecision Route.
Proof. solve_decision. Defined.

(** The dashboard's [initializeUser] on the answer of the
    initialization route: the route and the [userStats] to render.  A
    failed answer is thrown and caught; a [null] [userData] throws on
    [data.userData.hasSetUsername] and is caught as well. *)
Definition dashboard_after_init (r : Response Initialize.Result) : Route * option User.t :=
  match json r with
  | JSuccess res =>
      match Initialize.userData res with
      | Some u =>
          if negb (default false (User.hasSetUsername u)) then (ToUsernameSetup, None)
          else if default false (User.hasCompletedDailyStrength u) then (ToQuest, None)
          else (Stay, Some u)
      | None => (Stay, None)
      end
  | JError _ => (Stay, None)
  end.

(** [handleQuestComplete(questName)]: the new [completedQuests] and the
    daily-set request it sends when four are checked. *)
Definition handleQuestComplete (completed : list string) (questName : string)
    : list string * option Body :=
  let newCompleted :=
    if js_includes completed questName
    then filter (fun n => negb (String.eqb n questName)) completed
    else completed ++ [questName] in
  (newCompleted,
   if length newCompleted =? 4 then Some (mkBody (Some newCompleted) QDaily) else None).

(** The quest panel's [checkDailyStrength]: back to the dashboard when
    the daily set is not done.  A [null] [userData] throws on
    [data.userData.hasCompletedDailyStrength], and the [catch] also
    goes back to the dashboard; an error answer has no [success] and
    stays. *)
Definition quest_guard (r : Response Initialize.Result) : Route :=
  match json r with
  | JSuccess res =>
      match Initialize.userData res with
      | Some u => if default false (User.hasCompletedDailyStrength u) then Stay else ToDashboard
      | None => ToDashboard
      end
  | JError _ => Stay
  end.

(** [checkDailyStrength] as the page runs it: [r] is [None] when
    [fetch] or [response.json()] throws, and the [catch] goes back to
    the dashboard. *)
Definition checkDailyStrength (r : option (Response Initialize.Result)) : Route :=
  match r with Some resp => quest_guard resp | None => ToDashboard end.

(** [useSession()]: [status === 'loading'], a session with its user
    identifier, or no session. *)
Inductive SessionStatus := SessionLoading | Authenticated (uid : string) | Unauthenticated.

(** The authentication effect of the quest panel: nothing while the
    session loads, back to [/] without a session, otherwise
    [checkDailyStrength] with the answer of its request. *)
Definition auth_effect (st : SessionStatus) (r : option (Response Initialize.Result)) : Route :=
  match st with
  | SessionLoading => Stay
  | Unauthenticated => ToHome
  | Authenticated _ => checkDailyStrength r
  end.

(** [assignedQuests.filter(q => !completedQuests.includes(q.name))]. *)
Definition todo (assigned : list QuestTemplate) (completed : list string) : list QuestTemplate :=
  filter (fun q => negb (js_includes completed (name q))) assigned.

(** [assignedQuests.filter(q => q.stat === statName && completedQuests.includes(q.name))]. *)
Definition completed_for_stat (assigned : list QuestTemplate) (completed : list string)
    (s : Stat) : list QuestTemplate :=
  filter (fun q => bool_decide (stat q = s) && js_includes completed (name q)) assigned.

(** [data.questsCompletedToday || []] after a completion. *)
Definition completed_after (r : Response Result) (completed : list string) : list string :=
  match json r with
  | JSuccess res => js_or_list (res_questsCompletedToday res)
  | JError _ => completed
  end.

(** [String.prototype.includes]. *)
Fixpoint str_includes (s sub : string) : bool :=
  String.prefix sub s || match s with "" => false | String _ s' => str_includes s' sub end.

(** The error branch of [handleCompletedQuest]: back to the dashboard
    when the error mentions the daily set. *)
Definition after_failed_completion (r : Response Result) : Route :=
  match json r with
  | JError m => if str_includes m "daily" || str_includes m "strength" then ToDashboard else Stay
  | JSuccess _ => Stay
  end.

(** ** The sign-in page ([src/solo-leveling/src/app/page.tsx]) *)

(** The form's state. *)
Record Form := mkForm {
  isRegister : bool;
  f_email : string;
  f_password : string;
  f_confirmPassword : string;
  f_error : string
}.

(** What a submission sends. *)
Inductive Submit :=
| SendRegister (b : Register.Body)
| SendSignIn (c : Auth.Credentials)
| NoSend.

(** [onSubmit]: the state before the answer, and the request. *)
Definition onSubmit (f : Form) : Form * Submit :=
  let f0 := mkForm (isRegister f) (f_email f) (f_password f) (f_confirmPassword f) "" in
  if isRegister f then
    if negb (String.eqb (f_password f) (f_confirmPassword f))
    then (mkForm (isRegister f) (f_email f) (f_password f) (f_confirmPassword f)
            "Passwords do not match", NoSend)
    else (f0, SendRegister (Register.mkBody (Some (f_email f)) (Some (f_password f))))
  else (f0, SendSignIn (Auth.mkCred (Some (f_email f)) (Some (f_password f)))).

(** The registration answer: [response.ok] (a 2xx status) switches to
    the login form with the fields cleared; otherwise
    [data.error || 'Registration failed']. *)
Definition after_register (f : Form) (r : Response Register.Result) : Form :=
  if (200 <=? status r) && (status r <? 300) then mkForm false "" "" "" ""
  else
    mkForm (isRegister f) (f_email f) (f_password f) (f_confirmPassword f)
      (match json r with
       | JError m => if String.eqb m "" then "Registration failed" else m
       | JSuccess _ => "Registration failed"
       end).

(** [signIn('credentials', ...)]: an error unless [authorize] returns a user. *)
Definition after_signin (f : Form) (u : option Auth.AuthUser) : Form :=
  match u with
  | Some _ => f
  | None => mkForm (isRegister f) (f_email f) (f_password f) (f_confirmPassword f)
              "Invalid email or password"
  end.

(** [toggleMode]. *)
Definition toggleMode (f : Form) : Form := mkForm (negb (isRegister f)) "" "" "" "".

(** ** Lemmas *)

(** The state of the dashboard's checkboxes: distinct daily names. *)
Definition checked_ok `{QuestCatalog} (l : list string) : Prop :=
  NoDup l /\ forall n, n ∈ l -> n ∈ map name DAILY_STRENGTH_QUESTS.

Section WithLaws.
Context `{CatalogLaws}.

Lemma handleQuestComplete_ok (l : list string) (q : string) :
  checked_ok l -> q ∈ map name DAILY_STRENGTH_QUESTS -> checked_ok (handleQuestComplete l q).1.
Proof.
  intros [Hnd Hin] Hq. unfold handleQuestComplete. simpl.
  destruct (js_includes l q) eqn:E.
  - split; [by apply NoDup_filter|]. intros n Hn. apply list_elem_of_filter in Hn as [_ Hn]. by apply Hin.
  - apply js_includes_false in E. split.
    + apply NoDup_app. split; [done|]. split; [|apply NoDup_singleton].
      intros x Hx ->%list_elem_of_singleton. done.
    + intros n [Hn | ->%list_elem_of_singleton]%elem_of_app; [by apply Hin | done].
Qed.

(** Four distinct daily names are all the daily names. *)
Lemma checked_ok_full (l : list string) :
  checked_ok l -> length l = 4 -> valid_daily l.
Proof.
  intros [Hnd Hin] Hl. split; [done|]. apply Forall_forall. intros n Hn.
  assert (Hp : l ≡ₚ map name DAILY_STRENGTH_QUESTS).
  { apply submseteq_length_Permutation; [by apply NoDup_submseteq|].
    by rewrite length_map, daily_length, Hl. }
  by rewrite Hp.
Qed.

Lemma handleQuestComplete_req (l : list string) (q : string) (b : Body) :
  checked_ok l -> q ∈ map name DAILY_STRENGTH_QUESTS -> (handleQuestComplete l q).2 = Some b ->
  exists l', completedQuests b = Some l' /\ questType b = QDaily /\ valid_daily l'.
Proof.
  intros Hok Hq Hb. pose proof (handleQuestComplete_ok l q Hok Hq) as Hok'.
  assert (E : (handleQuestComplete l q).2 =
    if length (handleQuestComplete l q).1 =? 4
    then Some (mkBody (Some (handleQuestComplete l q).1) QDaily) else None) by done.
  rewrite E in Hb. destruct (Nat.eqb_spec (length (handleQuestComplete l q).1) 4) as [H4|]; [|done].
  injection Hb as <-. eexists. split; [done|]. split; [done|]. by apply checked_ok_full.
Qed.

End WithLaws.

(** The messages of the completion route's refusals of an individual
    quest. *)
Lemma individual_error_msgs `{QuestCatalog} (s : option string) (cq : option (list string))
    (t : JsDate.t) (db db' : Db) (r : Response Result) (m : string) :
  POST s (Some (mkBody cq QIndividual)) t db = (r, db') -> json r = JError m ->
  m ∈ ["Unauthorized"; "User not found"; MSG_INDIVIDUAL; MSG_QUEST_DONE; "Failed to update user"].
Proof.
  unfold POST, branch, individual_branch. cbn [questType completedQuests].
  repeat (case_match; simplify_eq/=); intros; simplify_eq/=; set_solver.
Qed.

(** A submission in register mode reaches the route only with matching
    passwords, and sends the e-mail and password typed. *)
Lemma onSubmit_register (f : Form) (b : Register.Body) :
  (onSubmit f).2 = SendRegister b ->
  isRegister f = true /\ f_password f = f_confirmPassword f /\
  b = Register.mkBody (Some (f_email f)) (Some (f_password f)).
Proof.
  unfold onSubmit. destruct (isRegister f); [|done].
  destruct (String.eqb_spec (f_password f) (f_confirmPassword f)); simpl; [|done].
  by intros [= <-].
Qed.

(** ** Properties *)

(** on a new calendar day both pages offer the daily set again:
    after the initialization route resets the day, the dashboard stays
    and renders the reset document, and the quest panel sends the user
    back to the dashboard. *)
Lemma new_day_reopens_daily (uid : string) (u : User.t) (t lq : JsDate.t) (db : Db) :
  db !! uid = Some u -> is_Some (User.level u) -> User.hasSetUsername u = Some true ->
  User.lastQuestDate u = Some lq -> JsDate.toDateString lq <> JsDate.toDateString t ->
  dashboard_after_init (Initialize.POST (Some uid) t db).1 = (Stay, Some (Initialize.reset_today u)) /\
  quest_guard (Initialize.POST (Some uid) t db).1 = ToDashboard.
Proof.
  intros Hu Hl Hs Hq Hd. rewrite (Initialize.POST_initialized _ _ _ _ Hu Hl).
  rewrite (Initialize.daily_reset_new_day _ _ _ _ _ Hu Hq Hd).
  unfold dashboard_after_init, quest_guard. simpl. by rewrite Hs.
Qed.

(** Finding: the quest panel's redirect to the dashboard on a
    failed completion whose error mentions "daily" or "strength" is
    unreachable: no refusal of an individual quest by the completion
    route mentions either word, since that route never checks the
    daily set for individual quests. *)
Theorem individual_failure_never_redirects `{QuestCatalog} (s : option string)
    (cq : option (list string)) (t : JsDate.t) (db : Db) :
  after_failed_completion (POST s (Some (mkBody cq QIndividual)) t db).1 = Stay.
Proof.
  destruct (POST s _ t db) as [r db'] eqn:E. unfold after_failed_completion. simpl.
  destruct (json r) as [x|m] eqn:J; [done|].
  pose proof (individual_error_msgs _ _ _ _ _ _ _ E J) as Hm.
  assert (HF : Forall (fun m => (str_includes m "daily" || str_includes m "strength") = false)
                 ["Unauthorized"; "User not found"; MSG_INDIVIDUAL; MSG_QUEST_DONE; "Failed to update user"])
    by repeat constructor.
  rewrite Forall_forall in HF. by rewrite (HF m Hm).
Qed.

(** ** Witnesses *)

Definition u_ada : User.t :=
  User.mk (Some "ada@example.com") None None (Some "Ada") (Some true) None (Some 2) (Some 150) None
    (Some (Stats.mk 14 10 10 10 10)) (Some 1) (Some (Sample.day 999 3600000)) (Some ["Read"])
    (Some true) None.

Definition meditate : QuestTemplate := sq "e1" "Meditate" 10 1 sense.

End Client.
