(* ===== verification/Components.v ===== *)
(** * Components: the navigation bar and the authentication button

    Models [src/health-leveling/src/components/Navigation.tsx] (two
    buttons that push [/quest] and [/profile], the one of the current
    path highlighted) and [src/health-leveling/src/components/AuthButton.tsx]
    (a sign-in or sign-out button in the header, or the Google button).
    A button's [className] is the class list the browser reads from the
    template string: its words, split at white space. *)

From S2P Require Import Prelude.

Module Navigation.

Inductive Button := QuestButton | ProfileButton.

(** [handleQuestClick] and [handleProfileClick]: the path pushed. *)
Definition onClick (b : Button) : string :=
  match b with QuestButton => "/quest" | ProfileButton => "/profile" end.

(** [pathName === '/quest'] and [pathName === '/profile'] select the
    highlighted style. *)
Definition highlighted (pathName : string) (b : Button) : bool :=
  match b with
  | QuestButton => String.eqb pathName "/quest"
  | ProfileButton => String.eqb pathName "/profile"
  end.

(** The bar: each button's label, whether it is highlighted, and the
    path its click pushes. *)
Definition render (pathName : string) : list (string * bool * string) :=
  [("QUEST PANEL", highlighted pathName QuestButton, onClick QuestButton);
   ("PROFILE", highlighted pathName ProfileButton, onClick ProfileButton)].

End Navigation.

Module AuthButton.

Inductive Variant := Google | Header.

(** [useSession()]: loading, a session, or none. *)
Inductive Status := Loading | SignedIn | SignedOut.

(** [signOut()], [signIn()], [signIn('google', {callbackUrl})]. *)
Inductive Action := SignOut | SignIn | SignInWith (provider callbackUrl : string).

Inductive View := VLoading | VButton (label : string) (classes : list string) (click : Action).

(** White space separates the classes of a [className]. *)
Definition is_space (c : Ascii.ascii) : bool :=
  let n := Ascii.nat_of_ascii c in (n =? 32) || (n =? 10) || (n =? 9) || (n =? 13) || (n =? 12).

(** The class list of a [className] string: its maximal runs of
    characters that are not white space, [cur] the word being read. *)
Fixpoint words_from (cur : string) (s : string) : list string :=
  match s with
  | "" => if String.eqb cur "" then [] else [cur]
  | String c s' =>
      if is_space c then (if String.eqb cur "" then [] else [cur]) ++ words_from "" s'
      else words_from (cur ++ String c "") s'
  end.

Definition class_list (s : string) : list string := words_from "" s.

(** The line break inside the Google button's template string. *)
Definition nl : string := String (Ascii.ascii_of_nat 10) "".

(** [AuthButton({variant = 'google', children, className = ''})]. *)
Definition render (variant : option Variant) (children : option string) (className : option string)
    (st : Status) : View :=
  let cn := default "" className in
  match default Google variant with
  | Header =>
      match st with
      | Loading => VLoading
      | SignedIn =>
          VButton "Sign Out"
            (class_list ("px-4 py-2 text-sm text-red-400 hover:bg-red-700 rounded-md font-medium transition-colors" ++ cn))
            SignOut
      | SignedOut =>
          VButton "Sign In"
            (class_list ("px-4 py-2 text-sm bg-black text-white rounded-md hover:bg-gray-800 " ++ cn))
            SignIn
      end
  | Google =>
      VButton (match children with Some c => if String.eqb c "" then "Continue with Google" else c
                                 | None => "Continue with Google" end)
        (class_list ("w-full flex items-center justify-center px-4 py-3 bg-blue-600" ++ nl ++
                     "         hover:bg-blue-700 text-white rounded-lg font-semibold " ++ cn))
        (SignInWith "google" "/dashboard")
  end.

End AuthButton.

(** ** Lemmas *)

(** Exactly the button of the current page is highlighted, and each
    button pushes the path it highlights on. *)
Lemma navigation_highlight (pathName : string) (b : Navigation.Button) :
  Navigation.highlighted pathName b = true <-> pathName = Navigation.onClick b.
Proof. destruct b; simpl; apply String.eqb_eq. Qed.

