(* ===== verification/Profile.v ===== *)
(** * Profile: the profile page of health-leveling

    Models [src/health-leveling/src/app/profile/page.tsx]: its two
    effects (the guard [checkDailyStrength], the same code as the quest
    panel's and modelled by [Client.auth_effect], and [fetchUserData],
    which stores the [userData] of the initialization route's answer),
    and what the page renders from its state: the loading screen,
    nothing, or the level panel, the user information and the stats.
    The level panel reads [calculateLevel(userData.totalXP)] of
    [Level]; the progress bar is the JavaScript number
    [(currentXP / xpRequired) * 100], a rational here, [None] when it
    is [NaN].  Reading [userData.stats.strength] of a document without
    [stats] throws a [TypeError] during rendering, the screen [SCrash].
    The sign-out button below the panel is [AuthButton] of
    [Components]. *)

From Stdlib Require Import QArith.
From S2P Require Import Prelude Level Catalog Store Complete Initialize Register Client Components.
Import Level Client.

Module Profile.

(** The React state: [userData] and [loading]. *)
Record Page := mkPage {
  userData : option User.t;
  loading : bool
}.

Definition initial : Page := mkPage None true.

(** The first effect, a copy of the quest panel's
    [Client.auth_effect]. *)
Definition checkAuth : SessionStatus -> option (Response Initialize.Result) -> Route := auth_effect.

(** [fetchUserData]: [r] is [None] when [fetch] or [response.json()]
    throws.  Without a user identifier the effect returns at once and
    [loading] stays [true]. *)
Definition fetchUserData (st : SessionStatus) (r : option (Response Initialize.Result)) (p : Page) : Page :=
  match st with
  | Authenticated _ =>
      match r with
      | Some resp =>
          match json resp with
          | JSuccess res => mkPage (Initialize.userData res) false
          | JError _ => mkPage (userData p) false
          end
      | None => mkPage (userData p) false
      end
  | _ => p
  end.

(** A value shown by [{x || 'Not Provided'}]. *)
Inductive Shown := Num (n : nat) | Text (s : string).

(** [s || 'Not Provided'] on an optional string ([undefined] and [''] are falsy). *)
Definition or_not_provided (s : option string) : string :=
  match s with Some "" | None => "Not Provided" | Some x => x end.

(** [userData.totalXP || 'Not Provided']: [0] is falsy. *)
Definition totalXP_shown (x : option nat) : Shown :=
  match x with Some (S n) => Num (S n) | _ => Text "Not Provided" end.

(** What the panel shows. *)
Record ProfileView := mkProfileView {
  pv_level : nat;
  pv_currentXP : option nat;
  pv_xpRequired : nat;
  pv_barWidth : option Q;
  pv_toNext : option Z;
  pv_streak : nat;
  pv_name : string;
  pv_email : string;
  pv_totalXP : Shown;
  pv_stats : Stats.t
}.

(** [calculateLevel(userData.totalXP)]: with [totalXP] undefined the
    test [undefined >= 100] is false, so the loop returns level 1 of
    threshold 100 with an undefined [currentXP]. *)
Definition levelInfo (d : User.t) : nat * option nat * nat :=
  match User.totalXP d with
  | Some x => let li := calculateLevel x in (level li, Some (currentXP li), xpRequired li)
  | None => (1, None, 100)
  end.

(** [(levelInfo.currentXP / levelInfo.xpRequired) * 100]. *)
Definition barWidth (cur : option nat) (req : nat) : option Q :=
  match cur with
  | Some x => Some ((inject_Z (Z.of_nat x) / inject_Z (Z.of_nat req)) * 100)%Q
  | None => None
  end.

(** [levelInfo.xpRequired - levelInfo.currentXP]. *)
Definition toNext (cur : option nat) (req : nat) : option Z :=
  match cur with Some x => Some (Z.of_nat req - Z.of_nat x)%Z | None => None end.

(** The panel of a document, [None] when [userData.stats] is undefined. *)
Definition profile_view (d : User.t) : option ProfileView :=
  match User.stats d with
  | None => None
  | Some s =>
      let '(lvl, cur, req) := levelInfo d in
      Some (mkProfileView lvl cur req (barWidth cur req) (toNext cur req)
              (js_or_nat (User.streakDays d) 0)
              (or_not_provided (User.username d)) (or_not_provided (User.email d))
              (totalXP_shown (User.totalXP d)) s)
  end.

(** What the page renders. *)
(** The sign-out button below the panel: [AuthButton] with
    [variant='header'] and [className="px-8 py-3 text-lg"]; the
    [AuthButton] reads the session itself. *)
Definition sign_out_button (st : AuthButton.Status) : AuthButton.View :=
  AuthButton.render (Some AuthButton.Header) (Some "Sign Out") (Some "px-8 py-3 text-lg") st.

Inductive Screen := SLoading | SNull | SProfile (v : ProfileView) | SCrash.

Definition render (st : SessionStatus) (p : Page) : Screen :=
  match st with
  | SessionLoading => SLoading
  | _ =>
      if loading p then SLoading else
      match st, userData p with
      | Authenticated _, Some d =>
          match profile_view d with Some v => SProfile v | None => SCrash end
      | _, _ => SNull
      end
  end.

(** ** Lemmas *)

Lemma levelInfo_Some (d : User.t) (x : nat) :
  User.totalXP d = Some x -> levelInfo d = (level_of x, Some x, threshold_of (level_of x)).
Proof. intros Hx. unfold levelInfo. by rewrite Hx, calculateLevel_closed. Qed.

(** The JavaScript quotient [x / (r + 1) * 100] as one fraction. *)
Lemma barWidth_frac (x r : nat) :
  exists w, barWidth (Some x) (S r) = Some w /\ (w == (Z.of_nat x * 100) # Pos.of_succ_nat r)%Q.
Proof.
  eexists. split; [reflexivity|]. unfold Qeq, Qdiv, Qmult, Qinv, inject_Z. simpl. lia.
Qed.

Lemma Qle_frac (a b : Z) (p q : positive) : ((a # p) <= (b # q))%Q <-> (a * Zpos q <= b * Zpos p)%Z.
Proof. reflexivity. Qed.

Lemma Qlt_frac (a b : Z) (p q : positive) : ((a # p) < (b # q))%Q <-> (a * Zpos q < b * Zpos p)%Z.
Proof. reflexivity. Qed.

(** A document with a [level] and without [lastQuestDate] comes back
    from the initialization route as it is stored. *)
Lemma initialize_returns_stored (uid : string) (u : User.t) (t : JsDate.t) (db : Db) :
  db !! uid = Some u -> is_Some (User.level u) -> User.lastQuestDate u = None ->
  Initialize.result_data (Initialize.POST (Some uid) t db).1 = Some u.
Proof.
  intros Hu Hl Hq. rewrite (Initialize.POST_initialized _ _ _ _ Hu Hl).
  unfold Initialize.daily_reset. by rewrite Hq.
Qed.

(** An account given the defaults by the initialization route shows
    level 1 of 100 XP with no experience, and its "Total XP" reads
    "Not Provided": [0 || 'Not Provided'] is the string. *)
Lemma profile_defaults_view (uid : string) (u : User.t) (t : JsDate.t) (db : Db) :
  db !! uid = Some u -> User.level u = None ->
  exists v, render (Authenticated uid)
      (fetchUserData (Authenticated uid) (Some (Initialize.POST (Some uid) t db).1) initial) = SProfile v /\
    pv_level v = 1 /\ pv_currentXP v = Some 0 /\ pv_xpRequired v = 100 /\
    pv_totalXP v = Text "Not Provided" /\ pv_streak v = 0.
Proof. intros Hu Hl. rewrite (Initialize.initialize_defaults _ _ _ _ Hu Hl). by eexists. Qed.

(** The sign-out button: the header variant's template has no space before
    [${className}], so its first class is glued to the last class of
    the template: the button has neither [transition-colors] nor
    [px-8], but the class [transition-colorspx-8]; its children are not
    rendered. *)
Lemma profile_sign_out_classes :
  exists cl, sign_out_button AuthButton.SignedIn = AuthButton.VButton "Sign Out" cl AuthButton.SignOut /\
    "transition-colorspx-8" ∈ cl /\ ("px-8" ∉ cl) /\ ("transition-colors" ∉ cl).
Proof.
  eexists. split; [reflexivity|]. vm_compute.
  split; [set_solver|]. split; intros H; apply list_elem_of_In in H; simpl in H; intuition discriminate.
Qed.

(** ** Properties *)

(** C39: the level panel's numbers stay in range for every document
    with experience and stats: the bar [(currentXP / xpRequired) * 100]
    is at least 0 and below 100, and "XP to next level" is between 1
    and 200.  The bar is drawn from the cumulative experience, not the
    experience within the level: from level 2 on it never shows less
    than a third. *)
Theorem profile_bar_bounds (d : User.t) (x : nat) (s : Stats.t) :
  User.totalXP d = Some x -> User.stats d = Some s ->
  exists v w k, profile_view d = Some v /\ pv_barWidth v = Some w /\ pv_toNext v = Some k /\
    (0 <= w < 100)%Q /\ (2 <= pv_level v -> (100 # 3 <= w)%Q) /\ (1 <= k <= 200)%Z.
Proof.
  intros Hx Hs. unfold profile_view. rewrite Hs, (levelInfo_Some _ _ Hx).
  pose proof (level_of_bracket x) as [Hlt Hge]. pose proof (level_of_pos x).
  unfold threshold_of in *. destruct (100 + 200 * (level_of x - 1)) as [|r] eqn:Er; [lia|].
  destruct (barWidth_frac x r) as (w & Hw & Hwq). do 3 eexists. split; [reflexivity|].
  split; [exact Hw|]. split; [reflexivity|]. simpl. rewrite Hwq.
  change 0%Q with (0 # 1). change 100%Q with (100 # 1).
  rewrite Qle_frac, Qlt_frac, Zpos_P_of_succ_nat. split; [split; lia|]. split; [|lia].
  intros H2. rewrite Qle_frac, Zpos_P_of_succ_nat. lia.
Qed.

(** C40 (finding): the profile page of an account created by the
    registration route crashes: the account has a [level], so the
    initialization route adds no defaults and returns it without
    [stats], and rendering [userData.stats.strength] throws. *)
Theorem register_profile_crash `{Register.BcryptLaws} (ob : option Register.Body) (newId : string)
    (now t : JsDate.t) (db db' : Db) (r : Response Register.Result) :
  Register.POST ob newId now db = (r, db') -> is_error r = false ->
  let p := fetchUserData (Authenticated newId) (Some (Initialize.POST (Some newId) t db').1) initial in
  loading p = false /\ render (Authenticated newId) p = SCrash.
Proof.
  intros Hp He. destruct (Register.register_POST_success _ _ _ _ _ _ Hp He) as (e & pw & _ & -> & _).
  pose proof (initialize_returns_stored newId (Register.newUser e pw now) t
                (<[newId := Register.newUser e pw now]> db) (lookup_insert_eq _ _ _)
                ltac:(by eexists) eq_refl) as Hd.
  unfold Initialize.result_data in Hd. unfold fetchUserData.
  destruct (json (Initialize.POST _ _ _).1) as [res|]; [|done]. rewrite Hd. by split.
Qed.

(** ** Witnesses *)

Definition ada : User.t :=
  User.mk (Some "ada@example.com") None None (Some "Ada") (Some true) None (Some 3) (Some 350) None
    (Some (Stats.mk 14 10 10 10 10)) (Some 2) None (Some []) (Some true) None.

Lemma profile_bar_bounds_witness :
  exists v w k, profile_view ada = Some v /\ pv_barWidth v = Some w /\ pv_toNext v = Some k /\
    (0 <= w < 100)%Q /\ (2 <= pv_level v -> (100 # 3 <= w)%Q) /\ (1 <= k <= 200)%Z.
Proof. apply (profile_bar_bounds ada 350 (Stats.mk 14 10 10 10 10)); reflexivity. Defined.

#[local] Existing Instance Register.SampleBcrypt.
#[local] Existing Instance Register.SampleBcrypt_laws.

Lemma register_profile_crash_witness :
  let db' := (Register.POST (Some Register.bob) "u2" 0%Z Sample.db0).2 in
  let p := fetchUserData (Authenticated "u2") (Some (Initialize.POST (Some "u2") 5%Z db').1) initial in
  loading p = false /\ render (Authenticated "u2") p = SCrash.
Proof.
  apply (register_profile_crash (Some Register.bob) "u2" 0%Z 5%Z Sample.db0 _
           (Register.POST (Some Register.bob) "u2" 0%Z Sample.db0).1).
  - apply surjective_pairing.
  - vm_compute. reflexivity.
Defined.

End Profile.
