(* ===== verification/QuestPanel.v ===== *)
(** * QuestPanel: the quest panel and its quest cards

    Models [src/solo-leveling/src/app/quest/page.tsx] with the two
    components it renders, [src/health-leveling/src/components/QuestCard.tsx]
    and [src/health-leveling/src/components/QuestStatContainerProps.tsx]:
    - [QuestCard] renders one quest ([render]) and turns the user's
      clicks and typing into calls of its callbacks ([dispatch]; the
      text area stops the propagation of its events to the card);
    - [QuestStatContainer] keeps the notes typed per quest name
      ([questTexts], [handleTextChange]) and renders either the
      completion message of its stat or the cards of the quests not
      completed or still sliding out;
    - [QuestPanel] is the page as a state machine: its React state,
      the answers of its three [fetch] calls, the user's clicks and the
      300 ms timers arrive as events in any order, and [step] applies
      the handler the code runs for each.  The JavaScript event loop's
      pending work is explicit: [inflight] holds the quest captured by
      each completion request not yet answered, [timers] the quest
      captured by each [setTimeout] callback not yet run.  A container
      that stops being rendered (another tab, the loading screen) is
      unmounted and loses its notes. *)

From S2P Require Import Prelude Catalog Store Complete Initialize Assign Register Client.
Import Catalog Client.

Module QuestCard.

(** [QuestCardProps] without the callbacks, which [dispatch] names. *)
Record Props := mkProps {
  name : string;
  description : option string;
  target : nat;
  unit : option string;
  isCompleted : bool;
  isAnimating : bool;
  hasTextInput : option bool;
  textValue : option string
}.

(** What the card shows: the name, [[done/target unit]], the
    description when it is truthy, the text area (its value and whether
    it is disabled) and the slide-out animation. *)
Record View := mkView {
  v_name : string;
  v_done : nat;
  v_target : nat;
  v_unit : option string;
  v_description : option string;
  v_textarea : option (string * bool);
  v_animating : bool
}.

Definition render (p : Props) : View :=
  mkView (name p) (if isCompleted p then target p else 0) (target p) (unit p)
    (Register.js_truthy (description p))
    (if default false (hasTextInput p) then Some (default "" (textValue p), isCompleted p) else None)
    (isAnimating p).

(** The user's actions on a card: a click on the card, typing in the
    text area, a click in the text area. *)
Inductive Event := Click | TypeText (v : string) | ClickText.

(** The callbacks the card calls: [onCardClick()], [onTextChange(value)]. *)
Inductive Action := CardClicked | TextChanged (v : string).

(** [handleTextChange] and [handleTextClick] call [e.stopPropagation()],
    so the card's [onClick] does not run for events of the text area;
    a disabled text area takes no input. *)
Definition dispatch (p : Props) (e : Event) : list Action :=
  match e with
  | Click => [CardClicked]
  | TypeText v =>
      match v_textarea (render p) with
      | Some (_, false) => [TextChanged v]
      | _ => []
      end
  | ClickText => []
  end.

End QuestCard.

Module QuestStatContainer.

(** The container's state [questTexts]. *)
Definition Texts := gmap string string.

(** [handleTextChange(questName, value)]. *)
Definition handleTextChange (questName v : string) (texts : Texts) : Texts :=
  <[questName := v]> texts.

(** [getStatImage(stat)]: [imageMap[stat.toLowerCase()] || '']. *)
Definition getStatImage (s : string) : string :=
  match js_toLowerCase s with
  | "agility" => "/images/quests/agility.jpg"
  | "vitality" => "/images/quests/vitality.png"
  | "intelligence" => "/images/quests/intelligence.png"
  | "sense" => "/images/quests/sense.jpg"
  | _ => ""
  end.

(** [quests.every(quest => completedQuests.includes(quest.name))]. *)
Definition allQuestsCompleted (quests : list QuestTemplate) (completed : list string) : bool :=
  js_every (fun q => js_includes completed (name q)) quests.

(** The props of the card of [quest]. *)
Definition card_props (texts : Texts) (completed animating : list string) (q : QuestTemplate)
    : QuestCard.Props :=
  QuestCard.mkProps (name q) (description q) (target q) (unit q)
    (js_includes completed (name q)) (js_includes animating (name q))
    (Some (hasTextInput q)) (Some (default "" (texts !! name q))).

(** [quests.map]: no card for a completed quest that is not sliding out. *)
Definition cards (texts : Texts) (quests : list QuestTemplate) (completed animating : list string)
    : list QuestCard.Props :=
  omap (fun q =>
          if js_includes completed (name q) && negb (js_includes animating (name q)) then None
          else Some (card_props texts completed animating q)) quests.

Inductive Body := AllDone (msg : string) | Cards (cs : list QuestCard.View).

Record View := mkView {
  c_image : string;
  c_title : string;
  c_body : Body
}.

Definition render (statName : string) (texts : Texts) (quests : list QuestTemplate)
    (completed animating : list string) : View :=
  mkView (getStatImage statName) (js_toUpperCase statName)
    (if allQuestsCompleted quests completed
     then AllDone ("Quest for " ++ js_toUpperCase statName ++ " completed!")
     else Cards (map QuestCard.render (cards texts quests completed animating))).

End QuestStatContainer.

Module QuestPanel.

Inductive Tab := TTodo | TCompleted.

#[export] Instance Tab_eq_dec : EqDecision Tab.
Proof. solve_decision. Defined.

(** The rotating stats in the order the page lists them. *)
Definition stat_names : list Stat := [agility; vitality; intelligence; sense].

(** The [statName] string of a stat. *)
Definition stat_key (s : Stat) : string :=
  match s with
  | strength => "strength" | agility => "agility" | vitality => "vitality"
  | intelligence => "intelligence" | sense => "sense"
  end.

(** The page's React state, the notes of each mounted container (by
    [statName]), and the pending work of the event loop. *)
Record Page := mkPage {
  assignedQuests : list QuestTemplate;
  loading : bool;
  selectedQuest : option string;
  completedQuests : list string;
  animatingQuests : list string;
  dailyStrengthCompleted : bool;
  activeTab : Tab;
  questTexts : gmap string QuestStatContainer.Texts;
  inflight : list string;
  timers : list string
}.

Definition initial : Page := mkPage [] true None [] [] false TTodo ∅ [] [].

(** [allquestsForstat]: the assigned quests of one stat. *)
Definition quests_for (assigned : list QuestTemplate) (s : Stat) : list QuestTemplate :=
  filter (fun q => bool_decide (stat q = s)) assigned.

(** The containers the to-do tab renders: one per stat with quests. *)
Definition containers (p : Page) : list (Stat * list QuestTemplate) :=
  if loading p then [] else
  match activeTab p, assignedQuests p with
  | TTodo, _ :: _ =>
      omap (fun s => match quests_for (assignedQuests p) s with
                     | [] => None
                     | qs => Some (s, qs)
                     end) stat_names
  | _, _ => []
  end.

Definition mounted (p : Page) (s : Stat) : bool :=
  existsb (fun c => bool_decide (c.1 = s)) (containers p).

(** React discards the state of a container it stops rendering. *)
Definition unmount (p : Page) : Page :=
  mkPage (assignedQuests p) (loading p) (selectedQuest p) (completedQuests p)
    (animatingQuests p) (dailyStrengthCompleted p) (activeTab p)
    (filter (fun kv => existsb (fun s => bool_decide (stat_key s = kv.1) && mounted p s) stat_names)
       (questTexts p))
    (inflight p) (timers p).

(** The notes of the container of [s]. *)
Definition texts_of (p : Page) (s : Stat) : QuestStatContainer.Texts :=
  default ∅ (questTexts p !! stat_key s).

(** The props of the cards the container of [s] renders. *)
Definition stat_cards (p : Page) (s : Stat) : list QuestCard.Props :=
  QuestStatContainer.cards (texts_of p s) (quests_for (assignedQuests p) s)
    (completedQuests p) (animatingQuests p).

(** What the effects ask of the outside world. *)
Inductive Effect := Navigate (r : Route) | SendComplete (b : Complete.Body).

(** The events that reach the page. *)
Inductive Event :=
| AssignAnswer (r : option (Response Assign.Result))
| InitAnswer (r : option (Response Initialize.Result))
| CardEvent (s : Stat) (questName : string) (e : QuestCard.Event)
| ConfirmYes
| CompleteAnswer (i : nat) (r : option (Response Complete.Result))
| TimerFires (i : nat)
| CloseModal
| SetTab (t : Tab).

(** [fetchASsignedQuests]: [data.assignedQuests] on success; an error
    answer reaches [currentUser.assignedQuests] (line 74), a
    [ReferenceError] caught like a failed [fetch]; [finally] ends the
    loading in every case. *)
Definition onAssignAnswer (r : option (Response Assign.Result)) (p : Page) : Page :=
  let assigned :=
    match r with
    | Some resp => match json resp with
                   | JSuccess res => Assign.assignedQuests res
                   | JError _ => assignedQuests p
                   end
    | None => assignedQuests p
    end in
  mkPage assigned false (selectedQuest p) (completedQuests p) (animatingQuests p)
    (dailyStrengthCompleted p) (activeTab p) (questTexts p) (inflight p) (timers p).

(** [fetchUserData]: an error answer or a [null] [userData] throws on
    [data.userData.…] before any state is set. *)
Definition onInitAnswer (r : option (Response Initialize.Result)) (p : Page) : Page :=
  match r with
  | Some resp =>
      match json resp with
      | JSuccess res =>
          match Initialize.userData res with
          | Some u =>
              mkPage (assignedQuests p) (loading p) (selectedQuest p)
                (default (completedQuests p) (User.questsCompletedToday u))
                (animatingQuests p) (default false (User.hasCompletedDailyStrength u))
                (activeTab p) (questTexts p) (inflight p) (timers p)
          | None => p
          end
      | JError _ => p
      end
  | None => p
  end.

(** [handleQuestClick(questName)]. *)
Definition handleQuestClick (questName : string) (p : Page) : Page :=
  mkPage (assignedQuests p) (loading p) (Some questName) (completedQuests p) (animatingQuests p)
    (dailyStrengthCompleted p) (activeTab p) (questTexts p) (inflight p) (timers p).

(** The container's [handleTextChange], on the notes of stat [s]. *)
Definition onTextChange (s : Stat) (questName v : string) (p : Page) : Page :=
  mkPage (assignedQuests p) (loading p) (selectedQuest p) (completedQuests p) (animatingQuests p)
    (dailyStrengthCompleted p) (activeTab p)
    (<[stat_key s := QuestStatContainer.handleTextChange questName v (texts_of p s)]> (questTexts p))
    (inflight p) (timers p).

(** A card's callback, as the container wires it. *)
Definition onAction (s : Stat) (questName : string) (p : Page) (a : QuestCard.Action) : Page :=
  match a with
  | QuestCard.CardClicked => handleQuestClick questName p
  | QuestCard.TextChanged v => onTextChange s questName v p
  end.

(** [handleCompletedQuest] up to the [await]: nothing without a
    selected quest; otherwise the quest starts sliding out and the
    request is sent. *)
Definition handleCompletedQuest (p : Page) : Page * list Effect :=
  match Register.js_truthy (selectedQuest p) with
  | None => (p, [])
  | Some q =>
      (mkPage (assignedQuests p) (loading p) (selectedQuest p) (completedQuests p)
         (animatingQuests p ++ [q]) (dailyStrengthCompleted p) (activeTab p) (questTexts p)
         (inflight p ++ [q]) (timers p),
       [SendComplete (Complete.mkBody (Some [q]) Complete.QIndividual)])
  end.

(** [prev.filter(q => q !== selectedQuest)]. *)
Definition remove_name (q : string) (l : list string) : list string :=
  filter (fun n => negb (String.eqb n q)) l.

(** [handleCompletedQuest] after the [await], for the request that
    captured [q]: on success the answer's list and a 300 ms timer; on
    an error answer or a thrown [fetch] the quest stops sliding out,
    and an error mentioning the daily set goes to the dashboard. *)
Definition onCompleteAnswer (i : nat) (r : option (Response Complete.Result)) (p : Page)
    : Page * list Effect :=
  match inflight p !! i with
  | None => (p, [])
  | Some q =>
      let inf := delete i (inflight p) in
      match r with
      | Some resp =>
          match json resp with
          | JSuccess _ =>
              (mkPage (assignedQuests p) (loading p) (selectedQuest p)
                 (completed_after resp (completedQuests p)) (animatingQuests p)
                 (dailyStrengthCompleted p) (activeTab p) (questTexts p) inf (timers p ++ [q]), [])
          | JError _ =>
              (mkPage (assignedQuests p) (loading p) (selectedQuest p) (completedQuests p)
                 (remove_name q (animatingQuests p)) (dailyStrengthCompleted p) (activeTab p)
                 (questTexts p) inf (timers p),
               match after_failed_completion resp with Stay => [] | rt => [Navigate rt] end)
          end
      | None =>
          (mkPage (assignedQuests p) (loading p) (selectedQuest p) (completedQuests p)
             (remove_name q (animatingQuests p)) (dailyStrengthCompleted p) (activeTab p)
             (questTexts p) inf (timers p), [])
      end
  end.

(** The [setTimeout] callback that captured [q]. *)
Definition onTimer (i : nat) (p : Page) : Page :=
  match timers p !! i with
  | None => p
  | Some q =>
      mkPage (assignedQuests p) (loading p) None (completedQuests p)
        (remove_name q (animatingQuests p)) (dailyStrengthCompleted p) (activeTab p)
        (questTexts p) (inflight p) (delete i (timers p))
  end.

(** [handleCloseModal]. *)
Definition handleCloseModal (p : Page) : Page :=
  mkPage (assignedQuests p) (loading p) None (completedQuests p) (animatingQuests p)
    (dailyStrengthCompleted p) (activeTab p) (questTexts p) (inflight p) (timers p).

(** [setActiveTab(t)]. *)
Definition setActiveTab (t : Tab) (p : Page) : Page :=
  mkPage (assignedQuests p) (loading p) (selectedQuest p) (completedQuests p) (animatingQuests p)
    (dailyStrengthCompleted p) t (questTexts p) (inflight p) (timers p).

(** The card of [questName] in the container of [s], if rendered. *)
Definition find_card (p : Page) (s : Stat) (questName : string) : option QuestCard.Props :=
  if mounted p s then List.find (fun c => String.eqb (QuestCard.name c) questName) (stat_cards p s)
  else None.

(** The modal is rendered when [selectedQuest] is truthy, and nothing
    but the loading screen is rendered while loading. *)
Definition modal_open (p : Page) : bool :=
  negb (loading p) && bool_decide (is_Some (Register.js_truthy (selectedQuest p))).

(** One event: its handler, then the unmounting of the containers no
    longer rendered. *)
Definition handler (p : Page) (e : Event) : Page * list Effect :=
  match e with
  | AssignAnswer r => (onAssignAnswer r p, [])
  | InitAnswer r => (onInitAnswer r p, [])
  | CardEvent s n ev =>
      match find_card p s n with
      | Some c => (foldl (onAction s (QuestCard.name c)) p (QuestCard.dispatch c ev), [])
      | None => (p, [])
      end
  | ConfirmYes => if modal_open p then handleCompletedQuest p else (p, [])
  | CompleteAnswer i r => onCompleteAnswer i r p
  | TimerFires i => (onTimer i p, [])
  | CloseModal => (if modal_open p then handleCloseModal p else p, [])
  | SetTab t => (if loading p then p else setActiveTab t p, [])
  end.

Definition step (p : Page) (e : Event) : Page * list Effect :=
  let '(p', effs) := handler p e in (unmount p', effs).

(** A sequence of events: the final page and the effects, in order. *)
Fixpoint run (p : Page) (es : list Event) : Page * list Effect :=
  match es with
  | [] => (p, [])
  | e :: es' =>
      let '(p1, effs1) := step p e in
      let '(p2, effs2) := run p1 es' in
      (p2, effs1 ++ effs2)
  end.

(** The pages some sequence of events produces from the first render. *)
Inductive reach : Page -> Prop :=
| reach_initial : reach initial
| reach_step (p : Page) (e : Event) : reach p -> reach (step p e).1.

(** What the page renders below its tabs. *)
Inductive Body :=
| BNoQuests
| BContainers (cs : list QuestStatContainer.View)
| BNoCompleted
| BCompleted (strength : bool) (groups : list (Stat * list QuestTemplate)).

(** The tab counters, the body, and the quest named in the modal. *)
Record View := mkView {
  v_todoCount : nat;
  v_completedCount : nat;
  v_body : Body;
  v_modal : option string
}.

Inductive Screen := SLoading | SPanel (v : View).

(** The completed tab's sections of the rotating stats. *)
Definition completed_groups (p : Page) : list (Stat * list QuestTemplate) :=
  omap (fun s => match completed_for_stat (assignedQuests p) (completedQuests p) s with
                 | [] => None
                 | l => Some (s, l)
                 end) stat_names.

Definition render (p : Page) : Screen :=
  if loading p then SLoading else
  SPanel (mkView (length (todo (assignedQuests p) (completedQuests p))) (length (completedQuests p))
    (match activeTab p with
     | TTodo =>
         match assignedQuests p with
         | [] => BNoQuests
         | _ => BContainers (map (fun sq => QuestStatContainer.render (stat_key sq.1) (texts_of p sq.1)
                                              sq.2 (completedQuests p) (animatingQuests p))
                                 (containers p))
         end
     | TCompleted =>
         if bool_decide (completedQuests p = []) && negb (dailyStrengthCompleted p) then BNoCompleted
         else BCompleted (dailyStrengthCompleted p) (completed_groups p)
     end)
    (Register.js_truthy (selectedQuest p))).

(** The names of the cards the to-do tab shows. *)
Definition shown_cards (p : Page) : list string :=
  match render p with
  | SPanel (mkView _ _ (BContainers cs) _) =>
      concat (map (fun c => match QuestStatContainer.c_body c with
                            | QuestStatContainer.Cards l => map QuestCard.v_name l
                            | QuestStatContainer.AllDone _ => []
                            end) cs)
  | _ => []
  end.

(** The names the completed tab lists under the rotating stats. *)
Definition shown_completed (p : Page) : list string :=
  match render p with
  | SPanel (mkView _ _ (BCompleted _ gs) _) => concat (map (fun g => map name g.2) gs)
  | _ => []
  end.

(** The event loop answers the pending completion requests, oldest
    first, with [rs]. *)
Fixpoint answer_all (rs : list (option (Response Complete.Result))) (p : Page) : Page :=
  match rs with
  | [] => p
  | r :: rs' => answer_all rs' (step p (CompleteAnswer 0 r)).1
  end.

(** The event loop runs the [n] oldest timers. *)
Fixpoint fire_all (n : nat) (p : Page) : Page :=
  match n with
  | 0 => p
  | S n' => fire_all n' (step p (TimerFires 0)).1
  end.

(** Every pending answer arrives, then every pending timer runs. *)
Definition settle (rs : list (option (Response Complete.Result))) (p : Page) : Page :=
  let p1 := answer_all rs p in fire_all (length (timers p1)) p1.

(** ** Lemmas *)

(** Every quest sliding out is waiting for its answer or its timer. *)
Definition anim_ok (p : Page) : Prop :=
  forall n, n ∈ animatingQuests p -> n ∈ inflight p \/ n ∈ timers p.

(** The event loop's pending work and the sliding quests, unchanged. *)
Definition same_pending (p p' : Page) : Prop :=
  animatingQuests p' = animatingQuests p /\ inflight p' = inflight p /\ timers p' = timers p.

Lemma remove_name_elem (q n : string) (l : list string) :
  n ∈ remove_name q l <-> n ∈ l /\ n <> q.
Proof. unfold remove_name. rewrite list_elem_of_filter. destruct (String.eqb_spec n q); naive_solver. Qed.

Lemma elem_of_delete_ne (i : nat) (q n : string) (l : list string) :
  l !! i = Some q -> n ∈ l -> n <> q -> n ∈ delete i l.
Proof.
  intros Hi Hn Hne. rewrite <- (take_drop_middle l i q Hi) in Hn. rewrite delete_take_drop.
  apply elem_of_app in Hn as [Hn|Hn]; apply elem_of_app; [by left|].
  apply elem_of_cons in Hn as [->|Hn]; [done | by right].
Qed.

Lemma js_truthy_nonempty (s : string) : s <> "" -> Register.js_truthy (Some s) = Some s.
Proof. by destruct s. Qed.

Lemma same_pending_anim_ok (p p' : Page) : same_pending p p' -> anim_ok p -> anim_ok p'.
Proof. unfold anim_ok. intros (-> & -> & ->) H. exact H. Qed.

Lemma onAction_pending (s : Stat) (n : string) (acts : list QuestCard.Action) (p : Page) :
  same_pending p (foldl (onAction s n) p acts).
Proof.
  revert p. induction acts as [|a acts IH]; intros p; [by repeat split|]. simpl.
  destruct (IH (onAction s n p a)) as (H1 & H2 & H3). unfold same_pending.
  rewrite H1, H2, H3. by destruct a.
Qed.

Lemma onInitAnswer_pending (r : option (Response Initialize.Result)) (p : Page) :
  same_pending p (onInitAnswer r p).
Proof. unfold onInitAnswer. repeat case_match; by repeat split. Qed.

Lemma handler_pending_other (p : Page) (e : Event) :
  (forall i r, e <> CompleteAnswer i r) -> (forall i, e <> TimerFires i) -> e <> ConfirmYes ->
  same_pending p (handler p e).1.
Proof.
  intros H1 H2 H3. destruct e as [r|r|st n ev| |i r|i| |t]; simpl.
  - by repeat split.
  - apply onInitAnswer_pending.
  - case_match; [apply onAction_pending | by repeat split].
  - done.
  - by destruct (H1 i r).
  - by destruct (H2 i).
  - case_match; by repeat split.
  - case_match; by repeat split.
Qed.

Lemma handleCompletedQuest_anim_ok (p : Page) : anim_ok p -> anim_ok (handleCompletedQuest p).1.
Proof.
  unfold handleCompletedQuest, anim_ok. intros Hp. case_match; [|done]. intros n. simpl.
  rewrite !elem_of_app, !list_elem_of_singleton. intros [Hn | ->]; [|by left; right].
  destruct (Hp n Hn); [by left; left | by right].
Qed.

Lemma onCompleteAnswer_anim_ok (i : nat) (r : option (Response Complete.Result)) (p : Page) :
  anim_ok p -> anim_ok (onCompleteAnswer i r p).1.
Proof.
  unfold onCompleteAnswer, anim_ok. destruct (inflight p !! i) as [q|] eqn:Hi; [|done]. intros H n.
  destruct r as [resp|]; [destruct (json resp)|]; simpl; [|rewrite remove_name_elem ..];
    intros Hn; [|destruct Hn as [Hn Hne] ..];
    (destruct (H n Hn) as [Hf|Ht]; [destruct (decide (n = q)) as [->|Hne']|]);
    try (by left; apply (elem_of_delete_ne i q)); rewrite ?elem_of_app, ?list_elem_of_singleton; naive_solver.
Qed.

Lemma onTimer_anim_ok (i : nat) (p : Page) : anim_ok p -> anim_ok (onTimer i p).
Proof.
  unfold onTimer, anim_ok. destruct (timers p !! i) as [q|] eqn:Hi; [|done]. intros H n. simpl.
  rewrite remove_name_elem. intros [Hn Hne]. destruct (H n Hn) as [Hf|Ht]; [by left|].
  right. by apply (elem_of_delete_ne i q).
Qed.

Lemma step_fst (p : Page) (e : Event) : (step p e).1 = unmount (handler p e).1.
Proof. unfold step. by destruct (handler p e). Qed.

Lemma step_anim_ok (p : Page) (e : Event) : anim_ok p -> anim_ok (step p e).1.
Proof.
  intros H. rewrite step_fst. apply (same_pending_anim_ok (handler p e).1); [by repeat split|].
  destruct e as [| | | |i r|i| |].
  6: by apply onTimer_anim_ok.
  5: by apply onCompleteAnswer_anim_ok.
  4: simpl; destruct (modal_open p); [by apply handleCompletedQuest_anim_ok | done].
  all: eapply same_pending_anim_ok; [apply handler_pending_other; intros; discriminate | exact H].
Qed.

Lemma step_answer_pending (p : Page) (r : option (Response Complete.Result)) :
  inflight (step p (CompleteAnswer 0 r)).1 = tail (inflight p).
Proof.
  rewrite step_fst. simpl. unfold onCompleteAnswer.
  destruct (inflight p) as [|q l] eqn:E; simpl; [by rewrite E|]. by repeat case_match.
Qed.

Lemma step_timer_pending (p : Page) :
  inflight (step p (TimerFires 0)).1 = inflight p /\ timers (step p (TimerFires 0)).1 = tail (timers p).
Proof.
  rewrite step_fst. simpl. unfold onTimer. destruct (timers p) as [|q l] eqn:E; simpl; by rewrite ?E.
Qed.

Lemma answer_all_anim_ok (rs : list (option (Response Complete.Result))) (p : Page) :
  anim_ok p -> anim_ok (answer_all rs p) /\ (length rs = length (inflight p) -> inflight (answer_all rs p) = []).
Proof.
  revert p. induction rs as [|r rs IH]; intros p H; cbn [answer_all].
  - split; [done|]. intros Hl. by destruct (inflight p).
  - destruct (IH _ (step_anim_ok p (CompleteAnswer 0 r) H)) as [H1 H2]. split; [done|].
    intros Hl. apply H2. rewrite step_answer_pending. destruct (inflight p); simpl in *; lia.
Qed.

Lemma fire_all_anim_ok (n : nat) (p : Page) :
  anim_ok p -> anim_ok (fire_all n p) /\ inflight (fire_all n p) = inflight p /\
  (length (timers p) <= n -> timers (fire_all n p) = []).
Proof.
  revert p. induction n as [|n IH]; intros p H; cbn [fire_all].
  - split; [done|]. split; [done|]. intros Hl. destruct (timers p); simpl in *; [done|lia].
  - destruct (step_timer_pending p) as [Hi Ht].
    destruct (IH _ (step_anim_ok p (TimerFires 0) H)) as (H1 & H2 & H3). rewrite H2, Hi.
    split; [done|]. split; [done|]. intros Hl. apply H3. rewrite Ht. destruct (timers p); simpl in *; lia.
Qed.

Lemma anim_ok_idle (p : Page) :
  anim_ok p -> inflight p = [] -> timers p = [] -> animatingQuests p = [].
Proof.
  intros H Hi Ht. destruct (animatingQuests p) as [|n l] eqn:E; [done|].
  destruct (H n) as [Hn|Hn]; [rewrite E; left | rewrite Hi in Hn | rewrite Ht in Hn]; set_solver.
Qed.

Lemma reach_run (p : Page) (es : list Event) : reach p -> reach (run p es).1.
Proof.
  revert p. induction es as [|e es IH]; intros p Hr; [done|].
  assert (E : (run p (e :: es)).1 = (run (step p e).1 es).1).
  { cbn [run]. destruct (step p e) as [p1 f1]. simpl. by destruct (run p1 es). }
  rewrite E. apply IH. by constructor.
Qed.

Lemma reach_anim_ok (p : Page) : reach p -> anim_ok p.
Proof. induction 1; [intros n Hn; set_solver | by apply step_anim_ok]. Qed.

(** The containers of the to-do tab hold the assigned quests of their stat. *)
Lemma containers_spec (p : Page) (s : Stat) (qs : list QuestTemplate) :
  (s, qs) ∈ containers p -> s ∈ stat_names /\ qs = quests_for (assignedQuests p) s.
Proof.
  unfold containers. repeat case_match; try set_solver.
  rewrite list_elem_of_omap. intros (s' & Hs' & Hs). revert Hs.
  destruct (quests_for _ s') eqn:E; [done|]. by intros [= <- <-].
Qed.

Lemma mounted_rotating (p : Page) (s : Stat) : mounted p s = true -> s ∈ stat_names.
Proof.
  unfold mounted. intros (c & Hc & Hs)%existsb_exists. apply bool_decide_eq_true in Hs.
  destruct c as [s' qs]. simpl in Hs. subst s'. apply list_elem_of_In in Hc.
  by apply containers_spec in Hc as [? _].
Qed.

(** A card the to-do tab shows is an assigned quest that is not
    completed or is still sliding out. *)
Lemma shown_cards_spec (p : Page) (n : string) :
  n ∈ shown_cards p ->
  exists q, q ∈ assignedQuests p /\ name q = n /\
    (js_includes (completedQuests p) n = false \/ js_includes (animatingQuests p) n = true).
Proof.
  unfold shown_cards, render. destruct (loading p); [set_solver|].
  destruct (activeTab p); cbn iota beta; [|destruct (bool_decide _ && _); set_solver]. destruct (assignedQuests p) as [|a0 l0] eqn:Ea; [set_solver|].
  rewrite <- Ea. rewrite list_elem_of_In, in_concat. intros (l & Hl & Hn).
  apply in_map_iff in Hl as (c & <- & Hc). apply in_map_iff in Hc as ([s qs] & <- & Hsq).
  apply list_elem_of_In, containers_spec in Hsq as [_ ->]. simpl in Hn.
  destruct (QuestStatContainer.allQuestsCompleted _ _); [done|].
  apply in_map_iff in Hn as (v & <- & Hv). apply in_map_iff in Hv as (c & <- & Hc).
  apply list_elem_of_In in Hc. unfold QuestStatContainer.cards in Hc.
  apply list_elem_of_omap in Hc as (q & Hq & Hc).
  destruct (js_includes _ (name q) && _) eqn:Eb; [done|]. injection Hc as <-.
  apply list_elem_of_filter in Hq as [_ Hq]. exists q. split; [done|]. split; [done|].
  simpl. destruct (js_includes (completedQuests p) (name q)); [right|left]; [|done].
  by destruct (js_includes (animatingQuests p) (name q)).
Qed.

Lemma js_includes_remove_name (q : string) (l : list string) :
  js_includes (remove_name q l) q = false.
Proof. apply js_includes_false. rewrite remove_name_elem. naive_solver. Qed.

Lemma remove_name_snoc (q : string) (l : list string) :
  remove_name q (l ++ [q]) = remove_name q l.
Proof.
  unfold remove_name. rewrite filter_app, filter_cons_False, filter_nil, app_nil_r; [done|].
  rewrite String.eqb_refl. simpl. tauto.
Qed.

(** "Yes, Complete" on the open modal of [n]. *)
Lemma step_confirm (p : Page) (n : string) :
  loading p = false -> selectedQuest p = Some n -> n <> "" ->
  let '(p', effs) := step p ConfirmYes in
  effs = [SendComplete (Complete.mkBody (Some [n]) Complete.QIndividual)] /\
  assignedQuests p' = assignedQuests p /\ loading p' = false /\ selectedQuest p' = Some n /\
  completedQuests p' = completedQuests p /\ animatingQuests p' = animatingQuests p ++ [n] /\
  inflight p' = inflight p ++ [n] /\ timers p' = timers p.
Proof.
  intros Hl Hs Hn. unfold step, handler, modal_open, handleCompletedQuest.
  rewrite Hl, Hs, js_truthy_nonempty by done. simpl. rewrite ?Hl, ?Hs. by repeat split.
Qed.

(** A success answer to the [i]-th pending request, which captured [n]. *)
Lemma step_answer_ok (p : Page) (i : nat) (n : string) (r : Response Complete.Result)
    (res : Complete.Result) :
  inflight p !! i = Some n -> json r = JSuccess res ->
  let '(p', effs) := step p (CompleteAnswer i (Some r)) in
  effs = [] /\ assignedQuests p' = assignedQuests p /\ loading p' = loading p /\
  selectedQuest p' = selectedQuest p /\ completedQuests p' = js_or_list (Complete.res_questsCompletedToday res) /\
  animatingQuests p' = animatingQuests p /\ inflight p' = delete i (inflight p) /\
  timers p' = timers p ++ [n].
Proof.
  intros Hi Hj. unfold step, handler, onCompleteAnswer, completed_after. rewrite Hi, Hj. done.
Qed.

(** The [i]-th pending timer, which captured [n]. *)
Lemma step_timer (p : Page) (i : nat) (n : string) :
  timers p !! i = Some n ->
  let '(p', effs) := step p (TimerFires i) in
  effs = [] /\ assignedQuests p' = assignedQuests p /\ loading p' = loading p /\
  selectedQuest p' = None /\ completedQuests p' = completedQuests p /\
  animatingQuests p' = remove_name n (animatingQuests p) /\ inflight p' = inflight p /\
  timers p' = delete i (timers p).
Proof. intros Ht. unfold step, handler, onTimer. by rewrite Ht. Qed.

(** A click on the card of quest [n] in the container of [s]. *)
Lemma step_click (p : Page) (s : Stat) (n : string) (c : QuestCard.Props) :
  find_card p s n = Some c ->
  let '(p', effs) := step p (CardEvent s n QuestCard.Click) in
  effs = [] /\ selectedQuest p' = Some (QuestCard.name c) /\ same_pending p p' /\
  assignedQuests p' = assignedQuests p /\ completedQuests p' = completedQuests p /\
  loading p' = loading p.
Proof. intros Hc. unfold step, handler. rewrite Hc. by repeat split. Qed.

(** "Go Back" on the open modal. *)
Lemma step_close (p : Page) :
  modal_open p = true ->
  let '(p', effs) := step p CloseModal in
  effs = [] /\ selectedQuest p' = None /\ same_pending p p' /\
  assignedQuests p' = assignedQuests p /\ completedQuests p' = completedQuests p /\
  loading p' = loading p.
Proof. intros Hm. unfold step, handler. rewrite Hm. by repeat split. Qed.

(** While the completion of [n1] is in flight, "Go Back", a click on
    the card of [n2] and "Yes, Complete" send a second completion: two
    requests are in flight at once. *)
Lemma panel_two_in_flight (p : Page) (s : Stat) (n1 n2 : string) (c : QuestCard.Props) :
  loading p = false -> selectedQuest p = Some n1 -> n1 <> "" ->
  find_card (run p [ConfirmYes; CloseModal]).1 s n2 = Some c -> QuestCard.name c = n2 -> n2 <> "" ->
  let '(p', effs) := run p [ConfirmYes; CloseModal; CardEvent s n2 QuestCard.Click; ConfirmYes] in
  effs = [SendComplete (Complete.mkBody (Some [n1]) Complete.QIndividual);
          SendComplete (Complete.mkBody (Some [n2]) Complete.QIndividual)] /\
  inflight p' = inflight p ++ [n1; n2].
Proof.
  intros Hl Hs Hn1 Hf Hc Hn2. cbn [run] in Hf |- *.
  pose proof (step_confirm p n1 Hl Hs Hn1) as H1. destruct (step p ConfirmYes) as [p1 f1].
  destruct H1 as (-> & _ & Hl1 & Hs1 & _ & _ & Hi1 & _).
  assert (Hm : modal_open p1 = true).
  { unfold modal_open. rewrite Hl1, Hs1, js_truthy_nonempty by done. reflexivity. }
  pose proof (step_close p1 Hm) as H2. destruct (step p1 CloseModal) as [p2 f2].
  destruct H2 as (-> & _ & (_ & Hi2 & _) & _ & _ & Hl2). simpl in Hf.
  pose proof (step_click p2 s n2 c Hf) as H3. destruct (step p2 _) as [p3 f3].
  destruct H3 as (-> & Hs3 & (_ & Hi3 & _) & _ & _ & Hl3). rewrite Hc in Hs3.
  pose proof (step_confirm p3 n2 ltac:(congruence) Hs3 Hn2) as H4. destruct (step p3 ConfirmYes) as [p4 f4].
  destruct H4 as (-> & _ & _ & _ & _ & _ & Hi4 & _). simpl.
  split; [done|]. rewrite Hi4, Hi3, Hi2, Hi1, <- app_assoc. done.
Qed.

(** Two success answers, in the order of the requests: the list of
    completed quests is the one of the last answer. *)
Lemma panel_two_answers (p : Page) (n1 n2 : string) (res1 res2 : Complete.Result) (l : list string) :
  inflight p = l ++ [n1; n2] ->
  completedQuests (run p [CompleteAnswer (length l) (Some (respond_ok res1));
                          CompleteAnswer (length l) (Some (respond_ok res2))]).1 =
    js_or_list (Complete.res_questsCompletedToday res2).
Proof.
  intros Hi. cbn [run].
  pose proof (step_answer_ok p (length l) n1 (respond_ok res1) res1) as H1.
  destruct (step p _) as [p1 f1]. destruct H1 as (_ & _ & _ & _ & _ & _ & Hi1 & _);
    [by rewrite Hi, list_lookup_middle | done |].
  rewrite Hi, delete_middle in Hi1.
  pose proof (step_answer_ok p1 (length l) n2 (respond_ok res2) res2) as H2.
  destruct (step p1 _) as [p2 f2]. destruct H2 as (_ & _ & _ & _ & Hc2 & _);
    [by rewrite Hi1, list_lookup_middle | done | done].
Qed.

Lemma run3 (p : Page) (e1 e2 e3 : Event) :
  run p [e1; e2; e3] =
    let '(p1, f1) := step p e1 in let '(p2, f2) := step p1 e2 in let '(p3, f3) := step p2 e3 in
    (p3, f1 ++ f2 ++ f3).
Proof.
  cbn [run]. destruct (step p e1) as [p1 f1]. destruct (step p1 e2) as [p2 f2].
  destruct (step p2 e3) as [p3 f3]. by rewrite !app_nil_r.
Qed.

(** The to-do tab's containers depend on the loading flag, the tab and
    the assigned quests only. *)
Lemma containers_ext (p p' : Page) :
  loading p' = loading p -> activeTab p' = activeTab p -> assignedQuests p' = assignedQuests p ->
  containers p' = containers p.
Proof. intros H1 H2 H3. unfold containers, quests_for. by rewrite H1, H2, H3. Qed.

(** A note typed in an enabled text area is what its card shows next. *)
Lemma note_roundtrip (p : Page) (s : Stat) (n v : string) (c : QuestCard.Props) :
  find_card p s n = Some c -> QuestCard.dispatch c (QuestCard.TypeText v) = [QuestCard.TextChanged v] ->
  texts_of (step p (CardEvent s n (QuestCard.TypeText v))).1 s !! QuestCard.name c = Some v.
Proof.
  intros Hc Hd. unfold find_card in Hc. destruct (mounted p s) eqn:Hm; [|done].
  rewrite step_fst. cbn [handler]. unfold find_card. rewrite Hm, Hc, Hd. cbn [foldl onAction].
  unfold texts_of at 1. simpl. erewrite map_lookup_filter_Some_2; [| apply lookup_insert_eq |].
  - simpl. apply lookup_insert_eq.
  - assert (Hm' : forall s', mounted (onTextChange s (QuestCard.name c) v p) s' = mounted p s')
      by (intros s'; unfold mounted; by rewrite (containers_ext (onTextChange s (QuestCard.name c) v p) p)).
    pose proof (mounted_rotating p s Hm) as Hr.
    rewrite !Hm'. destruct s; [exfalso; vm_compute in Hr; set_solver|..]; rewrite Hm; vm_compute; exact I.
Qed.

(** Switching to the completed tab unmounts every container: the notes
    typed in the to-do tab are gone when the user comes back. *)
Lemma notes_lost_on_tab_switch (p : Page) :
  loading p = false -> questTexts (step p (SetTab TCompleted)).1 = ∅.
Proof.
  intros Hl. rewrite step_fst. simpl. rewrite Hl. simpl. apply map_empty_filter_2.
  intros k x _. unfold mounted, containers. simpl. rewrite Hl. simpl.
  intros Hx. apply Is_true_true in Hx. by rewrite !andb_false_r in Hx.
Qed.

(** ** Properties *)

(** C36: completing a quest from the panel, end to end: with the
    modal open on an assigned quest, "Yes, Complete" sends the request
    for that one quest; when the completion route accepts it and the
    300 ms timer has run, the quest is no longer among the to-do
    cards, is listed in the completed tab under its stat, the modal is
    closed and the quest no longer slides out. *)
Theorem panel_completion_moves_quest `{QuestCatalog} (p : Page) (q : QuestTemplate) (uid : string)
    (t : JsDate.t) (db db' : Db) (r : Response Complete.Result) (res : Complete.Result) :
  loading p = false -> selectedQuest p = Some (name q) -> name q <> "" ->
  inflight p = [] -> timers p = [] -> q ∈ assignedQuests p ->
  Complete.POST (Some uid) (Some (Complete.mkBody (Some [name q]) Complete.QIndividual)) t db = (r, db') ->
  json r = JSuccess res ->
  let '(p', effs) := run p [ConfirmYes; CompleteAnswer 0 (Some r); TimerFires 0] in
  effs = [SendComplete (Complete.mkBody (Some [name q]) Complete.QIndividual)] /\
  (name q ∉ shown_cards p') /\
  q ∈ completed_for_stat (assignedQuests p') (completedQuests p') (stat q) /\
  selectedQuest p' = None /\ animatingQuests p' = remove_name (name q) (animatingQuests p).
Proof.
  intros Hl Hs Hn Hi Ht Hq Hp Hj.
  destruct (Complete.POST_success_doc _ _ _ _ _ _ _ Hp Hj) as (b & u & a & [= <-] & _ & _ & _ & Hr).
  rewrite run3. pose proof (step_confirm p (name q) Hl Hs Hn) as H1.
  destruct (step p ConfirmYes) as [p1 f1]. destruct H1 as (-> & Ha1 & _ & _ & _ & Hn1 & Hi1 & Ht1).
  rewrite Hi in Hi1. pose proof (step_answer_ok p1 0 (name q) r res ltac:(by rewrite Hi1) Hj) as H2.
  destruct (step p1 _) as [p2 f2]. destruct H2 as (-> & Ha2 & _ & _ & Hc2 & Hn2 & _ & Ht2).
  rewrite Ht1, Ht in Ht2. pose proof (step_timer p2 0 (name q) ltac:(by rewrite Ht2)) as H3.
  destruct (step p2 _) as [p3 f3]. destruct H3 as (-> & Ha3 & _ & Hs3 & Hc3 & Hn3 & _ & _).
  assert (Hc : completedQuests p3 = js_or_list (User.questsCompletedToday u) ++ [name q]).
  { rewrite Hc3, Hc2. subst r. by injection Hj as <-. }
  assert (Hin : js_includes (completedQuests p3) (name q) = true) by (rewrite Hc; auto with hl).
  split; [done|]. split; [|split; [|split]]; [| | done |].
  - intros Hsc. apply shown_cards_spec in Hsc as (q' & _ & _ & [Hf | Ht']).
    + by rewrite Hin in Hf.
    + by rewrite Hn3, js_includes_remove_name in Ht'.
  - unfold completed_for_stat. rewrite list_elem_of_filter, Ha3, Ha2, Ha1, Hin, bool_decide_eq_true_2 by done.
    done.
  - by rewrite Hn3, Hn2, Hn1, remove_name_snoc.
Qed.

(** C37: no quest slides out forever: in every page the events can
    produce, a quest sliding out is waiting for the answer to its
    completion request or for its 300 ms timer; so once the pending
    requests are answered, whatever the answers, and the pending
    timers have run, no quest slides out. *)
Theorem panel_animations_settle (p : Page) (rs : list (option (Response Complete.Result))) :
  reach p -> anim_ok p /\ (length rs = length (inflight p) -> animatingQuests (settle rs p) = []).
Proof.
  intros Hr. pose proof (reach_anim_ok p Hr) as H. split; [done|]. intros Hl. unfold settle.
  destruct (answer_all_anim_ok rs p H) as [H1 H2].
  destruct (fire_all_anim_ok (length (timers (answer_all rs p))) _ H1) as (H3 & H4 & H5).
  apply anim_ok_idle; [done | rewrite H4; by apply H2 | by apply H5].
Qed.

(** C38 (finding): the 300 ms timer of an accepted completion clears
    [selectedQuest] whatever it holds by then: if the user opens the
    modal of a quest in the meantime, the timer closes it, with no
    request sent and nothing completed. *)
Theorem stale_timer_closes_modal (p : Page) (i : nat) (k : string) (s : Stat) (m : string)
    (c : QuestCard.Props) :
  timers p !! i = Some k -> find_card p s m = Some c ->
  let '(p1, f1) := step p (CardEvent s m QuestCard.Click) in
  let '(p2, f2) := step p1 (TimerFires i) in
  selectedQuest p1 = Some (QuestCard.name c) /\ selectedQuest p2 = None /\
  f1 ++ f2 = [] /\ completedQuests p2 = completedQuests p.
Proof.
  intros Ht Hc. pose proof (step_click p s m c Hc) as H1.
  destruct (step p _) as [p1 f1]. destruct H1 as (-> & Hs1 & (_ & _ & Ht1) & _ & Hc1 & _).
  pose proof (step_timer p1 i k ltac:(by rewrite Ht1)) as H2.
  destruct (step p1 _) as [p2 f2]. destruct H2 as (-> & _ & _ & Hs2 & Hc2 & _).
  by rewrite Hc2, Hc1.
Qed.

(** ** Witnesses *)

Definition journal : QuestTemplate := sq "e2" "Journal" 10 1 sense.

(** The panel once the assignment has arrived and the user has clicked
    "Meditate". *)
Definition demo_page : Page :=
  (run initial [AssignAnswer (Some (respond_ok (Assign.mkResult Assign.MSG_NEW [meditate; journal])));
                CardEvent sense "Meditate" QuestCard.Click]).1.

Definition demo_answer : Response Complete.Result :=
  (Complete.POST (Some "u1") (Some (Complete.mkBody (Some ["Meditate"]) Complete.QIndividual))
     (Sample.day 1000 5) Sample.db0).1.

Lemma panel_completion_moves_quest_witness :
  let '(p', effs) := run demo_page [ConfirmYes; CompleteAnswer 0 (Some demo_answer); TimerFires 0] in
  effs = [SendComplete (Complete.mkBody (Some [name meditate]) Complete.QIndividual)] /\
  (name meditate ∉ shown_cards p') /\
  meditate ∈ completed_for_stat (assignedQuests p') (completedQuests p') (stat meditate) /\
  selectedQuest p' = None /\ animatingQuests p' = remove_name (name meditate) (animatingQuests demo_page).
Proof.
  eapply (panel_completion_moves_quest demo_page meditate "u1" (Sample.day 1000 5) Sample.db0).
  - vm_compute. reflexivity.
  - vm_compute. reflexivity.
  - vm_compute. discriminate.
  - vm_compute. reflexivity.
  - vm_compute. reflexivity.
  - apply (bool_decide_unpack _). vm_compute. reflexivity.
  - unfold demo_answer. apply surjective_pairing.
  - reflexivity.
Defined.

Definition demo_refusal : option (Response Complete.Result) :=
  Some (respond_err 400 "Quest already completed today").

Lemma panel_animations_settle_witness :
  let p := (run demo_page [ConfirmYes]).1 in
  anim_ok p /\ (length [demo_refusal] = length (inflight p) -> animatingQuests (settle [demo_refusal] p) = []).
Proof. apply panel_animations_settle. apply reach_run, reach_run, reach_initial. Defined.

(** The card of "Journal" once "Meditate" is done and sliding out. *)
Definition journal_card : QuestCard.Props :=
  QuestStatContainer.card_props ∅ ["Meditate"] ["Meditate"] journal.

Lemma stale_timer_closes_modal_witness :
  let p := (run demo_page [ConfirmYes; CompleteAnswer 0 (Some demo_answer)]).1 in
  let '(p1, f1) := step p (CardEvent sense "Journal" QuestCard.Click) in
  let '(p2, f2) := step p1 (TimerFires 0) in
  selectedQuest p1 = Some (QuestCard.name journal_card) /\ selectedQuest p2 = None /\
  f1 ++ f2 = [] /\ completedQuests p2 = completedQuests p.
Proof.
  apply (stale_timer_closes_modal _ 0 "Meditate" sense "Journal" journal_card);
    vm_compute; reflexivity.
Defined.

End QuestPanel.
