(* ===== verification/Race.v ===== *)
(** * Race: the quest panel against the completion route

    Composes the page of [QuestPanel] with the route split at its
    awaits in [Concurrency].  "Yes, Complete" leaves the modal open and
    enabled while its request is in flight ([handleCompletedQuest]
    neither closes it nor disables its buttons), so the user can go
    back, choose another quest and confirm it before the first answer
    arrives.  The two requests the page sends are then served with
    both reads before both writes, and the answers come back in order. *)

From S2P Require Import Prelude Catalog Store Complete Concurrency Assign Client QuestPanel.
Import Catalog Client.

Module Race.
Import Complete QuestPanel Concurrency.

(** The request the route receives for an effect of the page, sent by
    the session user [uid] at [t]. *)
Definition request_of (uid : string) (t : JsDate.t) (e : Effect) : option Request :=
  match e with
  | SendComplete b => Some (mkReq (Some uid) (Some b) t)
  | Navigate _ => None
  end.

(** ** Properties *)

(** C32 (finding): with a completion in flight, "Go Back", a click on
    another quest's card and "Yes, Complete" put a second completion
    in flight.  When the route reads the document for both before
    writing either, both are answered with success, yet the document
    keeps only the second: its experience is the stored experience plus
    the second reward and the first quest is missing from the day's
    completions.  The page then takes its list of completed quests from
    the second answer, so the first quest, confirmed as completed,
    returns to the to-do list. *)
Theorem panel_overlap_loses_completion `{QuestCatalog} (p : Page) (s : Stat) (n1 n2 : string)
    (c : QuestCard.Props) (q1 q2 : QuestTemplate) (uid : string) (t1 t2 : JsDate.t) (db : Db) (u : User.t) :
  loading p = false -> selectedQuest p = Some n1 -> n1 <> "" ->
  find_card (run p [ConfirmYes; CloseModal]).1 s n2 = Some c -> QuestCard.name c = n2 -> n2 <> "" ->
  db !! uid = Some u -> findByName n1 = Some q1 -> findByName n2 = Some q2 -> n1 <> n2 ->
  n1 ∉ js_or_list (User.questsCompletedToday u) -> n2 ∉ js_or_list (User.questsCompletedToday u) ->
  let '(p', effs) := run p [ConfirmYes; CloseModal; CardEvent s n2 QuestCard.Click; ConfirmYes] in
  inflight p' = inflight p ++ [n1; n2] /\
  match omap (request_of uid t1) (take 1 effs), omap (request_of uid t2) (drop 1 effs) with
  | [rq1], [rq2] =>
      let '(r1, r2, db') := overlap rq1 rq2 db in
      is_error r1 = false /\ is_error r2 = false /\
      (exists d, db' !! uid = Some d /\ xp_of d = xp_of u + xpReward q2 /\
                 n1 ∉ js_or_list (User.questsCompletedToday d)) /\
      n1 ∉ completedQuests (run p' [CompleteAnswer (length (inflight p)) (Some r1);
                                    CompleteAnswer (length (inflight p)) (Some r2)]).1
  | _, _ => False
  end.
Proof.
  intros Hl Hs Hn1 Hf Hc Hn2 Hu Hq1 Hq2 Hne Hm1 Hm2.
  pose proof (panel_two_in_flight p s n1 n2 c Hl Hs Hn1 Hf Hc Hn2) as Hp.
  destruct (run p [ConfirmYes; CloseModal; CardEvent s n2 QuestCard.Click; ConfirmYes]) as [p' effs]. destruct Hp as [-> Hi]. split; [exact Hi|]. simpl.
  fold (individual uid n1 t1) (individual uid n2 t2).
  destruct (overlap_individual uid n1 n2 q1 q2 t1 t2 db u Hu Hq1 Hq2 Hne Hm1 Hm2)
    as (res1 & res2 & d & -> & _ & Hr2 & Hx & Hd).
  split; [done|]. split; [done|]. split.
  - exists d. rewrite lookup_insert_eq, Hd. split; [done|]. split; [done|].
    simpl. rewrite elem_of_app, list_elem_of_singleton. intros [?|?]; [done | congruence].
  - pose proof (panel_two_answers p' n1 n2 res1 res2 (inflight p) Hi) as Ha. simpl in Ha.
    rewrite Ha, Hr2. simpl.
    rewrite elem_of_app, list_elem_of_singleton. intros [?|?]; [done | congruence].
Qed.

(** ** Witnesses *)

#[local] Existing Instance SampleCatalog.

Definition listen : QuestTemplate := sq "e2" "Listen" 10 1 sense.

(** The panel once the assignment has arrived and the user has clicked
    "Meditate". *)
Definition race_page : Page :=
  (run initial [AssignAnswer (Some (respond_ok (Assign.mkResult Assign.MSG_NEW [meditate; listen])));
                CardEvent sense "Meditate" QuestCard.Click]).1.

Lemma panel_overlap_loses_completion_witness :
  let '(p', effs) := run race_page [ConfirmYes; CloseModal; CardEvent sense "Listen" QuestCard.Click; ConfirmYes] in
  inflight p' = inflight race_page ++ ["Meditate"; "Listen"] /\
  match omap (request_of "u1" (Sample.day 10 0)) (take 1 effs),
        omap (request_of "u1" (Sample.day 10 1)) (drop 1 effs) with
  | [rq1], [rq2] =>
      let '(r1, r2, db') := overlap rq1 rq2 Sample.db0 in
      is_error r1 = false /\ is_error r2 = false /\
      (exists d, db' !! "u1" = Some d /\ xp_of d = xp_of Sample.u_default + xpReward listen /\
                 "Meditate" ∉ js_or_list (User.questsCompletedToday d)) /\
      "Meditate" ∉ completedQuests (run p' [CompleteAnswer (length (inflight race_page)) (Some r1);
                                            CompleteAnswer (length (inflight race_page)) (Some r2)]).1
  | _, _ => False
  end.
Proof.
  eapply (panel_overlap_loses_completion race_page sense "Meditate" "Listen" _ meditate listen);
    [vm_compute; reflexivity | vm_compute; reflexivity | discriminate | reflexivity | reflexivity
    | discriminate | reflexivity | reflexivity | reflexivity | discriminate
    | vm_compute; set_solver | vm_compute; set_solver].
Defined.

End Race.
