(* ===== verification/Dashboard.v ===== *)
(** * Dashboard: the daily-set page as a state machine

    Models [src/solo-leveling/src/app/dashboard/page.tsx].  The page's
    React state is [State]; its events are the answer of the
    initialization request ([initializeUser], whose decision is
    [Client.dashboard_after_init]), a click on one of the four
    checkboxes ([handleQuestComplete], [Client.handleQuestComplete]),
    the answer of a daily-set request it sent, and the close button of
    the success screen.  The requests not yet answered are explicit
    ([inflight]).  [render] is what the page shows: the session check,
    the stats loading screen, or the daily set with its checkboxes and
    the success screen with the streak the route returned. *)

From S2P Require Import Prelude Level Catalog Store Complete Initialize Client.
Import Catalog Client.

Module Dashboard.

(** [useSession()]: loading, a session with a user id, or none. *)
Inductive Session := SessionLoading | SignedIn | SignedOut.

Record State := mkState {
  userStats : option User.t;
  loading : bool;
  completedQuests : list string;
  showSuccessScreen : bool;
  newStreakDay : nat;
  inflight : list Complete.Body
}.

Definition initial : State := mkState None true [] false 0 [].

(** What the page asks of the outside world. *)
Inductive Effect := Navigate (r : Route) | SendComplete (b : Complete.Body).

Inductive Event :=
| InitAnswer (r : option (Response Initialize.Result))
| CheckBox (questName : string)
| CompleteAnswer (i : nat) (r : option (Response Complete.Result))
| CloseSuccess.

(** [initializeUser]: a non-2xx answer is thrown and caught, as is a
    thrown [fetch]; [finally] clears [loading]. *)
Definition onInitAnswer (r : option (Response Initialize.Result)) (s : State) : State * list Effect :=
  let '(route, stats) :=
    match r with
    | Some resp => if (200 <=? status resp) && (status resp <? 300) then dashboard_after_init resp
                   else (Stay, None)
    | None => (Stay, None)
    end in
  (mkState (match stats with Some u => Some u | None => userStats s end) false (completedQuests s)
     (showSuccessScreen s) (newStreakDay s) (inflight s),
   match route with Stay => [] | _ => [Navigate route] end).

(** A checkbox is on screen only once [userStats] is set, one per
    daily quest. *)
Definition checkbox_shown `{QuestCatalog} (s : State) (questName : string) : bool :=
  bool_decide (is_Some (userStats s)) && js_includes (map name DAILY_STRENGTH_QUESTS) questName.

(** [onChange={() => handleQuestComplete(quest.name)}]. *)
Definition onCheck (questName : string) (s : State) : State * list Effect :=
  let '(newCompleted, req) := handleQuestComplete (completedQuests s) questName in
  (mkState (userStats s) (loading s) newCompleted (showSuccessScreen s) (newStreakDay s)
     (inflight s ++ option_list req),
   match req with Some b => [SendComplete b] | None => [] end).

(** The answer to the [i]-th pending daily-set request: on success the
    streak of the answer and the success screen. *)
Definition onCompleteAnswer (i : nat) (r : option (Response Complete.Result)) (s : State) : State :=
  match inflight s !! i with
  | None => s
  | Some _ =>
      let inf := delete i (inflight s) in
      match r with
      | Some resp =>
          match json resp with
          | JSuccess res => mkState (userStats s) (loading s) (completedQuests s) true
                              (Complete.res_streakDays res) inf
          | JError _ => mkState (userStats s) (loading s) (completedQuests s) (showSuccessScreen s)
                          (newStreakDay s) inf
          end
      | None => mkState (userStats s) (loading s) (completedQuests s) (showSuccessScreen s)
                  (newStreakDay s) inf
      end
  end.

Definition step `{QuestCatalog} (s : State) (e : Event) : State * list Effect :=
  match e with
  | InitAnswer r => onInitAnswer r s
  | CheckBox n => if checkbox_shown s n then onCheck n s else (s, [])
  | CompleteAnswer i r => (onCompleteAnswer i r s, [])
  | CloseSuccess => (s, if showSuccessScreen s then [Navigate ToQuest] else [])
  end.

Inductive reach `{QuestCatalog} : State -> Prop :=
| reach_initial : reach initial
| reach_step (s : State) (e : Event) : reach s -> reach (step s e).1.

(** One row of the daily set: the name, [[done/target unit]], checked. *)
Record Row := mkRow {
  r_name : string;
  r_done : nat;
  r_target : nat;
  r_unit : option string;
  r_checked : bool
}.

Inductive Screen :=
| CheckingLogin
| Redirected
| LoadingStats
| Panel (rows : list Row) (success : option nat).

Definition row (completed : list string) (q : QuestTemplate) : Row :=
  mkRow (name q) (if js_includes completed (name q) then target q else 0) (target q) (unit q)
    (js_includes completed (name q)).

Definition render `{QuestCatalog} (se : Session) (s : State) : Screen :=
  match se with
  | SessionLoading => CheckingLogin
  | SignedOut => Redirected
  | SignedIn =>
      match userStats s with
      | None => LoadingStats
      | Some _ => Panel (map (row (completedQuests s)) DAILY_STRENGTH_QUESTS)
                    (if showSuccessScreen s then Some (newStreakDay s) else None)
      end
  end.

(** ** Lemmas *)

(** A daily-set request the page may send: four names, the daily set. *)
Definition daily_request `{QuestCatalog} (b : Complete.Body) : Prop :=
  Complete.questType b = Complete.QDaily /\ exists l, Complete.completedQuests b = Some l /\ Complete.valid_daily l.

Section WithLaws.
Context `{CatalogLaws}.

(** The checked names are distinct daily names, and every pending
    request is a valid daily set. *)
Lemma reach_checked_ok (s : State) :
  reach s -> checked_ok (completedQuests s) /\ Forall daily_request (inflight s).
Proof.
  induction 1 as [|s e _ [Hok Hf]]; [split; [split; [constructor | set_solver] | constructor]|].
  destruct e as [r|n|i r|]; simpl.
  - unfold onInitAnswer. by repeat case_match.
  - destruct (checkbox_shown s n) eqn:Hc; [|done]. apply andb_true_iff in Hc as [_ Hn].
    apply js_includes_spec in Hn. unfold onCheck.
    pose proof (handleQuestComplete_ok _ n Hok Hn) as Hok'.
    pose proof (handleQuestComplete_req (completedQuests s) n) as Hreq.
    destruct (handleQuestComplete (completedQuests s) n) as [l' req]. simpl in *.
    split; [done|]. apply Forall_app. split; [done|].
    destruct req as [b|]; [|constructor]. constructor; [|constructor].
    destruct (Hreq b Hok Hn eq_refl) as (l & ? & ? & ?). split; [done|]. by exists l.
  - unfold onCompleteAnswer. destruct (inflight s !! i) eqn:Hi; [|done].
    assert (Forall daily_request (delete i (inflight s))).
    { rewrite delete_take_drop. apply Forall_app. split; [by apply Forall_take | by apply Forall_drop]. }
    by repeat case_match.
  - done.
Qed.

End WithLaws.

(** The events of a run, in order. *)
Fixpoint run `{QuestCatalog} (s : State) (es : list Event) : State :=
  match es with [] => s | e :: es' => run (step s e).1 es' end.

Lemma dash_reach_run `{QuestCatalog} (s : State) (es : list Event) : reach s -> reach (run s es).
Proof. revert s. induction es as [|e es IH]; intros s Hs; [done|]. apply IH. by constructor. Qed.

(** Before the initialization answer brings a document, no event puts
    one in [userStats]: no checkbox is shown, and an error answer, a
    missing document or a thrown [fetch] leave the page on "Loading
    your stats..." with [loading] already [false], a flag the page
    never reads. *)
Lemma dashboard_stats_only_from_init `{QuestCatalog} (s : State) (e : Event) :
  userStats s = None ->
  (forall r u, e = InitAnswer (Some r) -> dashboard_after_init r <> (Stay, Some u)) ->
  userStats (step s e).1 = None /\ render SignedIn (step s e).1 = LoadingStats.
Proof.
  intros Hs He. assert (Hu : userStats (step s e).1 = None).
  { destruct e as [r|n|i r|]; simpl.
    - unfold onInitAnswer. destruct r as [resp|]; [|by rewrite Hs].
      destruct (_ && _); [|by rewrite Hs].
      destruct (dashboard_after_init resp) as [route [u|]] eqn:E; [|by rewrite Hs].
      exfalso. apply (He resp u eq_refl). rewrite E. f_equal.
      revert E. unfold dashboard_after_init. repeat case_match; congruence.
    - unfold checkbox_shown. by rewrite Hs.
    - unfold onCompleteAnswer. by repeat case_match.
    - done. }
  split; [done|]. unfold render. by rewrite Hu.
Qed.

(** ** Properties *)

(** C35: every request the dashboard sends, in any reachable state of
    the page (clicks, answers of earlier requests and the
    initialization answer in any order), is a daily set that passes
    the completion route's validation: four names, all the daily
    quests. *)
Theorem dashboard_sends_valid_daily `{CatalogLaws} (s : State) (e : Event) (b : Complete.Body) :
  reach s -> SendComplete b ∈ (step s e).2 -> daily_request b.
Proof.
  intros Hr Hb. destruct (reach_checked_ok s Hr) as [Hok _].
  destruct e as [r|n|i r|]; simpl in Hb.
  - unfold onInitAnswer in Hb. repeat case_match; simplify_eq/=; set_solver.
  - destruct (checkbox_shown s n) eqn:Hc; [|set_solver]. apply andb_true_iff in Hc as [_ Hn].
    apply js_includes_spec in Hn. unfold onCheck in Hb.
    pose proof (handleQuestComplete_req (completedQuests s) n b Hok Hn) as Hreq.
    destruct (handleQuestComplete (completedQuests s) n) as [l' [b'|]]; [|set_solver].
    apply list_elem_of_singleton in Hb. injection Hb as ->.
    destruct (Hreq eq_refl) as (l & ? & ? & ?). split; [done|]. by exists l.
  - set_solver.
  - case_match; set_solver.
Qed.

(** ** Witnesses *)

Definition dash_user : User.t := Initialize.reset_today u_ada.

(** The dashboard once the document has arrived and three boxes are
    checked. *)
Definition dash_three : State :=
  run initial [InitAnswer (Some (respond_ok (Initialize.mkResult (Some dash_user) false)));
               CheckBox "Push-ups"; CheckBox "Sit-ups"; CheckBox "Squats"].

#[local] Existing Instance SampleCatalog_laws.

Lemma dashboard_sends_valid_daily_witness :
  daily_request (Complete.mkBody (Some ["Push-ups"; "Sit-ups"; "Squats"; "Running"]) Complete.QDaily).
Proof.
  apply (dashboard_sends_valid_daily dash_three (CheckBox "Running")).
  - apply dash_reach_run, reach_initial.
  - vm_compute. left.
Defined.

End Dashboard.
