(* ===== verification/Setup.v ===== *)
(** * Setup: the username setup page as a state machine

    Models [src/health-leveling/src/app/username-setup/page.tsx]: the
    state [username], [loading], [error], [isValid]; the events the
    user and the network produce (typing in the input, submitting the
    form, the answer of the username route); and [render].  The
    browser's part is explicit: the input's [maxLength={10}] yields no
    value longer than 10 characters, a disabled input takes no typing,
    and a form whose submit button is disabled is not submitted.  The
    request not yet answered is [pending].  The checks are those of
    [Username] ([validateUsername], [trim]). *)

From S2P Require Import Prelude Regex Store Username.
Import Username.

Module UsernameSetup.

Record State := mkState {
  username : string;
  loading : bool;
  error : string;
  isValid : bool;
  pending : option string
}.

Definition initial : State := mkState "" false "" false None.

(** [maxLength={10}] on the input. *)
Definition maxLength : nat := 10.

Inductive Event :=
| Change (value : string)
| Submit
| Answer (r : option (Response string)).

Inductive Effect := SendUsername (name : string) | Navigate (path : string).

(** [handleUsernameChange]: [setUsername(value); validateUsername(value)]. *)
Definition handleUsernameChange (value : string) (s : State) : State :=
  let '(err, ok) := validateUsername value in mkState value (loading s) err ok (pending s).

(** [handleSubmit] up to the [await]: the guard
    [!isValid || !username.trim()], then the request. *)
Definition submit (s : State) : State * list Effect :=
  if negb (isValid s) || String.eqb (trim (username s)) "" then (s, [])
  else (mkState (username s) true "" (isValid s) (Some (trim (username s))),
        [SendUsername (trim (username s))]).

(** [handleSubmit] after the [await]: on success to the dashboard,
    otherwise [data.error || 'Failed to set username'], and the
    [catch] of a thrown [fetch]; [finally] clears [loading]. *)
Definition onAnswer (r : option (Response string)) (s : State) : State * list Effect :=
  match r with
  | Some resp =>
      match json resp with
      | JSuccess _ => (mkState (username s) false (error s) (isValid s) None, [Navigate "/dashboard"])
      | JError m =>
          (mkState (username s) false (if String.eqb m "" then "Failed to set username" else m)
             (isValid s) None, [])
      end
  | None => (mkState (username s) false "Something went wrong. Please try again" (isValid s) None, [])
  end.

(** The submit button's [disabled={!isValid || loading}]. *)
Definition button_disabled (s : State) : bool := negb (isValid s) || loading s.

Definition step (s : State) (e : Event) : State * list Effect :=
  match e with
  | Change v =>
      if loading s || (maxLength <? String.length v) then (s, []) else (handleUsernameChange v s, [])
  | Submit => if button_disabled s then (s, []) else submit s
  | Answer r => match pending s with Some _ => onAnswer r s | None => (s, []) end
  end.

Inductive reach : State -> Prop :=
| reach_initial : reach initial
| reach_step (s : State) (e : Event) : reach s -> reach (step s e).1.

(** The input's border: red on an error, green when valid, grey otherwise. *)
Inductive Border := Red | Green | Grey.

Inductive Screen :=
| SLoading
| SForm (value : string) (count : nat) (err : option string) (border : Border)
        (disabled : bool) (label : string).

(** Without a session the page shows "Loading..."; otherwise the form. *)
Definition render (session : bool) (s : State) : Screen :=
  if negb session then SLoading else
  SForm (username s) (String.length (username s))
    (if String.eqb (error s) "" then None else Some (error s))
    (if negb (String.eqb (error s) "") then Red else if isValid s then Green else Grey)
    (button_disabled s)
    (if loading s then "SETTING USERNAME..." else "CONTINUE").

(** ** The page and the username route together

    The user's session is [uid]; the store is the route's [Db].  The
    pending request is served by [Username.POST] at some later time, or
    [fetch] throws. *)

Record Sys := mkSys { page : State; db : Db }.

Inductive sys_step (uid : string) : Sys -> Sys -> Prop :=
| sys_user (p : State) (d : Db) (e : Event) :
    (e = Submit \/ exists v, e = Change v) -> sys_step uid (mkSys p d) (mkSys (step p e).1 d)
| sys_serve (p : State) (d d' : Db) (n : string) (r : Response string) :
    pending p = Some n -> POST (Some uid) (Some (Some n)) d = (r, d') ->
    sys_step uid (mkSys p d) (mkSys (step p (Answer (Some r))).1 d')
| sys_fail (p : State) (d : Db) :
    sys_step uid (mkSys p d) (mkSys (step p (Answer None)).1 d).

Inductive sys_reach (uid : string) (d0 : Db) : Sys -> Prop :=
| sys_reach_initial : sys_reach uid d0 (mkSys initial d0)
| sys_reach_step (S S' : Sys) : sys_reach uid d0 S -> sys_step uid S S' -> sys_reach uid d0 S'.

(** ** Lemmas *)

#[local] Arguments handleUsernameChange : simpl never.
#[local] Arguments onAnswer : simpl never.

(** The page's invariant: [isValid] is the check of the current value,
    the value has at most 10 characters, a request is pending exactly
    while [loading], and it carries the trimmed current value. *)
Definition inv (s : State) : Prop :=
  isValid s = (validateUsername (username s)).2 /\ String.length (username s) <= maxLength /\
  (loading s = true <-> is_Some (pending s)) /\
  (forall n, pending s = Some n -> n = trim (username s) /\ isValid s = true).

Lemma inv_initial : inv initial.
Proof. split; [done|]. split; [simpl; lia|]. split; [split; [done | by intros []]|]. done. Qed.

Lemma handleUsernameChange_fields (v : string) (s : State) :
  username (handleUsernameChange v s) = v /\ isValid (handleUsernameChange v s) = (validateUsername v).2 /\
  error (handleUsernameChange v s) = (validateUsername v).1 /\
  loading (handleUsernameChange v s) = loading s /\ pending (handleUsernameChange v s) = pending s.
Proof. unfold handleUsernameChange. by destruct (validateUsername v). Qed.

Lemma onAnswer_clears (r : option (Response string)) (s : State) :
  username (onAnswer r s).1 = username s /\ isValid (onAnswer r s).1 = isValid s /\
  loading (onAnswer r s).1 = false /\ pending (onAnswer r s).1 = None.
Proof. unfold onAnswer. by repeat case_match. Qed.

Lemma step_inv (s : State) (e : Event) : inv s -> inv (step s e).1.
Proof.
  intros Hi. pose proof Hi as (Hv & Hl & Hp & Hn). destruct e as [v| |r]; simpl.
  - destruct (loading s || _) eqn:E; [done|]. apply orb_false_iff in E as [El E]. unfold inv; simpl.
    apply Nat.ltb_ge in E. destruct (handleUsernameChange_fields v s) as (-> & -> & _ & -> & ->).
    do 3 (split; [done|]). intros n Hs.
    assert (loading s = true) by (apply Hp; by eexists). congruence.
  - unfold button_disabled, submit. destruct (negb (isValid s) || loading s) eqn:E; [done|].
    apply orb_false_iff in E as [Ev El]. destruct (_ || _); [done|]. unfold inv; simpl.
    split; [done|]. split; [done|]. split; [split; [by eexists | done]|]. intros ? [= <-]. split; [done|]. by apply negb_false_iff in Ev.
  - destruct (pending s); [|done]. unfold inv. destruct (onAnswer_clears r s) as (-> & -> & -> & ->).
    split; [done|]. split; [done|]. split; [split; [done | by intros []]|]. done.
Qed.

Lemma reach_inv (s : State) : reach s -> inv s.
Proof. induction 1; [apply inv_initial | by apply step_inv]. Qed.

(** What [Submit] sends in a state of the invariant: the value of
    [handleSubmit] on the current value, and only when no request is
    pending. *)
Lemma step_sends (s : State) (e : Event) (n : string) :
  inv s -> SendUsername n ∈ (step s e).2 -> handleSubmit (username s) = Some n /\ pending s = None.
Proof.
  intros (Hv & _ & Hp & _) Hin. destruct e as [v| |r]; simpl in Hin.
  - destruct (_ || _); set_solver.
  - unfold button_disabled, submit in Hin. destruct (negb (isValid s) || loading s) eqn:E; [set_solver|].
    apply orb_false_iff in E as [Ev El].
    destruct (negb (isValid s) || String.eqb (trim (username s)) "") eqn:E2; [set_solver|].
    apply list_elem_of_singleton in Hin. injection Hin as ->.
    split; [unfold handleSubmit; by rewrite <- Hv, E2 | destruct (pending s) eqn:Hs; [|done]].
    assert (loading s = true) by (apply Hp; by eexists). congruence.
  - destruct (pending s); [|set_solver]. unfold onAnswer in Hin. repeat case_match; set_solver.
Qed.

(** The messages of the route's errors. *)
Definition route_messages : list string :=
  ["Not authenticated"; "Internal server error"; MSG_REQUIRED; MSG_LENGTH; MSG_FORMAT; MSG_TAKEN;
   "Failed to update username"].

Lemma POST_error_message (uid : option string) (b : option (option string)) (d d' : Db)
    (r : Response string) (m : string) :
  POST uid b d = (r, d') -> json r = JError m -> m ∈ route_messages.
Proof.
  unfold POST, route_messages, validate. intros Hp Hj.
  repeat case_match; simplify_eq/=; set_solver.
Qed.

(** Every state of the page in the combined system is reachable by
    page events. *)
Lemma sys_page_reach (uid : string) (d0 : Db) (S : Sys) : sys_reach uid d0 S -> reach (page S).
Proof. induction 1 as [|S S' _ IH Hs]; [constructor|]. inversion Hs; subst; exact (reach_step _ _ IH). Qed.

(** The error the page shows is never the "10 characters or less"
    message: the input's [maxLength] keeps every value within 10
    characters, and the route words its length error differently. *)
Definition error_shown_ok (s : State) : Prop := error s <> "Username must be 10 characters or less".

Lemma sys_step_error (uid : string) (S S' : Sys) :
  inv (page S) -> error_shown_ok (page S) -> sys_step uid S S' -> error_shown_ok (page S').
Proof.
  intros (_ & _ & _ & _) He Hs. unfold error_shown_ok in *.
  inversion Hs as [p d e He'|p d d' n r Hp Hpost|p d]; subst; cbn [page] in *.
  - destruct He' as [->|[v ->]]; simpl.
    + unfold button_disabled, submit. by repeat case_match.
    + destruct (_ || _) eqn:E; [done|]. apply orb_false_iff in E as [_ E]. apply Nat.ltb_ge in E. simpl.
      destruct (handleUsernameChange_fields v p) as (_ & _ & -> & _). unfold validateUsername.
      destruct (_ =? 0); [done|]. unfold maxLength in E. destruct (10 <? _) eqn:E'; [apply Nat.ltb_lt in E'; lia|].
      by case_match.
  - cbn [step]. rewrite Hp. unfold onAnswer. destruct (json r) as [a|m] eqn:Hj; [done|].
    pose proof (POST_error_message _ _ _ _ _ _ Hpost Hj) as Hm.
    case_match; simpl; [discriminate|]. intros ->. revert Hm. unfold route_messages. vm_compute. set_solver.
  - cbn [step]. destruct (pending p); [simpl; discriminate | done].
Qed.

Lemma sys_reach_inv (uid : string) (d0 : Db) (S : Sys) :
  sys_reach uid d0 S -> inv (page S) /\ error_shown_ok (page S).
Proof.
  intros Hr. split; [by apply reach_inv, (sys_page_reach uid d0)|].
  induction Hr as [|S S' Hr IH Hs]; [done|].
  apply (sys_step_error uid S S'); [by apply reach_inv, (sys_page_reach uid d0) | done | done].
Qed.

(** The events of a run of the page, in order. *)
Fixpoint run (s : State) (es : list Event) : State :=
  match es with [] => s | e :: es' => run (step s e).1 es' end.

Lemma setup_reach_run (s : State) (es : list Event) : reach s -> reach (run s es).
Proof. revert s. induction es as [|e es IH]; intros s Hs; [done|]. apply IH. by constructor. Qed.

Lemma sys_reach_user (uid : string) (d0 : Db) (p : State) (d : Db) (e : Event) :
  sys_reach uid d0 (mkSys p d) -> (e = Submit \/ exists v, e = Change v) ->
  sys_reach uid d0 (mkSys (step p e).1 d).
Proof. intros Hr He. eapply sys_reach_step; [exact Hr | by constructor]. Qed.

(** The "10 characters or less" message of [validateUsername] is
    never shown. *)
Lemma length_error_unreachable (uid : string) (d0 : Db) (S : Sys) :
  sys_reach uid d0 S -> error (page S) <> "Username must be 10 characters or less".
Proof. intros Hr. apply (sys_reach_inv uid d0 S Hr). Qed.

(** ** Properties *)

(** C22: the page refines the route's check: in every reachable state
    of the setup page, a name the page sends passes every validation
    of the username route unchanged, and it is sent only when no
    earlier request is still pending. *)
Theorem setup_sends_valid (s : State) (e : Event) (n : string) :
  reach s -> SendUsername n ∈ (step s e).2 -> validate (Some n) = inr n /\ pending s = None.
Proof.
  intros Hr Hin. destruct (step_sends s e n (reach_inv s Hr) Hin) as [Hh Hp].
  split; [by apply (client_refines_server (username s)) | done].
Qed.

(** C23: when the page, its request served by the username route,
    navigates to the dashboard, the caller's document holds the value
    the user typed in the input as its username, with
    [hasSetUsername]. *)
Theorem setup_success_stored (uid : string) (d0 : Db) (S : Sys) (n : string) (r : Response string)
    (d' : Db) :
  sys_reach uid d0 S -> pending (page S) = Some n -> POST (Some uid) (Some (Some n)) (db S) = (r, d') ->
  Navigate "/dashboard" ∈ (step (page S) (Answer (Some r))).2 ->
  exists d, d' !! uid = Some d /\ User.username d = Some (username (page S)) /\
    User.hasSetUsername d = Some true.
Proof.
  intros Hr Hp Hpost Hnav. destruct (sys_reach_inv uid d0 S Hr) as [(Hv & _ & _ & Hn) _].
  destruct (Hn n Hp) as [-> Hi]. rewrite Hi in Hv. symmetry in Hv.
  pose proof (validateUsername_sent _ Hv) as Hs. pose proof (client_refines_server _ _ Hs) as Hval.
  assert (Ht : trim (username (page S)) = username (page S)).
  { unfold handleSubmit in Hs. destruct (_ || _); congruence. }
  rewrite Ht in Hpost.
  cbn [step] in Hnav. rewrite Hp in Hnav. unfold onAnswer in Hnav.
  destruct (json r) eqn:Hj; [|set_solver].
  apply POST_username_cases in Hpost as [[_ He] | (uid' & u & n' & [= <-] & [= <-] & Hv' & _ & -> & d & Hd & ->)].
  { unfold is_error in He. by rewrite Hj in He. }
  rewrite Hval in Hv'. injection Hv' as <-.
  exists (setUsername (username (page S)) d). by rewrite lookup_insert_eq.
Qed.

(** ** Witnesses *)

Lemma setup_sends_valid_witness :
  validate (Some "Ada_9") = inr "Ada_9" /\ pending (run initial [Change "Ada_9"]) = None.
Proof.
  apply (setup_sends_valid (run initial [Change "Ada_9"]) Submit "Ada_9").
  - apply setup_reach_run, reach_initial.
  - vm_compute. left.
Defined.

(** "Grace" typed and submitted by the user "u2" of [db_ada]. *)
Definition sys_grace : Sys := mkSys (run initial [Change "Grace"; Submit]) db_ada.

Lemma setup_success_stored_witness :
  exists d, (POST (Some "u2") (Some (Some "Grace")) db_ada).2 !! "u2" = Some d /\
    User.username d = Some "Grace" /\ User.hasSetUsername d = Some true.
Proof.
  apply (setup_success_stored "u2" db_ada sys_grace "Grace"
           (POST (Some "u2") (Some (Some "Grace")) db_ada).1).
  - apply (sys_reach_user _ _ _ _ Submit); [|by left].
    apply (sys_reach_user _ _ initial _ (Change "Grace")); [constructor | right; by eexists].
  - reflexivity.
  - by destruct (POST _ _ _).
  - vm_compute. left.
Defined.

End UsernameSetup.
