(* ===== verification/SignIn.v ===== *)
(** * SignIn: the sign-in and registration page as a state machine

    Models [src/solo-leveling/src/app/page.tsx] around the decisions of
    [Client] ([onSubmit], [after_register], [after_signin],
    [toggleMode]): the form state with [loading], the request in
    flight, the events (typing in the three inputs, submitting,
    the two kinds of answers, the toggle button, the session arriving)
    and [render].  The browser's part is explicit: a [required] input
    that is empty blocks the submission, and so does the disabled
    submit button.  The Google button is [AuthButton] of [Components]. *)

From S2P Require Import Prelude Store Register Auth Client Components.
Import Client.

Module SignInPage.

Record State := mkState {
  form : Form;
  loading : bool;
  pending : option Submit
}.

Definition initial : State := mkState (mkForm false "" "" "" "") false None.

Inductive Event :=
| TypeEmail (v : string)
| TypePassword (v : string)
| TypeConfirm (v : string)
| SubmitForm
| RegisterAnswer (r : option (Response Register.Result))
| SignInAnswer (u : option (option Auth.AuthUser))
| Toggle
| SessionArrives.

Inductive Effect := Send (q : Submit) | Navigate (path : string).

(** [setEmail], [setPassword], [setConfirmPassword]. *)
Definition setEmail (v : string) (f : Form) : Form :=
  mkForm (isRegister f) v (f_password f) (f_confirmPassword f) (f_error f).
Definition setPassword (v : string) (f : Form) : Form :=
  mkForm (isRegister f) (f_email f) v (f_confirmPassword f) (f_error f).
Definition setConfirmPassword (v : string) (f : Form) : Form :=
  mkForm (isRegister f) (f_email f) (f_password f) v (f_error f).

(** The [required] inputs on screen are filled: e-mail and password,
    and the confirmation in register mode. *)
Definition required_filled (f : Form) : bool :=
  negb (String.eqb (f_email f) "") && negb (String.eqb (f_password f) "") &&
  (negb (isRegister f) || negb (String.eqb (f_confirmPassword f) "")).

(** [onSubmit] up to the [await]: [setLoading(true)], and back to
    [false] on the early return of mismatched passwords. *)
Definition submit (s : State) : State * list Effect :=
  let '(f', q) := onSubmit (form s) in
  match q with
  | NoSend => (mkState f' false None, [])
  | _ => (mkState f' true (Some q), [Send q])
  end.

(** [onSubmit] after the [await]: the answer, the [catch], and
    [setLoading(false)]. *)
Definition onRegisterAnswer (r : option (Response Register.Result)) (s : State) : State :=
  let f := form s in
  mkState (match r with
           | Some resp => after_register f resp
           | None => mkForm (isRegister f) (f_email f) (f_password f) (f_confirmPassword f)
                       "Something went wrong"
           end) false None.

Definition onSignInAnswer (u : option (option Auth.AuthUser)) (s : State) : State :=
  let f := form s in
  mkState (match u with
           | Some res => after_signin f res
           | None => mkForm (isRegister f) (f_email f) (f_password f) (f_confirmPassword f)
                       "Something went wrong"
           end) false None.

Definition step (s : State) (e : Event) : State * list Effect :=
  match e with
  | TypeEmail v => (mkState (setEmail v (form s)) (loading s) (pending s), [])
  | TypePassword v => (mkState (setPassword v (form s)) (loading s) (pending s), [])
  | TypeConfirm v =>
      if isRegister (form s) then (mkState (setConfirmPassword v (form s)) (loading s) (pending s), [])
      else (s, [])
  | SubmitForm => if loading s || negb (required_filled (form s)) then (s, []) else submit s
  | RegisterAnswer r =>
      match pending s with Some (SendRegister _) => (onRegisterAnswer r s, []) | _ => (s, []) end
  | SignInAnswer u =>
      match pending s with Some (SendSignIn _) => (onSignInAnswer u s, []) | _ => (s, []) end
  | Toggle => (mkState (toggleMode (form s)) (loading s) (pending s), [])
  | SessionArrives => (s, [Navigate "/dashboard"])
  end.

Inductive reach : State -> Prop :=
| reach_initial : reach initial
| reach_step (s : State) (e : Event) : reach s -> reach (step s e).1.

Fixpoint run (s : State) (es : list Event) : State :=
  match es with [] => s | e :: es' => run (step s e).1 es' end.

(** [useSession()]'s status. *)
Inductive Status := Loading | Authenticated | Unauthenticated.

Inductive Screen :=
| SLoading
| SNothing
| SForm (confirmShown : bool) (err : option string) (disabled : bool) (label : string)
        (toggleLabel : string) (google : AuthButton.View).

Definition render (st : Status) (s : State) : Screen :=
  match st with
  | Loading => SLoading
  | Authenticated => SNothing
  | Unauthenticated =>
      let f := form s in
      SForm (isRegister f) (if String.eqb (f_error f) "" then None else Some (f_error f)) (loading s)
        (if loading s then "Please wait..." else if isRegister f then "Create Account" else "Sign In")
        (if isRegister f then "Already have an account? Sign in here"
         else "Don't have an account? Sign up here")
        (AuthButton.render (Some AuthButton.Google) (Some "Continue with Google") None
           AuthButton.SignedOut)
  end.

(** ** Lemmas *)

#[local] Arguments onSubmit : simpl never.

(** An effect list with no request in it. *)
Local Ltac no_send :=
  match goal with
  | H : Send _ ∈ _ |- _ =>
      simpl in H; first [by apply not_elem_of_nil in H | apply list_elem_of_singleton in H; discriminate]
  end.

(** A request is in flight exactly while [loading]. *)
Definition inv (s : State) : Prop := loading s = true <-> is_Some (pending s).

Lemma inv_idle (f : Form) : inv (mkState f false None).
Proof. split; [done | by intros []]. Qed.

Lemma submit_inv (s : State) : inv (submit s).1.
Proof.
  unfold submit. destruct (onSubmit (form s)) as [f' []]; simpl; [| |apply inv_idle];
    split; [by eexists | done | by eexists | done].
Qed.

Lemma signin_step_inv (s : State) (e : Event) : inv s -> inv (step s e).1.
Proof.
  intros Hi. destruct e; simpl; try done.
  - by destruct (isRegister (form s)).
  - destruct (loading s || _); [done | apply submit_inv].
  - destruct (pending s) as [[]|]; [apply inv_idle | done | done | done].
  - destruct (pending s) as [[]|]; [done | apply inv_idle | done | done].
Qed.

Lemma signin_reach_inv (s : State) : reach s -> inv s.
Proof. induction 1; [apply inv_idle | by apply signin_step_inv]. Qed.

Lemma signin_reach_run (s : State) (es : list Event) : reach s -> reach (run s es).
Proof. revert s. induction es as [|e es IH]; intros s Hs; [done|]. apply IH. by constructor. Qed.

(** What [onSubmit] sends: the typed e-mail and password, and in
    register mode only when the confirmation matches. *)
Definition well_formed (f : Form) (q : Submit) : Prop :=
  match q with
  | SendRegister b => b = Register.mkBody (Some (f_email f)) (Some (f_password f)) /\
                      f_password f = f_confirmPassword f
  | SendSignIn c => c = Auth.mkCred (Some (f_email f)) (Some (f_password f))
  | NoSend => False
  end.

Lemma onSubmit_sends (f : Form) : (onSubmit f).2 = NoSend \/ well_formed f (onSubmit f).2.
Proof.
  unfold onSubmit. destruct (isRegister f); [|by right].
  destruct (String.eqb_spec (f_password f) (f_confirmPassword f)); simpl; [by right | by left].
Qed.

Lemma signin_step_sends (s : State) (e : Event) (q : Submit) :
  inv s -> Send q ∈ (step s e).2 ->
  pending s = None /\ required_filled (form s) = true /\ well_formed (form s) q.
Proof.
  intros Hi Hin. destruct e as [v|v|v| |r|u| |]; simpl in Hin;
    [no_send | no_send | destruct (isRegister (form s)); no_send | | destruct (pending s) as [[]|]; no_send
    | destruct (pending s) as [[]|]; no_send | no_send | no_send].
  destruct (loading s || negb (required_filled (form s))) eqn:E; [set_solver|].
  apply orb_false_iff in E as [El Er]. apply negb_false_iff in Er.
  split; [destruct (pending s) eqn:Hp; [|done]; assert (loading s = true) by (apply Hi; by eexists); congruence|].
  split; [done|]. unfold submit in Hin. pose proof (onSubmit_sends (form s)) as Hs.
  destruct (onSubmit (form s)) as [f' q']; simpl in *.
  destruct q'; [| |set_solver]; apply list_elem_of_singleton in Hin; injection Hin as ->;
    (destruct Hs as [Hs|Hs]; [discriminate | exact Hs]).
Qed.

(** Every request the page sends leaves no other request in flight,
    carries the typed e-mail and password, both non-empty, and in
    register mode a password equal to its confirmation. *)
Lemma signin_sends_well_formed (s : State) (e : Event) (q : Submit) :
  reach s -> Send q ∈ (step s e).2 ->
  pending s = None /\ f_email (form s) <> "" /\ f_password (form s) <> "" /\ well_formed (form s) q.
Proof.
  intros Hr Hin. destruct (signin_step_sends s e q (signin_reach_inv s Hr) Hin) as (Hp & Hf & Hw).
  unfold required_filled in Hf. apply andb_true_iff in Hf as [Hf _]. apply andb_true_iff in Hf as [He Hpw].
  apply negb_true_iff, String.eqb_neq in He, Hpw. done.
Qed.

(** The registration route never answers "Missing email or password"
    to a request of the page, whatever the collection. *)
Lemma signin_register_never_missing `{Register.Bcrypt} (s : State) (e : Event) (b : Register.Body)
    (newId : string) (now : JsDate.t) (db : Db) :
  reach s -> Send (SendRegister b) ∈ (step s e).2 ->
  json (Register.POST (Some b) newId now db).1 <> JError Register.MSG_MISSING.
Proof.
  intros Hr Hin. destruct (signin_sends_well_formed s e _ Hr Hin) as (_ & He & Hp & -> & _).
  unfold Register.POST, Register.js_truthy. cbn [Register.email Register.password].
  destruct (f_email (form s)) as [|c1 s1]; [done|]. destruct (f_password (form s)) as [|c2 s2]; [done|].
  unfold Register.MSG_MISSING, Register.MSG_EMAIL, Register.MSG_PASSWORD, Register.MSG_EXISTS.
  repeat case_match; simpl; congruence.
Qed.

(** An answer acts on the form as it is when it arrives: the toggle
    button stays enabled while a request is in flight, so a
    registration accepted after the user switched to the login form
    and typed another e-mail clears what was typed, and a refused
    sign-in shows "Invalid email or password" on the registration
    form. *)
Lemma stale_answers_after_toggle :
  let typed := run initial [Toggle; TypeEmail "ann@x.io"; TypePassword "secret1";
                            TypeConfirm "secret1"; SubmitForm; Toggle; TypeEmail "bob@x.io"] in
  f_email (form typed) = "bob@x.io" /\ is_Some (pending typed) /\
  form (run typed [RegisterAnswer (Some (mkResponse 201 (JSuccess (Register.mkResult Register.MSG_CREATED "u1"))))])
    = mkForm false "" "" "" "" /\
  let signing := run initial [TypeEmail "ann@x.io"; TypePassword "wrong"; SubmitForm; Toggle] in
  isRegister (form (run signing [SignInAnswer (Some None)])) = true /\
  f_error (form (run signing [SignInAnswer (Some None)])) = "Invalid email or password".
Proof. vm_compute. repeat split; by eexists. Qed.

End SignInPage.
