(* ===== verification/System.v ===== *)
(** * System: the routes together on one collection

    The application is a set of route handlers that run, one request
    at a time, on the shared [users] collection.  This file puts them
    together as a transition system: a [Request] names a route with its
    inputs, [handle] runs it and keeps the collection it leaves, and
    [reachable] is the collections some sequence of requests produces
    from the empty one.  Besides the routes of the sources, a first
    Google sign-in makes the authentication adapter create a document
    with the e-mail only, unless one has it ([RGoogleSignIn], the
    library's behaviour).

    The invariant [Inv] (the stored level is the level of the stored
    experience; a document without a level has no experience and no
    stats; usernames and e-mails are unique) holds in every reachable
    collection, and along any sequence of requests from a reachable
    collection no document is lost and no document loses experience or
    stats. *)

From S2P Require Import Prelude Level Catalog Selector Store Complete Initialize Assign Username Register.
Import Catalog Selector.

Module System.

(** A request to one of the routes, with its inputs. *)
Inductive Request :=
| RComplete (session : option string) (body : option Complete.Body) (t : JsDate.t)
| RInitialize (session : option string) (t : JsDate.t)
| RAssign (session : option string) (t : JsDate.t) (rng : Rng)
| RUsername (session : option string) (body : option (option string))
| RRegister (body : option Register.Body) (newId : string) (t : JsDate.t)
| RGoogleSignIn (email : string) (newId : string).

(** The adapter's [createUser] on a first Google sign-in. *)
Definition googleSignIn (e newId : string) (db : Db) : Db :=
  match Mongo.findOne (Register.has_email e) db with
  | Some _ => db
  | None => default db (Mongo.insertOne newId (User.fresh e) db)
  end.

Section WithEnv.
Context `{QuestCatalog} `{Register.Bcrypt}.

(** The collection a request leaves. *)
Definition handle (req : Request) (db : Db) : Db :=
  match req with
  | RComplete s b t => (Complete.POST s b t db).2
  | RInitialize s t => (Initialize.POST s t db).2
  | RAssign s t rng => (Assign.POST s t rng db).1.2
  | RUsername s b => (Username.POST s b db).2
  | RRegister b newId t => (Register.POST b newId t db).2
  | RGoogleSignIn e newId => googleSignIn e newId db
  end.

(** The collections some sequence of requests produces. *)
Inductive reachable : Db -> Prop :=
| reach_empty : reachable ∅
| reach_step (req : Request) (db : Db) : reachable db -> reachable (handle req db).

(** [db'] follows [db] by a sequence of requests. *)
Inductive steps : Db -> Db -> Prop :=
| steps_refl (db : Db) : steps db db
| steps_cons (req : Request) (db db' : Db) : steps (handle req db) db' -> steps db db'.

End WithEnv.

(** The invariant of one document. *)
Definition doc_inv (d : User.t) : Prop :=
  Complete.level_consistent d /\
  (User.level d = None -> User.totalXP d = None /\ User.stats d = None).

(** The invariant of the collection. *)
Definition Inv (db : Db) : Prop :=
  map_Forall (fun _ d => doc_inv d) db /\ Username.usernames_unique db /\ Register.emails_unique db.

(** The stored [assignedQuests.quests] are identifiers of catalog
    quests (the [questIds] the assignment route writes), not the
    [QuestTemplate] objects [UserDocument] declares. *)
Definition stored_ids_ok `{QuestCatalog} (d : User.t) : Prop :=
  forall aq, User.assignedQuests d = Some aq ->
    Forall (fun sq => exists i q, sq = SQId i /\ getQuestTemplateById i = Some q) (aq_quests aq).

(** No document is lost and none loses experience or stats. *)
Definition progress_le (db db' : Db) : Prop :=
  forall k d, db !! k = Some d ->
    exists d', db' !! k = Some d' /\ Complete.xp_of d <= Complete.xp_of d' /\
      Stats.le (Complete.initial_stats d) (Complete.initial_stats d').

(** An update that keeps the e-mail and the username. *)
Definition keeps_keys (f : User.t -> User.t) : Prop :=
  forall d, User.email (f d) = User.email d /\ User.username (f d) = User.username d.

(** ** Lemmas on the collection *)

Lemma progress_le_refl (db : Db) : progress_le db db.
Proof. intros k d Hk. exists d. split; [done|]. split; auto with hl. Qed.

Lemma progress_le_trans (a b c : Db) : progress_le a b -> progress_le b c -> progress_le a c.
Proof.
  intros H1 H2 k d Hk. destruct (H1 k d Hk) as (d1 & Hk1 & Hx1 & Hs1).
  destruct (H2 k d1 Hk1) as (d2 & Hk2 & Hx2 & Hs2). exists d2.
  split; [done|]. split; [lia | by eapply Stats.le_trans].
Qed.

(** Writing at an existing key a document that gains. *)
Lemma progress_insert_existing (k : string) (d d' : User.t) (db : Db) :
  db !! k = Some d -> Complete.xp_of d <= Complete.xp_of d' ->
  Stats.le (Complete.initial_stats d) (Complete.initial_stats d') -> progress_le db (<[k := d']> db).
Proof.
  intros Hk Hx Hs k1 d1 Hk1. destruct (decide (k = k1)) as [<-|Hne].
  - rewrite Hk in Hk1. injection Hk1 as <-. exists d'. by rewrite lookup_insert_eq.
  - exists d1. rewrite lookup_insert_ne by done. split; [done|]. split; auto with hl.
Qed.

Lemma progress_insert_fresh (k : string) (d : User.t) (db : Db) :
  db !! k = None -> progress_le db (<[k := d]> db).
Proof.
  intros Hn k1 d1 Hk1. exists d1. rewrite lookup_insert_ne by congruence.
  split; [done|]. split; auto with hl.
Qed.

Lemma usernames_insert_same (k : string) (d d' : User.t) (db : Db) :
  Username.usernames_unique db -> db !! k = Some d -> User.username d' = User.username d ->
  Username.usernames_unique (<[k := d']> db).
Proof.
  intros Hu Hk Eu k1 k2 d1 d2 n1 n2 Hne H1 H2 N1 N2.
  apply lookup_insert_Some in H1 as [[<- <-]|[_ H1]], H2 as [[<- <-]|[_ H2]]; [done|..];
    eapply (Hu _ _ _ _ n1 n2 Hne); eauto; congruence.
Qed.

Lemma emails_insert_same (k : string) (d d' : User.t) (db : Db) :
  Register.emails_unique db -> db !! k = Some d -> User.email d' = User.email d ->
  Register.emails_unique (<[k := d']> db).
Proof.
  intros He Hk Ee k1 k2 d1 d2 e H1 H2 E1 E2.
  apply lookup_insert_Some in H1 as [[<- <-]|[_ H1]], H2 as [[<- <-]|[_ H2]]; [done|..];
    eapply (He _ _ _ _ e); eauto; congruence.
Qed.

Lemma Inv_insert_existing (k : string) (d d' : User.t) (db : Db) :
  Inv db -> db !! k = Some d -> doc_inv d' ->
  User.email d' = User.email d -> User.username d' = User.username d -> Inv (<[k := d']> db).
Proof.
  intros (Hd & Hu & He) Hk Hi Ee Eu. split; [by apply map_Forall_insert_2|].
  split; [by eapply usernames_insert_same | by eapply emails_insert_same].
Qed.

(** [updateOne] with a write that keeps the keys and the document
    invariant. *)
Lemma Inv_updateOne (k : string) (f : User.t -> User.t) (db : Db) :
  Inv db -> keeps_keys f -> (forall d, db !! k = Some d -> doc_inv d -> doc_inv (f d)) ->
  Inv (Mongo.updateOne k f db).2.
Proof.
  intros HI Hf Hd. destruct (db !! k) as [d|] eqn:Hk; [|by rewrite Mongo.updateOne_missing].
  rewrite (Mongo.updateOne_lookup _ _ _ _ Hk). destruct (Hf d) as [Ee Eu].
  apply (Inv_insert_existing _ d); [done | done | | done | done].
  apply Hd; [done|]. destruct HI as [HD _]. exact (HD k d Hk).
Qed.

Lemma progress_updateOne (k : string) (f : User.t -> User.t) (db : Db) :
  (forall d, db !! k = Some d -> Complete.xp_of d <= Complete.xp_of (f d) /\
     Stats.le (Complete.initial_stats d) (Complete.initial_stats (f d))) ->
  progress_le db (Mongo.updateOne k f db).2.
Proof.
  intros Hf. destruct (db !! k) as [d|] eqn:Hk; [|rewrite Mongo.updateOne_missing by done; apply progress_le_refl].
  rewrite (Mongo.updateOne_lookup _ _ _ _ Hk). destruct (Hf d eq_refl).
  by apply (progress_insert_existing _ d).
Qed.

(** Inserting a document under a fresh key, with an e-mail no document
    has and no username. *)
Lemma Inv_insert_fresh (e k : string) (d : User.t) (db : Db) :
  Inv db -> db !! k = None -> doc_inv d -> User.username d = None -> User.email d = Some e ->
  Mongo.findOne (Register.has_email e) db = None -> Inv (<[k := d]> db).
Proof.
  intros (Hd & Hu & He) Hk Hi Hn Ee Hf. split; [by apply map_Forall_insert_2|]. split.
  - intros k1 k2 d1 d2 n1 n2 Hne H1 H2 N1 N2.
    apply lookup_insert_Some in H1 as [[_ <-]|[_ H1]]; [congruence|].
    apply lookup_insert_Some in H2 as [[_ <-]|[_ H2]]; [congruence|]. eauto.
  - by apply (Register.insert_emails_unique e).
Qed.

(** ** Each route keeps the invariant and loses nothing *)

Lemma doc_inv_updateFields `{QuestCatalog} (u : User.t) (b : Complete.Body) (t : JsDate.t)
    (a : Complete.Acc) (d : User.t) :
  doc_inv (Complete.updateFields u b t a d).
Proof.
  split; [|done]. intros l Hl. rewrite Complete.xp_of_updateFields. simpl in Hl. by injection Hl as <-.
Qed.

Lemma complete_Inv `{QuestCatalog} (s : option string) (b : option Complete.Body) (t : JsDate.t)
    (db : Db) :
  Inv db -> Inv (Complete.POST s b t db).2.
Proof.
  intros HI. destruct (Complete.POST s b t db) as [r db'] eqn:E.
  apply Complete.POST_cases in E as [[-> _] | (uid & b' & u & a & _ & _ & Hu & _ & -> & _)]; [done|].
  by apply (Inv_insert_existing _ u); [| | apply doc_inv_updateFields | |].
Qed.

Lemma complete_progress `{QuestCatalog} (s : option string) (b : option Complete.Body)
    (t : JsDate.t) (db : Db) :
  progress_le db (Complete.POST s b t db).2.
Proof.
  destruct (Complete.POST s b t db) as [r db'] eqn:E.
  apply Complete.POST_cases in E as [[-> _] | (uid & b' & u & a & _ & _ & Hu & Hb & -> & _)];
    [apply progress_le_refl|].
  destruct (Complete.branch_mono _ _ _ _ Hb) as [Hx Hs].
  apply (progress_insert_existing _ u); [done | by rewrite Complete.xp_of_updateFields |].
  eapply Stats.le_trans; [exact Hs | by apply Complete.initial_stats_ge].
Qed.

(** The writes of the initialization route. *)
Lemma keeps_keys_default : keeps_keys UserHelpers.DEFAULT_USER_STATS.
Proof. done. Qed.

Lemma keeps_keys_reset : keeps_keys Initialize.reset_today.
Proof. done. Qed.

Lemma doc_inv_default (d : User.t) : doc_inv (UserHelpers.DEFAULT_USER_STATS d).
Proof. split; [intros l [= <-]; reflexivity | done]. Qed.

Lemma doc_inv_reset (d : User.t) : doc_inv d -> doc_inv (Initialize.reset_today d).
Proof. done. Qed.

(** The reset writes [reset_today] or nothing. *)
Lemma daily_reset_db (uid : string) (ud : option User.t) (t : JsDate.t) (db : Db) :
  (Initialize.daily_reset uid ud t db).2 = db \/
  (Initialize.daily_reset uid ud t db).2 = (Mongo.updateOne uid Initialize.reset_today db).2.
Proof. unfold Initialize.daily_reset. repeat case_match; auto. Qed.

(** The collection after the defaults, before the reset. *)
Definition init_db (uid : string) (db : Db) : Db :=
  if UserHelpers.checkIfUserHasGamingStats uid db then db
  else UserHelpers.initializeUserGamingStats uid db.

Lemma initialize_db (s : option string) (t : JsDate.t) (db : Db) :
  (Initialize.POST s t db).2 = db \/
  exists uid, (Initialize.POST s t db).2 = init_db uid db \/
    (Initialize.POST s t db).2 = (Mongo.updateOne uid Initialize.reset_today (init_db uid db)).2.
Proof.
  unfold Initialize.POST. destruct s as [uid|]; [|by left]. right. exists uid.
  fold (init_db uid db).
  destruct (Initialize.daily_reset _ _ _ _) as [ud' db2] eqn:E. simpl.
  destruct (daily_reset_db uid (UserHelpers.getUserWithGamingStats uid (init_db uid db)) t
              (init_db uid db)) as [H|H]; rewrite E in H; simpl in H; auto.
Qed.

Lemma init_db_Inv (uid : string) (db : Db) : Inv db -> Inv (init_db uid db).
Proof.
  intros HI. unfold init_db. destruct (UserHelpers.checkIfUserHasGamingStats uid db); [done|].
  apply Inv_updateOne; [done | apply keeps_keys_default | intros; apply doc_inv_default].
Qed.

Lemma init_db_progress (uid : string) (db : Db) : Inv db -> progress_le db (init_db uid db).
Proof.
  intros [HD _]. unfold init_db, UserHelpers.checkIfUserHasGamingStats.
  unfold UserHelpers.initializeUserGamingStats.
  destruct (db !! uid) as [u|] eqn:Hu; [|rewrite Mongo.updateOne_missing by done; apply progress_le_refl].
  case_bool_decide as Hl; [apply progress_le_refl|].
  apply progress_updateOne. intros d Hd. rewrite Hu in Hd. injection Hd as <-.
  destruct (HD uid u Hu) as [_ Hn].
  assert (Hl' : User.level u = None) by (destruct (User.level u); [exfalso; apply Hl; by eexists | done]).
  destruct (Hn Hl') as [Hx Hs].
  unfold Complete.xp_of, Complete.initial_stats. rewrite Hx, Hs. split; [simpl; lia | apply Stats.le_refl].
Qed.

Lemma initialize_Inv (s : option string) (t : JsDate.t) (db : Db) :
  Inv db -> Inv (Initialize.POST s t db).2.
Proof.
  intros HI. destruct (initialize_db s t db) as [-> | (uid & [-> | ->])]; [done | by apply init_db_Inv|].
  apply Inv_updateOne; [by apply init_db_Inv | apply keeps_keys_reset | intros; by apply doc_inv_reset].
Qed.

Lemma initialize_progress (s : option string) (t : JsDate.t) (db : Db) :
  Inv db -> progress_le db (Initialize.POST s t db).2.
Proof.
  intros HI. destruct (initialize_db s t db) as [-> | (uid & [-> | ->])];
    [apply progress_le_refl | by apply init_db_progress |].
  eapply progress_le_trans; [by apply (init_db_progress uid)|].
  apply progress_updateOne. intros d _. split; auto with hl.
Qed.

(** The assignment route writes an assignment or nothing. *)
Lemma assign_db `{QuestCatalog} (s : option string) (t : JsDate.t) (rng : Rng) (db : Db) :
  (Assign.POST s t rng db).1.2 = db \/
  exists uid aq, (Assign.POST s t rng db).1.2 = (Mongo.updateOne uid (Assign.setAssigned aq) db).2.
Proof.
  unfold Assign.POST. repeat case_match; simplify_eq/=; auto;
    right; do 2 eexists; match goal with H : Mongo.updateOne _ _ _ = _ |- _ => by rewrite H end.
Qed.

Lemma assign_Inv `{QuestCatalog} (s : option string) (t : JsDate.t) (rng : Rng) (db : Db) :
  Inv db -> Inv (Assign.POST s t rng db).1.2.
Proof.
  intros HI. destruct (assign_db s t rng db) as [-> | (uid & aq & ->)]; [done|].
  by apply Inv_updateOne.
Qed.

Lemma assign_progress `{QuestCatalog} (s : option string) (t : JsDate.t) (rng : Rng) (db : Db) :
  progress_le db (Assign.POST s t rng db).1.2.
Proof.
  destruct (assign_db s t rng db) as [-> | (uid & aq & ->)]; [apply progress_le_refl|].
  apply progress_updateOne. intros d _. split; auto with hl.
Qed.

Lemma username_Inv (s : option string) (b : option (option string)) (db : Db) :
  Inv db -> Inv (Username.POST s b db).2.
Proof.
  intros (HD & Hu & He). destruct (Username.POST s b db) as [r db'] eqn:E.
  apply Username.POST_username_cases in E as [[-> _] | (uid & u & n & _ & _ & _ & Hf & _ & d & Hd & ->)];
    [done|].
  split; [apply map_Forall_insert_2; [exact (HD uid d Hd) | done]|].
  split; [by apply Username.setUsername_unique | by eapply emails_insert_same].
Qed.

Lemma username_progress (s : option string) (b : option (option string)) (db : Db) :
  progress_le db (Username.POST s b db).2.
Proof.
  destruct (Username.POST s b db) as [r db'] eqn:E.
  apply Username.POST_username_cases in E as [[-> _] | (uid & u & n & _ & _ & _ & _ & _ & d & Hd & ->)];
    [apply progress_le_refl|].
  apply (progress_insert_existing _ d); [done | done | apply Stats.le_refl].
Qed.

Lemma doc_inv_newUser `{Register.Bcrypt} (e p : string) (now : JsDate.t) :
  doc_inv (Register.newUser e p now).
Proof. split; [intros l [= <-]; reflexivity | done]. Qed.

Lemma register_Inv `{Register.Bcrypt} (b : option Register.Body) (newId : string) (t : JsDate.t)
    (db : Db) :
  Inv db -> Inv (Register.POST b newId t db).2.
Proof.
  intros HI. destruct (Register.POST b newId t db) as [r db'] eqn:E.
  apply Register.register_POST_cases in E
    as [[-> _] | (b' & e & p & _ & _ & _ & _ & _ & Hf & Hn & -> & _)]; [done|].
  by apply (Inv_insert_fresh e); [| | apply doc_inv_newUser | | |].
Qed.

Lemma register_progress `{Register.Bcrypt} (b : option Register.Body) (newId : string)
    (t : JsDate.t) (db : Db) :
  progress_le db (Register.POST b newId t db).2.
Proof.
  destruct (Register.POST b newId t db) as [r db'] eqn:E.
  apply Register.register_POST_cases in E
    as [[-> _] | (b' & e & p & _ & _ & _ & _ & _ & _ & Hn & -> & _)];
    [apply progress_le_refl | by apply progress_insert_fresh].
Qed.

(** The adapter inserts a fresh document or nothing. *)
Lemma googleSignIn_db (e newId : string) (db : Db) :
  googleSignIn e newId db = db \/
  (Mongo.findOne (Register.has_email e) db = None /\ db !! newId = None /\
   googleSignIn e newId db = <[newId := User.fresh e]> db).
Proof.
  unfold googleSignIn, Mongo.insertOne. destruct (Mongo.findOne _ db); [by left|].
  destruct (db !! newId) eqn:Hn; [by left | by right].
Qed.

Lemma googleSignIn_Inv (e newId : string) (db : Db) : Inv db -> Inv (googleSignIn e newId db).
Proof.
  intros HI. destruct (googleSignIn_db e newId db) as [-> | (Hf & Hn & ->)]; [done|].
  by apply (Inv_insert_fresh e).
Qed.

Lemma googleSignIn_progress (e newId : string) (db : Db) : progress_le db (googleSignIn e newId db).
Proof.
  destruct (googleSignIn_db e newId db) as [-> | (_ & Hn & ->)];
    [apply progress_le_refl | by apply progress_insert_fresh].
Qed.

Section WithEnv2.
Context `{QuestCatalog} `{Register.Bcrypt}.

Lemma handle_Inv (req : Request) (db : Db) : Inv db -> Inv (handle req db).
Proof.
  destruct req; simpl; auto using complete_Inv, initialize_Inv, assign_Inv, username_Inv,
    register_Inv, googleSignIn_Inv.
Qed.

Lemma handle_progress (req : Request) (db : Db) : Inv db -> progress_le db (handle req db).
Proof.
  intros HI. destruct req; simpl; auto using complete_progress, initialize_progress, assign_progress,
    username_progress, register_progress, googleSignIn_progress.
Qed.

Lemma steps_Inv (db db' : Db) : steps db db' -> Inv db -> Inv db' /\ progress_le db db'.
Proof.
  induction 1 as [db|req db db' _ IH]; intros HI; [split; [done | apply progress_le_refl]|].
  destruct (IH (handle_Inv req db HI)) as [HI' Hp].
  split; [done|]. eapply progress_le_trans; [by apply handle_progress | exact Hp].
Qed.

Lemma reachable_inv (db : Db) : reachable db -> Inv db.
Proof.
  induction 1 as [|req db _ IH]; [|by apply handle_Inv].
  split; [apply map_Forall_empty|]. split; [intros ? ? ? ? ? ? ? Hk; done | intros ? ? ? ? ? Hk; done].
Qed.

(** ** Properties *)

(** C18: in every collection a sequence of requests to the routes (and
    first Google sign-ins) produces from the empty one, each stored
    level is the level of the stored experience, a document without a
    level has no experience and no stats, and usernames (up to case)
    and e-mails are unique; and from such a collection, along any
    further sequence of requests of any users in any order, no
    document is removed and none loses experience or any stat. *)
Theorem reachable_Inv (db : Db) :
  reachable db -> Inv db /\ forall db', steps db db' -> progress_le db db'.
Proof.
  intros Hr. pose proof (reachable_inv db Hr) as HI.
  split; [done|]. intros db' Hs. exact (proj2 (steps_Inv db db' Hs HI)).
Qed.

End WithEnv2.

(** ** The stored assignments are catalog identifiers *)

Section Ids.
Context `{CatalogLaws} `{Register.Bcrypt}.

Lemma ids_same (d d' : User.t) :
  User.assignedQuests d' = User.assignedQuests d -> stored_ids_ok d -> stored_ids_ok d'.
Proof. intros E Hd aq Ha. apply Hd. by rewrite <- E. Qed.

Lemma ids_none (d : User.t) : User.assignedQuests d = None -> stored_ids_ok d.
Proof. intros E aq Ha. congruence. Qed.

Lemma ids_updateOne (k : string) (f : User.t -> User.t) (db : Db) :
  map_Forall (fun _ => stored_ids_ok) db -> (forall d, stored_ids_ok d -> stored_ids_ok (f d)) ->
  map_Forall (fun _ => stored_ids_ok) (Mongo.updateOne k f db).2.
Proof.
  intros HD Hf. destruct (db !! k) as [d|] eqn:Hk; [|by rewrite Mongo.updateOne_missing].
  rewrite (Mongo.updateOne_lookup _ _ _ _ Hk). apply map_Forall_insert_2; [|done].
  apply Hf. exact (HD k d Hk).
Qed.

(** A draw stored by the assignment route resolves in the catalog. *)
Lemma ids_draw (d : User.t) (day : Z) (rng : Rng) :
  stored_ids_ok (Assign.setAssigned (mkAssigned day (map Assign.storedId (Assign.draw rng).1)) d).
Proof.
  intros aq [= <-]. simpl. apply Forall_map. eapply Forall_impl; [apply Assign.draw_in_catalog|].
  intros q Hq. destruct (Assign.storedId_head q Hq) as [i Hi]. exists i, q. split; [done|].
  pose proof (Assign.resolve_storedId q Hq) as Hr. by rewrite Hi in Hr.
Qed.

(** The assignment route writes a fresh draw or nothing. *)
Lemma assign_db_draw (s : option string) (t : JsDate.t) (rng : Rng) (db : Db) :
  (Assign.POST s t rng db).1.2 = db \/
  exists uid, (Assign.POST s t rng db).1.2 =
    (Mongo.updateOne uid (Assign.setAssigned (mkAssigned (JsDate.toDateString t)
                                                 (map Assign.storedId (Assign.draw rng).1))) db).2.
Proof.
  unfold Assign.POST. destruct s as [uid|]; [|by left]. destruct (db !! uid); [|by left].
  destruct (Assign.existing _ _); [by left|]. right. exists uid.
  destruct (Assign.draw rng) as [l r'] eqn:Ed. simpl.
  destruct (Mongo.updateOne _ _ _) as [mc db1] eqn:Eu. by case_match.
Qed.

Lemma handle_ids (req : Request) (db : Db) :
  map_Forall (fun _ => stored_ids_ok) db -> map_Forall (fun _ => stored_ids_ok) (handle req db).
Proof.
  intros HD. destruct req as [s b t|s t|s t rng|s b|b newId t|e newId]; simpl.
  - destruct (Complete.POST s b t db) as [r db'] eqn:E.
    apply Complete.POST_cases in E as [[-> _] | (uid & b' & u & a & _ & _ & Hu & _ & -> & _)]; [done|].
    apply map_Forall_insert_2; [|done]. apply (ids_same u); [done | exact (HD uid u Hu)].
  - destruct (initialize_db s t db) as [-> | (uid & [-> | ->])]; [done| |];
      [|apply ids_updateOne; [|intros d; apply ids_same; done]];
      unfold init_db; destruct (UserHelpers.checkIfUserHasGamingStats uid db); try done;
      apply ids_updateOne; [done | intros d _; by apply ids_none | done | intros d _; by apply ids_none].
  - destruct (assign_db_draw s t rng db) as [-> | (uid & ->)]; [done|].
    apply ids_updateOne; [done | intros d _; apply ids_draw].
  - destruct (Username.POST s b db) as [r db'] eqn:E.
    apply Username.POST_username_cases in E as [[-> _] | (uid & u & n & _ & _ & _ & _ & _ & d & Hd & ->)];
      [done|].
    apply map_Forall_insert_2; [|done]. apply (ids_same d); [done | exact (HD uid d Hd)].
  - destruct (Register.POST b newId t db) as [r db'] eqn:E.
    apply Register.register_POST_cases in E
      as [[-> _] | (b' & e & p & _ & _ & _ & _ & _ & _ & _ & -> & _)]; [done|].
    apply map_Forall_insert_2; [by apply ids_none | done].
  - destruct (googleSignIn_db e newId db) as [-> | (_ & _ & ->)]; [done|].
    apply map_Forall_insert_2; [by apply ids_none | done].
Qed.


(** C19: in every collection the routes can produce, every stored
    assignment is a list of identifiers of catalog quests: never a
    quest object (the type [UserDocument] declares) nor [null], and
    each one resolves with [getQuestTemplateById]. *)
Theorem stored_assignments_typed (db : Db) :
  reachable db -> map_Forall (fun _ => stored_ids_ok) db.
Proof. induction 1; [apply map_Forall_empty | by apply handle_ids]. Qed.


End Ids.

(** ** Witness: a Google sign-in, a registration, then the daily routes *)

#[local] Existing Instance Register.SampleBcrypt.

Definition sys_db0 : Db :=
  handle (RRegister (Some Register.bob) "u2" 0%Z) (handle (RGoogleSignIn "ada@example.com" "u1") ∅).

Definition sys_reqs_db : Db :=
  handle (RComplete (Some "u1") (Some Complete.daily_body) (Sample.day 1000 5))
    (handle (RInitialize (Some "u1") (Sample.day 1000 1)) sys_db0).

Lemma reachable_Inv_witness : Inv sys_db0 /\ progress_le sys_db0 sys_reqs_db.
Proof.
  destruct (reachable_Inv sys_db0) as [HI Hp]; [repeat constructor|].
  split; [exact HI|]. apply Hp.
  apply (steps_cons (RInitialize (Some "u1") (Sample.day 1000 1))).
  apply (steps_cons (RComplete (Some "u1") (Some Complete.daily_body) (Sample.day 1000 5))).
  apply steps_refl.
Defined.

#[local] Existing Instance SampleCatalog_laws.

(** The collection after the daily set, once quests are assigned. *)
Definition sys_assigned_db : Db :=
  handle (RAssign (Some "u1") (Sample.day 1000 6) sample_rng) sys_reqs_db.

Lemma stored_assignments_typed_witness : map_Forall (fun _ => stored_ids_ok) sys_assigned_db.
Proof. apply stored_assignments_typed. repeat constructor. Defined.



End System.
