(* ===== verification/Interleaving.v ===== *)
(** * Interleaving: the routes with completions in flight

    The server runs any number of requests at once.  [System] runs
    each route atomically; here the completion route is split at its
    awaits as in [Concurrency]: a [Read] runs [prepare] on the
    collection as it is and, when the request gets past its checks,
    leaves its write pending; a [Write] runs [commit] for any pending
    request, on the collection as it is then.  The other routes stay
    atomic ([Atomic]).  So any number of completions may be in flight
    and their writes land in any order, between requests of any route.

    [interleaved_Inv] shows the collection invariant of [System] and
    the typing of stored assignments survive every such schedule: the
    write is a [$set] of fields computed from the snapshot, which
    never touches the e-mail, the username or [assignedQuests].  What
    does not survive is the monotonicity of experience
    ([Concurrency.overlap_last_write_wins]).  [atomic_embeds] and
    [read_write_serial] show the atomic system is the schedules in
    which each read is followed at once by its write. *)

From S2P Require Import Prelude Catalog Store Complete Concurrency Register System.
Import Catalog.

Module Interleaving.
Import Complete Concurrency System.

(** The collection and the writes of the requests in flight, in the
    order of their reads. *)
Record State := mkState {
  sdb : Db;
  pending : list Prepared
}.

Definition init : State := mkState ∅ [].

Inductive Event :=
| Atomic (req : System.Request)
| Read (q : Concurrency.Request)
| Write (i : nat).

Section WithEnv.
Context `{QuestCatalog} `{Register.Bcrypt}.

Definition step (s : State) (e : Event) : State :=
  match e with
  | Atomic req => mkState (handle req (sdb s)) (pending s)
  | Read q =>
      match prepare q (sdb s) with
      | inl _ => s
      | inr p => mkState (sdb s) (pending s ++ [p])
      end
  | Write i =>
      match pending s !! i with
      | Some p => mkState (commit p (sdb s)).2 (delete i (pending s))
      | None => s
      end
  end.

Inductive creachable : State -> Prop :=
| creach_init : creachable init
| creach_step (s : State) (e : Event) : creachable s -> creachable (step s e).

(** ** Lemmas *)

(** The collection a write leaves is [updateOne] with the write's
    [$set], whatever the answer. *)
Lemma commit_updateOne (p : Prepared) (db : Db) :
  (commit p db).2 =
    (Mongo.updateOne (pr_user p) (updateFields (pr_snapshot p) (pr_body p) (pr_today p) (pr_acc p)) db).2.
Proof. unfold commit. destruct (Mongo.updateOne _ _ _) as [m db']. by destruct (m =? 0). Qed.

Lemma keeps_keys_updateFields (u : User.t) (b : Complete.Body) (t : JsDate.t) (a : Acc) :
  keeps_keys (updateFields u b t a).
Proof. done. Qed.

Lemma commit_Inv (p : Prepared) (db : Db) : Inv db -> Inv (commit p db).2.
Proof.
  intros HI. rewrite commit_updateOne.
  apply Inv_updateOne; [done | apply keeps_keys_updateFields | intros; apply doc_inv_updateFields].
Qed.

Lemma step_Inv (s : State) (e : Event) : Inv (sdb s) -> Inv (sdb (step s e)).
Proof.
  intros HI. destruct e as [req|q|i]; simpl; [by apply handle_Inv | by destruct (prepare q _) |].
  destruct (pending s !! i); [by apply commit_Inv | done].
Qed.

(** A read followed at once by its write is the route run alone. *)
Lemma read_write_serial (s : State) (q : Concurrency.Request) :
  sdb (step (step s (Read q)) (Write (length (pending s)))) =
    (Complete.POST (rq_session q) (rq_body q) (rq_today q) (sdb s)).2.
Proof.
  rewrite POST_prepare_commit. cbn [step]. destruct (prepare q (sdb s)) as [r|p]; simpl.
  - by rewrite lookup_ge_None_2 by lia.
  - by rewrite list_lookup_middle.
Qed.

(** Every collection of the atomic system is reached with nothing in
    flight. *)
Lemma atomic_embeds (db : Db) : reachable db -> creachable (mkState db []).
Proof.
  induction 1 as [|req db _ IH]; [apply creach_init|].
  exact (creach_step _ (Atomic req) IH).
Qed.

End WithEnv.

Section Ids.
Context `{CatalogLaws} `{Register.Bcrypt}.

Lemma commit_ids (p : Prepared) (db : Db) :
  map_Forall (fun _ => stored_ids_ok) db -> map_Forall (fun _ => stored_ids_ok) (commit p db).2.
Proof.
  intros HD. rewrite commit_updateOne. apply ids_updateOne; [done|]. intros d. by apply ids_same.
Qed.

Lemma step_ids (s : State) (e : Event) :
  map_Forall (fun _ => stored_ids_ok) (sdb s) -> map_Forall (fun _ => stored_ids_ok) (sdb (step s e)).
Proof.
  intros HD. destruct e as [req|q|i]; simpl; [by apply handle_ids | by destruct (prepare q _) |].
  destruct (pending s !! i); [by apply commit_ids | done].
Qed.

(** ** Properties *)

(** C21: with the completion route's read and write split and any
    number of completions in flight, whose writes land in any order
    between requests of any route, every collection reached from the
    empty one keeps the invariant of the atomic system (each stored
    level is the level of the stored experience, a document without a
    level has no experience and no stats, usernames and e-mails are
    unique) and every stored assignment is a list of catalog
    identifiers. *)
Theorem interleaved_Inv (s : State) :
  creachable s -> Inv (sdb s) /\ map_Forall (fun _ => stored_ids_ok) (sdb s).
Proof.
  induction 1 as [|s e _ [HI HD]].
  - split; [apply (reachable_inv ∅ reach_empty) | apply map_Forall_empty].
  - split; [by apply step_Inv | by apply step_ids].
Qed.

End Ids.

(** ** Witnesses *)

#[local] Existing Instance Register.SampleBcrypt.

(** Two completions read the collection a sign-in and an
    initialization left, then write in the reverse order. *)
Definition sample_schedule : list Event :=
  [Atomic (RGoogleSignIn "ada@example.com" "u1"); Atomic (RInitialize (Some "u1") (Sample.day 10 0));
   Read (individual "u1" "Read" (Sample.day 10 1)); Read (individual "u1" "Meditate" (Sample.day 10 2));
   Write 1; Write 0].

Lemma interleaved_Inv_witness :
  Inv (sdb (foldl step init sample_schedule)) /\
  map_Forall (fun _ => stored_ids_ok) (sdb (foldl step init sample_schedule)).
Proof.
  apply interleaved_Inv. unfold sample_schedule.
  repeat (apply creach_step); apply creach_init.
Defined.

End Interleaving.
